(** * NPHIES Mapper: HL7 v2.5.1 and IHE ITI-41 codecs

    A shallow embedding of [mapper_service_final.py] and the properties of
    its codecs.

    Conventions of the embedding.
    - A Python [str] is a Rocq [string]; each [ascii] is one character with
      code point below 256.  [str.encode("utf-8")] is written out in
      [utf8_encode].
    - A Python [bytes] is a [list byte].
    - [Optional[str]] is [option string]; truthiness ([if v], [v or d]) is
      written out with [truthy] and [or_else].
    - A value of type [Any] taken from a JSON object is a [pyval].
    - A raised exception is the [Raise] case of [result]. *)

From Stdlib Require Import String Ascii List ZArith NArith Bool Lia Arith.
From Stdlib Require Import Strings.Byte.
Import ListNotations.

Set Warnings "-register-all,-abstract-large-number".

Local Open Scope list_scope.
Local Open Scope string_scope.

(** ** Python values and exceptions *)

Inductive exn : Type :=
| HTTPException (status_code : Z) (detail : string)
| AttributeError
| TypeError
| IndexError
| KeyError
| ReError.   (* [re.error] *)

Inductive result (A : Type) : Type :=
| Ok (a : A)
| Raise (e : exn).

Arguments Ok {A} a.
Arguments Raise {A} e.

Definition rbind {A B : Type} (r : result A) (k : A -> result B) : result B :=
  match r with
  | Ok a => k a
  | Raise e => Raise e
  end.

Declare Scope res_scope.
Delimit Scope res_scope with res.
Notation "'try' x '<-' c ';' k" := (rbind c (fun x => k))
  (at level 61, x name, c at next level, right associativity) : res_scope.

(** A value of static type [Any]: [None], a [str], or some other object
    (a number, a bool, a list ...) of which its [str()] rendering and its
    truth value are kept. *)
Inductive pyval : Type :=
| PyNone
| PyStr (s : string)
| PyOther (rendering : string) (truth : bool).

(** [f"{v}"] *)
Definition format_pyval (v : pyval) : string :=
  match v with
  | PyNone => "None"
  | PyStr s => s
  | PyOther r _ => r
  end.

(** ** Strings as Python uses them *)

Module PyStr.

Definition LF : ascii := "010"%char.
Definition CR : ascii := "013"%char.
Definition TAB : ascii := "009"%char.
Definition DQUOTE : ascii := "034"%char.

Definition is_empty (s : string) : bool :=
    match s with
    | EmptyString => true
    | String _ _ => false
    end.

  (** [c in s] for a one-character [c] *)
Fixpoint mem (c : ascii) (s : string) : bool :=
    match s with
    | EmptyString => false
    | String a r => if Ascii.eqb a c then true else mem c r
    end.

  (** [s.replace(c, new)] for a one-character [c] *)
Fixpoint replace (c : ascii) (new : string) (s : string) : string :=
    match s with
    | EmptyString => EmptyString
    | String a r =>
        if Ascii.eqb a c then new ++ replace c new r
        else String a (replace c new r)
    end.

  (** [s.split(c)] for a one-character [c]; never the empty list *)
Fixpoint split (c : ascii) (s : string) : list string :=
    match s with
    | EmptyString => [EmptyString]
    | String a r =>
        if Ascii.eqb a c then EmptyString :: split c r
        else match split c r with
             | h :: t => String a h :: t
             | [] => [String a EmptyString]
             end
    end.

  (** [sep.join(l)] *)
Definition join (sep : string) (l : list string) : string :=
    String.concat sep l.

  (** [s[:n]] *)
Fixpoint take (n : nat) (s : string) : string :=
    match n, s with
    | S n', String a r => String a (take n' r)
    | _, _ => EmptyString
    end.

  (** [s[n:]] *)
Fixpoint drop (n : nat) (s : string) : string :=
    match n, s with
    | S n', String _ r => drop n' r
    | _, _ => s
    end.

  (** [s.startswith(p)] *)
Definition startswith (p s : string) : bool := String.prefix p s.

  (** [p in s] *)
Fixpoint contains (p s : string) : bool :=
    if String.prefix p s then true
    else match s with
         | EmptyString => false
         | String _ r => contains p r
         end.

  (** [str.isspace] on one character, in the range below 256 *)
Definition is_space (a : ascii) : bool :=
    let n := nat_of_ascii a in
    (Nat.leb 9 n && Nat.leb n 13) || (Nat.leb 28 n && Nat.leb n 32)
    || Nat.eqb n 133 || Nat.eqb n 160.

  (** truthiness of [s.strip()] *)
Fixpoint strip_nonempty (s : string) : bool :=
    match s with
    | EmptyString => false
    | String a r => if is_space a then strip_nonempty r else true
    end.

  (** the decimal digits, which is what [\d] matches below code point 256 *)
Definition is_digit (a : ascii) : bool :=
    let n := nat_of_ascii a in Nat.leb 48 n && Nat.leb n 57.

Fixpoint filter (f : ascii -> bool) (s : string) : string :=
    match s with
    | EmptyString => EmptyString
    | String a r => if f a then String a (filter f r) else filter f r
    end.

  (** [s.lower()] on the ASCII letters *)
Definition lower_char (a : ascii) : ascii :=
    let n := nat_of_ascii a in
    if Nat.leb 65 n && Nat.leb n 90 then ascii_of_nat (n + 32) else a.

Fixpoint lower (s : string) : string :=
    match s with
    | EmptyString => EmptyString
    | String a r => String (lower_char a) (lower r)
    end.

  (** number of occurrences of a character *)
Fixpoint count (c : ascii) (s : string) : nat :=
    match s with
    | EmptyString => 0
    | String a r => (if Ascii.eqb a c then 1 else 0) + count c r
    end.

End PyStr.

(** [if v:] on an [Optional[str]] *)
Definition truthy (v : option string) : bool :=
  match v with
  | Some s => negb (PyStr.is_empty s)
  | None => false
  end.

(** [v or d] on an [Optional[str]] *)
Definition or_else (v : option string) (d : string) : string :=
  match v with
  | Some s => if PyStr.is_empty s then d else s
  | None => d
  end.

(** ** Constants *)

Definition ASSIGNING_AUTHORITY_HEALTH_ID : string := "2.16.840.1.113883.3.3731.1.1.100.1".
Definition NATIONAL_ORG_ROOT : string := "2.16.840.1.113883.3.3731".
Definition HL7_VERSION : string := "2.5.1".

Definition SUBMISSIONSET_UNIQUEID_SCHEME : string := "urn:uuid:96fdda7c-d067-4183-912e-bf5ee74998a8".
Definition UNIQUEID_SCHEME : string := "urn:uuid:58a6f841-87b3-4a3e-92fd-a8ffeff98427".
Definition OBJECTTYPE_ONDEMAND : string := "urn:uuid:34268e47-fdf5-41a6-ba33-82133c465248".
Definition OBJECTTYPE_STABLE : string := "urn:uuid:7edca82f-054d-47f2-a032-9b2a5b5186c1".

(** ** Field escaper *)

(** [escape_hl7_field]: four chained [str.replace] calls; [None] gives the
    empty string, a value that is neither [None] nor a [str] has no
    [replace] attribute. *)
Definition escape_str (s : string) : string :=
  PyStr.replace "~" "\R\"
    (PyStr.replace "&" "\T\"
       (PyStr.replace "^" "\S\"
          (PyStr.replace "|" "\F\" s))).

Definition escape_hl7_field (v : pyval) : result string :=
  match v with
  | PyNone => Ok ""
  | PyStr s => Ok (escape_str s)
  | PyOther _ _ => Raise AttributeError
  end.

(** ** Date of birth validator *)

(** [re.sub(r"[-:T].*", "", v)]: every match starts at one of [-], [:], [T]
    and runs to the end of its line ([.] does not match a line feed). *)
Definition dob_stop (a : ascii) : bool :=
  Ascii.eqb a "-" || Ascii.eqb a ":" || Ascii.eqb a "T".

Fixpoint sub_dob (inside : bool) (s : string) : string :=
  match s with
  | EmptyString => EmptyString
  | String a r =>
      if inside then
        if Ascii.eqb a PyStr.LF then String a (sub_dob false r)
        else sub_dob true r
      else if dob_stop a then sub_dob true r
      else String a (sub_dob false r)
  end.

Definition normalize_dob (v : option string) : option string :=
  if truthy v then
    match v with
    | Some s => Some (PyStr.take 8 (sub_dob false s))
    | None => v
    end
  else v.

(** ** Numbers as text *)

Definition digit_char (d : nat) : ascii := ascii_of_nat (48 + d).

(** [str(n)] for a non-negative integer *)
Fixpoint decimal_fuel (fuel : nat) (n : N) (acc : string) : string :=
  match fuel with
  | O => acc
  | S fuel' =>
      let acc' := String (digit_char (N.to_nat (N.modulo n 10))) acc in
      if N.ltb n 10 then acc' else decimal_fuel fuel' (N.div n 10) acc'
  end.

Definition decimal (n : N) : string :=
  decimal_fuel (S (N.to_nat (N.log2 n))) n "".

(** ["%02d"] *)
Definition dec2 (n : nat) : string :=
  String (digit_char (Nat.modulo (Nat.div n 10) 10))
    (String (digit_char (Nat.modulo n 10)) "").

Definition hex_char (d : N) : ascii :=
  if N.ltb d 10 then ascii_of_N (48 + d) else ascii_of_N (87 + d).

(** the [k] lowest hexadecimal digits of [v], most significant first *)
Fixpoint hex_digits (k : nat) (v : N) : string :=
  match k with
  | O => ""
  | S k' =>
      String (hex_char (N.land (N.shiftr v (4 * N.of_nat k')) 15))
        (hex_digits k' v)
  end.

(** ** Clock, random source and the effect monad *)

Record datetime : Type := mk_datetime {
  year : nat; month : nat; day : nat;
  hour : nat; minute : nat; second : nat
}.

(** What the process reads from outside: the [n]-th 128 random bits that
    [uuid.uuid4()] draws and the [n]-th reading of [datetime.utcnow()],
    with the number of draws and readings so far. *)
Record world : Type := mk_world {
  random_bits : nat -> N;
  utc_clock : nat -> datetime;
  uuid_draws : nat;
  clock_reads : nat
}.

Definition M (A : Type) : Type := world -> result (A * world).

Definition ret {A : Type} (a : A) : M A := fun w => Ok (a, w).

Definition bind {A B : Type} (c : M A) (k : A -> M B) : M B :=
  fun w => match c w with
           | Ok (a, w') => k a w'
           | Raise e => Raise e
           end.

Definition raise {A : Type} (e : exn) : M A := fun _ => Raise e.

Definition lift {A : Type} (r : result A) : M A :=
  fun w => match r with
           | Ok a => Ok (a, w)
           | Raise e => Raise e
           end.

Declare Scope eff_scope.
Delimit Scope eff_scope with eff.
Notation "x <- c ;; k" := (bind c (fun x => k))
  (at level 61, c at next level, right associativity) : eff_scope.
Notation "c ;; k" := (bind c (fun _ => k))
  (at level 61, right associativity) : eff_scope.
Local Open Scope eff_scope.

(** [datetime.utcnow()] *)
Definition utcnow : M datetime :=
  fun w => Ok (utc_clock w (clock_reads w),
               mk_world (random_bits w) (utc_clock w) (uuid_draws w) (S (clock_reads w))).

(** [str(uuid.uuid4())]: 128 random bits with the version and variant bits
    forced, printed as 8-4-4-4-12 lower-case hexadecimal digits. *)
Definition uuid4_int (bits : N) : N :=
  let b := N.modulo bits (2 ^ 128) in
  let b := N.lor (N.ldiff b (N.shiftl 49152 48)) (N.shiftl 32768 48) in
  N.lor (N.ldiff b (N.shiftl 61440 64)) (N.shiftl 4 76).

Definition uuid_str (v : N) : string :=
  let h := hex_digits 32 v in
  PyStr.take 8 h ++ "-" ++ PyStr.take 4 (PyStr.drop 8 h) ++ "-"
  ++ PyStr.take 4 (PyStr.drop 12 h) ++ "-" ++ PyStr.take 4 (PyStr.drop 16 h)
  ++ "-" ++ PyStr.drop 20 h.

Definition uuid4 : M string :=
  fun w => Ok (uuid_str (uuid4_int (random_bits w (uuid_draws w))),
               mk_world (random_bits w) (utc_clock w) (S (uuid_draws w)) (clock_reads w)).

(** ** Timestamps *)

(** [dt.strftime("%Y%m%d%H%M%S")] as the C library of Linux prints it: the
    year in decimal without leading zeros, the other fields on two
    digits *)
Definition strftime (dt : datetime) : string :=
  decimal (N.of_nat (year dt)) ++ dec2 (month dt) ++ dec2 (day dt)
  ++ dec2 (hour dt) ++ dec2 (minute dt) ++ dec2 (second dt).

Module Iso.

  (** [datetime.fromisoformat] of Python 3.11, after its C implementation:
      the text is read as UTF-8 bytes that end in a NUL.  A calendar date
      [YYYY-MM-DD] or [YYYYMMDD] or a week date [YYYY-Www[-D]] or
      [YYYYWww[D]], then any one character, then
      [HH[:MM[:SS[.ffffff]]]] with or without the colons, then [Z] or an
      offset of the same form behind a sign.  [None] stands for the
      [ValueError].  The microseconds and the offset are checked and then
      dropped, as [strftime] above prints neither. *)

Fixpoint all_digits (s : string) : bool :=
    match s with
    | EmptyString => true
    | String a r => PyStr.is_digit a && all_digits r
    end.

Definition NUL : ascii := Ascii.zero.

  (** [s.encode("utf-8")], each byte as one [ascii] *)
Fixpoint utf8 (s : string) : string :=
    match s with
    | EmptyString => EmptyString
    | String a r =>
        let n := N_of_ascii a in
        if N.ltb n 128 then String a (utf8 r)
        else String (ascii_of_N (N.lor 192 (N.shiftr n 6)))
               (String (ascii_of_N (N.lor 128 (N.land n 63))) (utf8 r))
    end.

  (** the byte at an index of the buffer, the terminating NUL behind the
      text *)
Definition byte_at (s : string) (i : nat) : ascii :=
    match String.get i s with
    | Some c => c
    | None => NUL
    end.

  (** [parse_digits]: [k] digits from index [p] on; the value and the index
      behind them *)
Fixpoint parse_digits (k : nat) (s : string) (p : nat) (acc : N) : option (N * nat) :=
    match k with
    | O => Some (acc, p)
    | S k' =>
        let c := byte_at s p in
        if PyStr.is_digit c
        then parse_digits k' s (S p) (10 * acc + (N_of_ascii c - 48))%N
        else None
    end.

  (** the number of digits a text starts with *)
Fixpoint digit_run (s : string) : nat :=
    match s with
    | EmptyString => 0
    | String a r => if PyStr.is_digit a then S (digit_run r) else 0
    end.

  (** [_find_isoformat_datetime_separator]; [None] is its [-1], after which
      the date is never read to its end *)
Definition find_isoformat_datetime_separator (s : string) : option nat :=
    let len := String.length s in
    if Nat.eqb len 7 then Some 7
    else if Ascii.eqb (byte_at s 4) "-" then
      if Ascii.eqb (byte_at s 5) "W" then
        if Nat.ltb len 8 then None
        else if Nat.ltb 8 len && Ascii.eqb (byte_at s 8) "-" then
          if Nat.eqb len 9 then None
          else if Nat.ltb 10 len && PyStr.is_digit (byte_at s 10) then Some 8
          else Some 10
        else Some 8
      else Some 10
    else if Ascii.eqb (byte_at s 4) "W" then
      let idx := 7 + digit_run (PyStr.drop 7 s) in
      if Nat.ltb idx 9 then Some idx
      else if Nat.even idx then Some 7 else Some 8
    else Some 8.

  (** the proleptic Gregorian calendar of the module *)
Definition is_leap (y : Z) : bool :=
    (Z.eqb (y mod 4) 0 && (negb (Z.eqb (y mod 100) 0) || Z.eqb (y mod 400) 0))%Z.

Definition days_in_month (y m : Z) : Z :=
    match m with
    | 2 => if is_leap y then 29 else 28
    | 4 | 6 | 9 | 11 => 30
    | _ => 31
    end%Z.

Definition before_month (m : Z) : Z :=
    match m with
    | 1 => 0 | 2 => 31 | 3 => 59 | 4 => 90 | 5 => 120 | 6 => 151 | 7 => 181
    | 8 => 212 | 9 => 243 | 10 => 273 | 11 => 304 | 12 => 334 | _ => 0
    end%Z.

Definition days_before_month (y m : Z) : Z :=
    (before_month m + (if Z.ltb 2 m && is_leap y then 1 else 0))%Z.

Definition days_before_year (year : Z) : Z :=
    let y := (year - 1)%Z in (y * 365 + y / 4 - y / 100 + y / 400)%Z.

Definition ymd_to_ord (y m d : Z) : Z :=
    (days_before_year y + days_before_month y m + d)%Z.

Definition ord_to_ymd (ordinal : Z) : Z * Z * Z :=
    let ordinal := (ordinal - 1)%Z in
    let n400 := (ordinal / 146097)%Z in
    let n := (ordinal mod 146097)%Z in
    let n100 := (n / 36524)%Z in
    let n := (n mod 36524)%Z in
    let n4 := (n / 1461)%Z in
    let n := (n mod 1461)%Z in
    let n1 := (n / 365)%Z in
    let n := (n mod 365)%Z in
    let year := (n400 * 400 + 1 + n100 * 100 + n4 * 4 + n1)%Z in
    if Z.eqb n1 4 || Z.eqb n100 4 then ((year - 1)%Z, 12%Z, 31%Z)
    else
      let leapyear := Z.eqb n1 3 && (negb (Z.eqb n4 24) || Z.eqb n100 3) in
      let month := Z.shiftr (n + 50) 5 in
      let preceding :=
        (before_month month + (if Z.ltb 2 month && leapyear then 1 else 0))%Z in
      if Z.ltb n preceding
      then (year, (month - 1)%Z,
            (n - (preceding - days_in_month year (month - 1)) + 1)%Z)
      else (year, month, (n - preceding + 1)%Z).

Definition weekday (y m d : Z) : Z := ((ymd_to_ord y m d + 6) mod 7)%Z.

Definition iso_week1_monday (year : Z) : Z :=
    let first_day := ymd_to_ord year 1 1 in
    let first_weekday := ((first_day + 6) mod 7)%Z in
    let week1_monday := (first_day - first_weekday)%Z in
    if Z.ltb 3 first_weekday then (week1_monday + 7)%Z else week1_monday.

  (** [iso_to_ymd].  The year of the text can be 0, for which the C code
      computes with days before day 1 of the calendar; it then finds no
      week 53 and a month below 1, which the constructor refuses, so the
      outcome is the [ValueError] in every case. *)
Definition iso_to_ymd (iso_year iso_week iso_day : Z) : option (Z * Z * Z) :=
    if Z.eqb iso_year 0 then None
    else if (Z.leb iso_week 0 || Z.leb 53 iso_week)
            && negb (Z.eqb iso_week 53
                     && (Z.eqb (weekday iso_year 1 1) 3
                         || (Z.eqb (weekday iso_year 1 1) 2 && is_leap iso_year)))
    then None
    else if Z.leb iso_day 0 || Z.leb 8 iso_day then None
    else Some (ord_to_ymd (iso_week1_monday iso_year + (iso_week - 1) * 7 + iso_day - 1))%Z.

  (** [parse_isoformat_date] on the first [len] bytes *)
Definition parse_isoformat_date (s : string) (len : nat) : option (Z * Z * Z) :=
    match parse_digits 4 s 0 0 with
    | None => None
    | Some (y, p) =>
        let uses_separator := Ascii.eqb (byte_at s p) "-" in
        let p := if uses_separator then S p else p in
        if Ascii.eqb (byte_at s p) "W" then
          match parse_digits 2 s (S p) 0 with
          | None => None
          | Some (w, p) =>
              if Nat.ltb p len then
                if uses_separator && negb (Ascii.eqb (byte_at s p) "-") then None
                else
                  match parse_digits 1 s (if uses_separator then S p else p) 0 with
                  | None => None
                  | Some (d, _) => iso_to_ymd (Z.of_N y) (Z.of_N w) (Z.of_N d)
                  end
              else iso_to_ymd (Z.of_N y) (Z.of_N w) 1
          end
        else
          match parse_digits 2 s p 0 with
          | None => None
          | Some (m, p) =>
              if uses_separator && negb (Ascii.eqb (byte_at s p) "-") then None
              else
                match parse_digits 2 s (if uses_separator then S p else p) 0 with
                | None => None
                | Some (d, _) => Some (Z.of_N y, Z.of_N m, Z.of_N d)
                end
          end
    end.

  (** the end of [parse_hh_mm_ss_ff]: up to six digits of a fraction, further
      digits skipped; is the byte that follows not the NUL? *)
Definition fraction (s : string) (p p_end : nat) : option bool :=
    let len_remains := p_end - p in
    let to_parse := if Nat.leb 6 len_remains then 6 else len_remains in
    match parse_digits to_parse s p 0 with
    | None => None
    | Some (_, p) =>
        Some (negb (Ascii.eqb (byte_at s (p + digit_run (PyStr.drop p s))) NUL))
    end.

  (** the loop of [parse_hh_mm_ss_ff] over the [todo] components still to
      read, from index [p] of the buffer up to [p_end]: the components
      read, and whether text is left (the function returns 1) *)
Fixpoint components (todo : nat) (first has_separator : bool) (s : string)
      (p p_end : nat) (vals : list N) : option (list N * bool) :=
    match todo with
    | O =>
        match fraction s p p_end with
        | Some more => Some (vals, more)
        | None => None
        end
    | S todo' =>
        match parse_digits 2 s p 0 with
        | None => None
        | Some (v, p1) =>
            let c := byte_at s p1 in
            let has_separator := if first then Ascii.eqb c ":" else has_separator in
            let vals := (vals ++ [v])%list in
            if Nat.leb p_end (S p1) then Some (vals, negb (Ascii.eqb c NUL))
            else if has_separator && Ascii.eqb c ":" then
              components todo' false has_separator s (S p1) p_end vals
            else if Ascii.eqb c "." || Ascii.eqb c "," then
              match fraction s (S p1) p_end with
              | Some more => Some (vals, more)
              | None => None
              end
            else if negb has_separator then
              components todo' false has_separator s p1 p_end vals
            else None
        end
    end.

Definition parse_hh_mm_ss_ff (s : string) (p p_end : nat) : option (N * N * N * bool) :=
    match components 3 true true s p p_end [] with
    | Some (vals, more) => Some (nth 0 vals 0%N, nth 1 vals 0%N, nth 2 vals 0%N, more)
    | None => None
    end.

  (** where the search for [Z], [+] or [-] stops: the first of them, or the
      end of the text; the loop looks at the first byte before it tests the
      length, so it stops at 1 on the empty text *)
Fixpoint tz_search (s : string) : nat :=
    match s with
    | EmptyString => 0
    | String a r =>
        if Ascii.eqb a "Z" || Ascii.eqb a "+" || Ascii.eqb a "-" then 0
        else S (tz_search r)
    end.

Definition tzinfo_pos (s : string) : nat :=
    match s with
    | EmptyString => 1
    | _ => tz_search s
    end.

  (** [parse_isoformat_time]: hour, minute, second, and the seconds of the
      offset when there is one *)
Definition parse_isoformat_time (s : string) : option (N * N * N * option N) :=
    let tz := tzinfo_pos s in
    match parse_hh_mm_ss_ff s 0 tz with
    | None => None
    | Some (h, m, sec, more) =>
        if Nat.leb (String.length s) tz then
          if more then None else Some (h, m, sec, None)
        else if Ascii.eqb (byte_at s tz) "Z" then
          if Ascii.eqb (byte_at s (S tz)) NUL then Some (h, m, sec, Some 0%N) else None
        else
          match parse_hh_mm_ss_ff s (S tz) (String.length s) with
          | Some (zh, zm, zs, false) => Some (h, m, sec, Some (zh * 3600 + zm * 60 + zs)%N)
          | _ => None
          end
    end.

  (** the bytes of the character at the separator *)
Definition separator_width (c : ascii) : nat :=
    let b := N_of_ascii c in
    if N.eqb (N.land b 128) 0 then 1
    else if N.eqb (N.land b 240) 224 then 3
    else if N.eqb (N.land b 240) 240 then 4
    else 2.

  (** an offset other than 0 makes a [timezone], which must be shorter than
      a day; with less than a second of microseconds this is a test on the
      seconds *)
Definition offset_ok (tz : option N) : bool :=
    match tz with
    | Some z => N.eqb z 0 || N.ltb z 86400
    | None => true
    end.

  (** the checks of the constructor *)
Definition in_range (y mo d : Z) (h mi sec : N) : bool :=
    (Z.leb 1 y && Z.leb y 9999 && Z.leb 1 mo && Z.leb mo 12
     && Z.leb 1 d && Z.leb d (days_in_month y mo))%Z
    && (N.leb h 23 && N.leb mi 59 && N.leb sec 59)%N.

Definition fromisoformat (text : string) : option datetime :=
    if Nat.ltb (String.length text) 7 then None
    else
      let s := utf8 text in
      match find_isoformat_datetime_separator s with
      | None => None
      | Some sep =>
          match parse_isoformat_date s sep with
          | None => None
          | Some (y, mo, d) =>
              match (if Nat.ltb sep (String.length s)
                     then parse_isoformat_time
                            (PyStr.drop (sep + separator_width (byte_at s sep)) s)
                     else Some (0, 0, 0, None)%N) with
              | None => None
              | Some (h, mi, sec, tz) =>
                  if offset_ok tz && in_range y mo d h mi sec
                  then Some (mk_datetime (Z.to_nat y) (Z.to_nat mo) (Z.to_nat d)
                               (N.to_nat h) (N.to_nat mi) (N.to_nat sec))
                  else None
              end
          end
      end.

End Iso.

(** [ts_to_hl7] *)
Definition ts_to_hl7 (ts : option string) : M string :=
  match ts with
  | Some s =>
      if PyStr.is_empty s then
        now <- utcnow ;; ret (strftime now)
      else
        match Iso.fromisoformat (PyStr.replace "Z" "+00:00" s) with
        | Some dt => ret (strftime dt)
        | None => ret (PyStr.take 14 (PyStr.filter PyStr.is_digit s))
        end
  | None => now <- utcnow ;; ret (strftime now)
  end.

(** the value a computation returns, without the world it leaves *)
Definition run {A : Type} (c : M A) (w : world) : result A :=
  match c w with
  | Ok (a, _) => Ok a
  | Raise e => Raise e
  end.

(** ** Input models *)

Record Identifier : Type := mk_Identifier {
  id : string;
  assigning_authority : option string;
  type : option string
}.

Record PatientModel : Type := mk_PatientModel {
  identifiers : list Identifier;
  name_family : option string;
  name_given : option string;
  middle_name : option string;
  dob : option string;
  sex : option string
}.

Record PD1Model : Type := mk_PD1Model {
  vip_indicator : option string;
  prior_patient_ids : option (list Identifier)
}.

Record VisitModel : Type := mk_VisitModel {
  patient_class : option string;
  location : option string;
  admitting_doctor_id : option string;
  admitting_doctor_family : option string;
  admitting_doctor_given : option string;
  attending_doctor_id : option string;
  attending_doctor_family : option string;
  attending_doctor_given : option string;
  visit_number : option string;
  admit_datetime : option string;
  discharge_datetime : option string
}.

Record MessageModel : Type := mk_MessageModel {
  event : string;
  sending_app_oid : option string;
  sending_facility : option string;
  receiving_app : option string;
  receiving_facility : option string;
  message_datetime : option string;
  message_control_id : option string;
  version : option string
}.

Record NK1Model : Type := mk_NK1Model {
  name : option string;
  relationship : option string;
  phone_number : option string
}.

Record GT1Model : Type := mk_GT1Model {
  guarantor_number : option string;
  guarantor_name : option string;
  guarantor_address : option string;
  guarantor_phone : option string
}.

Record IN1Model : Type := mk_IN1Model {
  insurance_plan_id : option string;
  insurance_company_id : option string;
  insurance_company_name : option string;
  insured_id : option string;
  insured_name : option string
}.

(** [Dict[str, Any]] *)
Definition pydict : Type := list (string * pyval).

(** [d.get(k, default)] *)
Fixpoint dict_get (d : pydict) (k : string) (default : pyval) : pyval :=
  match d with
  | [] => default
  | (k', v) :: r => if String.eqb k' k then v else dict_get r k default
  end.

Record HL7FullInput : Type := mk_HL7FullInput {
  header : MessageModel;
  patient : PatientModel;
  pd1 : option PD1Model;
  visit : option VisitModel;
  mrg : option pydict;
  al1 : option (list pydict);
  dg1 : option (list pydict);
  pr1 : option (list pydict);
  nk1 : option (list NK1Model);
  gt1 : option (list GT1Model);
  in1 : option (list IN1Model)
}.

(** [f"{v}"] on an [Optional[str]] *)
Definition format_opt (v : option string) : string :=
  match v with
  | Some s => s
  | None => "None"
  end.

(** [if l:] on an optional list or dict *)
Definition nonempty {A : Type} (l : option (list A)) : list A :=
  match l with
  | Some l' => l'
  | None => []
  end.

(** ** HL7 builder *)

Definition build_msh (hdr : MessageModel) : M string :=
  let enc := "^~\&" in
  let sending_app := or_else (sending_app_oid hdr) "" in
  let sending_fac := or_else (sending_facility hdr) "" in
  let recv_app := or_else (receiving_app hdr) "" in
  let recv_fac := or_else (receiving_facility hdr) "" in
  dt <- ts_to_hl7 (message_datetime hdr) ;;
  let msg_type := event hdr in
  ctrl <- (if truthy (message_control_id hdr)
           then ret (or_else (message_control_id hdr) "")
           else uuid4) ;;
  let proc := "P" in
  let ver := or_else (version hdr) HL7_VERSION in
  ret ("MSH|" ++ enc ++ "|" ++ sending_app ++ "|" ++ sending_fac ++ "|"
       ++ recv_app ++ "|" ++ recv_fac ++ "|" ++ dt ++ "||" ++ msg_type
       ++ "|" ++ ctrl ++ "|" ++ proc ++ "|" ++ ver).

Definition opt_string_eqb (a : option string) (b : string) : bool :=
  match a with
  | Some s => String.eqb s b
  | None => false
  end.

Definition pid_authority_error : exn :=
  HTTPException 400
    ("Patient first identifier assigning_authority must be "
     ++ ASSIGNING_AUTHORITY_HEALTH_ID).

Definition build_pid (patient : PatientModel) : result string :=
  (try pid3 <-
     match identifiers patient with
     | first :: _ =>
         if negb (opt_string_eqb (assigning_authority first) ASSIGNING_AUTHORITY_HEALTH_ID)
         then Raise pid_authority_error
         else Ok (id first ++ "^^^" ++ format_opt (assigning_authority first) ++ "^ISO")
     | [] => Ok ""
     end;
   let name :=
     if truthy (name_family patient) || truthy (name_given patient)
        || truthy (middle_name patient)
     then escape_str (or_else (name_family patient) "") ++ "^"
          ++ escape_str (or_else (name_given patient) "") ++ "^"
          ++ escape_str (or_else (middle_name patient) "")
     else "" in
   let dob := or_else (dob patient) "" in
   let sex := or_else (sex patient) "" in
   Ok ("PID|1||" ++ pid3 ++ "||" ++ name ++ "||" ++ dob ++ "|" ++ sex))%res.

(** the [split("^")[-1]] of the event code *)
Definition evn_code_of (event : string) : string :=
  if PyStr.mem "^" event
  then List.last (PyStr.split "^" event) ""
  else event.

Definition format_identifier (p : Identifier) : string :=
  id p ++ "^^^" ++ format_opt (assigning_authority p) ++ "^ISO".

Definition build_pd1 (p : PD1Model) : string :=
  let vip := or_else (vip_indicator p) "" in
  let prior :=
    match nonempty (prior_patient_ids p) with
    | [] => ""
    | ids => PyStr.join "~" (map format_identifier ids)
    end in
  "PD1|" ++ vip ++ "|" ++ prior.

(** [ts_to_hl7(x) if x else ''] *)
Definition ts_if (x : option string) : M string :=
  if truthy x then ts_to_hl7 x else ret "".

Definition build_visit (v : VisitModel) : M (list string) :=
  let attend_doc :=
    or_else (attending_doctor_id v) "" ++ "^"
    ++ or_else (attending_doctor_family v) "" ++ "^"
    ++ or_else (attending_doctor_given v) "" in
  a1 <- ts_if (admit_datetime v) ;;
  d1 <- ts_if (discharge_datetime v) ;;
  let pv1 :=
    "PV1|1|" ++ or_else (patient_class v) "" ++ "|" ++ or_else (location v) ""
    ++ "||||" ++ attend_doc ++ "|||||||||||||||" ++ or_else (visit_number v) ""
    ++ "|" ++ a1 ++ "|" ++ d1 in
  a2 <- ts_if (admit_datetime v) ;;
  d2 <- ts_if (discharge_datetime v) ;;
  let pv2 := "PV2|||" ++ a2 ++ "|" ++ d2 in
  ret [pv1; pv2].

Definition build_mrg (m : pydict) : string :=
  let prior_id := dict_get m "prior_patient_id" (PyStr "") in
  let prior_visit := dict_get m "prior_visit_number" (PyStr "") in
  "MRG|" ++ format_pyval prior_id ++ "|||" ++ format_pyval prior_visit.

Definition build_al1 (a : pydict) : result string :=
  (try x <- escape_hl7_field (dict_get a "allergen" (PyStr ""));
   try y <- escape_hl7_field (dict_get a "reaction" (PyStr ""));
   try z <- escape_hl7_field (dict_get a "severity" (PyStr ""));
   Ok ("AL1|||" ++ x ++ "|" ++ y ++ "|" ++ z))%res.

Definition build_dg1 (d : pydict) : result string :=
  (try x <- escape_hl7_field (dict_get d "diagnosis_desc" (PyStr ""));
   Ok ("DG1|" ++ format_pyval (dict_get d "set_id" (PyStr "1")) ++ "|"
       ++ format_pyval (dict_get d "diagnosis_type" (PyStr "")) ++ "|"
       ++ format_pyval (dict_get d "diagnosis_code" (PyStr "")) ++ "|" ++ x))%res.

Definition build_pr1 (p : pydict) : result string :=
  (try x <- escape_hl7_field (dict_get p "procedure_desc" (PyStr ""));
   Ok ("PR1|" ++ format_pyval (dict_get p "set_id" (PyStr "1")) ++ "|"
       ++ format_pyval (dict_get p "procedure_code" (PyStr "")) ++ "|" ++ x))%res.

Definition build_nk1 (nk : NK1Model) : string :=
  "NK1||" ++ escape_str (or_else (name nk) "") ++ "|"
  ++ escape_str (or_else (relationship nk) "") ++ "|"
  ++ escape_str (or_else (phone_number nk) "").

Definition build_gt1 (gt : GT1Model) : string :=
  "GT1|" ++ escape_str (or_else (guarantor_number gt) "") ++ "|"
  ++ escape_str (or_else (guarantor_name gt) "") ++ "|"
  ++ escape_str (or_else (guarantor_address gt) "") ++ "|"
  ++ escape_str (or_else (guarantor_phone gt) "").

Definition build_in1 (ins : IN1Model) : string :=
  "IN1|" ++ escape_str (or_else (insurance_plan_id ins) "") ++ "|"
  ++ escape_str (or_else (insurance_company_id ins) "") ++ "|"
  ++ escape_str (or_else (insurance_company_name ins) "") ++ "|"
  ++ escape_str (or_else (insured_id ins) "") ++ "|"
  ++ escape_str (or_else (insured_name ins) "").

(** a [for] loop that appends one segment per entry and stops at the first
    exception *)
Fixpoint each {A : Type} (f : A -> result string) (l : list A) : result (list string) :=
  match l with
  | [] => Ok []
  | x :: r =>
      (try s <- f x;
       try rest <- each f r;
       Ok (s :: rest))%res
  end.

(** the list [segments] of [json_to_hl7_full] when the function reaches its
    [join] *)
Definition hl7_segments (payload : HL7FullInput) : M (list string) :=
  msh <- build_msh (header payload) ;;
  let evn_code := evn_code_of (event (header payload)) in
  evn_time <- ts_to_hl7 (message_datetime (header payload)) ;;
  let evn := "EVN|" ++ evn_code ++ "|" ++ evn_time in
  pid <- lift (build_pid (patient payload)) ;;
  let s_pd1 := match pd1 payload with
               | Some p => [build_pd1 p]
               | None => []
               end in
  s_visit <- match visit payload with
             | Some v => build_visit v
             | None => ret []
             end ;;
  let s_mrg := match mrg payload with
               | Some (e :: m) => [build_mrg (e :: m)]
               | _ => []
               end in
  s_al1 <- lift (each build_al1 (nonempty (al1 payload))) ;;
  s_dg1 <- lift (each build_dg1 (nonempty (dg1 payload))) ;;
  s_pr1 <- lift (each build_pr1 (nonempty (pr1 payload))) ;;
  let s_nk1 := map build_nk1 (nonempty (nk1 payload)) in
  let s_gt1 := map build_gt1 (nonempty (gt1 payload)) in
  let s_in1 := map build_in1 (nonempty (in1 payload)) in
  ret ([msh; evn; pid] ++ s_pd1 ++ s_visit ++ s_mrg ++ s_al1 ++ s_dg1
       ++ s_pr1 ++ s_nk1 ++ s_gt1 ++ s_in1)%list.

(** [json_to_hl7_full]; the optional conformance check only logs *)
Definition json_to_hl7_full (payload : HL7FullInput) : M string :=
  segments <- hl7_segments payload ;;
  ret (PyStr.join (String PyStr.CR "") segments).

(** ** HL7 parser *)

(** the objects the parser builds: [None], strings, lists and dicts (in
    insertion order) *)
Inductive json : Type :=
| JNone
| JStr (s : string)
| JList (l : list json)
| JDict (d : list (string * json)).

Definition jdict : Type := list (string * json).

Fixpoint jget (k : string) (d : jdict) : option json :=
  match d with
  | [] => None
  | (k', v) :: r => if String.eqb k' k then Some v else jget k r
  end.

(** [d[k] = v]: an existing key keeps its place *)
Fixpoint jset (k : string) (v : json) (d : jdict) : jdict :=
  match d with
  | [] => [(k, v)]
  | (k', v') :: r =>
      if String.eqb k' k then (k', v) :: r else (k', v') :: jset k v r
  end.

(** [d.update(e)] *)
Definition jupdate (e : jdict) (d : jdict) : jdict :=
  fold_left (fun acc kv => jset (fst kv) (snd kv) acc) e d.

(** [d.setdefault(k, default)]: the object now stored under [k], and the
    dict *)
Definition setdefault (k : string) (default : json) (d : jdict) : json * jdict :=
  match jget k d with
  | Some v => (v, d)
  | None => (default, jset k default d)
  end.

(** [obj[k] = v] *)
Definition setitem (obj : json) (k : string) (v : json) : result json :=
  match obj with
  | JDict d => Ok (JDict (jset k v d))
  | _ => Raise TypeError
  end.

(** [obj.append(v)] *)
Definition append (obj : json) (v : json) : result json :=
  match obj with
  | JList l => Ok (JList (l ++ [v])%list)
  | _ => Raise AttributeError
  end.

(** [obj.update(e)] *)
Definition update (obj : json) (e : jdict) : result json :=
  match obj with
  | JDict d => Ok (JDict (jupdate e d))
  | _ => Raise AttributeError
  end.

(** [result[k]] followed by an operation that mutates the object found
    there: the dict keeps pointing to the mutated object *)
Definition at_key (k : string) (op : json -> result json) (d : jdict) : result jdict :=
  match jget k d with
  | Some obj => (try obj' <- op obj; Ok (jset k obj' d))%res
  | None => Raise KeyError
  end.

(** [result.setdefault(k, default)] followed by a mutating operation *)
Definition at_default (k : string) (default : json) (op : json -> result json)
    (d : jdict) : result jdict :=
  let (obj, d') := setdefault k default d in
  (try obj' <- op obj; Ok (jset k obj' d'))%res.

(** [l[i]] *)
Definition py_index (l : list string) (i : nat) : result string :=
  match nth_error l i with
  | Some x => Ok x
  | None => Raise IndexError
  end.

(** [fields[i] if len(fields) > i else ""] *)
Definition field (fields : list string) (i : nat) : result string :=
  if Nat.ltb i (List.length fields) then py_index fields i else Ok "".

(** a dict display whose values are guarded field accesses, evaluated in
    order *)
Fixpoint capture (fields : list string) (keys : list (string * nat)) : result jdict :=
  match keys with
  | [] => Ok []
  | (k, i) :: r =>
      (try v <- field fields i;
       try rest <- capture fields r;
       Ok ((k, JStr v) :: rest))%res
  end.

Definition initial_result : jdict :=
  [ ("header", JDict []); ("patient", JDict []); ("pd1", JNone);
    ("visit", JNone); ("mrg", JNone); ("al1", JList []); ("dg1", JList []);
    ("pr1", JList []) ].

(** the body of the loop of [hl7_full_to_json], after the split into fields *)
Definition decode_fields (fields : list string) (res : jdict) : result jdict :=
  (try name <- py_index fields 0;
   if String.eqb name "MSH" then
     try e <- capture fields
       [ ("sending_app_oid", 2); ("sending_facility", 3); ("receiving_app", 4);
         ("receiving_facility", 5); ("message_datetime", 6); ("event", 8);
         ("message_control_id", 9); ("version", 11) ];
     at_key "header" (fun h => update h e) res
   else if String.eqb name "EVN" then
     try v1 <- field fields 1;
     try r1 <- at_key "header" (fun h => setitem h "evn" (JStr v1)) res;
     try v2 <- field fields 2;
     at_key "header" (fun h => setitem h "evn_datetime" (JStr v2)) r1
   else if String.eqb name "PID" then
     try v3 <- field fields 3;
     try e <- capture fields [ ("name", 5); ("dob", 7); ("sex", 8) ];
     Ok (jset "patient" (JDict (("identifiers", JList [JStr v3]) :: e)) res)
   else if String.eqb name "PD1" then
     try e <- capture fields [ ("vip", 1); ("prior_ids", 2) ];
     Ok (jset "pd1" (JDict e) res)
   else if String.eqb name "PV1" then
     try e <- capture fields
       [ ("patient_class", 2); ("location", 3); ("attending_doctor", 8);
         ("visit_number", 19) ];
     Ok (jset "visit" (JDict e) res)
   else if String.eqb name "PV2" then
     try v3 <- field fields 3;
     try r1 <- at_default "visit" (JDict []) (fun o => setitem o "admit" (JStr v3)) res;
     try v4 <- field fields 4;
     at_default "visit" (JDict []) (fun o => setitem o "discharge" (JStr v4)) r1
   else if String.eqb name "MRG" then
     try e <- capture fields [ ("prior_patient_id", 1); ("prior_visit", 4) ];
     Ok (jset "mrg" (JDict e) res)
   else if String.eqb name "AL1" then
     try e <- capture fields [ ("allergen", 3); ("reaction", 4) ];
     at_key "al1" (fun l => append l (JDict e)) res
   else if String.eqb name "DG1" then
     try e <- capture fields [ ("code", 3); ("desc", 4) ];
     at_key "dg1" (fun l => append l (JDict e)) res
   else if String.eqb name "PR1" then
     try e <- capture fields [ ("code", 2); ("desc", 3) ];
     at_key "pr1" (fun l => append l (JDict e)) res
   else if String.eqb name "NK1" then
     try e <- capture fields [ ("name", 2); ("relationship", 3); ("phone_number", 4) ];
     at_default "nk1" (JList []) (fun l => append l (JDict e)) res
   else if String.eqb name "GT1" then
     try e <- capture fields
       [ ("guarantor_number", 1); ("guarantor_name", 2);
         ("guarantor_address", 3); ("guarantor_phone", 4) ];
     at_default "gt1" (JList []) (fun l => append l (JDict e)) res
   else if String.eqb name "IN1" then
     try e <- capture fields
       [ ("insurance_plan_id", 1); ("insurance_company_id", 2);
         ("insurance_company_name", 3); ("insured_id", 4); ("insured_name", 5) ];
     at_default "in1" (JList []) (fun l => append l (JDict e)) res
   else Ok res)%res.

Definition decode_segment (seg : string) (res : jdict) : result jdict :=
  decode_fields (PyStr.split "|" seg) res.

(** the [for] loop over the segments *)
Fixpoint decode_segments (segments : list string) (res : jdict) : result jdict :=
  match segments with
  | [] => Ok res
  | seg :: rest =>
      (try r <- decode_segment seg res; decode_segments rest r)%res
  end.

Definition hl7_full_to_json (hl7_msg : string) : result jdict :=
  let segments := List.filter PyStr.strip_nonempty (PyStr.split PyStr.CR hl7_msg) in
  decode_segments segments initial_result.


(** ** Bytes, base64 and SHA-1 *)

Definition byte_of_N (n : N) : byte :=
  match Byte.of_N n with
  | Some b => b
  | None => Byte.x00
  end.

(** [s.encode("utf-8")] for characters below code point 256 *)
Fixpoint utf8_encode (s : string) : list byte :=
  match s with
  | EmptyString => []
  | String a r =>
      let n := N_of_ascii a in
      if N.ltb n 128 then byte_of_ascii a :: utf8_encode r
      else byte_of_N (N.lor 192 (N.shiftr n 6))
           :: byte_of_N (N.lor 128 (N.land n 63)) :: utf8_encode r
  end.

(** [b.decode("utf-8")] on bytes below 128 *)
Definition ascii_decode (b : list byte) : string :=
  string_of_list_ascii (map ascii_of_byte b).

Module Base64.

Definition alphabet : string :=
    "ABCDEFGHIJKLMNOPQRSTUVWXYZabcdefghijklmnopqrstuvwxyz0123456789+/".

Definition enc_char (v : N) : ascii :=
    match String.get (N.to_nat v) alphabet with
    | Some a => a
    | None => "="%char
    end.

  (** the value of a character of the alphabet *)
Definition dec_char (a : ascii) : option N :=
    let n := N_of_ascii a in
    if N.leb 65 n && N.leb n 90 then Some (n - 65)%N
    else if N.leb 97 n && N.leb n 122 then Some (n - 71)%N
    else if N.leb 48 n && N.leb n 57 then Some (n + 4)%N
    else if N.eqb n 43 then Some 62%N
    else if N.eqb n 47 then Some 63%N
    else None.

  (** [base64.b64encode] *)
Fixpoint b64encode_N (l : list N) : string :=
    match l with
    | [] => ""
    | [x] =>
        String (enc_char (N.shiftr x 2))
          (String (enc_char (N.shiftl (N.land x 3) 4)) "==")
    | [x; y] =>
        String (enc_char (N.shiftr x 2))
          (String (enc_char (N.lor (N.shiftl (N.land x 3) 4) (N.shiftr y 4)))
             (String (enc_char (N.shiftl (N.land y 15) 2)) "="))
    | x :: y :: z :: r =>
        String (enc_char (N.shiftr x 2))
          (String (enc_char (N.lor (N.shiftl (N.land x 3) 4) (N.shiftr y 4)))
             (String (enc_char (N.lor (N.shiftl (N.land y 15) 2) (N.shiftr z 6)))
                (String (enc_char (N.land z 63)) (b64encode_N r))))
    end.

Definition b64encode (b : list byte) : string := b64encode_N (map Byte.to_N b).

  (** [binascii.a2b_base64] without strict mode: characters outside the
      alphabet are skipped, a pad that completes a quad ends the input, and
      an incomplete quad at the end is an error ([None]). *)
Fixpoint a2b (s : string) (quad_pos : nat) (leftchar : N) (pads : nat)
      (out : list byte) : option (list byte) :=
    match s with
    | EmptyString =>
        if Nat.eqb quad_pos 0 then Some (rev_append out []) else None
    | String a r =>
        if Ascii.eqb a "=" then
          if Nat.leb 2 quad_pos then
            if Nat.leb 4 (quad_pos + S pads) then Some (rev_append out [])
            else a2b r quad_pos leftchar (S pads) out
          else a2b r quad_pos leftchar pads out
        else
          match dec_char a with
          | None => a2b r quad_pos leftchar pads out
          | Some v =>
              match quad_pos with
              | 0 => a2b r 1 v 0 out
              | 1 => a2b r 2 (N.land v 15) 0
                       (byte_of_N (N.lor (N.shiftl leftchar 2) (N.shiftr v 4)) :: out)
              | 2 => a2b r 3 (N.land v 3) 0
                       (byte_of_N (N.lor (N.shiftl leftchar 4) (N.shiftr v 2)) :: out)
              | _ => a2b r 0 0%N 0
                       (byte_of_N (N.lor (N.shiftl leftchar 6) v) :: out)
              end
          end
    end.

Fixpoint is_ascii (s : string) : bool :=
    match s with
    | EmptyString => true
    | String a r => N.ltb (N_of_ascii a) 128 && is_ascii r
    end.

  (** [base64.b64decode] on a [str]: [None] stands for the exception *)
Definition b64decode (s : string) : option (list byte) :=
    if is_ascii s then a2b s 0 0%N 0 [] else None.

End Base64.

Module SHA1.

Definition mask : N := 4294967295.
Definition add32 (a b : N) : N := N.land (a + b) mask.
Definition rotl (k : N) (x : N) : N :=
    N.land (N.lor (N.shiftl x k) (N.shiftr x (32 - k))) mask.
Definition not32 (x : N) : N := N.lxor x mask.

  (** the message is followed by the bit 1, zeros, and its length in bits
      on eight bytes *)
Definition padding (len : nat) : list N :=
    let zeros := Nat.modulo (119 - Nat.modulo len 64) 64 in
    let bits := (8 * N.of_nat len)%N in
    (128%N :: repeat 0%N zeros
     ++ map (fun i => N.land (N.shiftr bits (8 * N.of_nat i)) 255) [7; 6; 5; 4; 3; 2; 1; 0]%nat)%list.

Fixpoint words (l : list N) : list N :=
    match l with
    | a :: b :: c :: d :: r =>
        N.lor (N.shiftl a 24) (N.lor (N.shiftl b 16) (N.lor (N.shiftl c 8) d))
        :: words r
    | _ => []
    end.

Definition f (t : nat) (b c d : N) : N :=
    if Nat.ltb t 20 then N.lor (N.land b c) (N.land (not32 b) d)
    else if Nat.ltb t 40 then N.lxor b (N.lxor c d)
    else if Nat.ltb t 60 then N.lor (N.land b c) (N.lor (N.land b d) (N.land c d))
    else N.lxor b (N.lxor c d).

Definition k (t : nat) : N :=
    if Nat.ltb t 20 then 1518500249
    else if Nat.ltb t 40 then 1859775393
    else if Nat.ltb t 60 then 2400959708
    else 3395469782.

Record state : Type := mk_state { h0 : N; h1 : N; h2 : N; h3 : N; h4 : N }.

  (** [n] rounds from round [t] on; [w] holds the sixteen latest words of
      the schedule *)
Fixpoint rounds (n t : nat) (w : list N) (s : state) : state :=
    match n with
    | O => s
    | S n' =>
        let wt := nth 0 w 0%N in
        let next :=
          rotl 1 (N.lxor (nth 13 w 0%N) (N.lxor (nth 8 w 0%N)
                    (N.lxor (nth 2 w 0%N) (nth 0 w 0%N)))) in
        let temp :=
          add32 (add32 (add32 (add32 (rotl 5 (h0 s)) (f t (h1 s) (h2 s) (h3 s)))
                          (h4 s)) (k t)) wt in
        rounds n' (S t) (tl w ++ [next])%list
          (mk_state temp (h0 s) (rotl 30 (h1 s)) (h2 s) (h3 s))
    end.

Definition block (s : state) (w : list N) : state :=
    let r := rounds 80 0 w s in
    mk_state (add32 (h0 s) (h0 r)) (add32 (h1 s) (h1 r)) (add32 (h2 s) (h2 r))
      (add32 (h3 s) (h3 r)) (add32 (h4 s) (h4 r)).

Fixpoint blocks (n : nat) (ws : list N) (s : state) : state :=
    match n with
    | O => s
    | S n' => blocks n' (skipn 16 ws) (block s (firstn 16 ws))
    end.

Definition init : state :=
    mk_state 1732584193 4023233417 2562383102 271733878 3285377520.

Definition digest (b : list byte) : state :=
    let msg := (map Byte.to_N b ++ padding (List.length b))%list in
    let ws := words msg in
    blocks (Nat.div (List.length ws) 16) ws init.

  (** [hashlib.sha1(b).hexdigest()] *)
Definition hexdigest (b : list byte) : string :=
    let s := digest b in
    hex_digits 8 (h0 s) ++ hex_digits 8 (h1 s) ++ hex_digits 8 (h2 s)
    ++ hex_digits 8 (h3 s) ++ hex_digits 8 (h4 s).

End SHA1.

(** [sha1_and_size] *)
Definition sha1_and_size (b : list byte) : string * string :=
  let h := SHA1.hexdigest b in
  (h, decimal (N.of_nat (List.length b))).

(** ** XML trees and their serialization *)

(** the five namespaces of [SOAP_NS], which are the ones registered with
    [ET.register_namespace] *)
Inductive namespace : Type := NS_s | NS_a | NS_xds | NS_rim | NS_lcm.

Definition prefix_of (n : namespace) : string :=
  match n with
  | NS_s => "s" | NS_a => "a" | NS_xds => "xds" | NS_rim => "rim" | NS_lcm => "lcm"
  end.

Definition uri_of (n : namespace) : string :=
  match n with
  | NS_s => "http://www.w3.org/2003/05/soap-envelope"
  | NS_a => "http://www.w3.org/2005/08/addressing"
  | NS_xds => "urn:ihe:iti:xds-b:2007"
  | NS_rim => "urn:oasis:names:tc:ebxml-regrep:xsd:rim:3.0"
  | NS_lcm => "urn:oasis:names:tc:ebxml-regrep:xsd:lcm:3.0"
  end.

Definition namespace_eqb (a b : namespace) : bool :=
  match a, b with
  | NS_s, NS_s | NS_a, NS_a | NS_xds, NS_xds | NS_rim, NS_rim | NS_lcm, NS_lcm => true
  | _, _ => false
  end.

(** a tag ["{uri}local"], or a bare ["local"] *)
Record qname : Type := mk_qname { q_ns : option namespace; q_local : string }.

Definition in_ns (n : namespace) (l : string) : qname := mk_qname (Some n) l.
Definition bare (l : string) : qname := mk_qname None l.

Definition qname_eqb (a b : qname) : bool :=
  match q_ns a, q_ns b with
  | Some x, Some y => namespace_eqb x y && String.eqb (q_local a) (q_local b)
  | None, None => String.eqb (q_local a) (q_local b)
  | _, _ => false
  end.

(** [xml.etree.ElementTree.Element]: tag, attributes in the order they were
    set, text, children *)
Inductive element : Type :=
| Element (tag : qname) (attrib : list (string * string)) (text : pyval)
    (children : list element).

Definition tag_of (e : element) : qname := let (t, _, _, _) := e in t.
Definition attrib_of (e : element) : list (string * string) := let (_, a, _, _) := e in a.
Definition text_of (e : element) : pyval := let (_, _, x, _) := e in x.
Definition children_of (e : element) : list element := let (_, _, _, c) := e in c.

(** [e.get(k)] *)
Fixpoint attr_get (k : string) (a : list (string * string)) : option string :=
  match a with
  | [] => None
  | (k', v) :: r => if String.eqb k' k then Some v else attr_get k r
  end.

Definition get (e : element) (k : string) : option string := attr_get k (attrib_of e).

Module ET.

Definition escape_cdata (s : string) : string :=
    PyStr.replace ">" "&gt;" (PyStr.replace "<" "&lt;" (PyStr.replace "&" "&amp;" s)).

Definition escape_attrib (s : string) : string :=
    PyStr.replace PyStr.TAB "&#09;"
      (PyStr.replace PyStr.LF "&#10;"
         (PyStr.replace PyStr.CR "&#13;"
            (PyStr.replace PyStr.DQUOTE "&quot;"
               (PyStr.replace ">" "&gt;"
                  (PyStr.replace "<" "&lt;" (PyStr.replace "&" "&amp;" s)))))).

Definition qname_text (q : qname) : string :=
    match q_ns q with
    | Some n => prefix_of n ++ ":" ++ q_local q
    | None => q_local q
    end.

  (** does a tag of the tree lie in the namespace? *)
Fixpoint uses (n : namespace) (e : element) : bool :=
    match e with
    | Element t _ _ c =>
        match q_ns t with
        | Some m => namespace_eqb m n
        | None => false
        end
        || existsb (uses n) c
    end.

  (** the [xmlns] declarations of the root, sorted by prefix *)
Definition declarations (root : element) : string :=
    String.concat ""
      (map (fun n => " xmlns:" ++ prefix_of n ++ "=" ++ String PyStr.DQUOTE ""
                     ++ escape_attrib (uri_of n) ++ String PyStr.DQUOTE "")
         (List.filter (fun n => uses n root) [NS_a; NS_lcm; NS_rim; NS_s; NS_xds])).

Definition attributes (a : list (string * string)) : string :=
    String.concat ""
      (map (fun kv => " " ++ fst kv ++ "=" ++ String PyStr.DQUOTE ""
                      ++ escape_attrib (snd kv) ++ String PyStr.DQUOTE "") a).

  (** [if text] *)
Definition has_text (x : pyval) : bool :=
    match x with
    | PyNone => false
    | PyStr s => negb (PyStr.is_empty s)
    | PyOther _ b => b
    end.

  (** the text of an element that has one: only a [str] can be written *)
Definition write_text (x : pyval) : result string :=
    match x with
    | PyStr s => Ok (escape_cdata s)
    | PyNone => Ok ""
    | PyOther _ _ => Raise TypeError
    end.

  (** [_serialize_xml]; [decls] is empty except at the root *)
Fixpoint serialize (decls : string) (e : element) : result string :=
    match e with
    | Element t a x c =>
        let tag := qname_text t in
        let head := "<" ++ tag ++ decls ++ attributes a in
        if has_text x || negb (Nat.eqb (List.length c) 0) then
          (try body <- write_text (if has_text x then x else PyNone);
           try inner <-
             (fix all (l : list element) : result string :=
                match l with
                | [] => Ok ""
                | y :: r =>
                    (try s <- serialize "" y;
                     try rest <- all r;
                     Ok (s ++ rest))
                end) c;
           Ok (head ++ ">" ++ body ++ inner ++ "</" ++ tag ++ ">"))%res
        else Ok (head ++ " />")
    end.

  (** [ET.tostring(root, encoding="utf-8", xml_declaration=True).decode("utf-8")] *)
Definition tostring (root : element) : result string :=
    (try body <- serialize (declarations root) root;
     Ok ("<?xml version='1.0' encoding='utf-8'?>" ++ String PyStr.LF "" ++ body))%res.

  (** the elements of the tree, the root first, in document order *)
Fixpoint iter (e : element) : list element :=
    match e with
    | Element _ _ _ c => e :: flat_map iter c
    end.

  (** every text of the tree is one that [serialize] can write *)
Fixpoint texts_ok (e : element) : bool :=
    match e with
    | Element _ _ x c =>
        match x with
        | PyOther _ b => negb b
        | _ => true
        end
        && forallb texts_ok c
    end.

End ET.

(** [add_slot]: the new [Slot] child *)
Definition add_slot (name : string) (values : list string) : element :=
  Element (in_ns NS_rim "Slot") [("name", name)] PyNone
    [ Element (in_ns NS_rim "ValueList") [] PyNone
        (map (fun v => Element (in_ns NS_rim "Value") [] (PyStr v) []) values) ].

(** ** ITI-41 ebXML builder *)

Record SOAPInput : Type := mk_SOAPInput {
  soap : pydict;
  repository_address : option string;
  patient_id : string;
  class_code : option string;
  type_code : option string;
  practice_setting_code : option string;
  unique_id : option string;
  object_type : option string;
  document_base64 : option string;
  mime_type : option string;
  creation_time : option string;
  source_id : option string;
  repository_unique_id : option string
}.

(** the [source_id] validator of the model and the check that opens
    [build_iti41_ebxml] *)
Definition source_id_ok (obj : SOAPInput) : bool :=
  negb (truthy (source_id obj))
  || PyStr.startswith NATIONAL_ORG_ROOT (or_else (source_id obj) "").

(** the bytes of the document: the base64 text decoded, or the text itself
    when it does not decode *)
Definition document_bytes (document : string) : list byte :=
  match Base64.b64decode document with
  | Some b => b
  | None => utf8_encode document
  end.

Definition urn_uuid : M string := u <- uuid4 ;; ret ("urn:uuid:" ++ u).

(** [x or f"urn:uuid:{uuid.uuid4()}"] *)
Definition or_urn (x : option string) : M string :=
  if truthy x then ret (or_else x "") else urn_uuid.

(** [x or datetime.utcnow().strftime("%Y%m%d%H%M%S")] *)
Definition or_now (x : option string) : M string :=
  if truthy x then ret (or_else x "") else (now <- utcnow ;; ret (strftime now)).

Definition localized (tag value : string) : element :=
  Element (in_ns NS_rim tag) [] PyNone
    [ Element (in_ns NS_rim "LocalizedString") [("value", value)] PyNone [] ].

Definition external_identifier (eid registry_object scheme value : string) : element :=
  Element (in_ns NS_rim "ExternalIdentifier")
    [ ("id", eid); ("registryObject", registry_object); ("identificationScheme", scheme) ]
    PyNone
    [ Element (in_ns NS_rim "Value") [] (PyStr value) [] ].

Definition classification (scheme node cid : string) : element :=
  Element (in_ns NS_rim "Classification")
    [ ("classificationScheme", scheme); ("classificationNode", node); ("id", cid) ]
    PyNone [].

Definition HAS_MEMBER : string := "urn:oasis:names:tc:ebxml-regrep:AssociationType:HasMember".
Definition APPROVED : string := "urn:oasis:names:tc:ebxml-regrep:StatusType:Approved".

(** [f"urn:uuid:{uuid.uuid4()}"], drawn only for a child that is there *)
Definition urn_when (x : option string) : M string :=
  if truthy x then urn_uuid else ret "".

Definition when_slot (name : string) (x : option string) : list element :=
  if truthy x then [add_slot name [or_else x ""]] else [].

(** what one call of [build_iti41_ebxml] draws from outside, in the order
    of the draws *)
Record drawn : Type := mk_drawn {
  fresh_message_id : string;   (* the default of [soap.get("message_id", ...)] *)
  submission_id : string;      (* [obj.unique_id or f"urn:uuid:{uuid.uuid4()}"] *)
  ext_sub_id : string;
  submission_time : string;    (* [obj.creation_time or utcnow()...] *)
  doc_id : string;             (* [obj.unique_id or f"urn:uuid:{uuid.uuid4()}"] *)
  cls_id : string;             (* drawn when there is a class code *)
  tcls_id : string;            (* drawn when there is a type code *)
  ei_unique_id : string;
  ei_patient_id : string;
  ei_src_id : string;          (* drawn when there is a source id *)
  creation : string;           (* [obj.creation_time or utcnow()...] *)
  assoc_id : string
}.

Definition draw (obj : SOAPInput) : M drawn :=
  d1 <- uuid4 ;;
  d2 <- or_urn (unique_id obj) ;;
  d3 <- urn_uuid ;;
  d4 <- or_now (creation_time obj) ;;
  d5 <- or_urn (unique_id obj) ;;
  d6 <- urn_when (class_code obj) ;;
  d7 <- urn_when (type_code obj) ;;
  d8 <- urn_uuid ;;
  d9 <- urn_uuid ;;
  d10 <- urn_when (source_id obj) ;;
  d11 <- or_now (creation_time obj) ;;
  d12 <- urn_uuid ;;
  ret (mk_drawn d1 d2 d3 d4 d5 d6 d7 d8 d9 d10 d11 d12).

(** [doc_bytes]: [None] when no document is supplied *)
Definition doc_bytes_of (obj : SOAPInput) : option (list byte) :=
  if truthy (document_base64 obj)
  then Some (document_bytes (or_else (document_base64 obj) ""))
  else None.

Definition header_of (obj : SOAPInput) (d : drawn) : element :=
  Element (in_ns NS_s "Header") [] PyNone
    [ Element (in_ns NS_a "Action") []
        (dict_get (soap obj) "action"
           (PyStr "urn:ihe:iti:2007:ProvideAndRegisterDocumentSet-b")) [];
      Element (in_ns NS_a "MessageID") []
        (dict_get (soap obj) "message_id" (PyStr (fresh_message_id d))) [];
      Element (in_ns NS_a "To") []
        (dict_get (soap obj) "to" (PyStr (or_else (repository_address obj) ""))) [] ].

(** SubmissionSet *)
Definition regpkg_of (obj : SOAPInput) (d : drawn) : element :=
  let regpkg_id := "rs." ++ submission_id d in
  Element (in_ns NS_rim "RegistryPackage") [("id", regpkg_id)] PyNone
    ([ localized "Name" "SubmissionSet";
       external_identifier (ext_sub_id d) regpkg_id SUBMISSIONSET_UNIQUEID_SCHEME
         (submission_id d);
       add_slot "submissionTime" [submission_time d] ]
     ++ when_slot "sourceId" (source_id obj)
     ++ when_slot "repositoryUniqueID" (repository_unique_id obj))%list.

Definition mime_of (obj : SOAPInput) : string := or_else (mime_type obj) "text/xml".

(** the [hash], [size] and [formatCode] slots of a document *)
Definition doc_slots_of (obj : SOAPInput) : list element :=
  match doc_bytes_of obj with
  | Some b =>
      let (h, size) := sha1_and_size b in
      let fmt :=
        if PyStr.contains "pdf" (PyStr.lower (or_else (mime_type obj) ""))
        then "urn:ihe:iti:xds-sd:pdf:2008"
        else "urn:ksa-ehealth:format:unknown" in
      [ add_slot "hash" [h]; add_slot "size" [size]; add_slot "formatCode" [fmt] ]
  | None => []
  end.

(** the [Document] element with the inline content *)
Definition doc_el_of (obj : SOAPInput) (d : drawn) : list element :=
  match doc_bytes_of obj with
  | Some b =>
      [ Element (bare "Document") [("id", doc_id d); ("mimeType", mime_of obj)]
          (PyStr (Base64.b64encode b)) [] ]
  | None => []
  end.

(** ExtrinsicObject (DocumentEntry) *)
Definition ex_of (obj : SOAPInput) (d : drawn) : element :=
  Element (in_ns NS_rim "ExtrinsicObject")
    [ ("id", doc_id d);
      ("objectType", or_else (object_type obj) OBJECTTYPE_ONDEMAND);
      ("mimeType", mime_of obj) ]
    PyNone
    ([ localized "Name" "Clinical Document";
       localized "Description" "Document (CDA or other)" ]
     ++ (if truthy (class_code obj)
         then [ classification "urn:ksa-ehealth:classcodes:2023"
                  (or_else (class_code obj) "") (cls_id d) ]
         else [])
     ++ (if truthy (type_code obj)
         then [ classification "urn:uuid:aa543740-bdda-424e-8c96-df4873be8500"
                  (or_else (type_code obj) "") (tcls_id d) ]
         else [])
     ++ [ external_identifier (ei_unique_id d) (doc_id d) UNIQUEID_SCHEME (doc_id d);
          external_identifier (ei_patient_id d) (doc_id d) UNIQUEID_SCHEME
            (patient_id obj) ]
     ++ (if truthy (source_id obj)
         then [ external_identifier (ei_src_id d) (doc_id d) UNIQUEID_SCHEME
                  (or_else (source_id obj) "") ]
         else [])
     ++ [ add_slot "creationTime" [creation d] ]
     ++ doc_slots_of obj
     ++ when_slot "practiceSettingCode" (practice_setting_code obj)
     ++ when_slot "repositoryUniqueID" (repository_unique_id obj))%list.

Definition assoc_of (d : drawn) : element :=
  Element (in_ns NS_rim "Association")
    [ ("id", assoc_id d); ("associationType", HAS_MEMBER);
      ("sourceObject", "rs." ++ submission_id d); ("targetObject", doc_id d);
      ("status", APPROVED) ]
    PyNone [].

(** the tree that [build_iti41_ebxml] has built when it reaches
    [ET.tostring] *)
Definition iti41_tree (obj : SOAPInput) (d : drawn) : element :=
  let rol :=
    Element (in_ns NS_rim "RegistryObjectList") [] PyNone
      [regpkg_of obj d; ex_of obj d; assoc_of d] in
  let sor := Element (in_ns NS_lcm "SubmitObjectsRequest") [] PyNone [rol] in
  let pr :=
    Element (in_ns NS_xds "ProvideAndRegisterDocumentSetRequest") [] PyNone
      (sor :: doc_el_of obj d) in
  let body := Element (in_ns NS_s "Body") [] PyNone [pr] in
  Element (in_ns NS_s "Envelope") [] PyNone [header_of obj d; body].

Definition build_iti41_tree (obj : SOAPInput) : M element :=
  (if negb (source_id_ok obj)
   then raise (HTTPException 400 ("source_id must start with " ++ NATIONAL_ORG_ROOT))
   else ret tt) ;;
  d <- draw obj ;;
  ret (iti41_tree obj d).

(** [build_iti41_ebxml]; the optional schema validation is a placeholder
    that does nothing *)
Definition build_iti41_ebxml (obj : SOAPInput) : M string :=
  root <- build_iti41_tree obj ;;
  lift (ET.tostring root).

(** ** SOAP fault builder *)

Definition build_soap_fault_tree (code reason : string) (detail : option string) : element :=
  Element (in_ns NS_s "Envelope") [] PyNone
    [ Element (in_ns NS_s "Body") [] PyNone
        [ Element (in_ns NS_s "Fault") [] PyNone
            ([ Element (bare "Code") [] PyNone
                 [ Element (bare "Value") [] (PyStr ("s:" ++ code)) [] ];
               Element (bare "Reason") [] PyNone
                 [ Element (bare "Text") [] (PyStr reason) [] ] ]
             ++ (if truthy detail
                 then [ Element (bare "Detail") [] PyNone
                          [ Element (bare "Error") [] (PyStr (or_else detail "")) [] ] ]
                 else []))%list ] ].

Definition build_soap_fault (code reason : string) (detail : option string) : result string :=
  ET.tostring (build_soap_fault_tree code reason detail).

(** ** MTOM/XOP *)

Module Re.

  (** The one regular expression of the program,
      [<Document id="ID"[^>]*>.*?</Document>] with [re.DOTALL], where [ID]
      is [re.escape(doc_id)] and so matches [doc_id] letter by letter. *)

  (** index of the first [c] *)
Fixpoint find_char (c : ascii) (s : string) : option nat :=
    match s with
    | EmptyString => None
    | String a r =>
        if Ascii.eqb a c then Some 0
        else option_map S (find_char c r)
    end.

  (** index of the first occurrence of [p] *)
Fixpoint find (p s : string) : option nat :=
    if String.prefix p s then Some 0
    else match s with
         | EmptyString => None
         | String _ r => option_map S (find p r)
         end.

Definition opening (doc_id : string) : string :=
    "<Document id=" ++ String PyStr.DQUOTE "" ++ doc_id ++ String PyStr.DQUOTE "".

Definition closing : string := "</Document>".

  (** the length of the match that starts at the head of [s], if there is
      one: the opening, the attributes up to the first [>], and the shortest
      text up to a closing tag *)
Definition match_here (doc_id : string) (s : string) : option nat :=
    let o := opening doc_id in
    if String.prefix o s then
      let after_o := PyStr.drop (String.length o) s in
      match find_char ">" after_o with
      | Some j =>
          let after_gt := PyStr.drop (S j) after_o in
          match find closing after_gt with
          | Some k => Some (String.length o + S j + k + String.length closing)
          | None => None
          end
      | None => None
      end
    else None.

  (** a replacement template, parsed *)
Inductive piece : Type :=
  | Lit (c : ascii)
  | Group0.

Definition is_octal (a : ascii) : bool :=
    let n := nat_of_ascii a in Nat.leb 48 n && Nat.leb n 55.

Definition is_letter (a : ascii) : bool :=
    let n := nat_of_ascii a in
    (Nat.leb 65 n && Nat.leb n 90) || (Nat.leb 97 n && Nat.leb n 122).

Definition octal_val (a : ascii) : nat := nat_of_ascii a - 48.

Definition escapes (c : ascii) : option ascii :=
    if Ascii.eqb c "a" then Some "007"%char
    else if Ascii.eqb c "b" then Some "008"%char
    else if Ascii.eqb c "f" then Some "012"%char
    else if Ascii.eqb c "n" then Some "010"%char
    else if Ascii.eqb c "r" then Some "013"%char
    else if Ascii.eqb c "t" then Some "009"%char
    else if Ascii.eqb c "v" then Some "011"%char
    else if Ascii.eqb c "\" then Some "\"%char
    else None.

  (** [str.isidentifier] below code point 256 *)
Definition xid_start (a : ascii) : bool :=
    let n := nat_of_ascii a in
    is_letter a || Nat.eqb n 95 || Nat.eqb n 170 || Nat.eqb n 181 || Nat.eqb n 186
    || (Nat.leb 192 n && Nat.leb n 214) || (Nat.leb 216 n && Nat.leb n 246)
    || Nat.leb 248 n.

Definition xid_continue (a : ascii) : bool :=
    xid_start a || PyStr.is_digit a || Nat.eqb (nat_of_ascii a) 183.

Fixpoint all_chars (f : ascii -> bool) (s : string) : bool :=
    match s with
    | EmptyString => true
    | String a r => f a && all_chars f r
    end.

Definition isidentifier (s : string) : bool :=
    match s with
    | EmptyString => false
    | String a r => xid_start a && all_chars xid_continue r
    end.

  (** the white space that [int] skips around a number *)
Definition int_space (a : ascii) : bool :=
    let n := nat_of_ascii a in
    (Nat.leb 9 n && Nat.leb n 13) || Nat.eqb n 32 || Nat.eqb n 133 || Nat.eqb n 160.

Fixpoint int_lstrip (s : string) : string :=
    match s with
    | EmptyString => EmptyString
    | String a r => if int_space a then int_lstrip r else s
    end.

Fixpoint int_rstrip (s : string) : string :=
    match s with
    | EmptyString => EmptyString
    | String a r =>
        match int_rstrip r with
        | EmptyString => if int_space a then EmptyString else String a EmptyString
        | r' => String a r'
        end
    end.

  (** zeros, with single underscores between them; [after_underscore] also
      stands for the start *)
Fixpoint zeros (after_underscore : bool) (s : string) : bool :=
    match s with
    | EmptyString => negb after_underscore
    | String a r =>
        if Ascii.eqb a "_" then negb after_underscore && zeros true r
        else if Ascii.eqb a "0" then zeros false r
        else false
    end.

  (** does [int(name)] return 0?  The sign is free: [-0] is 0. *)
Definition int_is_zero (name : string) : bool :=
    match int_rstrip (int_lstrip name) with
    | String "+" r => zeros true r
    | String "-" r => zeros true r
    | n => zeros true n
    end.

  (** [parse_template] of Python 3.11 for a pattern without groups, so that
      the only group is group 0, the whole match.  A name that is an
      identifier is looked up among the named groups, of which there are
      none: [IndexError]; the tokenizer reads one token ahead, so a lone
      backslash right behind the [>] is reported first.  Any other name
      is read by [int]; only 0 is a group of the pattern.  A name with a
      backslash in it is neither, whatever the tokenizer makes of it. *)
Fixpoint parse_template (fuel : nat) (s : string) : result (list piece) :=
    match fuel with
    | O => Ok []
    | S fuel' =>
        match s with
        | EmptyString => Ok []
        | String "\" EmptyString => Raise ReError
        | String "\" (String c r) =>
            if Ascii.eqb c "g" then
              match r with
              | String "<" r' =>
                  match find_char ">" r' with
                  | Some j =>
                      let name := PyStr.take j r' in
                      let rest := PyStr.drop (S j) r' in
                      if PyStr.is_empty name || PyStr.mem "\" name then Raise ReError
                      else if isidentifier name then
                        if String.eqb rest "\" then Raise ReError else Raise IndexError
                      else if int_is_zero name then
                        (try rest <- parse_template fuel' rest;
                         Ok (Group0 :: rest))%res
                      else Raise ReError
                  | None => Raise ReError
                  end
              | _ => Raise ReError
              end
            else if Ascii.eqb c "0" then
              match r with
              | String d1 (String d2 r') =>
                  if is_octal d1 && is_octal d2 then
                    (try rest <- parse_template fuel' r';
                     Ok (Lit (ascii_of_nat (8 * octal_val d1 + octal_val d2)) :: rest))%res
                  else if is_octal d1 then
                    (try rest <- parse_template fuel' (String d2 r');
                     Ok (Lit (ascii_of_nat (octal_val d1)) :: rest))%res
                  else
                    (try rest <- parse_template fuel' r;
                     Ok (Lit zero :: rest))%res
              | String d1 EmptyString =>
                  if is_octal d1 then Ok [Lit (ascii_of_nat (octal_val d1))]
                  else (try rest <- parse_template fuel' r; Ok (Lit zero :: rest))%res
              | EmptyString => Ok [Lit zero]
              end
            else if PyStr.is_digit c then
              match r with
              | String d1 (String d2 r') =>
                  if is_octal c && is_octal d1 && is_octal d2 then
                    let v := 64 * octal_val c + 8 * octal_val d1 + octal_val d2 in
                    if Nat.ltb 255 v
                    then Raise ReError
                    else (try rest <- parse_template fuel' r';
                          Ok (Lit (ascii_of_nat v) :: rest))%res
                  else Raise ReError
              | _ => Raise ReError
              end
            else
              match escapes c with
              | Some e =>
                  (try rest <- parse_template fuel' r; Ok (Lit e :: rest))%res
              | None =>
                  if is_letter c then Raise ReError
                  else (try rest <- parse_template fuel' r;
                        Ok (Lit "\"%char :: Lit c :: rest))%res
              end
        | String a r =>
            (try rest <- parse_template fuel' r; Ok (Lit a :: rest))%res
        end
    end.

Fixpoint expand (t : list piece) (whole : string) : string :=
    match t with
    | [] => ""
    | Lit c :: r => String c (expand r whole)
    | Group0 :: r => whole ++ expand r whole
    end.

  (** the scan of [re.sub]: [skip] characters of a match are still to be
      dropped *)
Fixpoint scan (doc_id : string) (t : list piece) (skip : nat) (s : string) : string :=
    match s with
    | EmptyString => EmptyString
    | String a r =>
        match skip with
        | S k => scan doc_id t k r
        | O =>
            match match_here doc_id s with
            | Some n => expand t (PyStr.take n s) ++ scan doc_id t (n - 1) r
            | None => String a (scan doc_id t 0 r)
            end
        end
    end.

  (** [re.sub(pattern, repl, s, flags=re.DOTALL)] *)
Definition sub (doc_id repl s : string) : result string :=
    (try t <- parse_template (S (String.length repl)) repl;
     Ok (scan doc_id t 0 s))%res.

End Re.

(** [build_iti41_mtom_envelope] *)
Definition xop_ref (doc_id : string) : string :=
  "<xop:Include href=" ++ String PyStr.DQUOTE "" ++ "cid:" ++ doc_id ++ "@example.com"
  ++ String PyStr.DQUOTE "" ++ " xmlns:xop=" ++ String PyStr.DQUOTE ""
  ++ "http://www.w3.org/2004/08/xop/include" ++ String PyStr.DQUOTE "" ++ "/>".

Definition build_iti41_mtom_envelope (xml_text doc_id mime_type : string) : result string :=
  Re.sub doc_id
    ("<Document id=" ++ String PyStr.DQUOTE "" ++ doc_id ++ String PyStr.DQUOTE ""
     ++ " mimeType=" ++ String PyStr.DQUOTE "" ++ mime_type ++ String PyStr.DQUOTE ""
     ++ ">" ++ xop_ref doc_id ++ "</Document>")
    xml_text.

(** one part of a [MultipartEncoder]: field name, file name, content,
    content type *)
Record part : Type := mk_part {
  field_name : string;
  filename : string;
  part_content : list byte;
  content_type : string
}.

Record multipart : Type := mk_multipart {
  boundary : string;
  parts : list part
}.

(** [create_mtom_multipart] *)
Definition create_mtom_multipart (xml_envelope : string) (doc_bytes : list byte)
    (mime_type doc_id : string) : M (multipart * list (string * string)) :=
  u <- uuid4 ;;
  let boundary := "uuid:" ++ u in
  let cid := doc_id ++ "@example.com" in
  let m :=
    mk_multipart boundary
      [ mk_part "rootpart" "envelope.xml" (utf8_encode xml_envelope)
          ("application/xop+xml; type=" ++ String PyStr.DQUOTE "" ++ "text/xml"
           ++ String PyStr.DQUOTE "" ++ "; charset=UTF-8");
        mk_part cid "document.bin" doc_bytes mime_type ] in
  let headers :=
    [ ("Content-Type",
       "multipart/related; type=" ++ String PyStr.DQUOTE "" ++ "application/xop+xml"
       ++ String PyStr.DQUOTE "" ++ "; boundary=" ++ String PyStr.DQUOTE "" ++ boundary
       ++ String PyStr.DQUOTE "") ] in
  ret (m, headers).

(** [MultipartEncoder.to_string()]: each part behind its boundary line and
    its two headers, then the closing boundary.  A field name and a file
    name are written as urllib3 (version 2) formats a parameter of a
    multipart header: line feed, carriage return and double quote are
    percent-encoded. *)
Definition CRLF : string := String PyStr.CR (String PyStr.LF "").

Fixpoint header_param (value : string) : string :=
  match value with
  | EmptyString => EmptyString
  | String a r =>
      (if Ascii.eqb a PyStr.LF then "%0A"
       else if Ascii.eqb a PyStr.CR then "%0D"
       else if Ascii.eqb a PyStr.DQUOTE then "%22"
       else String a "")
      ++ header_param r
  end.

Definition render_part (boundary : string) (p : part) : list byte :=
  (utf8_encode
     ("--" ++ boundary ++ CRLF
      ++ "Content-Disposition: form-data; name=" ++ String PyStr.DQUOTE ""
      ++ header_param (field_name p) ++ String PyStr.DQUOTE "" ++ "; filename="
      ++ String PyStr.DQUOTE "" ++ header_param (filename p) ++ String PyStr.DQUOTE ""
      ++ CRLF
      ++ (if PyStr.is_empty (content_type p) then ""
          else "Content-Type: " ++ content_type p ++ CRLF)
      ++ CRLF)
   ++ part_content p ++ utf8_encode CRLF)%list.

Definition to_string (m : multipart) : list byte :=
  (List.concat (map (render_part (boundary m)) (parts m))
   ++ utf8_encode ("--" ++ boundary m ++ "--" ++ CRLF))%list.

(** ** Endpoint *)

Inductive content : Type :=
| Text (s : string)
| Multipart (m : multipart).

Record Response : Type := mk_Response {
  body : content;
  media_type : string;
  status : Z
}.

(** [len(doc_bytes) / 1024.0 < 256]: the division by a power of two is
    exact, so the test is the test on the length *)
Definition below_threshold (doc_bytes : list byte) : bool :=
  Z.ltb (Z.of_nat (List.length doc_bytes)) (256 * 1024).

(** the [try] block of [api_json_to_iti41] *)
Definition json_to_iti41 (payload : SOAPInput) : M Response :=
  xml <- build_iti41_ebxml payload ;;
  if negb (truthy (document_base64 payload)) then
    ret (mk_Response (Text xml) "application/xml" 200)
  else
    let doc_bytes := document_bytes (or_else (document_base64 payload) "") in
    let doc_id := or_else (unique_id payload) "urn:uuid:doc-1" in
    if below_threshold doc_bytes then
      ret (mk_Response (Text xml) "application/xml" 200)
    else
      let mime := or_else (mime_type payload) "text/xml" in
      xml_xop <- lift (build_iti41_mtom_envelope xml doc_id mime) ;;
      mh <- create_mtom_multipart xml_xop doc_bytes mime doc_id ;;
      ret (mk_Response (Multipart (fst mh))
             (format_pyval (dict_get (map (fun kv => (fst kv, PyStr (snd kv))) (snd mh))
                              "Content-Type" PyNone))
             200).

(** [api_json_to_iti41]: an [HTTPException] goes on to the caller, any
    other exception becomes a SOAP fault whose detail is [str(e)], here
    [describe e] *)
Definition api_json_to_iti41 (describe : exn -> string) (payload : SOAPInput)
    (w : world) : result Response :=
  match run (json_to_iti41 payload) w with
  | Ok r => Ok r
  | Raise (HTTPException c d) => Raise (HTTPException c d)
  | Raise e =>
      (try fault_xml <- build_soap_fault "Receiver" "Processing Failure" (Some (describe e));
       Ok (mk_Response (Text fault_xml) "application/soap+xml" 500))%res
  end.

(** [needle in haystack] on bytes *)
Fixpoint bytes_prefix (p b : list byte) : bool :=
  match p, b with
  | [], _ => true
  | x :: p', y :: b' => Byte.eqb x y && bytes_prefix p' b'
  | _ :: _, [] => false
  end.

Fixpoint bytes_contains (p b : list byte) : bool :=
  if bytes_prefix p b then true
  else match b with
       | [] => false
       | _ :: r => bytes_contains p r
       end.

(** [res.body] *)
Definition body_bytes (r : Response) : list byte :=
  match body r with
  | Text s => utf8_encode s
  | Multipart m => to_string m
  end.

(** ** Validators of [SOAPInput] *)

(** [str.strip()] *)
Fixpoint lstrip (s : string) : string :=
  match s with
  | EmptyString => EmptyString
  | String a r => if PyStr.is_space a then lstrip r else s
  end.

Fixpoint rstrip (s : string) : string :=
  match s with
  | EmptyString => EmptyString
  | String a r =>
      match rstrip r with
      | EmptyString => if PyStr.is_space a then EmptyString else String a EmptyString
      | r' => String a r'
      end
  end.

Definition strip (s : string) : string := rstrip (lstrip s).

(** the text before the first [c], and the text from it on *)
Fixpoint span_until (c : ascii) (s : string) : string * string :=
  match s with
  | EmptyString => (EmptyString, EmptyString)
  | String a r =>
      if Ascii.eqb a c then (EmptyString, s)
      else let (x, y) := span_until c r in (String a x, y)
  end.

(** [patient_id_must_be_xds_format]: the stripped value, or [None] for the
    [ValueError].  The pattern is [^[^\^]+(\^\^\^&OID&ISO)$]; the stripped
    text ends with no line feed, so [$] is the end of the text. *)
Definition patient_id_must_be_xds_format (v : string) : option string :=
  if PyStr.is_empty v then None
  else
    let v' := strip v in
    let (local, rest) := span_until "^" v' in
    if negb (PyStr.is_empty local)
       && String.eqb rest ("^^^&" ++ ASSIGNING_AUTHORITY_HEALTH_ID ++ "&ISO")
    then Some v' else None.

(** [^\d{8,14}$]: the end may come before one last line feed *)
Definition hl7_ts_shape (v : string) : bool :=
  let body :=
    match PyStr.drop (String.length v - 1) v with
    | String a EmptyString =>
        if Ascii.eqb a PyStr.LF then PyStr.take (String.length v - 1) v else v
    | _ => v
    end in
  Iso.all_digits body && Nat.leb 8 (String.length body) && Nat.leb (String.length body) 14.

(** [creation_time_must_be_iso_or_hl7] *)
Definition creation_time_must_be_iso_or_hl7 (v : option string) : option (option string) :=
  if negb (truthy v) then Some v
  else
    match Iso.fromisoformat (PyStr.replace "Z" "+00:00" (or_else v "")) with
    | Some _ => Some v
    | None => if hl7_ts_shape (or_else v "") then Some v else None
    end.

(** [source_id_must_start_with_root] *)
Definition source_id_must_start_with_root (v : option string) : option (option string) :=
  if negb (truthy v) then Some v
  else if negb (PyStr.startswith NATIONAL_ORG_ROOT (or_else v "")) then None
  else Some v.

(** a [SOAPInput] as the validators leave it *)
Definition valid_SOAPInput (obj : SOAPInput) : Prop :=
  patient_id_must_be_xds_format (patient_id obj) = Some (patient_id obj)
  /\ creation_time_must_be_iso_or_hl7 (creation_time obj) = Some (creation_time obj)
  /\ source_id_must_start_with_root (source_id obj) = Some (source_id obj).

(** ** Observations used in the statements *)

(** a test holds of every number below [k] *)
Fixpoint all_below (k : nat) (f : nat -> bool) : bool :=
  match k with
  | O => true
  | S k' => f k' && all_below k' f
  end.

(** the width of a year as [strftime] prints it: four digits from the
    year 1000 on, fewer before *)
Definition year_width_ok (y : nat) : bool :=
  let n := String.length (decimal (N.of_nat y)) in
  if Nat.ltb y 1000 then Nat.ltb n 4 else Nat.eqb n 4.

(** the mapping of the escaper as the specification words it: each reserved
    character on its own, all at once *)
Definition escape_char (a : ascii) : string :=
  if Ascii.eqb a "|" then "\F\"
  else if Ascii.eqb a "^" then "\S\"
  else if Ascii.eqb a "&" then "\T\"
  else if Ascii.eqb a "~" then "\R\"
  else String a "".

Fixpoint escape_spec (s : string) : string :=
  match s with
  | EmptyString => EmptyString
  | String a r => escape_char a ++ escape_spec r
  end.

(** the name of a segment: its first field *)
Definition segment_name (seg : string) : string :=
  hd "" (PyStr.split "|" seg).

(** the segments the parser loops over *)
Definition segments_of (hl7_msg : string) : list string :=
  List.filter PyStr.strip_nonempty (PyStr.split PyStr.CR hl7_msg).

(** [n] field separators *)
Fixpoint pipes (n : nat) : string :=
  match n with
  | O => ""
  | S n' => String "|" (pipes n')
  end.

(** [result["patient"]["identifiers"]] *)
Definition patient_identifiers (r : jdict) : option json :=
  match jget "patient" r with
  | Some (JDict p) => jget "identifiers" p
  | _ => None
  end.

(** the elements of a tree with a given tag, in document order *)
Definition find_all (q : qname) (root : element) : list element :=
  List.filter (fun e => qname_eqb (tag_of e) q) (ET.iter root).

(** the values of the slot of that name among the children of an element *)
Definition slot_values (e : element) (name : string) : list (list string) :=
  map (fun s =>
         flat_map (fun vl =>
           flat_map (fun v => match text_of v with PyStr x => [x] | _ => [] end)
             (children_of vl)) (children_of s))
    (List.filter (fun c => qname_eqb (tag_of c) (in_ns NS_rim "Slot")
                           && match get c "name" with
                              | Some n => String.eqb n name
                              | None => false
                              end)
       (children_of e)).

Definition REGISTRY_PACKAGE : qname := in_ns NS_rim "RegistryPackage".
Definition EXTRINSIC_OBJECT : qname := in_ns NS_rim "ExtrinsicObject".
Definition ASSOCIATION : qname := in_ns NS_rim "Association".

(** the values of a [soap] header entry that [ET.tostring] can write *)
Definition writable (v : pyval) : bool :=
  match v with
  | PyOther _ b => negb b
  | _ => true
  end.

Definition soap_writable (obj : SOAPInput) : bool :=
  writable (dict_get (soap obj) "action" PyNone)
  && writable (dict_get (soap obj) "message_id" PyNone)
  && writable (dict_get (soap obj) "to" PyNone).

(** on one line, [sub_dob] keeps what stands before the first [-], [:] or
    [T] *)
Fixpoint before_stop (s : string) : string :=
  match s with
  | EmptyString => EmptyString
  | String a r => if dob_stop a then EmptyString else String a (before_stop r)
  end.

(** a world to run the examples in: the [n]-th draw gives the bits [n], and
    it is always 2025-01-02 03:04:05 *)
Definition example_world : world :=
  mk_world (fun n => N.of_nat n) (fun _ => mk_datetime 2025 1 2 3 4 5) 0 0.

(** the first identifier of the patient has another assigning authority
    than the health-ID one *)
Definition authority_mismatch (p : PatientModel) : Prop :=
  exists first rest,
    identifiers p = first :: rest
    /\ assigning_authority first <> Some ASSIGNING_AUTHORITY_HEALTH_ID.

(** the outcome is no [HTTPException] *)
Definition no_http (r : result (list string)) : Prop :=
  forall c d, r <> Raise (HTTPException c d).

Definition example_identifier (authority : string) : Identifier :=
  mk_Identifier "NHIC123456" (Some authority) None.

Definition example_patient (authority : string) : PatientModel :=
  mk_PatientModel [example_identifier authority]
    (Some "Doe") (Some "John") None (Some "19800101") (Some "M").

(** the input of the [/example] endpoint, with the assigning authority of
    the identifier left open *)
Definition example_hl7_input (authority : string) : HL7FullInput :=
  mk_HL7FullInput
    (mk_MessageModel "ADT^A01" (Some "2.16.840.1.113883.3.3731.example.ehr")
       (Some "HospitalA") None None (Some "2025-10-21T12:30:00Z")
       (Some "MSG0001") (Some HL7_VERSION))
    (example_patient authority)
    None None None None None None None None None.

(** the dict that [hl7_full_to_json] fills keeps its shape: [header] is a
    dict, [al1], [dg1], [pr1] are lists, [nk1], [gt1], [in1] are lists once
    they are there, and [visit] is [None] or a dict *)
Definition is_list_at (k : string) (r : jdict) : Prop :=
  exists l, jget k r = Some (JList l).

Definition is_list_or_absent (k : string) (r : jdict) : Prop :=
  jget k r = None \/ is_list_at k r.

Record wf (r : jdict) : Prop := mk_wf {
  wf_header : exists h, jget "header" r = Some (JDict h);
  wf_al1 : is_list_at "al1" r;
  wf_dg1 : is_list_at "dg1" r;
  wf_pr1 : is_list_at "pr1" r;
  wf_nk1 : is_list_or_absent "nk1" r;
  wf_gt1 : is_list_or_absent "gt1" r;
  wf_in1 : is_list_or_absent "in1" r;
  wf_visit : jget "visit" r = Some JNone \/ exists d, jget "visit" r = Some (JDict d)
}.

(** a segment that opens with one of the given names and a separator *)
Definition named (names : list string) (seg : string) : Prop :=
  exists name x, In name names /\ seg = name ++ String "|" x.

(** the segments that touch neither [patient] nor [visit] *)
Definition neutral_names : list string :=
  ["PD1"; "MRG"; "AL1"; "DG1"; "PR1"; "NK1"; "GT1"; "IN1"].

(** the carriage return that joins the segments *)
Definition CRs : string := String PyStr.CR "".

(** field 3 of the PID segment for an identifier under the health-ID
    authority *)
Definition pid3_of (i : Identifier) : string :=
  id i ++ "^^^" ++ ASSIGNING_AUTHORITY_HEALTH_ID ++ "^ISO".

(** the PV1 and PV2 segments of a visit, or nothing *)
Definition visit_part (l : list string) : Prop :=
  l = [] \/ exists a b, l = ["PV1" ++ String "|" a; "PV2" ++ String "|" b].

(** the three kinds of registry objects of a submission *)
Definition registry_tags : list qname :=
  [REGISTRY_PACKAGE; EXTRINSIC_OBJECT; ASSOCIATION].

(** a computation that returns in every world *)
Definition total {A : Type} (c : M A) : Prop :=
  forall w, exists a w1, c w = Ok (a, w1).

(** the input of the [/example] endpoint for ITI-41; its [message_id],
    which the endpoint draws anew for each call, is one such value *)
Definition example_iti41_input : SOAPInput :=
  mk_SOAPInput
    [ ("action", PyStr "urn:ihe:iti:2007:ProvideAndRegisterDocumentSet-b");
      ("message_id", PyStr "4b5f6a70-0000-4000-8000-000000000000");
      ("to", PyStr "https://nphies.example/iti41") ]
    (Some "https://repo.example")
    ("NHIC123456^^^&" ++ ASSIGNING_AUTHORITY_HEALTH_ID ++ "&ISO")
    (Some "REPORTS") (Some "11369-6") None (Some "urn:uuid:doc-1") None
    (Some "ZG9jdW1lbnRjb250ZW50") (Some "text/xml")
    (Some "20251021T123000Z")
    (Some (NATIONAL_ORG_ROOT ++ ".12345"))
    (Some (NATIONAL_ORG_ROOT ++ ".repo.1")).

(** ** Observations on a response *)

(** 262144 bytes, each the letter A, in base64 *)
Definition large_document : string :=
  Base64.b64encode (repeat Byte.x41 (N.to_nat 262144)).

(** the request of the repository's own MTOM test, with a document of
    exactly 256 KiB and the [unique_id] given as an argument *)
Definition large_document_input (unique_id : option string) : SOAPInput :=
  mk_SOAPInput
    [ ("action", PyStr "urn:ihe:iti:2007:ProvideAndRegisterDocumentSet-b");
      ("message_id", PyStr "mid-2");
      ("to", PyStr "https://repo.example") ]
    (Some "https://repo.example")
    ("NHIC123^^^&" ++ ASSIGNING_AUTHORITY_HEALTH_ID ++ "&ISO")
    None None None unique_id None
    (Some large_document) (Some "text/xml")
    (Some "20251021T123000Z")
    (Some (NATIONAL_ORG_ROOT ++ ".source"))
    (Some (NATIONAL_ORG_ROOT ++ ".repo")).

(** the field names of the parts of a multipart response *)
Definition part_names (r : Response) : list string :=
  match body r with
  | Multipart m => map field_name (parts m)
  | Text _ => []
  end.

(** the content of the first part of a multipart response *)
Definition root_part (r : Response) : list byte :=
  match body r with
  | Multipart m =>
      match parts m with
      | p :: _ => part_content p
      | [] => []
      end
  | Text _ => []
  end.

(** the opening tag of the [Document] element as [build_iti41_ebxml] writes
    it, and the first letters of the inline content of [large_document] *)
Definition inline_document (doc_id mime : string) : string :=
  Re.opening doc_id ++ " mimeType=" ++ String PyStr.DQUOTE "" ++ mime
  ++ String PyStr.DQUOTE "" ++ ">QUFBQUFB".

(** what a computation returns, when it returns *)
Definition yields {A : Type} (P : A -> Prop) (c : M A) : Prop :=
  forall w a w1, c w = Ok (a, w1) -> P a.

(** an identifier that [uuid.uuid4] made *)
Definition generated (s : string) : Prop :=
  exists v, s = "urn:uuid:" ++ uuid_str v.

(** * Further observations *)

(** ** The parser as a whole *)

(** is the first segment named PV1 or PV2 a PV2 segment? *)
Fixpoint early_pv2 (segments : list string) : bool :=
  match segments with
  | [] => false
  | seg :: rest =>
      if String.eqb (segment_name seg) "PV2" then true
      else if String.eqb (segment_name seg) "PV1" then false
      else early_pv2 rest
  end.

(** the key of the result that a segment of a given name writes to *)
Definition key_of (name : string) : option string :=
  if String.eqb name "MSH" then Some "header"
  else if String.eqb name "EVN" then Some "header"
  else if String.eqb name "PID" then Some "patient"
  else if String.eqb name "PD1" then Some "pd1"
  else if String.eqb name "PV1" then Some "visit"
  else if String.eqb name "PV2" then Some "visit"
  else if String.eqb name "MRG" then Some "mrg"
  else if String.eqb name "AL1" then Some "al1"
  else if String.eqb name "DG1" then Some "dg1"
  else if String.eqb name "PR1" then Some "pr1"
  else if String.eqb name "NK1" then Some "nk1"
  else if String.eqb name "GT1" then Some "gt1"
  else if String.eqb name "IN1" then Some "in1"
  else None.

(** the fields of a segment taken at the given positions, absent ones
    empty *)
Definition taken (keys : list (string * nat)) (seg : string) : json :=
  JDict (map (fun ki => (fst ki, JStr (nth (snd ki) (PyStr.split "|" seg) ""))) keys).

(** the segments of a given name, in message order *)
Definition segments_named (name : string) (segments : list string) : list string :=
  List.filter (fun seg => String.eqb (segment_name seg) name) segments.

(** the repeating segments: their name, the key they are collected under,
    and the fields kept of each *)
Definition repeating : list (string * (string * list (string * nat))) :=
  [ ("AL1", ("al1", [ ("allergen", 3); ("reaction", 4) ]));
    ("DG1", ("dg1", [ ("code", 3); ("desc", 4) ]));
    ("PR1", ("pr1", [ ("code", 2); ("desc", 3) ]));
    ("NK1", ("nk1", [ ("name", 2); ("relationship", 3); ("phone_number", 4) ]));
    ("GT1", ("gt1", [ ("guarantor_number", 1); ("guarantor_name", 2);
                      ("guarantor_address", 3); ("guarantor_phone", 4) ]));
    ("IN1", ("in1", [ ("insurance_plan_id", 1); ("insurance_company_id", 2);
                      ("insurance_company_name", 3); ("insured_id", 4);
                      ("insured_name", 5) ])) ].

(** the list stored under a key, empty when the key is absent *)
Definition list_at (k : string) (r : jdict) : list json :=
  match jget k r with
  | Some (JList l) => l
  | _ => []
  end.

(** what the parser stores for a PID segment *)
Definition pid_entry (seg : string) : json :=
  let fields := PyStr.split "|" seg in
  JDict [ ("identifiers", JList [JStr (nth 3 fields "")]);
          ("name", JStr (nth 5 fields "")); ("dob", JStr (nth 7 fields ""));
          ("sex", JStr (nth 8 fields "")) ].

(** the segments whose entry replaces the one stored before: their name,
    their key, and what is stored *)
Definition replacing : list (string * (string * (string -> json))) :=
  [ ("PID", ("patient", pid_entry));
    ("PD1", ("pd1", taken [ ("vip", 1); ("prior_ids", 2) ]));
    ("MRG", ("mrg", taken [ ("prior_patient_id", 1); ("prior_visit", 4) ])) ].

(** ** The builder as a whole *)

(** a value that [escape_hl7_field] accepts: [None] or a [str] *)
Definition escapable (v : pyval) : bool :=
  match v with
  | PyOther _ _ => false
  | _ => true
  end.

Definition al1_escapable (a : pydict) : bool :=
  escapable (dict_get a "allergen" (PyStr ""))
  && escapable (dict_get a "reaction" (PyStr ""))
  && escapable (dict_get a "severity" (PyStr "")).

Definition dg1_escapable (d : pydict) : bool :=
  escapable (dict_get d "diagnosis_desc" (PyStr "")).

Definition pr1_escapable (p : pydict) : bool :=
  escapable (dict_get p "procedure_desc" (PyStr "")).

(** every value that the builder escapes in the [al1], [dg1] and [pr1]
    records is [None] or a [str] *)
Definition records_escapable (payload : HL7FullInput) : bool :=
  forallb al1_escapable (nonempty (al1 payload))
  && forallb dg1_escapable (nonempty (dg1 payload))
  && forallb pr1_escapable (nonempty (pr1 payload)).

(** the [/example] message with one allergy, whose allergen is the number
    5 and not a text *)
Definition example_numeric_allergen : HL7FullInput :=
  mk_HL7FullInput
    (header (example_hl7_input ASSIGNING_AUTHORITY_HEALTH_ID))
    (example_patient ASSIGNING_AUTHORITY_HEALTH_ID)
    None None None
    (Some [ [ ("allergen", PyOther "5" true) ] ])
    None None None None None.

(** the PD1 and MRG segments of a message, when it has them *)
Definition pd1_part (payload : HL7FullInput) : list string :=
  match pd1 payload with
  | Some p => [build_pd1 p]
  | None => []
  end.

Definition mrg_part (payload : HL7FullInput) : list string :=
  match mrg payload with
  | Some (e :: m) => [build_mrg (e :: m)]
  | _ => []
  end.

(** the names of the segments that follow MSH, EVN and PID, in the order
    of the builder *)
Definition optional_names (payload : HL7FullInput) : list string :=
  (match pd1 payload with Some _ => ["PD1"] | None => [] end
   ++ match visit payload with Some _ => ["PV1"; "PV2"] | None => [] end
   ++ match mrg payload with Some (_ :: _) => ["MRG"] | _ => [] end
   ++ repeat "AL1" (List.length (nonempty (al1 payload)))
   ++ repeat "DG1" (List.length (nonempty (dg1 payload)))
   ++ repeat "PR1" (List.length (nonempty (pr1 payload)))
   ++ repeat "NK1" (List.length (nonempty (nk1 payload)))
   ++ repeat "GT1" (List.length (nonempty (gt1 payload)))
   ++ repeat "IN1" (List.length (nonempty (in1 payload))))%list.

(** the names of the segments of a message *)
Definition segment_names (payload : HL7FullInput) : list string :=
  "MSH" :: "EVN" :: "PID" :: optional_names payload.

(** no carriage return in any of the segments *)
Definition one_line_each (segments : list string) : Prop :=
  Forall (fun seg => PyStr.mem PyStr.CR seg = false) segments.

(** ** What the parser reads back from a built message *)

(** a text with no field separator in it *)
Definition plain (s : string) : Prop := PyStr.mem "|" s = false.

(** the texts that [build_msh] writes unescaped *)
Definition header_plain (hdr : MessageModel) : Prop :=
  Forall plain
    [ or_else (sending_app_oid hdr) ""; or_else (sending_facility hdr) "";
      or_else (receiving_app hdr) ""; or_else (receiving_facility hdr) "";
      event hdr; or_else (message_control_id hdr) "";
      or_else (version hdr) HL7_VERSION ].

(** the header the parser returns for a built message with the given time
    stamps and control id *)
Definition decoded_header (hdr : MessageModel) (dt ctrl evn_time : string) : json :=
  JDict [ ("sending_app_oid", JStr (or_else (sending_app_oid hdr) ""));
          ("sending_facility", JStr (or_else (sending_facility hdr) ""));
          ("receiving_app", JStr (or_else (receiving_app hdr) ""));
          ("receiving_facility", JStr (or_else (receiving_facility hdr) ""));
          ("message_datetime", JStr dt);
          ("event", JStr (event hdr));
          ("message_control_id", JStr ctrl);
          ("version", JStr (or_else (version hdr) HL7_VERSION));
          ("evn", JStr (evn_code_of (event hdr)));
          ("evn_datetime", JStr evn_time) ].

(** the texts that [json_to_hl7_full] writes unescaped into PV1 *)
Definition visit_plain (v : VisitModel) : Prop :=
  Forall plain
    [ or_else (patient_class v) ""; or_else (location v) "";
      or_else (attending_doctor_id v) ""; or_else (attending_doctor_family v) "";
      or_else (attending_doctor_given v) ""; or_else (visit_number v) "" ].

(** the visit the parser returns for a built message *)
Definition decoded_visit (v : VisitModel) (admission discharge : string) : json :=
  JDict [ ("patient_class", JStr (or_else (patient_class v) ""));
          ("location", JStr (or_else (location v) ""));
          ("attending_doctor", JStr "");
          ("visit_number", JStr "");
          ("admit", JStr admission);
          ("discharge", JStr discharge) ].

(** the entries the parser returns for the records of a built message *)
Definition decoded_nk1 (nk : NK1Model) : json :=
  JDict [ ("name", JStr (escape_str (or_else (name nk) "")));
          ("relationship", JStr (escape_str (or_else (relationship nk) "")));
          ("phone_number", JStr (escape_str (or_else (phone_number nk) ""))) ].

Definition decoded_gt1 (gt : GT1Model) : json :=
  JDict [ ("guarantor_number", JStr (escape_str (or_else (guarantor_number gt) "")));
          ("guarantor_name", JStr (escape_str (or_else (guarantor_name gt) "")));
          ("guarantor_address", JStr (escape_str (or_else (guarantor_address gt) "")));
          ("guarantor_phone", JStr (escape_str (or_else (guarantor_phone gt) ""))) ].

Definition decoded_in1 (ins : IN1Model) : json :=
  JDict [ ("insurance_plan_id", JStr (escape_str (or_else (insurance_plan_id ins) "")));
          ("insurance_company_id", JStr (escape_str (or_else (insurance_company_id ins) "")));
          ("insurance_company_name",
           JStr (escape_str (or_else (insurance_company_name ins) "")));
          ("insured_id", JStr (escape_str (or_else (insured_id ins) "")));
          ("insured_name", JStr (escape_str (or_else (insured_name ins) ""))) ].

(** the escaped text of a value that [escape_hl7_field] accepts *)
Definition escaped (v : pyval) : string :=
  match escape_hl7_field v with
  | Ok s => s
  | Raise _ => ""
  end.

Definition decoded_al1 (a : pydict) : json :=
  JDict [ ("allergen", JStr (escaped (dict_get a "allergen" (PyStr ""))));
          ("reaction", JStr (escaped (dict_get a "reaction" (PyStr "")))) ].

(** a list stored under a key that is there only when the list is not
    empty *)
Definition list_if_any (l : list json) : option json :=
  match l with
  | [] => None
  | _ => Some (JList l)
  end.

(** the segments of the [/example] input, as [json_to_hl7_full] writes
    them *)
Definition example_segments : list string :=
  [ "MSH|^~\&|2.16.840.1.113883.3.3731.example.ehr|HospitalA|||20251021123000||ADT^A01|MSG0001|P|2.5.1";
    "EVN|A01|20251021123000";
    "PID|1||NHIC123456^^^2.16.840.1.113883.3.3731.1.1.100.1^ISO||Doe^John^||19800101|M" ].

(** the patient the parser returns for a built message: one identifier,
    the whole field 3, and the name as it was escaped *)
Definition decoded_patient (p : PatientModel) : json :=
  JDict [ ("identifiers",
           JList [JStr match identifiers p with
                       | first :: _ => pid3_of first
                       | [] => ""
                       end]);
          ("name",
           JStr (if truthy (name_family p) || truthy (name_given p)
                    || truthy (middle_name p)
                 then escape_str (or_else (name_family p) "") ++ "^"
                      ++ escape_str (or_else (name_given p) "") ++ "^"
                      ++ escape_str (or_else (middle_name p) "")
                 else ""));
          ("dob", JStr (or_else (dob p) ""));
          ("sex", JStr (or_else (sex p) "")) ].

(** the texts that [build_pid] writes unescaped *)
Definition patient_plain (p : PatientModel) : Prop :=
  Forall plain
    [ match identifiers p with
      | first :: _ => id first
      | [] => ""
      end;
      or_else (dob p) ""; or_else (sex p) "" ].

(** a message with a visit, an allergy and a next of kin *)
Definition example_visit : VisitModel :=
  mk_VisitModel (Some "I") (Some "Ward 1") None None None
    (Some "D42") (Some "House") (Some "Greg") (Some "V0007")
    (Some "2025-10-20T08:00:00Z") None.

Definition example_full_input : HL7FullInput :=
  mk_HL7FullInput
    (header (example_hl7_input ASSIGNING_AUTHORITY_HEALTH_ID))
    (example_patient ASSIGNING_AUTHORITY_HEALTH_ID)
    None (Some example_visit) None
    (Some [ [ ("allergen", PyStr "Pea|nut"); ("reaction", PyStr "Rash");
              ("severity", PyStr "High") ] ])
    None None
    (Some [ mk_NK1Model (Some "Jane Doe") (Some "Spouse") None ])
    None None.

Definition example_full_segments : list string :=
  Eval vm_compute in
    match run (hl7_segments example_full_input) example_world with
    | Ok segments => segments
    | Raise _ => []
    end.

(** ** The ITI-41 builder and its endpoint *)

(** the error of the check that opens [build_iti41_ebxml] *)
Definition source_id_error : exn :=
  HTTPException 400 ("source_id must start with " ++ NATIONAL_ORG_ROOT).

(** the response that carries a SOAP fault *)
Definition is_fault_of (describe : exn -> string) (e : exn) (r : Response) : Prop :=
  status r = 500%Z
  /\ media_type r = "application/soap+xml"
  /\ exists fault_xml,
       build_soap_fault "Receiver" "Processing Failure" (Some (describe e)) = Ok fault_xml
       /\ body r = Text fault_xml.

(** ** The MTOM envelope *)

(** a text with no backslash, which a replacement template copies as it
    is *)
Definition no_backslash (s : string) : Prop := PyStr.mem "\" s = false.

(** the [Document] element that [build_iti41_mtom_envelope] writes in place
    of the one it finds *)
Definition xop_document (doc_id mime_type : string) : string :=
  Re.opening doc_id ++ " mimeType=" ++ String PyStr.DQUOTE "" ++ mime_type
  ++ String PyStr.DQUOTE "" ++ ">" ++ xop_ref doc_id ++ Re.closing.

(** ** The HL7 endpoints *)

(** [body.get(k)] on a [Dict[str, str]] *)
Fixpoint body_get (body : list (string * string)) (k : string) : option string :=
  match body with
  | [] => None
  | (k', v) :: r => if String.eqb k' k then Some v else body_get r k
  end.

(** [api_json_to_hl7]: an [HTTPException] goes on to the caller, any other
    exception becomes a 500 whose detail is [str(e)], here [describe e] *)
Definition api_json_to_hl7 (describe : exn -> string) (payload : HL7FullInput)
    (w : world) : result jdict :=
  match run (json_to_hl7_full payload) w with
  | Ok hl7 => Ok [("hl7", JStr hl7)]
  | Raise (HTTPException c d) => Raise (HTTPException c d)
  | Raise e => Raise (HTTPException 500 (describe e))
  end.

(** [api_hl7_to_json] *)
Definition api_hl7_to_json (describe : exn -> string) (body : list (string * string))
    : result jdict :=
  let hl7_msg := body_get body "hl7" in
  if negb (truthy hl7_msg) then Raise (HTTPException 400 "Provide 'hl7' field")
  else
    match hl7_full_to_json (or_else hl7_msg "") with
    | Ok parsed => Ok [("json", JDict parsed)]
    | Raise (HTTPException c d) => Raise (HTTPException c d)
    | Raise e => Raise (HTTPException 500 (describe e))
    end.

(** ** ITI-41 parser *)

(** an element as [ET.iterparse] builds it: the tag in Clark notation,
    [{uri}local], the attributes, the text ([None] when there is none) and
    the children *)
Inductive xml : Type :=
| Xml (tag : string) (attrib : list (string * string)) (text : option string)
      (children : list xml).

Definition xml_tag (e : xml) : string := let (t, _, _, _) := e in t.
Definition xml_attrib (e : xml) : list (string * string) := let (_, a, _, _) := e in a.
Definition xml_text (e : xml) : option string := let (_, _, x, _) := e in x.
Definition xml_children (e : xml) : list xml := let (_, _, _, c) := e in c.

(** [s.split(c, 1)[1]] when [c] is in [s] *)
Fixpoint after_first (c : ascii) (s : string) : string :=
  match s with
  | EmptyString => EmptyString
  | String a r => if Ascii.eqb a c then r else after_first c r
  end.

(** the tag once the loop over the parse events has cut the namespace off *)
Definition local_name (tag : string) : string :=
  if PyStr.mem "}" tag then after_first "}" tag else tag.

Fixpoint strip_namespaces (e : xml) : xml :=
  match e with
  | Xml t a x c => Xml (local_name t) a x (map strip_namespaces c)
  end.

(** [e.iter()]: the element and all below it, in document order *)
Fixpoint xml_iter (e : xml) : list xml :=
  match e with
  | Xml _ _ _ c => e :: flat_map xml_iter c
  end.

(** [e.findall(".//tag")]: the elements of that tag below [e], [e] itself
    left out, and [e.find(".//tag")], the first of them *)
Definition findall (tag : string) (e : xml) : list xml :=
  List.filter (fun x => String.eqb (xml_tag x) tag) (flat_map xml_iter (xml_children e)).

Definition find (tag : string) (e : xml) : option xml :=
  hd_error (findall tag e).

(** the text of the first [Value] below an element, when there is one and
    it is not empty: [v_el is not None and v_el.text] *)
Definition value_text (e : xml) : option string :=
  match find "Value" e with
  | Some v =>
      match xml_text v with
      | Some s => if PyStr.is_empty s then None else Some s
      | None => None
      end
  | None => None
  end.

(** the value of [e.get(k)] as it is stored in the result *)
Definition get_json (e : xml) (k : string) : json :=
  match attr_get k (xml_attrib e) with
  | Some s => JStr s
  | None => JNone
  end.

(** the loop over the slots of the [ExtrinsicObject] *)
Definition slots_into (slots : list xml) (out : jdict) : jdict :=
  fold_left
    (fun out slot =>
       match attr_get "name" (xml_attrib slot), value_text slot with
       | Some name, Some t => if PyStr.is_empty name then out else jset name (JStr t) out
       | _, _ => out
       end)
    slots out.

(** the loop over the slots of the [RegistryPackage] *)
Definition submission_time_into (slots : list xml) (out : jdict) : jdict :=
  fold_left
    (fun out slot =>
       if opt_string_eqb (attr_get "name" (xml_attrib slot)) "submissionTime" then
         match value_text slot with
         | Some t => jset "submissionTime" (JStr t) out
         | None => out
         end
       else out)
    slots out.

(** what [iti41_xml_to_json] reads off the tree, the namespaces cut off *)
Definition extract (root : xml) : jdict :=
  let out :=
    match find "ExtrinsicObject" root with
    | Some extrinsic =>
        let out := jset "document_id" (get_json extrinsic "id") [] in
        let out := jset "mimeType" (get_json extrinsic "mimeType") out in
        let out := jset "objectType" (get_json extrinsic "objectType") out in
        let vals :=
          flat_map (fun ei => match value_text ei with
                              | Some t => [JStr t]
                              | None => []
                              end)
            (findall "ExternalIdentifier" extrinsic) in
        let out := jset "externalIdentifiers" (JList vals) out in
        slots_into (findall "Slot" extrinsic) out
    | None => []
    end in
  match find "RegistryPackage" root with
  | Some regpkg => submission_time_into (findall "Slot" regpkg) out
  | None => out
  end.

(** [iti41_xml_to_json], with [ET.iterparse] as [iterparse] and [str(e)] as
    [describe e]: whatever is raised becomes a 500 *)
Definition iti41_xml_to_json (iterparse : string -> result xml)
    (describe : exn -> string) (xml_text : string) : result jdict :=
  match iterparse xml_text with
  | Ok root => Ok (extract (strip_namespaces root))
  | Raise e => Raise (HTTPException 500 ("Failed to parse ITI-41 XML: " ++ describe e))
  end.

(** [api_iti41_to_json] *)
Definition api_iti41_to_json (iterparse : string -> result xml)
    (describe : exn -> string) (body : list (string * string)) : result jdict :=
  let xml := body_get body "xml" in
  if negb (truthy xml) then Raise (HTTPException 400 "Provide 'xml' field")
  else
    match iti41_xml_to_json iterparse describe (or_else xml "") with
    | Ok out => Ok [("json", JDict out)]
    | Raise (HTTPException c d) => Raise (HTTPException c d)
    | Raise e => Raise (HTTPException 500 (describe e))
    end.

(** the tree that a parser builds from the text that [ET.tostring] writes
    for a tree: a qualified tag in Clark notation, the attributes as they
    are, and the text when one was written *)
Definition clark (q : qname) : string :=
  match q_ns q with
  | Some n => "{" ++ uri_of n ++ "}" ++ q_local q
  | None => q_local q
  end.

Fixpoint read_back (e : element) : xml :=
  match e with
  | Element t a x c =>
      Xml (clark t) a
        (match x with
         | PyStr s => if PyStr.is_empty s then None else Some s
         | _ => None
         end)
        (map read_back c)
  end.

(** what [iti41_xml_to_json] returns for a submission that
    [build_iti41_ebxml] wrote *)
Definition read_submission (obj : SOAPInput) (d : drawn) : jdict :=
  ([ ("document_id", JStr (doc_id d));
     ("mimeType", JStr (mime_of obj));
     ("objectType", JStr (or_else (object_type obj) OBJECTTYPE_ONDEMAND));
     ("externalIdentifiers",
      JList ([JStr (doc_id d); JStr (patient_id obj)]
             ++ (if truthy (source_id obj) then [JStr (or_else (source_id obj) "")]
                 else [])));
     ("creationTime", JStr (creation d)) ]
   ++ match doc_bytes_of obj with
      | Some b =>
          [ ("hash", JStr (fst (sha1_and_size b)));
            ("size", JStr (snd (sha1_and_size b)));
            ("formatCode",
             JStr (if PyStr.contains "pdf" (PyStr.lower (or_else (mime_type obj) ""))
                   then "urn:ihe:iti:xds-sd:pdf:2008"
                   else "urn:ksa-ehealth:format:unknown")) ]
      | None => []
      end
   ++ (if truthy (practice_setting_code obj)
       then [("practiceSettingCode", JStr (or_else (practice_setting_code obj) ""))]
       else [])
   ++ (if truthy (repository_unique_id obj)
       then [("repositoryUniqueID", JStr (or_else (repository_unique_id obj) ""))]
       else [])
   ++ [ ("submissionTime", JStr (submission_time d)) ])%list.

(** what the builder draws for the [/example] input in the example world,
    and the XML text it writes *)
Definition example_drawn : drawn :=
  Eval vm_compute in
    match draw example_iti41_input example_world with
    | Ok (d, _) => d
    | Raise _ => mk_drawn "" "" "" "" "" "" "" "" "" "" "" ""
    end.

Definition example_iti41_xml : string :=
  Eval vm_compute in
    match ET.tostring (iti41_tree example_iti41_input example_drawn) with
    | Ok xml_text => xml_text
    | Raise _ => ""
    end.

(** ** The text of a written tree *)

(** the loop of the writer over the children of an element *)
Fixpoint serialize_all (l : list element) : result string :=
  match l with
  | [] => Ok ""
  | y :: r =>
      (try s <- ET.serialize "" y;
       try rest <- serialize_all r;
       Ok (s ++ rest))%res
  end.

(** a text in which no [<] stands before a [D] or at the very end, so that
    no [<Document] starts in it, whatever follows *)
Fixpoint no_open_D (s : string) : bool :=
  match s with
  | EmptyString => true
  | String a r =>
      (if Ascii.eqb a "<"
       then match r with
            | String b _ => negb (Ascii.eqb b "D")
            | EmptyString => false
            end
       else true)
      && no_open_D r
  end.

(** an element below which every tag is qualified and no attribute name
    holds a [<] *)
Fixpoint qualified (e : element) : bool :=
  match e with
  | Element t a _ c =>
      match q_ns t with
      | Some _ => negb (PyStr.mem "<" (q_local t))
      | None => false
      end
      && forallb (fun kv => negb (PyStr.mem "<" (fst kv))) a
      && forallb qualified c
  end.

(** what the writer puts before and behind the [Document] element of a
    submission *)
Definition before_document (obj : SOAPInput) (d : drawn) : result string :=
  (try hx <- ET.serialize "" (header_of obj d);
   try rx <- ET.serialize ""
               (Element (in_ns NS_lcm "SubmitObjectsRequest") [] PyNone
                  [ Element (in_ns NS_rim "RegistryObjectList") [] PyNone
                      [regpkg_of obj d; ex_of obj d; assoc_of d] ]);
   Ok ("<?xml version='1.0' encoding='utf-8'?>" ++ String PyStr.LF ""
       ++ "<s:Envelope" ++ ET.declarations (iti41_tree obj d) ++ ">"
       ++ hx ++ "<s:Body><xds:ProvideAndRegisterDocumentSetRequest>" ++ rx))%res.

Definition after_document : string :=
  "</xds:ProvideAndRegisterDocumentSetRequest></s:Body></s:Envelope>".

(** the attributes that follow the id in the written [Document] element *)
Definition document_attributes (mime_type : string) : string :=
  " mimeType=" ++ String PyStr.DQUOTE "" ++ ET.escape_attrib mime_type
  ++ String PyStr.DQUOTE "".

(** ** The coded records and the single segments of a built message *)

(** the texts that [json_to_hl7_full] writes unescaped into a DG1 and a
    PR1 segment *)
Definition dg1_plain (d : pydict) : Prop :=
  Forall plain
    [ format_pyval (dict_get d "set_id" (PyStr "1"));
      format_pyval (dict_get d "diagnosis_type" (PyStr ""));
      format_pyval (dict_get d "diagnosis_code" (PyStr "")) ].

Definition pr1_plain (p : pydict) : Prop :=
  Forall plain
    [ format_pyval (dict_get p "set_id" (PyStr "1"));
      format_pyval (dict_get p "procedure_code" (PyStr "")) ].

(** the entries the parser returns for a [dg1] and a [pr1] record *)
Definition decoded_dg1 (d : pydict) : json :=
  JDict [ ("code", JStr (format_pyval (dict_get d "diagnosis_code" (PyStr ""))));
          ("desc", JStr (escaped (dict_get d "diagnosis_desc" (PyStr "")))) ].

Definition decoded_pr1 (p : pydict) : json :=
  JDict [ ("code", JStr (format_pyval (dict_get p "procedure_code" (PyStr ""))));
          ("desc", JStr (escaped (dict_get p "procedure_desc" (PyStr "")))) ].

(** field 2 of the PD1 segment: the prior identifiers joined by [~] *)
Definition prior_ids_of (p : PD1Model) : string :=
  match nonempty (prior_patient_ids p) with
  | [] => ""
  | ids => PyStr.join "~" (map format_identifier ids)
  end.

(** the texts that [json_to_hl7_full] writes into PD1 and MRG, all of them
    unescaped *)
Definition pd1_plain (p : option PD1Model) : Prop :=
  match p with
  | Some p => Forall plain [ or_else (vip_indicator p) ""; prior_ids_of p ]
  | None => True
  end.

Definition mrg_plain (m : option pydict) : Prop :=
  match m with
  | Some m =>
      Forall plain
        [ format_pyval (dict_get m "prior_patient_id" (PyStr ""));
          format_pyval (dict_get m "prior_visit_number" (PyStr "")) ]
  | None => True
  end.

(** what the parser returns under [pd1] and [mrg] for a built message *)
Definition decoded_pd1 (p : option PD1Model) : json :=
  match p with
  | Some p =>
      JDict [ ("vip", JStr (or_else (vip_indicator p) ""));
              ("prior_ids", JStr (prior_ids_of p)) ]
  | None => JNone
  end.

Definition decoded_mrg (m : option pydict) : json :=
  match m with
  | Some (e :: m) =>
      JDict [ ("prior_patient_id",
               JStr (format_pyval (dict_get (e :: m) "prior_patient_id" (PyStr ""))));
              ("prior_visit",
               JStr (format_pyval (dict_get (e :: m) "prior_visit_number" (PyStr "")))) ]
  | _ => JNone
  end.

(** a message with prior identifiers, a merge, a diagnosis and a
    procedure *)
Definition example_coded_input : HL7FullInput :=
  mk_HL7FullInput
    (header (example_hl7_input ASSIGNING_AUTHORITY_HEALTH_ID))
    (example_patient ASSIGNING_AUTHORITY_HEALTH_ID)
    (Some (mk_PD1Model (Some "Y")
             (Some [ mk_Identifier "OLD1" (Some "1.2.3") None;
                     mk_Identifier "OLD2" None None ])))
    None
    (Some [ ("prior_patient_id", PyStr "OLD1"); ("prior_visit_number", PyStr "V0001") ])
    None
    (Some [ [ ("diagnosis_code", PyStr "E11"); ("diagnosis_desc", PyStr "Diabetes^type 2") ] ])
    (Some [ [ ("procedure_code", PyOther "47562" true) ] ])
    None None None.

Definition example_coded_segments : list string :=
  Eval vm_compute in
    match run (hl7_segments example_coded_input) example_world with
    | Ok segments => segments
    | Raise _ => []
    end.

(** ** The text of a SOAP fault *)

(** an element without attributes and children, as the writer prints it:
    closed at once when the text is empty *)
Definition leaf (tag text : string) : string :=
  if PyStr.is_empty text then "<" ++ tag ++ " />"
  else "<" ++ tag ++ ">" ++ ET.escape_cdata text ++ "</" ++ tag ++ ">".

(** the fault as a text *)
Definition fault_text (code reason : string) (detail : option string) : string :=
  "<?xml version='1.0' encoding='utf-8'?>" ++ String PyStr.LF ""
  ++ "<s:Envelope xmlns:s=" ++ String PyStr.DQUOTE "" ++ uri_of NS_s
  ++ String PyStr.DQUOTE "" ++ "><s:Body><s:Fault>"
  ++ "<Code><Value>s:" ++ ET.escape_cdata code ++ "</Value></Code>"
  ++ "<Reason>" ++ leaf "Text" reason ++ "</Reason>"
  ++ (if truthy detail
      then "<Detail><Error>" ++ ET.escape_cdata (or_else detail "") ++ "</Error></Detail>"
      else "")
  ++ "</s:Fault></s:Body></s:Envelope>".

(** ** Which value the reader keeps *)

(** the name and the text that the reader stores for a slot: the name is
    not empty, and the first [Value] below the slot has a text *)
Definition slot_entry (slot : xml) : option (string * string) :=
  match attr_get "name" (xml_attrib slot), value_text slot with
  | Some name, Some t => if PyStr.is_empty name then None else Some (name, t)
  | _, _ => None
  end.

(** the text of the last of the slots that is stored under a key *)
Fixpoint last_stored (k : string) (slots : list xml) : option string :=
  match slots with
  | [] => None
  | slot :: rest =>
      match last_stored k rest with
      | Some t => Some t
      | None =>
          match slot_entry slot with
          | Some (name, t) => if String.eqb name k then Some t else None
          | None => None
          end
      end
  end.

(** the four entries that the reader takes from the [ExtrinsicObject]
    itself *)
Definition own_entries (extrinsic : xml) : jdict :=
  [ ("document_id", get_json extrinsic "id");
    ("mimeType", get_json extrinsic "mimeType");
    ("objectType", get_json extrinsic "objectType");
    ("externalIdentifiers",
     JList (flat_map (fun ei => match value_text ei with
                                | Some t => [JStr t]
                                | None => []
                                end)
              (findall "ExternalIdentifier" extrinsic))) ].

(** what the first [ExtrinsicObject] gives for a key: the last slot of that
    name, or else its own entry *)
Definition document_entry (root : xml) (k : string) : option json :=
  match find "ExtrinsicObject" root with
  | Some extrinsic =>
      match last_stored k (findall "Slot" extrinsic) with
      | Some t => Some (JStr t)
      | None => jget k (own_entries extrinsic)
      end
  | None => None
  end.

(** the last [submissionTime] slot of the first [RegistryPackage] *)
Definition package_time (root : xml) : option string :=
  match find "RegistryPackage" root with
  | Some regpkg => last_stored "submissionTime" (findall "Slot" regpkg)
  | None => None
  end.

(** * Properties *)

(** ** Facts about strings *)

Section StringFacts.

Variable c : ascii.

Lemma append_assoc (x y z : string) : (x ++ y) ++ z = x ++ (y ++ z).
  Proof. induction x as [|a x IH]; simpl; [reflexivity | now rewrite IH]. Qed.

Lemma append_empty_r (x : string) : x ++ "" = x.
  Proof. induction x as [|a x IH]; simpl; [reflexivity | now rewrite IH]. Qed.

Lemma length_append (x y : string) :
    String.length (x ++ y) = String.length x + String.length y.
  Proof. induction x as [|a x IH]; simpl; [reflexivity | now rewrite IH]. Qed.

Lemma mem_append (x y : string) :
    PyStr.mem c (x ++ y) = PyStr.mem c x || PyStr.mem c y.
  Proof.
    induction x as [|a x IH]; simpl; [reflexivity |].
    destruct (Ascii.eqb a c); [reflexivity | exact IH].
  Qed.

Lemma count_append (x y : string) :
    PyStr.count c (x ++ y) = PyStr.count c x + PyStr.count c y.
  Proof.
    induction x as [|a x IH]; simpl; [reflexivity |].
    rewrite IH. now rewrite Nat.add_assoc.
  Qed.

Lemma count_zero_mem (x : string) :
    PyStr.count c x = 0 <-> PyStr.mem c x = false.
  Proof.
    induction x as [|a x IH]; simpl; [tauto |].
    destruct (Ascii.eqb a c); simpl; [split; discriminate | exact IH].
  Qed.

Lemma replace_append (new x y : string) :
    PyStr.replace c new (x ++ y) = PyStr.replace c new x ++ PyStr.replace c new y.
  Proof.
    induction x as [|a x IH]; simpl; [reflexivity |].
    destruct (Ascii.eqb a c); rewrite IH; [now rewrite append_assoc | reflexivity].
  Qed.

Lemma replace_absent (new x : string) :
    PyStr.mem c x = false -> PyStr.replace c new x = x.
  Proof.
    induction x as [|a x IH]; simpl; [reflexivity |].
    destruct (Ascii.eqb a c); [discriminate | intros H; now rewrite IH].
  Qed.

Lemma split_not_nil (s : string) : PyStr.split c s <> [].
  Proof.
    destruct s as [|a s]; simpl; [discriminate |].
    destruct (Ascii.eqb a c); [discriminate |].
    destruct (PyStr.split c s); discriminate.
  Qed.

  (** a separator between two texts separates their fields *)
Lemma split_append_sep (x y : string) :
    PyStr.split c (x ++ String c y) = (PyStr.split c x ++ PyStr.split c y)%list.
  Proof.
    induction x as [|a x IH]; simpl.
    - now rewrite Ascii.eqb_refl.
    - destruct (Ascii.eqb a c); rewrite IH; [reflexivity |].
      pose proof (split_not_nil x) as Hne.
      destruct (PyStr.split c x); [contradiction | reflexivity].
  Qed.

Lemma split_absent (x : string) :
    PyStr.mem c x = false -> PyStr.split c x = [x].
  Proof.
    induction x as [|a x IH]; simpl; [reflexivity |].
    destruct (Ascii.eqb a c); [discriminate |].
    intros H. now rewrite (IH H).
  Qed.

Lemma split_length (s : string) :
    List.length (PyStr.split c s) = S (PyStr.count c s).
  Proof.
    induction s as [|a s IH]; simpl; [reflexivity |].
    destruct (Ascii.eqb a c); simpl; [now rewrite IH |].
    pose proof (split_not_nil s) as Hne.
    destruct (PyStr.split c s); [contradiction | exact IH].
  Qed.

  (** joining texts free of the separator and splitting again gives the
      texts back *)
Lemma split_join (l : list string) :
    l <> [] ->
    Forall (fun s => PyStr.mem c s = false) l ->
    PyStr.split c (PyStr.join (String c "") l) = l.
  Proof.
    induction l as [|s l IH]; [congruence |].
    intros _ Hall. inversion Hall as [|? ? Hs Hl]; subst.
    destruct l as [|s' l].
    - simpl. now apply split_absent.
    - replace (PyStr.join (String c "") (s :: s' :: l))
        with (s ++ String c (PyStr.join (String c "") (s' :: l)))
        by reflexivity.
      rewrite split_append_sep, (split_absent s Hs).
      cbn [app]. f_equal. apply IH; [discriminate | assumption].
  Qed.

End StringFacts.

(** ** The field escaper *)

Lemma escape_str_cons (a : ascii) (r : string) :
  escape_str (String a r) = escape_char a ++ escape_str r.
Proof.
  unfold escape_str, escape_char. cbn [PyStr.replace].
  destruct (Ascii.eqb a "|") eqn:E1.
  - rewrite !replace_append. reflexivity.
  - cbn [PyStr.replace]. destruct (Ascii.eqb a "^") eqn:E2.
    + rewrite !replace_append. reflexivity.
    + cbn [PyStr.replace]. destruct (Ascii.eqb a "&") eqn:E3.
      * rewrite !replace_append. reflexivity.
      * cbn [PyStr.replace]. destruct (Ascii.eqb a "~") eqn:E4; reflexivity.
Qed.

Lemma escape_str_spec (s : string) : escape_str s = escape_spec s.
Proof.
  induction s as [|a r IH]; [reflexivity |].
  rewrite escape_str_cons. simpl. now rewrite IH.
Qed.

Lemma escape_char_no_pipe (a : ascii) : PyStr.mem "|" (escape_char a) = false.
Proof.
  unfold escape_char.
  destruct (Ascii.eqb a "|") eqn:E1; [reflexivity |].
  destruct (Ascii.eqb a "^"); [reflexivity |].
  destruct (Ascii.eqb a "&"); [reflexivity |].
  destruct (Ascii.eqb a "~"); [reflexivity |].
  simpl. now rewrite E1.
Qed.

Lemma escape_str_no_pipe (s : string) : PyStr.mem "|" (escape_str s) = false.
Proof.
  induction s as [|a r IH]; [reflexivity |].
  rewrite escape_str_cons, mem_append, escape_char_no_pipe, IH. reflexivity.
Qed.

(** C8.  [escape_hl7_field] maps [|], [^], [&], [~] to [\F\], [\S\], [\T\],
    [\R\] and leaves every other character alone ([escape_spec]); [None]
    gives the empty string; the output holds no [|], so a segment has as
    many fields with the escaped value in it as with an empty value in its
    place. *)
Theorem escape_hl7_field_structurally_safe :
  (forall s, escape_hl7_field (PyStr s) = Ok (escape_spec s))
  /\ escape_hl7_field PyNone = Ok ""
  /\ (forall s, PyStr.mem "|" (escape_str s) = false)
  /\ (forall before s after,
        List.length (PyStr.split "|" (before ++ escape_str s ++ after))
        = List.length (PyStr.split "|" (before ++ after))).
Proof.
  split; [| split; [| split]].
  - intros s. simpl. now rewrite escape_str_spec.
  - reflexivity.
  - exact escape_str_no_pipe.
  - intros before s after.
    rewrite !split_length, !count_append.
    assert (H : PyStr.count "|" (escape_str s) = 0)
      by (apply count_zero_mem, escape_str_no_pipe).
    now rewrite H.
Qed.

Example escape_all_four :
  escape_hl7_field (PyStr "a|b^c&d~e") = Ok "a\F\b\S\c\T\d\R\e"
  /\ PyStr.split "|" ("AL1|||" ++ escape_str "a|b^c&d~e" ++ "|x|y")
     = ["AL1"; ""; ""; "a\F\b\S\c\T\d\R\e"; "x"; "y"].
Proof. split; reflexivity. Qed.

(** ** The date of birth validator *)

(** ** The date of birth validator *)

Lemma sub_dob_inside_one_line (s : string) :
  PyStr.mem PyStr.LF s = false -> sub_dob true s = "".
Proof.
  induction s as [|a r IH]; simpl; [reflexivity |].
  destruct (Ascii.eqb a PyStr.LF); [discriminate | exact IH].
Qed.

(** on a text of one line, the validator keeps the eight first characters of
    what stands before the first [-], [:] or [T] *)
Lemma normalize_dob_one_line (s : string) :
  s <> "" -> PyStr.mem PyStr.LF s = false ->
  normalize_dob (Some s) = Some (PyStr.take 8 (before_stop s)).
Proof.
  intros Hne Hlf. unfold normalize_dob.
  destruct s as [|a0 r0]; [congruence |]. cbn [truthy PyStr.is_empty negb].
  f_equal. f_equal. clear Hne.
  generalize dependent (String a0 r0). intros s.
  induction s as [|a r IH]; [reflexivity |].
  cbn [PyStr.mem sub_dob before_stop].
  destruct (Ascii.eqb a PyStr.LF) eqn:E; [discriminate |].
  intros H. destruct (dob_stop a).
  - now apply sub_dob_inside_one_line.
  - now rewrite IH.
Qed.

(** C3, as the code has it.  [normalize_dob] gives the empty and the absent
    value back as they are; on a text of one line it cuts at the first [-],
    [:] or [T] and keeps at most eight characters, so that
    ["1980-01-01T00:00:00Z"] becomes ["1980"]. *)
Theorem normalize_dob_cuts_at_first_separator :
  normalize_dob (Some "") = Some ""
  /\ normalize_dob None = None
  /\ (forall s,
        s <> "" -> PyStr.mem PyStr.LF s = false ->
        normalize_dob (Some s) = Some (PyStr.take 8 (before_stop s)))
  /\ normalize_dob (Some "1980-01-01T00:00:00Z") = Some "1980".
Proof.
  split; [| split; [| split]]; try reflexivity.
  exact normalize_dob_one_line.
Qed.

Lemma normalize_dob_cuts_at_first_separator_witness :
  normalize_dob (Some "19800101T000000Z") = Some "19800101".
Proof.
  destruct normalize_dob_cuts_at_first_separator as (_ & _ & H & _).
  apply (H "19800101T000000Z"); [discriminate | reflexivity].
Defined.

(** C3 as the specification words it fails: the dashed ISO date does not
    come out as eight digits. *)
Lemma normalize_dob_iso_counterexample :
  normalize_dob (Some "1980-01-01T00:00:00Z") <> Some "19800101".
Proof. discriminate. Qed.

(** ** The effect monad *)

Lemma bind_ok {A B : Type} (c : M A) (k : A -> M B) (w w1 : world) (a : A) :
  c w = Ok (a, w1) -> bind c k w = k a w1.
Proof. intros H. unfold bind. now rewrite H. Qed.

Lemma bind_raise {A B : Type} (c : M A) (k : A -> M B) (w : world) (e : exn) :
  c w = Raise e -> bind c k w = Raise e.
Proof. intros H. unfold bind. now rewrite H. Qed.

Lemma run_ok {A : Type} (c : M A) (w w1 : world) (a : A) :
  c w = Ok (a, w1) -> run c w = Ok a.
Proof. intros H. unfold run. now rewrite H. Qed.

Lemma run_raise {A : Type} (c : M A) (w : world) (e : exn) :
  c w = Raise e <-> run c w = Raise e.
Proof.
  unfold run. destruct (c w) as [[a w1]|e']; split; congruence.
Qed.

(** ** Timestamps *)

Lemma take_length (n : nat) (s : string) : String.length (PyStr.take n s) <= n.
Proof.
  revert s. induction n as [|n IH]; intros [|a r]; simpl; try lia.
  specialize (IH r). lia.
Qed.

Lemma all_digits_append (x y : string) :
  Iso.all_digits (x ++ y) = Iso.all_digits x && Iso.all_digits y.
Proof.
  induction x as [|a x IH]; simpl; [reflexivity |].
  now rewrite IH, andb_assoc.
Qed.

Lemma all_digits_take (n : nat) (s : string) :
  Iso.all_digits s = true -> Iso.all_digits (PyStr.take n s) = true.
Proof.
  revert s. induction n as [|n IH]; intros [|a r]; simpl; try reflexivity.
  intros H. apply andb_prop in H as [Ha Hr]. now rewrite Ha, IH.
Qed.

Lemma all_digits_filter (s : string) :
  Iso.all_digits (PyStr.filter PyStr.is_digit s) = true.
Proof.
  induction s as [|a r IH]; simpl; [reflexivity |].
  destruct (PyStr.is_digit a) eqn:E; simpl; [now rewrite E |]; exact IH.
Qed.

Lemma digit_char_is_digit (d : nat) : d < 10 -> PyStr.is_digit (digit_char d) = true.
Proof.
  intros H. do 10 (destruct d as [|d]; [reflexivity |]). lia.
Qed.

Lemma dec2_digits (n : nat) : Iso.all_digits (dec2 n) = true.
Proof.
  unfold dec2. cbn [Iso.all_digits].
  rewrite !digit_char_is_digit; [reflexivity | |]; apply Nat.mod_upper_bound; lia.
Qed.

Lemma decimal_fuel_digits (fuel : nat) (n : N) (acc : string) :
  Iso.all_digits acc = true -> Iso.all_digits (decimal_fuel fuel n acc) = true.
Proof.
  revert n acc. induction fuel as [|fuel IH]; intros n acc Hacc; cbn [decimal_fuel];
    [exact Hacc |].
  assert (Hd : Iso.all_digits (String (digit_char (N.to_nat (N.modulo n 10))) acc) = true).
  { cbn [Iso.all_digits]. rewrite Hacc, digit_char_is_digit; [reflexivity |].
    pose proof (N.mod_upper_bound n 10). lia. }
  destruct (N.ltb n 10); [exact Hd | now apply IH].
Qed.

Lemma decimal_digits (n : N) : Iso.all_digits (decimal n) = true.
Proof. unfold decimal. now apply decimal_fuel_digits. Qed.

Lemma all_below_spec (k : nat) (f : nat -> bool) :
  all_below k f = true -> forall i, i < k -> f i = true.
Proof.
  induction k as [|k IH]; intros H i Hi; [lia |].
  cbn [all_below] in H. apply andb_prop in H as [Hk Hr].
  destruct (Nat.eq_dec i k) as [->|Hne]; [exact Hk | apply IH; [exact Hr | lia]].
Qed.

Lemma year_width (y : nat) : (Z.of_nat y <= 9999)%Z -> year_width_ok y = true.
Proof.
  intros H. apply (all_below_spec (N.to_nat 10000) year_width_ok); [| lia].
  vm_compute. reflexivity.
Qed.

Lemma strftime_digits (dt : datetime) : Iso.all_digits (strftime dt) = true.
Proof.
  unfold strftime. now rewrite !all_digits_append, decimal_digits, !dec2_digits.
Qed.

Lemma strftime_length (dt : datetime) :
  String.length (strftime dt) = String.length (decimal (N.of_nat (year dt))) + 10.
Proof. unfold strftime. rewrite !length_append. cbn [dec2 String.length]. lia. Qed.

(** the fourteen digits of a date from the year 1000 on, fewer before *)
Lemma strftime_shape (dt : datetime) :
  (Z.of_nat (year dt) <= 9999)%Z ->
  (1000 <= year dt -> String.length (strftime dt) = 14)
  /\ (year dt < 1000 -> String.length (strftime dt) < 14).
Proof.
  intros Hy. pose proof (year_width (year dt) Hy) as W. unfold year_width_ok in W.
  rewrite strftime_length.
  destruct (Nat.ltb_spec (year dt) 1000) as [Hlt|Hge].
  - apply Nat.ltb_lt in W. split; lia.
  - apply Nat.eqb_eq in W. split; lia.
Qed.

(** what the constructor of [datetime] has checked *)
Lemma fromisoformat_year (s : string) (dt : datetime) :
  Iso.fromisoformat s = Some dt -> (1 <= Z.of_nat (year dt) <= 9999)%Z.
Proof.
  unfold Iso.fromisoformat.
  destruct (Nat.ltb (String.length s) 7); [discriminate |].
  destruct (Iso.find_isoformat_datetime_separator _) as [sep|]; [| discriminate].
  destruct (Iso.parse_isoformat_date _ _) as [[[y mo] d]|]; [| discriminate].
  match goal with
  | |- match ?t with _ => _ end = _ -> _ => destruct t as [[[[h mi] sec] tz]|]
  end; [| discriminate].
  destruct (Iso.offset_ok tz); cbn [andb]; [| discriminate].
  destruct (Iso.in_range y mo d h mi sec) eqn:R; [| discriminate].
  intros H. injection H as <-. cbn [year].
  unfold Iso.in_range in R.
  repeat (apply andb_prop in R as [R ?]).
  apply Z.leb_le in R. 
  match goal with
  | H : Z.leb y 9999 = true |- _ => apply Z.leb_le in H
  end.
  lia.
Qed.

Lemma ts_to_hl7_total (ts : option string) (w : world) :
  exists s w1, ts_to_hl7 ts w = Ok (s, w1).
Proof.
  unfold ts_to_hl7. destruct ts as [s|]; [destruct s as [|a r] |].
  - do 2 eexists. reflexivity.
  - cbn [PyStr.is_empty].
    destruct (Iso.fromisoformat _); do 2 eexists; reflexivity.
  - do 2 eexists. reflexivity.
Qed.

(** [fromisoformat] at some texts: the formats of Python 3.11, and what it
    refuses *)
Example fromisoformat_examples :
  map (fun s => option_map strftime (Iso.fromisoformat s))
    [ "2025-10-21"; "20251021"; "20251021T123000+00:00"; "2025-10-21 12:30:45.5";
      "2025-10-21T1230"; "2025-W43-2"; "2025W43"; "2020-W53-7T23:59"; "0001-01-01";
      "2025-10-21T12:30+24:00"; "2025-02-29"; "2025-W53-1"; "2025-10";
      "20251021123000"; "2025-10-21T12:30:45+0"; "21/10/2025 12h30" ]
  = [ Some "20251021000000"; Some "20251021000000"; Some "20251021123000";
      Some "20251021123045"; Some "20251021123000"; Some "20251021000000";
      Some "20251020000000"; Some "20210103235900"; Some "10101000000";
      None; None; None; None; None; None; None ].
Proof. vm_compute. reflexivity. Qed.

(** C5, as the code has it.  [ts_to_hl7] always returns: the clock reading
    for an absent or empty input; for an input that [fromisoformat] accepts
    once [Z] is written [+00:00], the digits of the parsed date and time,
    fourteen for a year from 1000 on and fewer for an earlier year, which
    is printed without leading zeros; otherwise the digits of the input,
    cut after the fourteenth and never padded.  A date without a time is
    accepted, in the basic format too, and gets the time 00:00:00. *)
Theorem ts_to_hl7_degrades_to_digits :
  forall (ts : option string) (w : world),
    (exists r, run (ts_to_hl7 ts) w = Ok r)
    /\ (truthy ts = false ->
        run (ts_to_hl7 ts) w = Ok (strftime (utc_clock w (clock_reads w))))
    /\ (forall s dt,
          ts = Some s -> s <> "" ->
          Iso.fromisoformat (PyStr.replace "Z" "+00:00" s) = Some dt ->
          run (ts_to_hl7 ts) w = Ok (strftime dt)
          /\ Iso.all_digits (strftime dt) = true
          /\ (1 <= Z.of_nat (year dt) <= 9999)%Z
          /\ (1000 <= year dt -> String.length (strftime dt) = 14)
          /\ (year dt < 1000 -> String.length (strftime dt) < 14))
    /\ (forall s,
          ts = Some s -> s <> "" ->
          Iso.fromisoformat (PyStr.replace "Z" "+00:00" s) = None ->
          run (ts_to_hl7 ts) w = Ok (PyStr.take 14 (PyStr.filter PyStr.is_digit s))
          /\ String.length (PyStr.take 14 (PyStr.filter PyStr.is_digit s)) <= 14
          /\ Iso.all_digits (PyStr.take 14 (PyStr.filter PyStr.is_digit s)) = true)
    /\ run (ts_to_hl7 (Some "2025-10-21T12:30:00Z")) w = Ok "20251021123000"
    /\ run (ts_to_hl7 (Some "20251021T123000Z")) w = Ok "20251021123000"
    /\ run (ts_to_hl7 (Some "20251021")) w = Ok "20251021000000"
    /\ run (ts_to_hl7 (Some "0999-01-01")) w = Ok "9990101000000".
Proof.
  intros ts w. split; [| split; [| split; [| split]]].
  - destruct (ts_to_hl7_total ts w) as (s & w1 & H).
    exists s. now apply run_ok with w1.
  - destruct ts as [[|a r]|]; cbn; try discriminate; reflexivity.
  - intros s dt -> Hne Hp. destruct s as [|a r]; [congruence |].
    pose proof (fromisoformat_year _ _ Hp) as Hy.
    split; [| split; [apply strftime_digits | split; [exact Hy |]]].
    + unfold run, ts_to_hl7. cbn [PyStr.is_empty]. now rewrite Hp.
    + apply strftime_shape. lia.
  - intros s -> Hne Hp. destruct s as [|a r]; [congruence |].
    split; [| split].
    + unfold run, ts_to_hl7. cbn [PyStr.is_empty]. now rewrite Hp.
    + apply take_length.
    + apply all_digits_take, all_digits_filter.
  - repeat split; vm_compute; reflexivity.
Qed.

Lemma ts_to_hl7_degrades_to_digits_witness :
  run (ts_to_hl7 (Some "21/10/2025 12h30")) example_world = Ok "211020251230"
  /\ run (ts_to_hl7 (Some "2025-W43-2T12:30")) example_world = Ok "20251021123000"
  /\ run (ts_to_hl7 (Some "")) example_world = Ok "20250102030405".
Proof.
  destruct (ts_to_hl7_degrades_to_digits (Some "21/10/2025 12h30") example_world)
    as (_ & _ & _ & Hfall & _).
  destruct (ts_to_hl7_degrades_to_digits (Some "2025-W43-2T12:30") example_world)
    as (_ & _ & Hiso & _).
  destruct (ts_to_hl7_degrades_to_digits (Some "") example_world)
    as (_ & Hnow & _).
  split; [| split].
  - apply (Hfall "21/10/2025 12h30" eq_refl); [discriminate | vm_compute; reflexivity].
  - apply (Hiso "2025-W43-2T12:30" (mk_datetime 2025 10 21 12 30 0) eq_refl);
      [discriminate | vm_compute; reflexivity].
  - apply Hnow. reflexivity.
Defined.

(** C5 as the specification words it fails: a text that is no ISO date and
    holds fewer than fourteen digits is not padded to fourteen characters. *)
Lemma ts_to_hl7_pads_counterexample :
  ~ (forall (s : string) (w : world),
       s <> "" ->
       Iso.fromisoformat (PyStr.replace "Z" "+00:00" s) = None ->
       exists r, run (ts_to_hl7 (Some s)) w = Ok r /\ String.length r = 14).
Proof.
  intros H.
  destruct (H "noon 12" example_world) as (r & Hr & Hlen);
    [discriminate | vm_compute; reflexivity |].
  vm_compute in Hr. injection Hr as <-. discriminate Hlen.
Qed.

(** ** The PID segment *)

Lemma opt_string_eqb_spec (a : option string) (b : string) :
  opt_string_eqb a b = true <-> a = Some b.
Proof.
  destruct a as [s|]; simpl; [| split; discriminate].
  rewrite String.eqb_eq. split; congruence.
Qed.

Lemma authority_mismatch_dec (p : PatientModel) :
  authority_mismatch p \/ ~ authority_mismatch p.
Proof.
  unfold authority_mismatch. destruct (identifiers p) as [|first rest] eqn:E.
  - right. intros (f & r & H & _). discriminate.
  - destruct (opt_string_eqb (assigning_authority first) ASSIGNING_AUTHORITY_HEALTH_ID) eqn:Eq.
    + right. intros (f & r & H & Hne). injection H as <- <-.
      now apply opt_string_eqb_spec in Eq.
    + left. exists first, rest. split; [reflexivity |].
      intros H. apply opt_string_eqb_spec in H. congruence.
Qed.

Lemma build_pid_raises (p : PatientModel) :
  authority_mismatch p -> build_pid p = Raise pid_authority_error.
Proof.
  intros (first & rest & Hids & Hne). unfold build_pid. rewrite Hids.
  destruct (opt_string_eqb (assigning_authority first) ASSIGNING_AUTHORITY_HEALTH_ID) eqn:Eq.
  - apply opt_string_eqb_spec in Eq. contradiction.
  - reflexivity.
Qed.

Lemma build_pid_returns (p : PatientModel) :
  ~ authority_mismatch p -> exists seg, build_pid p = Ok seg.
Proof.
  intros Hok. unfold build_pid. destruct (identifiers p) as [|first rest] eqn:E.
  - simpl. eauto.
  - destruct (opt_string_eqb (assigning_authority first) ASSIGNING_AUTHORITY_HEALTH_ID) eqn:Eq.
    + simpl. eauto.
    + exfalso. apply Hok. exists first, rest. split; [exact E |].
      intros H. apply opt_string_eqb_spec in H. congruence.
Qed.

(** ** The encoder never stops for another [HTTPException] *)

Lemma build_msh_total (hdr : MessageModel) (w : world) :
  exists s w1, build_msh hdr w = Ok (s, w1).
Proof.
  unfold build_msh.
  destruct (ts_to_hl7_total (message_datetime hdr) w) as (dt & w1 & Hdt).
  rewrite (bind_ok _ _ _ _ _ Hdt).
  destruct (truthy (message_control_id hdr)); do 2 eexists; reflexivity.
Qed.

Lemma ts_if_total (x : option string) (w : world) :
  exists s w1, ts_if x w = Ok (s, w1).
Proof.
  unfold ts_if. destruct (truthy x);
    [apply ts_to_hl7_total | do 2 eexists; reflexivity].
Qed.

Lemma build_visit_total (v : VisitModel) (w : world) :
  exists l w1, build_visit v w = Ok (l, w1).
Proof.
  unfold build_visit.
  destruct (ts_if_total (admit_datetime v) w) as (a1 & w1 & H1).
  rewrite (bind_ok _ _ _ _ _ H1).
  destruct (ts_if_total (discharge_datetime v) w1) as (d1 & w2 & H2).
  rewrite (bind_ok _ _ _ _ _ H2).
  destruct (ts_if_total (admit_datetime v) w2) as (a2 & w3 & H3).
  rewrite (bind_ok _ _ _ _ _ H3).
  destruct (ts_if_total (discharge_datetime v) w3) as (d2 & w4 & H4).
  rewrite (bind_ok _ _ _ _ _ H4).
  do 2 eexists. reflexivity.
Qed.

Lemma escape_no_http (v : pyval) (c : Z) (d : string) :
  escape_hl7_field v <> Raise (HTTPException c d).
Proof. destruct v; discriminate. Qed.

Lemma each_no_http (f : pydict -> result string) (l : list pydict) :
  (forall x c d, f x <> Raise (HTTPException c d)) -> no_http (each f l).
Proof.
  intros Hf. induction l as [|x l IH]; intros c d; simpl; [discriminate |].
  destruct (f x) as [s|e] eqn:E; simpl.
  - destruct (each f l) as [ss|e'] eqn:E'; simpl; [discriminate |].
    intros H. injection H as ->. now apply (IH c d).
  - intros H. injection H as ->. now apply (Hf x c d).
Qed.

Lemma build_al1_no_http (a : pydict) (c : Z) (d : string) :
  build_al1 a <> Raise (HTTPException c d).
Proof.
  unfold build_al1.
  destruct (escape_hl7_field (dict_get a "allergen" _)) eqn:E1; simpl;
    [| rewrite <- E1; apply escape_no_http].
  destruct (escape_hl7_field (dict_get a "reaction" _)) eqn:E2; simpl;
    [| rewrite <- E2; apply escape_no_http].
  destruct (escape_hl7_field (dict_get a "severity" _)) eqn:E3; simpl;
    [discriminate | rewrite <- E3; apply escape_no_http].
Qed.

Lemma build_dg1_no_http (a : pydict) (c : Z) (d : string) :
  build_dg1 a <> Raise (HTTPException c d).
Proof.
  unfold build_dg1.
  destruct (escape_hl7_field (dict_get a "diagnosis_desc" _)) eqn:E1; simpl;
    [discriminate | rewrite <- E1; apply escape_no_http].
Qed.

Lemma build_pr1_no_http (a : pydict) (c : Z) (d : string) :
  build_pr1 a <> Raise (HTTPException c d).
Proof.
  unfold build_pr1.
  destruct (escape_hl7_field (dict_get a "procedure_desc" _)) eqn:E1; simpl;
    [discriminate | rewrite <- E1; apply escape_no_http].
Qed.

Lemma lift_ok {A : Type} (r : result A) (w : world) (a : A) :
  r = Ok a -> lift r w = Ok (a, w).
Proof. intros ->. reflexivity. Qed.

Lemma lift_raise {A : Type} (r : result A) (w : world) (e : exn) :
  r = Raise e -> lift r w = Raise e.
Proof. intros ->. reflexivity. Qed.

(** what [hl7_segments] does up to the PID segment *)
Lemma hl7_segments_pid_raise (payload : HL7FullInput) (w : world) (e : exn) :
  build_pid (patient payload) = Raise e -> hl7_segments payload w = Raise e.
Proof.
  intros Hpid. unfold hl7_segments.
  destruct (build_msh_total (header payload) w) as (msh & w1 & Hmsh).
  rewrite (bind_ok _ _ _ _ _ Hmsh).
  destruct (ts_to_hl7_total (message_datetime (header payload)) w1) as (t & w2 & Ht).
  rewrite (bind_ok _ _ _ _ _ Ht).
  apply bind_raise. now apply lift_raise.
Qed.

Lemma hl7_segments_after_pid (payload : HL7FullInput) (w : world) (pid : string) :
  build_pid (patient payload) = Ok pid ->
  forall c d, hl7_segments payload w <> Raise (HTTPException c d).
Proof.
  intros Hpid c d. unfold hl7_segments.
  destruct (build_msh_total (header payload) w) as (msh & w1 & Hmsh).
  rewrite (bind_ok _ _ _ _ _ Hmsh).
  destruct (ts_to_hl7_total (message_datetime (header payload)) w1) as (t & w2 & Ht).
  rewrite (bind_ok _ _ _ _ _ Ht).
  rewrite (bind_ok _ _ _ _ _ (lift_ok _ w2 _ Hpid)).
  assert (Hv : exists l w3,
             match visit payload with
             | Some v => build_visit v
             | None => ret []
             end w2 = Ok (l, w3)).
  { destruct (visit payload);
      [apply build_visit_total | do 2 eexists; reflexivity]. }
  destruct Hv as (sv & w3 & Hv). rewrite (bind_ok _ _ _ _ _ Hv).
  pose proof (each_no_http build_al1 (nonempty (al1 payload)) build_al1_no_http) as Ha.
  pose proof (each_no_http build_dg1 (nonempty (dg1 payload)) build_dg1_no_http) as Hd.
  pose proof (each_no_http build_pr1 (nonempty (pr1 payload)) build_pr1_no_http) as Hp.
  unfold bind at 1. destruct (each build_al1 _) as [sa|ea]; cbn [lift];
    [| intros H; injection H as ->; now apply (Ha c d)].
  unfold bind at 1. destruct (each build_dg1 _) as [sd|ed]; cbn [lift];
    [| intros H; injection H as ->; now apply (Hd c d)].
  unfold bind at 1. destruct (each build_pr1 _) as [sp|ep]; cbn [lift];
    [| intros H; injection H as ->; now apply (Hp c d)].
  discriminate.
Qed.

Lemma json_to_hl7_full_raise (payload : HL7FullInput) (w : world) (e : exn) :
  run (json_to_hl7_full payload) w = Raise e <-> hl7_segments payload w = Raise e.
Proof.
  rewrite <- run_raise. unfold json_to_hl7_full, bind, ret.
  destruct (hl7_segments payload w) as [[segs w1]|e']; split; congruence.
Qed.

(** ** The parser: field access *)

Lemma field_default (fields : list string) (i : nat) :
  field fields i = Ok (nth i fields "").
Proof.
  unfold field, py_index.
  destruct (Nat.ltb_spec i (List.length fields)) as [Hlt|Hge].
  - now rewrite (nth_error_nth' fields "" Hlt).
  - now rewrite nth_overflow.
Qed.

Lemma capture_default (fields : list string) (keys : list (string * nat)) :
  capture fields keys
  = Ok (map (fun ki => (fst ki, JStr (nth (snd ki) fields ""))) keys).
Proof.
  induction keys as [|[k i] keys IH]; [reflexivity |].
  cbn [capture]. rewrite field_default, IH. reflexivity.
Qed.

Lemma nth_padded (fields : list string) (n i : nat) :
  nth i (fields ++ repeat "" n) "" = nth i fields "".
Proof.
  destruct (Nat.lt_ge_cases i (List.length fields)) as [Hlt|Hge].
  - now apply app_nth1.
  - rewrite app_nth2 by exact Hge. rewrite (nth_overflow fields) by exact Hge.
    generalize (i - List.length fields). clear.
    induction n as [|n IH]; intros [|j]; simpl; auto.
Qed.

Lemma field_padded (fields : list string) (n i : nat) :
  field (fields ++ repeat "" n) i = field fields i.
Proof. now rewrite !field_default, nth_padded. Qed.

Lemma capture_padded (fields : list string) (n : nat) (keys : list (string * nat)) :
  capture (fields ++ repeat "" n) keys = capture fields keys.
Proof.
  rewrite !capture_default. f_equal. apply map_ext.
  intros [k i]. cbn. now rewrite nth_padded.
Qed.

Lemma decode_fields_padded (fields : list string) (n : nat) (r : jdict) :
  fields <> [] ->
  decode_fields (fields ++ repeat "" n) r = decode_fields fields r.
Proof.
  intros Hne. unfold decode_fields.
  rewrite !capture_padded, !field_padded.
  destruct fields as [|name rest]; [congruence | reflexivity].
Qed.

Lemma split_only_pipes (n : nat) : PyStr.split "|" (pipes n) = repeat "" (S n).
Proof.
  induction n as [|n IH]; [reflexivity |].
  cbn [pipes PyStr.split]. rewrite IH. reflexivity.
Qed.

Lemma split_pipes (seg : string) (n : nat) :
  PyStr.split "|" (seg ++ pipes n) = (PyStr.split "|" seg ++ repeat "" n)%list.
Proof.
  destruct n as [|n].
  - cbn [pipes repeat]. now rewrite append_empty_r, app_nil_r.
  - cbn [pipes]. rewrite split_append_sep, split_only_pipes. reflexivity.
Qed.

(** ** The parser: the shape of its result *)

Lemma jget_jset (k k0 : string) (v : json) (d : jdict) :
  jget k (jset k0 v d) = if String.eqb k0 k then Some v else jget k d.
Proof.
  induction d as [|[k1 v1] d IH]; cbn.
  - destruct (String.eqb k0 k); reflexivity.
  - destruct (String.eqb k1 k0) eqn:E10; cbn.
    + apply String.eqb_eq in E10. subst k1.
      destruct (String.eqb k0 k); reflexivity.
    + rewrite IH. destruct (String.eqb k1 k) eqn:E1; [| reflexivity].
      apply String.eqb_eq in E1. subst k1.
      now rewrite String.eqb_sym, E10.
Qed.

Lemma wf_initial : wf initial_result.
Proof.
  constructor; unfold is_list_or_absent, is_list_at; cbn; eauto.
Qed.

(** ** The parser: one segment *)

Ltac name_case name k :=
  let E := fresh "E" in
  destruct (String.eqb name k) eqn:E;
  [apply String.eqb_eq in E; subst name |].

Ltac jget_compute :=
  repeat (rewrite jget_jset; cbn [String.eqb Ascii.eqb Bool.eqb]).

Ltac wf_solve :=
  constructor; unfold is_list_or_absent, is_list_at; jget_compute; eauto.

Ltac absurd_name :=
  match goal with
  | H : _ = _ \/ _ = _ |- _ => destruct H; absurd_name
  | H : String _ _ = String _ _ |- _ => discriminate H
  | H : ?n = String _ _, E : String.eqb ?n _ = false |- _ =>
      subst n; vm_compute in E; discriminate E
  | H : ?n = String _ _ |- _ => subst n; absurd_name
  | E : String.eqb (String _ _) _ = false |- _ => vm_compute in E; discriminate E
  end.

Ltac frame_solve :=
  repeat split; intros; unfold patient_identifiers; jget_compute;
  try reflexivity; try congruence; try absurd_name; eauto.

Ltac returns :=
  left; eexists; split; [reflexivity |]; split; [wf_solve | frame_solve].

(** One segment on a well-shaped result: the step returns a well-shaped
    result, touching [patient] only for PID and [visit] only for PV1 and
    PV2, or it is a PV2 segment met while [visit] is still [None], and the
    step raises [TypeError]. *)
Lemma decode_fields_step (name : string) (rest : list string) (r : jdict) :
  wf r ->
  (exists r',
      decode_fields (name :: rest) r = Ok r' /\ wf r'
      /\ (name <> "PID" -> jget "patient" r' = jget "patient" r)
      /\ (name <> "PV1" -> name <> "PV2" -> jget "visit" r' = jget "visit" r)
      /\ (name = "PV1" \/ name = "PV2" -> exists d, jget "visit" r' = Some (JDict d))
      /\ (name = "PID" ->
          patient_identifiers r' = Some (JList [JStr (nth 3 (name :: rest) "")])))
  \/ (decode_fields (name :: rest) r = Raise TypeError
      /\ name = "PV2" /\ jget "visit" r = Some JNone).
Proof.
  intros [(h & Hh) (la & Ha) (ld & Hd) (lp & Hp) Hn Hg Hi Hv].
  unfold decode_fields. cbn [py_index nth_error rbind].
  rewrite !capture_default, !field_default. cbn [rbind].
  name_case name "MSH".
  { unfold at_key. rewrite Hh. cbn [update rbind]. returns. }
  name_case name "EVN".
  { unfold at_key. rewrite Hh. cbn [setitem rbind]. jget_compute.
    cbn [setitem rbind]. returns. }
  name_case name "PID". { returns. }
  name_case name "PD1". { returns. }
  name_case name "PV1". { returns. }
  name_case name "PV2".
  { unfold at_default, setdefault. destruct Hv as [Hv|(d & Hv)]; rewrite Hv.
    - right. cbn. auto.
    - cbn [setitem rbind]. jget_compute. cbn [setitem rbind]. returns. }
  name_case name "MRG". { returns. }
  name_case name "AL1".
  { unfold at_key. rewrite Ha. cbn [append rbind]. returns. }
  name_case name "DG1".
  { unfold at_key. rewrite Hd. cbn [append rbind]. returns. }
  name_case name "PR1".
  { unfold at_key. rewrite Hp. cbn [append rbind]. returns. }
  name_case name "NK1".
  { unfold at_default, setdefault. destruct Hn as [Hn|(l & Hn)];
      rewrite Hn; cbn [append rbind]; returns. }
  name_case name "GT1".
  { unfold at_default, setdefault. destruct Hg as [Hg|(l & Hg)];
      rewrite Hg; cbn [append rbind]; returns. }
  name_case name "IN1".
  { unfold at_default, setdefault. destruct Hi as [Hi|(l & Hi)];
      rewrite Hi; cbn [append rbind]; returns. }
  left. exists r. split; [reflexivity |].
  split; [wf_solve | frame_solve].
Qed.

Lemma split_head (seg : string) :
  PyStr.split "|" seg = segment_name seg :: tl (PyStr.split "|" seg).
Proof.
  unfold segment_name. pose proof (split_not_nil "|" seg) as H.
  destruct (PyStr.split "|" seg); [contradiction | reflexivity].
Qed.

Lemma decode_segment_step (seg : string) (r : jdict) :
  wf r ->
  (exists r',
      decode_segment seg r = Ok r' /\ wf r'
      /\ (segment_name seg <> "PID" -> jget "patient" r' = jget "patient" r)
      /\ (segment_name seg <> "PV1" -> segment_name seg <> "PV2" ->
          jget "visit" r' = jget "visit" r)
      /\ (segment_name seg = "PV1" \/ segment_name seg = "PV2" ->
          exists d, jget "visit" r' = Some (JDict d))
      /\ (segment_name seg = "PID" ->
          patient_identifiers r' = Some (JList [JStr (nth 3 (PyStr.split "|" seg) "")])))
  \/ (decode_segment seg r = Raise TypeError
      /\ segment_name seg = "PV2" /\ jget "visit" r = Some JNone).
Proof.
  intros Hwf. unfold decode_segment. rewrite (split_head seg).
  apply decode_fields_step, Hwf.
Qed.

Lemma decode_segments_app (l1 l2 : list string) (r : jdict) :
  decode_segments (l1 ++ l2) r
  = rbind (decode_segments l1 r) (decode_segments l2).
Proof.
  revert r. induction l1 as [|s l1 IH]; intros r; [reflexivity |].
  cbn [app decode_segments]. destruct (decode_segment s r); cbn [rbind]; auto.
Qed.

(** the loop stops for no other reason than the PV2 segment met too early *)
Lemma decode_segments_outcome (segs : list string) (r : jdict) :
  wf r ->
  (exists r', decode_segments segs r = Ok r' /\ wf r')
  \/ decode_segments segs r = Raise TypeError.
Proof.
  revert r. induction segs as [|s segs IH]; intros r Hwf.
  - left. exists r. split; [reflexivity | exact Hwf].
  - cbn [decode_segments].
    destruct (decode_segment_step s r Hwf) as [(r' & Hr' & Hwf' & _)|(Hr & _)];
      rewrite ?Hr', ?Hr; cbn [rbind]; [apply IH, Hwf' | now right].
Qed.

(** C9.  Every field access of the parser is guarded by the length of the
    segment: an index out of range gives the empty string, so a segment
    decodes as the same segment with empty fields added at its end, and
    [hl7_full_to_json] never raises [IndexError]. *)
Theorem out_of_range_field_is_empty :
  (forall fields i, List.length fields <= i -> field fields i = Ok "")
  /\ (forall fields i, field fields i = Ok (nth i fields ""))
  /\ (forall seg n r, decode_segment (seg ++ pipes n) r = decode_segment seg r)
  /\ (forall hl7_msg, hl7_full_to_json hl7_msg <> Raise IndexError)
  /\ hl7_full_to_json "PID|1"
     = Ok (jset "patient"
             (JDict [ ("identifiers", JList [JStr ""]); ("name", JStr "");
                      ("dob", JStr ""); ("sex", JStr "") ])
             initial_result).
Proof.
  split; [| split; [| split; [| split]]].
  - intros fields i Hle. rewrite field_default. now rewrite nth_overflow.
  - exact field_default.
  - intros seg n r. unfold decode_segment. rewrite split_pipes.
    apply decode_fields_padded, split_not_nil.
  - intros hl7_msg. unfold hl7_full_to_json.
    destruct (decode_segments_outcome
                (List.filter PyStr.strip_nonempty (PyStr.split PyStr.CR hl7_msg))
                initial_result wf_initial) as [(r' & -> & _)| ->]; discriminate.
  - reflexivity.
Qed.

Lemma out_of_range_field_is_empty_witness :
  field ["PV2"; ""; ""] 4 = Ok "".
Proof.
  destruct out_of_range_field_is_empty as (H & _).
  apply H. cbn. lia.
Defined.

(** ** The parser: PV2 before PV1 *)

Lemma pv2_on_none (rest : list string) (r : jdict) :
  jget "visit" r = Some JNone ->
  decode_fields ("PV2" :: rest) r = Raise TypeError.
Proof.
  intros Hv. unfold decode_fields. cbn [py_index nth_error rbind].
  rewrite !field_default. cbn [rbind String.eqb Ascii.eqb Bool.eqb].
  unfold at_default, setdefault. rewrite Hv. reflexivity.
Qed.

Lemma decode_segments_pv2_first (before after : list string) (seg : string) (r : jdict) :
  wf r -> jget "visit" r = Some JNone ->
  segment_name seg = "PV2" ->
  Forall (fun s => segment_name s <> "PV1") before ->
  decode_segments (before ++ seg :: after) r = Raise TypeError.
Proof.
  intros Hwf Hv Hseg Hbefore. revert r Hwf Hv.
  induction Hbefore as [|s before Hs Hbefore IH]; intros r Hwf Hv.
  - cbn [app decode_segments]. unfold decode_segment.
    rewrite (split_head seg), Hseg, (pv2_on_none _ _ Hv). reflexivity.
  - cbn [app decode_segments].
    destruct (String.eqb (segment_name s) "PV2") eqn:E.
    + apply String.eqb_eq in E. unfold decode_segment.
      rewrite (split_head s), E, (pv2_on_none _ _ Hv). reflexivity.
    + apply String.eqb_neq in E.
      destruct (decode_segment_step s r Hwf)
        as [(r' & Hr' & Hwf' & _ & Hvisit & _)|(_ & Hname & _)];
        [| contradiction].
      rewrite Hr'. cbn [rbind]. apply IH; [exact Hwf' |].
      rewrite (Hvisit Hs E). exact Hv.
Qed.

(** C10.  [hl7_full_to_json] is partial: when a PV2 segment comes with no
    PV1 segment before it, [visit] is still [None], [setdefault] hands that
    [None] out, and the assignment into it raises [TypeError]. *)
Theorem pv2_without_pv1_raises :
  forall hl7_msg before seg after,
    segments_of hl7_msg = (before ++ seg :: after)%list ->
    segment_name seg = "PV2" ->
    Forall (fun s => segment_name s <> "PV1") before ->
    hl7_full_to_json hl7_msg = Raise TypeError
    /\ setdefault "visit" (JDict []) initial_result = (JNone, initial_result)
    /\ setitem JNone "admit" (JStr (nth 3 (PyStr.split "|" seg) "")) = Raise TypeError.
Proof.
  intros hl7_msg before seg after Hsegs Hseg Hbefore.
  split; [| split; reflexivity].
  unfold hl7_full_to_json. fold (segments_of hl7_msg). rewrite Hsegs.
  apply decode_segments_pv2_first; auto using wf_initial.
Qed.

Lemma pv2_without_pv1_raises_witness :
  hl7_full_to_json ("EVN|A08|20251021123000" ++ CRs ++ "PV2|||20251021100000|")
  = Raise TypeError.
Proof.
  apply (pv2_without_pv1_raises _ ["EVN|A08|20251021123000"]
           "PV2|||20251021100000|" []).
  - reflexivity.
  - reflexivity.
  - constructor; [discriminate | constructor].
Defined.

(** ** The segments the encoder emits *)

Lemma named_name (names : list string) (seg : string) :
  Forall (fun n => PyStr.mem "|" n = false) names ->
  named names seg -> In (segment_name seg) names.
Proof.
  intros Hall (name & x & Hin & ->).
  unfold segment_name. rewrite split_append_sep.
  rewrite Forall_forall in Hall. rewrite (split_absent "|" name (Hall _ Hin)).
  exact Hin.
Qed.

Lemma neutral_names_plain : Forall (fun n => PyStr.mem "|" n = false) neutral_names.
Proof. repeat constructor. Qed.

Lemma named_nonblank (names : list string) (seg : string) :
  Forall (fun n => PyStr.strip_nonempty n = true) names ->
  named names seg -> PyStr.strip_nonempty seg = true.
Proof.
  intros Hall (name & x & Hin & ->). rewrite Forall_forall in Hall.
  specialize (Hall _ Hin). clear Hin.
  induction name as [|a name IH]; [discriminate |].
  cbn in *. destruct (PyStr.is_space a); auto.
Qed.

Lemma neutral_nonblank (seg : string) :
  named neutral_names seg -> PyStr.strip_nonempty seg = true.
Proof. apply named_nonblank. repeat constructor. Qed.

Lemma neutral_step (seg : string) (r : jdict) :
  wf r -> named neutral_names seg ->
  exists r',
    decode_segment seg r = Ok r' /\ wf r'
    /\ jget "patient" r' = jget "patient" r
    /\ jget "visit" r' = jget "visit" r.
Proof.
  intros Hwf Hn. pose proof (named_name _ _ neutral_names_plain Hn) as Hin.
  assert (Hne : segment_name seg <> "PID" /\ segment_name seg <> "PV1"
                /\ segment_name seg <> "PV2").
  { unfold neutral_names in Hin. cbn [In] in Hin.
    repeat (destruct Hin as [<-|Hin]; [repeat split; discriminate |]).
    contradiction. }
  destruct Hne as (H1 & H2 & H3).
  destruct (decode_segment_step seg r Hwf)
    as [(r' & Hr' & Hwf' & Hp & Hv & _)|(_ & Hname & _)]; [| contradiction].
  exists r'. auto.
Qed.

Lemma neutral_steps (l : list string) (r : jdict) :
  wf r -> Forall (named neutral_names) l ->
  exists r',
    decode_segments l r = Ok r' /\ wf r'
    /\ jget "patient" r' = jget "patient" r.
Proof.
  intros Hwf Hall. revert r Hwf.
  induction Hall as [|s l Hs Hall IH]; intros r Hwf.
  - exists r. auto.
  - destruct (neutral_step s r Hwf Hs) as (r1 & H1 & Hwf1 & Hp1 & _).
    destruct (IH r1 Hwf1) as (r2 & H2 & Hwf2 & Hp2).
    exists r2. cbn [decode_segments]. rewrite H1. cbn [rbind].
    split; [exact H2 | split; [exact Hwf2 | congruence]].
Qed.

Lemma visit_steps (l : list string) (r : jdict) :
  wf r -> visit_part l ->
  exists r',
    decode_segments l r = Ok r' /\ wf r'
    /\ jget "patient" r' = jget "patient" r.
Proof.
  intros Hwf [-> | (a & b & ->)].
  - exists r. auto.
  - assert (N1 : segment_name ("PV1" ++ String "|" a) = "PV1")
      by (unfold segment_name; now rewrite split_append_sep).
    assert (N2 : segment_name ("PV2" ++ String "|" b) = "PV2")
      by (unfold segment_name; now rewrite split_append_sep).
    destruct (decode_segment_step ("PV1" ++ String "|" a) r Hwf)
      as [(r1 & H1 & Hwf1 & Hp1 & _ & Hd1 & _)|(_ & Hname & _)];
      [| rewrite N1 in Hname; discriminate].
    destruct (Hd1 (or_introl N1)) as (d & Hd).
    destruct (decode_segment_step ("PV2" ++ String "|" b) r1 Hwf1)
      as [(r2 & H2 & Hwf2 & Hp2 & _)|(_ & _ & Hnone)];
      [| congruence].
    exists r2. cbn [decode_segments]. rewrite H1. cbn [rbind]. rewrite H2.
    cbn [rbind]. split; [reflexivity | split; [exact Hwf2 |]].
    rewrite Hp2, Hp1; [reflexivity | rewrite N1 | rewrite N2]; discriminate.
Qed.

Lemma build_msh_shape (hdr : MessageModel) (w : world) :
  exists x w1, build_msh hdr w = Ok ("MSH" ++ String "|" x, w1).
Proof.
  unfold build_msh.
  destruct (ts_to_hl7_total (message_datetime hdr) w) as (dt & w1 & Hdt).
  rewrite (bind_ok _ _ _ _ _ Hdt).
  destruct (truthy (message_control_id hdr)); do 2 eexists; reflexivity.
Qed.

Lemma build_visit_shape (v : VisitModel) (w : world) :
  exists l w1, build_visit v w = Ok (l, w1) /\ visit_part l.
Proof.
  unfold build_visit.
  destruct (ts_if_total (admit_datetime v) w) as (a1 & w1 & H1).
  rewrite (bind_ok _ _ _ _ _ H1).
  destruct (ts_if_total (discharge_datetime v) w1) as (d1 & w2 & H2).
  rewrite (bind_ok _ _ _ _ _ H2).
  destruct (ts_if_total (admit_datetime v) w2) as (a2 & w3 & H3).
  rewrite (bind_ok _ _ _ _ _ H3).
  destruct (ts_if_total (discharge_datetime v) w3) as (d2 & w4 & H4).
  rewrite (bind_ok _ _ _ _ _ H4).
  do 2 eexists. split; [reflexivity |].
  right. do 2 eexists. reflexivity.
Qed.

Lemma each_named (f : pydict -> result string) (l : list pydict) (ss : list string) :
  (forall x s, f x = Ok s -> named neutral_names s) ->
  each f l = Ok ss -> Forall (named neutral_names) ss.
Proof.
  intros Hf. revert ss. induction l as [|x l IH]; intros ss; cbn [each].
  - intros H. injection H as <-. constructor.
  - destruct (f x) as [s|e] eqn:E; cbn [rbind]; [| discriminate].
    destruct (each f l) as [rest|e]; cbn [rbind]; [| discriminate].
    intros H. injection H as <-. constructor; [now apply (Hf x) | now apply IH].
Qed.

Ltac neutral name :=
  exists name; eexists; split; [cbn; tauto | reflexivity].

Lemma build_al1_named (a : pydict) (s : string) :
  build_al1 a = Ok s -> named neutral_names s.
Proof.
  unfold build_al1.
  destruct (escape_hl7_field (dict_get a "allergen" _)); cbn [rbind]; [| discriminate].
  destruct (escape_hl7_field (dict_get a "reaction" _)); cbn [rbind]; [| discriminate].
  destruct (escape_hl7_field (dict_get a "severity" _)); cbn [rbind]; [| discriminate].
  intros H. injection H as <-. neutral "AL1".
Qed.

Lemma build_dg1_named (a : pydict) (s : string) :
  build_dg1 a = Ok s -> named neutral_names s.
Proof.
  unfold build_dg1.
  destruct (escape_hl7_field (dict_get a "diagnosis_desc" _)); cbn [rbind]; [| discriminate].
  intros H. injection H as <-. neutral "DG1".
Qed.

Lemma build_pr1_named (a : pydict) (s : string) :
  build_pr1 a = Ok s -> named neutral_names s.
Proof.
  unfold build_pr1.
  destruct (escape_hl7_field (dict_get a "procedure_desc" _)); cbn [rbind]; [| discriminate].
  intros H. injection H as <-. neutral "PR1".
Qed.

Lemma map_named {A : Type} (f : A -> string) (l : list A) :
  (forall x, named neutral_names (f x)) -> Forall (named neutral_names) (map f l).
Proof. intros Hf. induction l; cbn; constructor; auto. Qed.

(** the list of segments: MSH, EVN, PID, then segments that leave the
    patient alone, with PV2 only behind its PV1 *)
Lemma hl7_segments_shape (payload : HL7FullInput) (w w1 : world) (segs : list string) :
  hl7_segments payload w = Ok (segs, w1) ->
  exists x y pid s1 sv s2,
    segs = ("MSH" ++ String "|" x) :: ("EVN" ++ String "|" y) :: pid
           :: (s1 ++ sv ++ s2)%list
    /\ build_pid (patient payload) = Ok pid
    /\ Forall (named neutral_names) s1
    /\ visit_part sv
    /\ Forall (named neutral_names) s2.
Proof.
  unfold hl7_segments. intros H.
  destruct (build_msh_shape (header payload) w) as (x & w2 & Hmsh).
  rewrite (bind_ok _ _ _ _ _ Hmsh) in H.
  destruct (ts_to_hl7_total (message_datetime (header payload)) w2) as (t & w3 & Ht).
  rewrite (bind_ok _ _ _ _ _ Ht) in H.
  destruct (build_pid (patient payload)) as [pid|e] eqn:Hpid;
    [| rewrite (bind_raise _ _ _ _ (lift_raise _ w3 _ eq_refl)) in H; discriminate].
  rewrite (bind_ok _ _ _ _ _ (lift_ok _ w3 _ eq_refl)) in H.
  assert (Hv : exists l w4,
             match visit payload with
             | Some v => build_visit v
             | None => ret []
             end w3 = Ok (l, w4) /\ visit_part l).
  { destruct (visit payload); [apply build_visit_shape |].
    do 2 eexists. split; [reflexivity | now left]. }
  destruct Hv as (sv & w4 & Hv & Hsv). rewrite (bind_ok _ _ _ _ _ Hv) in H.
  destruct (each build_al1 (nonempty (al1 payload))) as [sa|ea] eqn:Ea;
    [| rewrite (bind_raise _ _ _ _ (lift_raise _ w4 _ eq_refl)) in H; discriminate].
  rewrite (bind_ok _ _ _ _ _ (lift_ok _ w4 _ eq_refl)) in H.
  destruct (each build_dg1 (nonempty (dg1 payload))) as [sd|ed] eqn:Ed;
    [| rewrite (bind_raise _ _ _ _ (lift_raise _ w4 _ eq_refl)) in H; discriminate].
  rewrite (bind_ok _ _ _ _ _ (lift_ok _ w4 _ eq_refl)) in H.
  destruct (each build_pr1 (nonempty (pr1 payload))) as [sp|ep] eqn:Ep;
    [| rewrite (bind_raise _ _ _ _ (lift_raise _ w4 _ eq_refl)) in H; discriminate].
  rewrite (bind_ok _ _ _ _ _ (lift_ok _ w4 _ eq_refl)) in H.
  unfold ret in H. injection H as <- <-.
  do 6 eexists. split; [reflexivity |]. split; [reflexivity |].
  split; [| split; [exact Hsv |]].
  - destruct (pd1 payload); constructor; [| constructor]. neutral "PD1".
  - repeat (apply Forall_app; split).
    + destruct (mrg payload) as [[|e m]|]; constructor; [| constructor].
      neutral "MRG".
    + exact (each_named _ _ _ build_al1_named Ea).
    + exact (each_named _ _ _ build_dg1_named Ed).
    + exact (each_named _ _ _ build_pr1_named Ep).
    + apply map_named. intros nk. neutral "NK1".
    + apply map_named. intros gt. neutral "GT1".
    + apply map_named. intros ins. neutral "IN1".
Qed.

(** ** Round trip of the patient identifier *)

Lemma filter_all {A : Type} (f : A -> bool) (l : list A) :
  Forall (fun x => f x = true) l -> List.filter f l = l.
Proof.
  induction 1 as [|x l Hx Hl IH]; cbn; [reflexivity |]. now rewrite Hx, IH.
Qed.

Lemma build_pid_field3 (p : PatientModel) (first : Identifier) (rest : list Identifier) :
  identifiers p = first :: rest ->
  assigning_authority first = Some ASSIGNING_AUTHORITY_HEALTH_ID ->
  exists tail,
    build_pid p
    = Ok ("PID" ++ String "|" ("1" ++ String "|" ("" ++ String "|"
            (pid3_of first ++ String "|" tail)))).
Proof.
  intros Hids Hauth. unfold build_pid, pid3_of. rewrite Hids, Hauth.
  cbn [opt_string_eqb]. rewrite String.eqb_refl. cbn [negb rbind format_opt].
  eexists. rewrite !append_assoc. reflexivity.
Qed.

Lemma pid3_plain (i : Identifier) :
  PyStr.mem "|" (id i) = false -> PyStr.mem "|" (pid3_of i) = false.
Proof. intros H. unfold pid3_of. now rewrite mem_append, H. Qed.

Lemma nonblank_named (name x : string) :
  PyStr.strip_nonempty name = true ->
  PyStr.strip_nonempty (name ++ String "|" x) = true.
Proof.
  induction name as [|a name IH]; [discriminate |].
  cbn. destruct (PyStr.is_space a); auto.
Qed.

(** C2, as the code has it.  When the first identifier is under the
    health-ID authority, its id holds no [|], and no emitted segment holds
    a carriage return, the message decodes, and the one entry of the
    decoded [identifiers] is the whole PID field 3, [<id>^^^<OID>^ISO]: the
    id followed by the authority and [ISO], not the id alone. *)
Theorem pid_roundtrip_returns_field3 :
  forall (payload : HL7FullInput) (w : world) (segs : list string)
         (first : Identifier) (rest : list Identifier),
    identifiers (patient payload) = first :: rest ->
    assigning_authority first = Some ASSIGNING_AUTHORITY_HEALTH_ID ->
    run (hl7_segments payload) w = Ok segs ->
    Forall (fun s => PyStr.mem PyStr.CR s = false) segs ->
    PyStr.mem "|" (id first) = false ->
    run (json_to_hl7_full payload) w = Ok (PyStr.join CRs segs)
    /\ exists r,
         hl7_full_to_json (PyStr.join CRs segs) = Ok r
         /\ patient_identifiers r
            = Some (JList [JStr (id first ++ "^^^" ++ ASSIGNING_AUTHORITY_HEALTH_ID
                                 ++ "^ISO")]).
Proof.
  intros payload w segs first rest Hids Hauth Hrun Hcr Hpipe.
  assert (Hsegs : exists w1, hl7_segments payload w = Ok (segs, w1)).
  { unfold run in Hrun. destruct (hl7_segments payload w) as [[s w1]|e];
      [injection Hrun as ->; eauto | discriminate]. }
  destruct Hsegs as (w1 & Hsegs). split.
  { unfold json_to_hl7_full. apply run_ok with w1.
    rewrite (bind_ok _ _ _ _ _ Hsegs). reflexivity. }
  destruct (hl7_segments_shape _ _ _ _ Hsegs)
    as (x & y & pid & s1 & sv & s2 & -> & Hpid & Hs1 & Hsv & Hs2).
  destruct (build_pid_field3 _ _ _ Hids Hauth) as (tail & Hpid3).
  rewrite Hpid3 in Hpid. injection Hpid as <-.
  unfold hl7_full_to_json, CRs.
  rewrite split_join; [| discriminate | exact Hcr].
  rewrite filter_all.
  2:{ repeat constructor; try (apply nonblank_named; reflexivity).
      repeat (apply Forall_app; split).
      - eapply Forall_impl; [| exact Hs1]. apply neutral_nonblank.
      - destruct Hsv as [-> | (a & b & ->)]; repeat constructor;
          apply nonblank_named; reflexivity.
      - eapply Forall_impl; [| exact Hs2]. apply neutral_nonblank. }
  cbn [decode_segments].
  destruct (decode_segment_step ("MSH" ++ String "|" x) initial_result wf_initial)
    as [(r1 & H1 & Hwf1 & _)|(_ & Hname & _)];
    [| unfold segment_name in Hname; rewrite split_append_sep in Hname; discriminate].
  rewrite H1. cbn [rbind].
  destruct (decode_segment_step ("EVN" ++ String "|" y) r1 Hwf1)
    as [(r2 & H2 & Hwf2 & _)|(_ & Hname & _)];
    [| unfold segment_name in Hname; rewrite split_append_sep in Hname; discriminate].
  rewrite H2. cbn [rbind].
  match goal with |- context [decode_segment ?s r2] => set (pid := s) in * end.
  assert (Hfields : PyStr.split "|" pid
                    = "PID" :: "1" :: "" :: pid3_of first :: PyStr.split "|" tail).
  { unfold pid.
    change (PyStr.split "|"
              ("PID" ++ String "|" ("1" ++ String "|" ("" ++ String "|"
                 (pid3_of first ++ String "|" tail))))
            = "PID" :: "1" :: "" :: pid3_of first :: PyStr.split "|" tail).
    rewrite !split_append_sep.
    rewrite (split_absent "|" (pid3_of first) (pid3_plain _ Hpipe)). reflexivity. }
  destruct (decode_segment_step pid r2 Hwf2)
    as [(r3 & H3 & Hwf3 & _ & _ & _ & Hident)|(_ & Hname & _)];
    [| unfold segment_name in Hname; rewrite Hfields in Hname; discriminate].
  rewrite H3. cbn [rbind].
  assert (Hid3 : patient_identifiers r3 = Some (JList [JStr (pid3_of first)])).
  { rewrite Hident; [now rewrite Hfields | unfold segment_name; now rewrite Hfields]. }
  rewrite decode_segments_app.
  destruct (neutral_steps s1 r3 Hwf3 Hs1) as (r4 & H4 & Hwf4 & Hp4).
  rewrite H4. cbn [rbind]. rewrite decode_segments_app.
  destruct (visit_steps sv r4 Hwf4 Hsv) as (r5 & H5 & Hwf5 & Hp5).
  rewrite H5. cbn [rbind].
  destruct (neutral_steps s2 r5 Hwf5 Hs2) as (r6 & H6 & Hwf6 & Hp6).
  exists r6. split; [exact H6 |].
  unfold patient_identifiers in *. rewrite Hp6, Hp5, Hp4. exact Hid3.
Qed.

Lemma pid_roundtrip_returns_field3_witness :
  exists r,
    hl7_full_to_json
      (PyStr.join CRs
         [ "MSH|^~\&|2.16.840.1.113883.3.3731.example.ehr|HospitalA|||20251021123000||ADT^A01|MSG0001|P|2.5.1";
           "EVN|A01|20251021123000";
           "PID|1||NHIC123456^^^2.16.840.1.113883.3.3731.1.1.100.1^ISO||Doe^John^||19800101|M" ])
    = Ok r
    /\ patient_identifiers r
       = Some (JList [JStr "NHIC123456^^^2.16.840.1.113883.3.3731.1.1.100.1^ISO"]).
Proof.
  refine (proj2 (pid_roundtrip_returns_field3
                   (example_hl7_input ASSIGNING_AUTHORITY_HEALTH_ID) example_world
                   _ (example_identifier ASSIGNING_AUTHORITY_HEALTH_ID) []
                   eq_refl eq_refl eq_refl _ eq_refl)).
  repeat constructor.
Defined.

(** C2 as the specification words it fails: what the decoder returns for
    the identifier is not the raw id. *)
Lemma pid_roundtrip_counterexample :
  ~ (forall (payload : HL7FullInput) (w : world) (msg : string) (r : jdict)
            (first : Identifier) (rest : list Identifier),
       identifiers (patient payload) = first :: rest ->
       assigning_authority first = Some ASSIGNING_AUTHORITY_HEALTH_ID ->
       run (json_to_hl7_full payload) w = Ok msg ->
       hl7_full_to_json msg = Ok r ->
       patient_identifiers r = Some (JList [JStr (id first)])).
Proof.
  intros H.
  specialize (H (example_hl7_input ASSIGNING_AUTHORITY_HEALTH_ID) example_world
                _ _ (example_identifier ASSIGNING_AUTHORITY_HEALTH_ID) []
                eq_refl eq_refl eq_refl eq_refl).
  vm_compute in H. discriminate H.
Qed.

(** ** The ebXML tree *)

Lemma filter_flat_map {A B : Type} (f : B -> bool) (g : A -> list B) (l : list A) :
  List.filter f (flat_map g l) = flat_map (fun x => List.filter f (g x)) l.
Proof.
  induction l as [|x l IH]; cbn; [reflexivity |]. now rewrite filter_app, IH.
Qed.

Lemma find_all_node (q t : qname) (a : list (string * string)) (x : pyval)
    (c : list element) :
  find_all q (Element t a x c)
  = ((if qname_eqb t q then [Element t a x c] else []) ++ flat_map (find_all q) c)%list.
Proof.
  unfold find_all. cbn [ET.iter List.filter tag_of].
  rewrite filter_flat_map. destruct (qname_eqb t q); reflexivity.
Qed.

Lemma total_ret {A : Type} (a : A) : total (ret a).
Proof. intros w. unfold ret. eauto. Qed.

Lemma total_bind {A B : Type} (c : M A) (k : A -> M B) :
  total c -> (forall a, total (k a)) -> total (bind c k).
Proof.
  intros Hc Hk w. destruct (Hc w) as (a & w1 & H).
  rewrite (bind_ok _ _ _ _ _ H). apply Hk.
Qed.

Lemma total_uuid4 : total uuid4.
Proof. intros w. unfold uuid4. eauto. Qed.

Lemma total_utcnow : total utcnow.
Proof. intros w. unfold utcnow. eauto. Qed.

Lemma total_urn_uuid : total urn_uuid.
Proof. apply total_bind; [apply total_uuid4 | intros; apply total_ret]. Qed.

Lemma total_or_urn (x : option string) : total (or_urn x).
Proof.
  unfold or_urn. destruct (truthy x); [apply total_ret | apply total_urn_uuid].
Qed.

Lemma total_urn_when (x : option string) : total (urn_when x).
Proof.
  unfold urn_when. destruct (truthy x); [apply total_urn_uuid | apply total_ret].
Qed.

Lemma total_or_now (x : option string) : total (or_now x).
Proof.
  unfold or_now. destruct (truthy x); [apply total_ret |].
  apply total_bind; [apply total_utcnow | intros; apply total_ret].
Qed.

Lemma draw_total (obj : SOAPInput) : total (draw obj).
Proof.
  unfold draw.
  repeat (apply total_bind;
          [first [ apply total_uuid4 | apply total_urn_uuid | apply total_or_urn
                 | apply total_urn_when | apply total_or_now ]
          | intros ?]).
  apply total_ret.
Qed.

Lemma build_iti41_tree_returns (obj : SOAPInput) (w : world) :
  source_id_ok obj = true ->
  exists d w1, build_iti41_tree obj w = Ok (iti41_tree obj d, w1).
Proof.
  intros Hok. unfold build_iti41_tree. rewrite Hok. cbn [negb].
  destruct (draw_total obj w) as (d & w1 & Hd).
  exists d, w1. unfold bind at 1. cbn [ret]. now rewrite (bind_ok _ _ _ _ _ Hd).
Qed.

Lemma valid_source_id (obj : SOAPInput) :
  valid_SOAPInput obj -> source_id_ok obj = true.
Proof.
  intros (_ & _ & H). unfold source_id_must_start_with_root in H.
  unfold source_id_ok. destruct (truthy (source_id obj)); [| reflexivity].
  cbn [negb orb] in *.
  destruct (PyStr.startswith NATIONAL_ORG_ROOT (or_else (source_id obj) ""));
    [reflexivity | discriminate].
Qed.

Ltac each_tag H :=
  unfold registry_tags in H; cbn [In] in H;
  destruct H as [<-|[<-|[<-|[]]]].

Lemma find_all_header (obj : SOAPInput) (d : drawn) (q : qname) :
  In q registry_tags -> find_all q (header_of obj d) = [].
Proof. intros H. each_tag H; reflexivity. Qed.

Lemma find_all_doc_el (obj : SOAPInput) (d : drawn) (q : qname) :
  In q registry_tags -> flat_map (find_all q) (doc_el_of obj d) = [].
Proof.
  intros H. unfold doc_el_of. each_tag H; destruct (doc_bytes_of obj); reflexivity.
Qed.

Lemma find_all_regpkg (obj : SOAPInput) (d : drawn) (q : qname) :
  In q registry_tags ->
  find_all q (regpkg_of obj d)
  = if qname_eqb REGISTRY_PACKAGE q then [regpkg_of obj d] else [].
Proof.
  intros H. unfold regpkg_of, when_slot.
  each_tag H;
    destruct (truthy (source_id obj)), (truthy (repository_unique_id obj));
    reflexivity.
Qed.

Lemma find_all_ex (obj : SOAPInput) (d : drawn) (q : qname) :
  In q registry_tags ->
  find_all q (ex_of obj d)
  = if qname_eqb EXTRINSIC_OBJECT q then [ex_of obj d] else [].
Proof.
  intros H. unfold ex_of, when_slot, doc_slots_of.
  destruct (doc_bytes_of obj) as [b|]; [destruct (sha1_and_size b) as [h size] |];
    each_tag H;
    destruct (truthy (class_code obj)), (truthy (type_code obj)),
      (truthy (source_id obj)), (truthy (practice_setting_code obj)),
      (truthy (repository_unique_id obj));
    reflexivity.
Qed.

Lemma find_all_tree (obj : SOAPInput) (d : drawn) (q : qname) :
  In q registry_tags ->
  find_all q (iti41_tree obj d)
  = ((if qname_eqb REGISTRY_PACKAGE q then [regpkg_of obj d] else [])
     ++ (if qname_eqb EXTRINSIC_OBJECT q then [ex_of obj d] else [])
     ++ (if qname_eqb ASSOCIATION q then [assoc_of d] else []))%list.
Proof.
  intros H. unfold iti41_tree.
  repeat (rewrite find_all_node; cbn [flat_map]).
  rewrite (find_all_header _ _ _ H), (find_all_doc_el _ _ _ H),
    (find_all_regpkg _ _ _ H), (find_all_ex _ _ _ H).
  each_tag H; reflexivity.
Qed.

(** ** Writing the tree *)

Lemma serialize_total :
  forall (e : element) (decls : string),
    ET.texts_ok e = true -> exists s, ET.serialize decls e = Ok s.
Proof.
  fix IH 1. intros [t a x c] decls H.
  cbn [ET.texts_ok] in H. apply andb_prop in H as [Hx Hc].
  cbn [ET.serialize].
  match goal with
  | |- context [rbind (?loop c) _] =>
      assert (Hin : exists s, loop c = Ok s);
      [ clear - IH Hc; induction c as [|y c IHc];
        [ eexists; reflexivity
        | cbn [forallb] in Hc; apply andb_prop in Hc as [Hy Hc];
          destruct (IH y "" Hy) as (s & Hs); destruct (IHc Hc) as (s' & Hs');
          rewrite Hs; cbn [rbind]; rewrite Hs'; cbn [rbind]; eexists; reflexivity ]
      | destruct Hin as (inner & Hin); rewrite Hin ]
  end.
  destruct (ET.has_text x || negb (Nat.eqb (List.length c) 0)); [| eauto].
  destruct x as [|s|r b]; cbn [ET.has_text ET.write_text];
    try (cbn [rbind]; eauto).
  - destruct (negb (PyStr.is_empty s)); cbn [ET.write_text rbind]; eauto.
  - cbn [negb] in Hx. destruct b; [discriminate |]. cbn [ET.write_text rbind]. eauto.
Qed.

Lemma tostring_total (root : element) :
  ET.texts_ok root = true -> exists xml, ET.tostring root = Ok xml.
Proof.
  intros H. unfold ET.tostring.
  destruct (serialize_total root (ET.declarations root) H) as (s & ->).
  cbn [rbind]. eauto.
Qed.

Lemma dict_get_writable (d : pydict) (k s : string) :
  writable (dict_get d k PyNone) = true -> writable (dict_get d k (PyStr s)) = true.
Proof.
  induction d as [|[k' v] d IH]; cbn; [reflexivity |].
  destruct (String.eqb k' k); auto.
Qed.

Lemma texts_ok_header (obj : SOAPInput) (d : drawn) :
  soap_writable obj = true -> ET.texts_ok (header_of obj d) = true.
Proof.
  unfold soap_writable. intros H.
  apply andb_prop in H as [H Hto]. apply andb_prop in H as [Hact Hmid].
  unfold header_of. cbn [ET.texts_ok forallb].
  change (writable (dict_get (soap obj) "action"
                      (PyStr "urn:ihe:iti:2007:ProvideAndRegisterDocumentSet-b"))
          && true
          && (writable (dict_get (soap obj) "message_id" (PyStr (fresh_message_id d)))
              && true
              && (writable (dict_get (soap obj) "to"
                              (PyStr (or_else (repository_address obj) "")))
                  && true && true)) = true).
  now rewrite !dict_get_writable.
Qed.

Lemma texts_ok_regpkg (obj : SOAPInput) (d : drawn) :
  ET.texts_ok (regpkg_of obj d) = true.
Proof.
  unfold regpkg_of, when_slot.
  destruct (truthy (source_id obj)), (truthy (repository_unique_id obj)); reflexivity.
Qed.

Lemma texts_ok_ex (obj : SOAPInput) (d : drawn) :
  ET.texts_ok (ex_of obj d) = true.
Proof.
  unfold ex_of, when_slot, doc_slots_of.
  destruct (doc_bytes_of obj) as [b|]; [destruct (sha1_and_size b) as [h size] |];
    destruct (truthy (class_code obj)), (truthy (type_code obj)),
      (truthy (source_id obj)), (truthy (practice_setting_code obj)),
      (truthy (repository_unique_id obj));
    reflexivity.
Qed.

Lemma texts_ok_tree (obj : SOAPInput) (d : drawn) :
  soap_writable obj = true -> ET.texts_ok (iti41_tree obj d) = true.
Proof.
  intros H. unfold iti41_tree. cbn [ET.texts_ok forallb andb].
  rewrite (texts_ok_header obj d H), texts_ok_regpkg, texts_ok_ex.
  unfold doc_el_of. destruct (doc_bytes_of obj); reflexivity.
Qed.

(** the validators accept the input of [/example] and the request of the
    repository's MTOM test, whose [creation_time] is in the basic format *)
Example validators_accept_the_repository_inputs :
  valid_SOAPInput example_iti41_input
  /\ forall unique_id, valid_SOAPInput (large_document_input unique_id).
Proof.
  split; [| intros u]; unfold valid_SOAPInput; (split; [| split]); vm_compute; reflexivity.
Qed.

(** C6.  For a valid [SOAPInput], the tree that [build_iti41_ebxml] writes
    out holds one [RegistryPackage], one [ExtrinsicObject] and one
    [Association]; the association is of type HasMember with status
    Approved, its [sourceObject] is the id of the package and its
    [targetObject] the id of the document entry.  The XML text is written
    whenever the values of the [soap] entries can be written. *)
Theorem one_association_joins_package_and_entry :
  forall (obj : SOAPInput) (w : world),
    valid_SOAPInput obj ->
    exists root regpkg ex assoc,
      run (build_iti41_tree obj) w = Ok root
      /\ run (build_iti41_ebxml obj) w = ET.tostring root
      /\ (soap_writable obj = true -> exists xml, ET.tostring root = Ok xml)
      /\ find_all REGISTRY_PACKAGE root = [regpkg]
      /\ find_all EXTRINSIC_OBJECT root = [ex]
      /\ find_all ASSOCIATION root = [assoc]
      /\ get assoc "associationType" = Some HAS_MEMBER
      /\ get assoc "status" = Some APPROVED
      /\ (exists i, get regpkg "id" = Some i /\ get assoc "sourceObject" = Some i)
      /\ (exists i, get ex "id" = Some i /\ get assoc "targetObject" = Some i).
Proof.
  intros obj w Hvalid.
  destruct (build_iti41_tree_returns obj w (valid_source_id obj Hvalid))
    as (d & w1 & Htree).
  exists (iti41_tree obj d), (regpkg_of obj d), (ex_of obj d), (assoc_of d).
  split; [now apply run_ok with w1 |].
  split.
  { unfold run, build_iti41_ebxml. rewrite (bind_ok _ _ _ _ _ Htree).
    unfold lift. destruct (ET.tostring (iti41_tree obj d)); reflexivity. }
  split; [intros Hw; apply tostring_total, texts_ok_tree, Hw |].
  rewrite !find_all_tree by (cbn; tauto).
  repeat (split; [reflexivity |]).
  split; eexists; split; reflexivity.
Qed.

Lemma one_association_joins_package_and_entry_witness :
  exists root regpkg ex assoc,
    run (build_iti41_tree example_iti41_input) example_world = Ok root
    /\ run (build_iti41_ebxml example_iti41_input) example_world = ET.tostring root
    /\ (soap_writable example_iti41_input = true -> exists xml, ET.tostring root = Ok xml)
    /\ find_all REGISTRY_PACKAGE root = [regpkg]
    /\ find_all EXTRINSIC_OBJECT root = [ex]
    /\ find_all ASSOCIATION root = [assoc]
    /\ get assoc "associationType" = Some HAS_MEMBER
    /\ get assoc "status" = Some APPROVED
    /\ (exists i, get regpkg "id" = Some i /\ get assoc "sourceObject" = Some i)
    /\ (exists i, get ex "id" = Some i /\ get assoc "targetObject" = Some i).
Proof.
  apply (one_association_joins_package_and_entry example_iti41_input example_world).
  unfold valid_SOAPInput. split; [| split]; vm_compute; reflexivity.
Defined.

(** ** The hash and size slots *)

Lemma slot_values_ex (obj : SOAPInput) (d : drawn) (b : list byte) :
  doc_bytes_of obj = Some b ->
  slot_values (ex_of obj d) "hash" = [[SHA1.hexdigest b]]
  /\ slot_values (ex_of obj d) "size" = [[decimal (N.of_nat (List.length b))]].
Proof.
  intros Hb. unfold ex_of, when_slot, doc_slots_of, sha1_and_size. rewrite Hb.
  generalize (SHA1.hexdigest b) (decimal (N.of_nat (List.length b))).
  intros h size.
  destruct (truthy (class_code obj)), (truthy (type_code obj)),
    (truthy (source_id obj)), (truthy (practice_setting_code obj)),
    (truthy (repository_unique_id obj));
    split; reflexivity.
Qed.

(** C7.  When a document is supplied, the bytes [B] are the base64 text
    decoded, or the text itself in UTF-8 when it does not decode; the
    builder returns either way, and the [ExtrinsicObject] carries one
    [hash] slot with the SHA-1 digest of [B] in hexadecimal and one [size]
    slot with the length of [B] in decimal. *)
Theorem hash_and_size_slots_of_document :
  forall (obj : SOAPInput) (w : world) (document : string),
    valid_SOAPInput obj ->
    document_base64 obj = Some document -> document <> "" ->
    exists root ex,
      run (build_iti41_tree obj) w = Ok root
      /\ find_all EXTRINSIC_OBJECT root = [ex]
      /\ slot_values ex "hash" = [[SHA1.hexdigest (document_bytes document)]]
      /\ slot_values ex "size"
         = [[decimal (N.of_nat (List.length (document_bytes document)))]]
      /\ (forall b, Base64.b64decode document = Some b -> document_bytes document = b)
      /\ (Base64.b64decode document = None ->
          document_bytes document = utf8_encode document).
Proof.
  intros obj w document Hvalid Hdoc Hne.
  destruct (build_iti41_tree_returns obj w (valid_source_id obj Hvalid))
    as (d & w1 & Htree).
  exists (iti41_tree obj d), (ex_of obj d).
  split; [now apply run_ok with w1 |].
  split; [rewrite find_all_tree by (cbn; tauto); reflexivity |].
  assert (Hb : doc_bytes_of obj = Some (document_bytes document)).
  { unfold doc_bytes_of. rewrite Hdoc.
    destruct document as [|a r]; [congruence | reflexivity]. }
  destruct (slot_values_ex obj d _ Hb) as [Hh Hs].
  split; [exact Hh | split; [exact Hs |]].
  unfold document_bytes. split.
  - intros b ->. reflexivity.
  - intros ->. reflexivity.
Qed.

Lemma hash_and_size_slots_of_document_witness :
  exists root ex,
    run (build_iti41_tree example_iti41_input) example_world = Ok root
    /\ find_all EXTRINSIC_OBJECT root = [ex]
    /\ slot_values ex "hash" = [["385f64a81c8e5a5bdd212e4bb4fec69f03aeb30a"]]
    /\ slot_values ex "size" = [["15"]].
Proof.
  destruct (hash_and_size_slots_of_document example_iti41_input example_world
              "ZG9jdW1lbnRjb250ZW50")
    as (root & ex & H1 & H2 & H3 & H4 & _).
  - unfold valid_SOAPInput. split; [| split]; vm_compute; reflexivity.
  - reflexivity.
  - discriminate.
  - exists root, ex. split; [exact H1 | split; [exact H2 | split]].
    + rewrite H3. vm_compute. reflexivity.
    + rewrite H4. vm_compute. reflexivity.
Defined.

(** ** Attachment transport selection *)

Lemma below_threshold_iff (b : list byte) :
  below_threshold b = true <-> (Z.of_nat (List.length b) < 262144)%Z.
Proof. unfold below_threshold. rewrite Z.ltb_lt. reflexivity. Qed.

(** no document, or a document below 256 KiB: the XML as it is *)
Lemma json_to_iti41_inline (payload : SOAPInput) (w w1 : world) (xml : string) :
  build_iti41_ebxml payload w = Ok (xml, w1) ->
  truthy (document_base64 payload) = false
  \/ below_threshold (document_bytes (or_else (document_base64 payload) "")) = true ->
  json_to_iti41 payload w = Ok (mk_Response (Text xml) "application/xml" 200, w1).
Proof.
  intros Hxml Hsmall. unfold json_to_iti41. rewrite (bind_ok _ _ _ _ _ Hxml).
  destruct (truthy (document_base64 payload)); cbn [negb]; [| reflexivity].
  destruct Hsmall as [Hno | ->]; [discriminate | reflexivity].
Qed.

(** a document of 256 KiB or more: a multipart response whose root part is
    what [build_iti41_mtom_envelope] makes of the XML for the id
    [unique_id or "urn:uuid:doc-1"], and whose second part is keyed by that
    id *)
Lemma json_to_iti41_multipart (payload : SOAPInput) (w w1 : world)
    (xml xml_xop : string) :
  build_iti41_ebxml payload w = Ok (xml, w1) ->
  truthy (document_base64 payload) = true ->
  below_threshold (document_bytes (or_else (document_base64 payload) "")) = false ->
  build_iti41_mtom_envelope xml (or_else (unique_id payload) "urn:uuid:doc-1")
    (or_else (mime_type payload) "text/xml") = Ok xml_xop ->
  exists r,
    run (json_to_iti41 payload) w = Ok r
    /\ status r = 200%Z
    /\ PyStr.startswith "multipart/related" (media_type r) = true
    /\ part_names r
       = ["rootpart"; or_else (unique_id payload) "urn:uuid:doc-1" ++ "@example.com"]
    /\ root_part r = utf8_encode xml_xop.
Proof.
  intros Hxml Hdoc Hbig Hxop. unfold run, json_to_iti41.
  rewrite (bind_ok _ _ _ _ _ Hxml), Hdoc, Hbig. cbn [negb].
  rewrite (bind_ok _ _ _ _ _ (lift_ok _ w1 _ Hxop)).
  unfold create_mtom_multipart, bind, uuid4, ret. cbv beta iota.
  eexists. split; [reflexivity |].
  repeat split.
Qed.

Lemma hex_digits_length (k : nat) (v : N) : String.length (hex_digits k v) = k.
Proof. induction k as [|k IH]; cbn [hex_digits String.length]; auto. Qed.

Lemma take_length_min (n : nat) (s : string) :
  String.length (PyStr.take n s) = Nat.min n (String.length s).
Proof.
  revert s. induction n as [|n IH]; intros [|a r]; cbn; auto.
Qed.

Lemma drop_length (n : nat) (s : string) :
  String.length (PyStr.drop n s) = String.length s - n.
Proof.
  revert s. induction n as [|n IH]; intros [|a r]; cbn; auto.
Qed.

Lemma uuid_str_length (v : N) : String.length (uuid_str v) = 36.
Proof.
  unfold uuid_str. cbv zeta.
  rewrite !length_append, !take_length_min, !drop_length, !hex_digits_length.
  reflexivity.
Qed.

(** a generated identifier is never the fixed [urn:uuid:doc-1] *)
Lemma generated_is_not_doc_1 (s : string) : generated s -> s <> "urn:uuid:doc-1".
Proof.
  intros (v & ->) H. apply (f_equal String.length) in H.
  rewrite length_append, uuid_str_length in H. discriminate H.
Qed.

Lemma bind_inversion {A B : Type} (c : M A) (k : A -> M B) (w w2 : world) (b : B) :
  bind c k w = Ok (b, w2) ->
  exists a w1, c w = Ok (a, w1) /\ k a w1 = Ok (b, w2).
Proof.
  unfold bind. destruct (c w) as [[a w1]|e]; [eauto | discriminate].
Qed.

Lemma yields_or_urn (x : option string) :
  truthy x = false -> yields generated (or_urn x).
Proof.
  intros Hx w s w1. unfold or_urn, urn_uuid. rewrite Hx. intros H.
  apply bind_inversion in H as (u & w' & Hu & H).
  unfold ret in H. injection H as <- _.
  unfold uuid4 in Hu. injection Hu as <- _. eexists. reflexivity.
Qed.

(** without a [unique_id], the id of the document entry and of the
    [Document] element is a generated one *)
Lemma draw_generates_doc_id (obj : SOAPInput) :
  truthy (unique_id obj) = false -> yields (fun d => generated (doc_id d)) (draw obj).
Proof.
  intros Hx w d w'. unfold draw. intros H.
  apply bind_inversion in H as (d1 & w1 & _ & H).
  apply bind_inversion in H as (d2 & w2 & _ & H).
  apply bind_inversion in H as (d3 & w3 & _ & H).
  apply bind_inversion in H as (d4 & w4 & _ & H).
  apply bind_inversion in H as (d5 & w5 & H5 & H).
  do 7 (apply bind_inversion in H as (? & ? & _ & H)).
  unfold ret in H. injection H as <- _. cbn [doc_id].
  exact (yields_or_urn _ Hx _ _ _ H5).
Qed.

(** where the endpoint and the builder part ways: the builder names the
    document by a generated id, the endpoint looks for [urn:uuid:doc-1] *)
Lemma endpoint_id_differs (obj : SOAPInput) (w w1 : world) (d : drawn) :
  truthy (unique_id obj) = false ->
  draw obj w = Ok (d, w1) ->
  doc_id d <> or_else (unique_id obj) "urn:uuid:doc-1".
Proof.
  intros Hx Hd.
  assert (Hor : or_else (unique_id obj) "urn:uuid:doc-1" = "urn:uuid:doc-1").
  { destruct (unique_id obj) as [[|a r]|]; [reflexivity | discriminate | reflexivity]. }
  rewrite Hor. apply generated_is_not_doc_1.
  exact (draw_generates_doc_id obj Hx _ _ _ Hd).
Qed.

(** the envelope builder on the XML of the example input, whose [unique_id]
    is [urn:uuid:doc-1]: the inline content gives way to the reference;
    with another id nothing is rewritten *)
Example mtom_envelope_rewrites_known_id :
  match run (build_iti41_ebxml example_iti41_input) example_world with
  | Ok xml =>
      match build_iti41_mtom_envelope xml "urn:uuid:doc-1" "text/xml",
            build_iti41_mtom_envelope xml "urn:uuid:doc-2" "text/xml" with
      | Ok hit, Ok miss =>
          (PyStr.contains (xop_ref "urn:uuid:doc-1") hit,
           PyStr.contains "ZG9jdW1lbnRjb250ZW50" hit,
           String.eqb miss xml)
          = (true, false, true)
      | _, _ => False
      end
  | Raise _ => False
  end.
Proof. vm_compute. reflexivity. Qed.

(** C1 at the failing input: a document of exactly 262144 bytes and no
    [unique_id].  The response is multipart, its second part is keyed
    [urn:uuid:doc-1@example.com], and its root part is not rewritten: no
    [xop:Include] anywhere, no [Document] element with the id
    [urn:uuid:doc-1], and the [Document] element of the generated id still
    holds the inline base64 text. *)
Theorem generated_document_id_is_not_rewritten :
  forall describe : exn -> string,
    match api_json_to_iti41 describe (large_document_input None) example_world with
    | Ok r =>
        ( PyStr.startswith "multipart/related" (media_type r),
          part_names r,
          bytes_contains (utf8_encode "xop:Include") (body_bytes r),
          bytes_contains (utf8_encode (Re.opening "urn:uuid:doc-1")) (root_part r),
          bytes_contains
            (utf8_encode
               (inline_document "urn:uuid:00000000-0000-4000-8000-000000000003"
                  "text/xml"))
            (root_part r) )
        = (true, ["rootpart"; "urn:uuid:doc-1@example.com"], false, false, true)
    | Raise _ => False
    end.
Proof. intros describe. vm_compute. reflexivity. Qed.

(** * Further observations *)

(** ** The parser as a whole *)

Lemma decode_fields_frame (name : string) (rest : list string) (r r' : jdict) (k : string) :
  wf r ->
  decode_fields (name :: rest) r = Ok r' ->
  key_of name <> Some k ->
  jget k r' = jget k r.
Proof.
  intros [(h & Hh) (la & Ha) (ld & Hd) (lp & Hp) Hn Hg Hi Hv].
  unfold decode_fields, key_of. cbn [py_index nth_error rbind].
  rewrite !capture_default, !field_default. cbn [rbind].
  assert (F : forall key v d, Some key <> Some k -> jget k (jset key v d) = jget k d).
  { intros key v d Hne. rewrite jget_jset.
    destruct (String.eqb_spec key k); [congruence | reflexivity]. }
  name_case name "MSH".
  { unfold at_key. rewrite Hh. cbn [update rbind].
    intros H Hk. injection H as <-. now apply F. }
  name_case name "EVN".
  { unfold at_key. rewrite Hh. cbn [setitem rbind]. jget_compute.
    cbn [setitem rbind]. intros H Hk. injection H as <-. now rewrite !F. }
  name_case name "PID". { intros H Hk. injection H as <-. now apply F. }
  name_case name "PD1". { intros H Hk. injection H as <-. now apply F. }
  name_case name "PV1". { intros H Hk. injection H as <-. now apply F. }
  name_case name "PV2".
  { unfold at_default, setdefault. destruct Hv as [Hv|(d & Hv)]; rewrite Hv.
    - cbn. discriminate.
    - cbn [setitem rbind]. jget_compute. cbn [setitem rbind].
      intros H Hk. injection H as <-. now rewrite !F. }
  name_case name "MRG". { intros H Hk. injection H as <-. now apply F. }
  name_case name "AL1".
  { unfold at_key. rewrite Ha. cbn [append rbind].
    intros H Hk. injection H as <-. now apply F. }
  name_case name "DG1".
  { unfold at_key. rewrite Hd. cbn [append rbind].
    intros H Hk. injection H as <-. now apply F. }
  name_case name "PR1".
  { unfold at_key. rewrite Hp. cbn [append rbind].
    intros H Hk. injection H as <-. now apply F. }
  name_case name "NK1".
  { unfold at_default, setdefault. destruct Hn as [Hn|(l & Hn)];
      rewrite Hn; cbn [append rbind]; intros H Hk; injection H as <-;
      now rewrite !F. }
  name_case name "GT1".
  { unfold at_default, setdefault. destruct Hg as [Hg|(l & Hg)];
      rewrite Hg; cbn [append rbind]; intros H Hk; injection H as <-;
      now rewrite !F. }
  name_case name "IN1".
  { unfold at_default, setdefault. destruct Hi as [Hi|(l & Hi)];
      rewrite Hi; cbn [append rbind]; intros H Hk; injection H as <-;
      now rewrite !F. }
  intros H _. now injection H as <-.
Qed.

Lemma decode_segment_frame (seg : string) (r r' : jdict) (k : string) :
  wf r ->
  decode_segment seg r = Ok r' ->
  key_of (segment_name seg) <> Some k ->
  jget k r' = jget k r.
Proof.
  unfold decode_segment. rewrite (split_head seg). apply decode_fields_frame.
Qed.

Lemma decode_segment_wf (seg : string) (r r' : jdict) :
  wf r -> decode_segment seg r = Ok r' -> wf r'.
Proof.
  intros Hwf H.
  destruct (decode_segment_step seg r Hwf) as [(r1 & H1 & Hwf1 & _)|(H1 & _)];
    congruence.
Qed.

Lemma decode_segments_wf (segs : list string) (r r' : jdict) :
  wf r -> decode_segments segs r = Ok r' -> wf r'.
Proof.
  revert r. induction segs as [|s segs IH]; intros r Hwf; cbn [decode_segments].
  - now intros [= <-].
  - destruct (decode_segment s r) as [r1|e] eqn:E; cbn [rbind]; [| discriminate].
    apply IH. exact (decode_segment_wf _ _ _ Hwf E).
Qed.

(** once [visit] is a dict, the loop runs to its end *)
Lemma decode_segments_visit_set (segs : list string) (r : jdict) :
  wf r -> (exists d, jget "visit" r = Some (JDict d)) ->
  exists r', decode_segments segs r = Ok r'.
Proof.
  revert r. induction segs as [|s segs IH]; intros r Hwf (d & Hd).
  - exists r. reflexivity.
  - cbn [decode_segments].
    destruct (decode_segment_step s r Hwf)
      as [(r1 & H1 & Hwf1 & _ & Hkeep & Hset & _)|(_ & _ & Hnone)]; [| congruence].
    rewrite H1. cbn [rbind]. apply IH; [exact Hwf1 |].
    destruct (string_dec (segment_name s) "PV1") as [E1|E1]; [auto |].
    destruct (string_dec (segment_name s) "PV2") as [E2|E2]; [auto |].
    exists d. now rewrite Hkeep.
Qed.

Lemma decode_segments_early (segs : list string) (r : jdict) :
  wf r -> jget "visit" r = Some JNone ->
  if early_pv2 segs
  then decode_segments segs r = Raise TypeError
  else exists r', decode_segments segs r = Ok r'.
Proof.
  revert r. induction segs as [|s segs IH]; intros r Hwf Hv; cbn [early_pv2].
  - exists r. reflexivity.
  - cbn [decode_segments].
    destruct (String.eqb_spec (segment_name s) "PV2") as [E2|E2].
    { unfold decode_segment. rewrite (split_head s), E2, (pv2_on_none _ _ Hv).
      reflexivity. }
    destruct (decode_segment_step s r Hwf)
      as [(r1 & H1 & Hwf1 & _ & Hkeep & Hset & _)|(_ & Hname & _)];
      [| contradiction].
    rewrite H1. cbn [rbind].
    destruct (String.eqb_spec (segment_name s) "PV1") as [E1|E1].
    + apply decode_segments_visit_set; auto.
    + apply IH; [exact Hwf1 |]. now rewrite Hkeep.
Qed.

(** X1.  The parser fails on exactly one kind of message: those in which
    the first segment named PV1 or PV2 is a PV2.  On these it raises
    [TypeError]; on every other text, the empty one included, it returns. *)
Theorem hl7_full_to_json_fails_iff_pv2_first :
  forall hl7_msg : string,
    (hl7_full_to_json hl7_msg = Raise TypeError
     <-> early_pv2 (segments_of hl7_msg) = true)
    /\ ((exists r, hl7_full_to_json hl7_msg = Ok r)
        <-> early_pv2 (segments_of hl7_msg) = false)
    /\ (forall e, hl7_full_to_json hl7_msg = Raise e -> e = TypeError).
Proof.
  intros hl7_msg. unfold hl7_full_to_json. fold (segments_of hl7_msg).
  pose proof (decode_segments_early (segments_of hl7_msg) initial_result
                wf_initial eq_refl) as H.
  destruct (early_pv2 (segments_of hl7_msg)).
  - rewrite H. repeat split; try congruence.
    intros (r & Hr). discriminate.
  - destruct H as (r & ->). repeat split; try congruence; eauto.
Qed.

Lemma key_of_repeating (name k n : string) (keys : list (string * nat)) :
  In (name, (k, keys)) repeating -> key_of n = Some k -> n = name.
Proof.
  intros Hin. unfold repeating in Hin. cbn [In] in Hin. unfold key_of.
  repeat match goal with
         | |- context [String.eqb n ?c] =>
             destruct (String.eqb_spec n c); [subst n |]
         end;
    repeat (destruct Hin as [[= <- <- <-]|Hin]; [congruence |]);
    try contradiction.
Qed.

Lemma decode_fields_repeating (name k : string) (keys : list (string * nat))
    (rest : list string) (r : jdict) :
  In (name, (k, keys)) repeating -> wf r ->
  exists r',
    decode_fields (name :: rest) r = Ok r'
    /\ jget k r'
       = Some (JList (list_at k r
                      ++ [JDict (map (fun ki => (fst ki, JStr (nth (snd ki) (name :: rest) "")))
                                   keys)])).
Proof.
  intros Hin [(h & Hh) (la & Ha) (ld & Hd) (lp & Hp) Hn Hg Hi Hv].
  unfold repeating in Hin. cbn [In] in Hin.
  unfold decode_fields. cbn [py_index nth_error rbind].
  rewrite !capture_default. cbn [rbind]. unfold list_at.
  repeat (destruct Hin as [[= <- <- <-]|Hin];
          [cbn [String.eqb Ascii.eqb Bool.eqb]; unfold at_key, at_default, setdefault;
           try rewrite Ha; try rewrite Hd; try rewrite Hp;
           try (destruct Hn as [Hn|(l & Hn)]; rewrite Hn);
           try (destruct Hg as [Hg|(l & Hg)]; rewrite Hg);
           try (destruct Hi as [Hi|(l & Hi)]; rewrite Hi);
           cbn [append rbind]; eexists; (split; [reflexivity |]);
           jget_compute; reflexivity |]).
  contradiction.
Qed.

Lemma decode_segments_repeating (name k : string) (keys : list (string * nat)) :
  In (name, (k, keys)) repeating ->
  forall segs r r',
    wf r -> decode_segments segs r = Ok r' ->
    match segments_named name segs with
    | [] => jget k r' = jget k r
    | l => jget k r' = Some (JList (list_at k r ++ map (taken keys) l))
    end.
Proof.
  intros Hin segs. induction segs as [|s segs IH]; intros r r' Hwf;
    cbn [decode_segments segments_named List.filter].
  - now intros [= <-].
  - destruct (decode_segment s r) as [r1|e] eqn:E; cbn [rbind]; [| discriminate].
    intros Hrest. pose proof (decode_segment_wf _ _ _ Hwf E) as Hwf1.
    specialize (IH r1 r' Hwf1 Hrest). fold (segments_named name segs).
    destruct (String.eqb_spec (segment_name s) name) as [En|En].
    + assert (H1 : jget k r1 = Some (JList (list_at k r ++ [taken keys s]))).
      { unfold decode_segment in E. unfold taken.
        destruct (decode_fields_repeating name k keys (tl (PyStr.split "|" s)) r Hin Hwf)
          as (r2 & H2 & Hk).
        rewrite (split_head s), En in E. rewrite (split_head s), En.
        congruence. }
      assert (L1 : list_at k r1 = (list_at k r ++ [taken keys s])%list)
        by (unfold list_at at 1; now rewrite H1).
      destruct (segments_named name segs) as [|s' l'].
      * rewrite IH, H1. reflexivity.
      * rewrite IH, L1, <- app_assoc. reflexivity.
    + assert (H1 : jget k r1 = jget k r).
      { apply (decode_segment_frame s); auto.
        intros Hk. apply En. exact (key_of_repeating _ _ _ _ Hin Hk). }
      assert (L1 : list_at k r1 = list_at k r) by (unfold list_at; now rewrite H1).
      destruct (segments_named name segs) as [|s' l']; congruence.
Qed.

(** X2.  The repeating segments (AL1, DG1, PR1, NK1, GT1, IN1) are
    collected in message order: whenever the parser returns, the list under
    the key of such a segment holds one entry per segment of that name, made
    of the fields at the positions the parser reads, with the empty string
    for a field the segment does not have; with no such segment the key is
    as at the start ([al1], [dg1], [pr1] an empty list, [nk1], [gt1], [in1]
    absent). *)
Theorem repeating_segments_collected_in_order :
  forall (hl7_msg : string) (r : jdict),
    hl7_full_to_json hl7_msg = Ok r ->
    forall name k keys,
      In (name, (k, keys)) repeating ->
      match segments_named name (segments_of hl7_msg) with
      | [] => jget k r = jget k initial_result
      | l => jget k r = Some (JList (map (taken keys) l))
      end.
Proof.
  intros hl7_msg r Hr name k keys Hin.
  unfold hl7_full_to_json in Hr. fold (segments_of hl7_msg) in Hr.
  pose proof (decode_segments_repeating name k keys Hin _ _ _ wf_initial Hr) as H.
  assert (L : list_at k initial_result = []).
  { unfold repeating in Hin. cbn [In] in Hin.
    repeat (destruct Hin as [[= <- <- <-]|Hin]; [reflexivity |]). contradiction. }
  now rewrite L in H.
Qed.

Lemma repeating_segments_collected_in_order_witness :
  exists r,
    hl7_full_to_json ("AL1|||Peanut|Rash|High" ++ CRs ++ "PID|1" ++ CRs ++ "AL1|||Dust") = Ok r
    /\ jget "al1" r
       = Some (JList [ JDict [ ("allergen", JStr "Peanut"); ("reaction", JStr "Rash") ];
                       JDict [ ("allergen", JStr "Dust"); ("reaction", JStr "") ] ]).
Proof.
  eexists. split; [reflexivity |].
  exact (repeating_segments_collected_in_order
           ("AL1|||Peanut|Rash|High" ++ CRs ++ "PID|1" ++ CRs ++ "AL1|||Dust") _ eq_refl
           "AL1" "al1" [ ("allergen", 3); ("reaction", 4) ] (or_introl eq_refl)).
Defined.

Lemma key_of_replacing (name k n : string) (entry : string -> json) :
  In (name, (k, entry)) replacing -> key_of n = Some k -> n = name.
Proof.
  intros Hin. unfold replacing in Hin. cbn [In] in Hin. unfold key_of.
  repeat match goal with
         | |- context [String.eqb n ?c] =>
             destruct (String.eqb_spec n c); [subst n |]
         end;
    repeat (destruct Hin as [[= <- <- <-]|Hin]; [congruence |]);
    try contradiction.
Qed.

Lemma decode_segment_replacing (name k : string) (entry : string -> json)
    (seg : string) (r : jdict) :
  In (name, (k, entry)) replacing -> segment_name seg = name ->
  exists r', decode_segment seg r = Ok r' /\ jget k r' = Some (entry seg).
Proof.
  intros Hin Hname. unfold replacing in Hin. cbn [In] in Hin.
  unfold decode_segment, decode_fields, pid_entry, taken.
  rewrite !capture_default, !field_default.
  pattern (PyStr.split "|" seg) at 1. rewrite (split_head seg), Hname.
  cbn [py_index nth_error rbind].
  repeat (destruct Hin as [[= <- <- <-]|Hin];
          [cbn [String.eqb Ascii.eqb Bool.eqb rbind]; eexists;
           (split; [reflexivity |]); jget_compute; reflexivity |]).
  contradiction.
Qed.

Lemma decode_segments_replacing (name k : string) (entry : string -> json) :
  In (name, (k, entry)) replacing ->
  forall segs r r',
    wf r -> decode_segments segs r = Ok r' ->
    jget k r' = match rev (segments_named name segs) with
                | [] => jget k r
                | seg :: _ => Some (entry seg)
                end.
Proof.
  intros Hin segs. induction segs as [|s segs IH]; intros r r' Hwf;
    cbn [decode_segments segments_named List.filter rev].
  - now intros [= <-].
  - destruct (decode_segment s r) as [r1|e] eqn:E; cbn [rbind]; [| discriminate].
    intros Hrest. pose proof (decode_segment_wf _ _ _ Hwf E) as Hwf1.
    specialize (IH r1 r' Hwf1 Hrest). fold (segments_named name segs).
    destruct (String.eqb_spec (segment_name s) name) as [En|En].
    + destruct (decode_segment_replacing name k entry s r Hin En) as (r2 & H2 & Hk).
      assert (r2 = r1) by congruence. subst r2.
      cbn [rev]. destruct (rev (segments_named name segs)); cbn [app]; congruence.
    + rewrite IH. destruct (rev (segments_named name segs)); [| reflexivity].
      apply (decode_segment_frame s); auto.
      intros Hk. apply En. exact (key_of_replacing _ _ _ _ Hin Hk).
Qed.

(** X3.  PID, PD1 and MRG are single-valued: whenever the parser returns,
    the entry under [patient], [pd1] or [mrg] is the one of the last segment
    of that name, earlier ones being replaced and not merged; with no such
    segment the key is as at the start (an empty dict for [patient], [None]
    for the other two). *)
Theorem last_segment_of_a_kind_wins :
  forall (hl7_msg : string) (r : jdict),
    hl7_full_to_json hl7_msg = Ok r ->
    forall name k entry,
      In (name, (k, entry)) replacing ->
      jget k r = match rev (segments_named name (segments_of hl7_msg)) with
                 | [] => jget k initial_result
                 | seg :: _ => Some (entry seg)
                 end.
Proof.
  intros hl7_msg r Hr name k entry Hin.
  exact (decode_segments_replacing name k entry Hin _ _ _ wf_initial Hr).
Qed.

Lemma last_segment_of_a_kind_wins_witness :
  exists r,
    hl7_full_to_json ("PID|1||A^^^X^ISO||Doe^John^||19800101|M" ++ CRs
                      ++ "PID|1||B" ++ CRs ++ "ZZZ|1") = Ok r
    /\ jget "patient" r
       = Some (JDict [ ("identifiers", JList [JStr "B"]); ("name", JStr "");
                       ("dob", JStr ""); ("sex", JStr "") ]).
Proof.
  eexists. split; [reflexivity |].
  exact (last_segment_of_a_kind_wins
           ("PID|1||A^^^X^ISO||Doe^John^||19800101|M" ++ CRs ++ "PID|1||B" ++ CRs ++ "ZZZ|1")
           _ eq_refl "PID" "patient" pid_entry (or_introl eq_refl)).
Defined.

Lemma decode_segments_unknown (segs : list string) (r : jdict) :
  Forall (fun seg => key_of (segment_name seg) = None) segs ->
  decode_segments segs r = Ok r.
Proof.
  induction 1 as [|s segs Hs Hall IH]; [reflexivity |].
  cbn [decode_segments]. unfold decode_segment at 1.
  rewrite (split_head s). unfold decode_fields. cbn [py_index nth_error rbind].
  unfold key_of in Hs.
  repeat match goal with
         | |- context [String.eqb (segment_name s) ?c] =>
             destruct (String.eqb (segment_name s) c); [discriminate Hs |]
         end.
  cbn [rbind]. exact IH.
Qed.

(** X4.  Segments of a name the parser does not know are skipped: a
    message made only of such segments, or of none, decodes to the result
    the parser starts from. *)
Theorem unknown_segments_are_skipped :
  forall hl7_msg : string,
    Forall (fun seg => key_of (segment_name seg) = None) (segments_of hl7_msg) ->
    hl7_full_to_json hl7_msg = Ok initial_result.
Proof.
  intros hl7_msg H. unfold hl7_full_to_json. fold (segments_of hl7_msg).
  now apply decode_segments_unknown.
Qed.

Lemma unknown_segments_are_skipped_witness :
  hl7_full_to_json ("OBX|1|TX|note" ++ CRs ++ "  " ++ CRs ++ "pid|1||X") = Ok initial_result.
Proof.
  apply unknown_segments_are_skipped. repeat constructor.
Defined.

(** ** The builder as a whole *)

Lemma hl7_segments_parts (payload : HL7FullInput) (w w1 : world) (segs : list string) :
  hl7_segments payload w = Ok (segs, w1) ->
  exists msh t pid sv sa sd sp w2 w3,
    build_msh (header payload) w = Ok (msh, w2)
    /\ ts_to_hl7 (message_datetime (header payload)) w2 = Ok (t, w3)
    /\ build_pid (patient payload) = Ok pid
    /\ match visit payload with
       | Some v => build_visit v
       | None => ret []
       end w3 = Ok (sv, w1)
    /\ each build_al1 (nonempty (al1 payload)) = Ok sa
    /\ each build_dg1 (nonempty (dg1 payload)) = Ok sd
    /\ each build_pr1 (nonempty (pr1 payload)) = Ok sp
    /\ segs = (msh :: ("EVN|" ++ evn_code_of (event (header payload)) ++ "|" ++ t)%string
               :: pid
               :: pd1_part payload ++ sv ++ mrg_part payload ++ sa ++ sd ++ sp
               ++ map build_nk1 (nonempty (nk1 payload))
               ++ map build_gt1 (nonempty (gt1 payload))
               ++ map build_in1 (nonempty (in1 payload)))%list.
Proof.
  unfold hl7_segments. intros H.
  destruct (build_msh_total (header payload) w) as (msh & w2 & Hmsh).
  rewrite (bind_ok _ _ _ _ _ Hmsh) in H.
  destruct (ts_to_hl7_total (message_datetime (header payload)) w2) as (t & w3 & Ht).
  rewrite (bind_ok _ _ _ _ _ Ht) in H.
  destruct (build_pid (patient payload)) as [pid|e] eqn:Hpid;
    [| rewrite (bind_raise _ _ _ _ (lift_raise _ w3 _ eq_refl)) in H; discriminate].
  rewrite (bind_ok _ _ _ _ _ (lift_ok _ w3 _ eq_refl)) in H.
  assert (Hv : exists l w4,
             match visit payload with
             | Some v => build_visit v
             | None => ret []
             end w3 = Ok (l, w4)).
  { destruct (visit payload); [apply build_visit_total |].
    do 2 eexists. reflexivity. }
  destruct Hv as (sv & w4 & Hv). rewrite (bind_ok _ _ _ _ _ Hv) in H.
  destruct (each build_al1 (nonempty (al1 payload))) as [sa|ea] eqn:Ea;
    [| rewrite (bind_raise _ _ _ _ (lift_raise _ w4 _ eq_refl)) in H; discriminate].
  rewrite (bind_ok _ _ _ _ _ (lift_ok _ w4 _ eq_refl)) in H.
  destruct (each build_dg1 (nonempty (dg1 payload))) as [sd|ed] eqn:Ed;
    [| rewrite (bind_raise _ _ _ _ (lift_raise _ w4 _ eq_refl)) in H; discriminate].
  rewrite (bind_ok _ _ _ _ _ (lift_ok _ w4 _ eq_refl)) in H.
  destruct (each build_pr1 (nonempty (pr1 payload))) as [sp|ep] eqn:Ep;
    [| rewrite (bind_raise _ _ _ _ (lift_raise _ w4 _ eq_refl)) in H; discriminate].
  rewrite (bind_ok _ _ _ _ _ (lift_ok _ w4 _ eq_refl)) in H.
  unfold ret in H. injection H as <- <-.
  exists msh, t, pid, sv, sa, sd, sp, w2, w3. repeat split; auto.
Qed.

Lemma run_inv {A : Type} (c : M A) (w : world) (a : A) :
  run c w = Ok a -> exists w1, c w = Ok (a, w1).
Proof.
  unfold run. destruct (c w) as [[a' w1]|e]; [| discriminate].
  intros [= ->]. eauto.
Qed.

Lemma escape_outcome (v : pyval) :
  if escapable v then exists s, escape_hl7_field v = Ok s
  else escape_hl7_field v = Raise AttributeError.
Proof. destruct v; cbn; eauto. Qed.

Lemma each_outcome {A : Type} (f : A -> result string) (ok : A -> bool) (l : list A) :
  (forall x, if ok x then exists s, f x = Ok s else f x = Raise AttributeError) ->
  if forallb ok l then exists ss, each f l = Ok ss
  else each f l = Raise AttributeError.
Proof.
  intros Hf. induction l as [|x l IH]; cbn [forallb each]; [eauto |].
  specialize (Hf x). destruct (ok x); cbn [andb].
  - destruct Hf as (s & ->). cbn [rbind].
    destruct (forallb ok l); [destruct IH as (ss & ->) | rewrite IH]; cbn [rbind]; eauto.
  - rewrite Hf. reflexivity.
Qed.

Lemma build_al1_outcome (a : pydict) :
  if al1_escapable a then exists s, build_al1 a = Ok s
  else build_al1 a = Raise AttributeError.
Proof.
  unfold al1_escapable, build_al1.
  pose proof (escape_outcome (dict_get a "allergen" (PyStr ""))) as H1.
  pose proof (escape_outcome (dict_get a "reaction" (PyStr ""))) as H2.
  pose proof (escape_outcome (dict_get a "severity" (PyStr ""))) as H3.
  destruct (escapable (dict_get a "allergen" _)); cbn [andb];
    [destruct H1 as (x & ->) | now rewrite H1]; cbn [rbind].
  destruct (escapable (dict_get a "reaction" _)); cbn [andb];
    [destruct H2 as (y & ->) | now rewrite H2]; cbn [rbind].
  destruct (escapable (dict_get a "severity" _)); cbn [andb];
    [destruct H3 as (z & ->) | now rewrite H3]; cbn [rbind].
  eauto.
Qed.

Lemma build_dg1_outcome (d : pydict) :
  if dg1_escapable d then exists s, build_dg1 d = Ok s
  else build_dg1 d = Raise AttributeError.
Proof.
  unfold dg1_escapable, build_dg1.
  pose proof (escape_outcome (dict_get d "diagnosis_desc" (PyStr ""))) as H1.
  destruct (escapable _); [destruct H1 as (x & ->) | now rewrite H1]; cbn [rbind].
  eauto.
Qed.

Lemma build_pr1_outcome (p : pydict) :
  if pr1_escapable p then exists s, build_pr1 p = Ok s
  else build_pr1 p = Raise AttributeError.
Proof.
  unfold pr1_escapable, build_pr1.
  pose proof (escape_outcome (dict_get p "procedure_desc" (PyStr ""))) as H1.
  destruct (escapable _); [destruct H1 as (x & ->) | now rewrite H1]; cbn [rbind].
  eauto.
Qed.

Lemma hl7_segments_outcome (payload : HL7FullInput) (w : world) :
  ~ authority_mismatch (patient payload) ->
  if records_escapable payload
  then exists segs w1, hl7_segments payload w = Ok (segs, w1)
  else hl7_segments payload w = Raise AttributeError.
Proof.
  intros Hm. destruct (build_pid_returns _ Hm) as (pid & Hpid).
  unfold hl7_segments, records_escapable.
  destruct (build_msh_total (header payload) w) as (msh & w1 & Hmsh).
  rewrite (bind_ok _ _ _ _ _ Hmsh).
  destruct (ts_to_hl7_total (message_datetime (header payload)) w1) as (t & w2 & Ht).
  rewrite (bind_ok _ _ _ _ _ Ht).
  rewrite (bind_ok _ _ _ _ _ (lift_ok _ w2 _ Hpid)).
  assert (Hv : exists l w3,
             match visit payload with
             | Some v => build_visit v
             | None => ret []
             end w2 = Ok (l, w3)).
  { destruct (visit payload);
      [apply build_visit_total | do 2 eexists; reflexivity]. }
  destruct Hv as (sv & w3 & Hv). rewrite (bind_ok _ _ _ _ _ Hv).
  pose proof (each_outcome build_al1 al1_escapable (nonempty (al1 payload))
                build_al1_outcome) as Ha.
  pose proof (each_outcome build_dg1 dg1_escapable (nonempty (dg1 payload))
                build_dg1_outcome) as Hd.
  pose proof (each_outcome build_pr1 pr1_escapable (nonempty (pr1 payload))
                build_pr1_outcome) as Hp.
  destruct (forallb al1_escapable _); cbn [andb];
    [destruct Ha as (sa & Ha) | now rewrite (bind_raise _ _ _ _ (lift_raise _ w3 _ Ha))].
  rewrite (bind_ok _ _ _ _ _ (lift_ok _ w3 _ Ha)).
  destruct (forallb dg1_escapable _); cbn [andb];
    [destruct Hd as (sd & Hd) | now rewrite (bind_raise _ _ _ _ (lift_raise _ w3 _ Hd))].
  rewrite (bind_ok _ _ _ _ _ (lift_ok _ w3 _ Hd)).
  destruct (forallb pr1_escapable _); cbn [andb];
    [destruct Hp as (sp & Hp) | now rewrite (bind_raise _ _ _ _ (lift_raise _ w3 _ Hp))].
  rewrite (bind_ok _ _ _ _ _ (lift_ok _ w3 _ Hp)).
  do 2 eexists. reflexivity.
Qed.

(** C4, as the code has it.  [build_pid] fails exactly when the first
    identifier of the patient carries another assigning authority than the
    health-ID one, and then [json_to_hl7_full] fails with that error, the
    400, and with no other [HTTPException]; otherwise field 3 of the
    segment is [<id>^^^<OID>^ISO] of the first identifier, and the segment
    is the same whatever identifiers follow the first.  The encoder as a
    whole fails in one more case: with an [AttributeError], when a value it
    escapes in an [al1], [dg1] or [pr1] record is neither [None] nor a
    [str]. *)
Theorem build_pid_checks_first_identifier :
  forall p : PatientModel,
    ((exists e, build_pid p = Raise e) <-> authority_mismatch p)
    /\ (authority_mismatch p -> build_pid p = Raise pid_authority_error)
    /\ (forall first rest,
          identifiers p = first :: rest ->
          assigning_authority first = Some ASSIGNING_AUTHORITY_HEALTH_ID ->
          exists tail,
            forall others,
              build_pid (mk_PatientModel (first :: others) (name_family p)
                           (name_given p) (middle_name p) (dob p) (sex p))
              = Ok ("PID|1||" ++ id first ++ "^^^" ++ ASSIGNING_AUTHORITY_HEALTH_ID
                    ++ "^ISO" ++ "||" ++ tail))
    /\ (forall payload w,
          patient payload = p ->
          ((exists c d, run (json_to_hl7_full payload) w = Raise (HTTPException c d))
           <-> authority_mismatch p)
          /\ (authority_mismatch p ->
              run (json_to_hl7_full payload) w = Raise pid_authority_error)
          /\ ((exists e, run (json_to_hl7_full payload) w = Raise e)
              <-> authority_mismatch p \/ records_escapable payload = false)
          /\ (forall e,
                run (json_to_hl7_full payload) w = Raise e ->
                (e = pid_authority_error /\ authority_mismatch p)
                \/ (e = AttributeError /\ ~ authority_mismatch p
                    /\ records_escapable payload = false))).
Proof.
  intros p. split; [| split; [| split]].
  - split.
    + intros (e & He). destruct (authority_mismatch_dec p) as [H|H]; [exact H |].
      destruct (build_pid_returns p H) as (seg & Hseg). congruence.
    + intros H. exists pid_authority_error. now apply build_pid_raises.
  - apply build_pid_raises.
  - intros first rest Hids Hauth.
    eexists. intros others. unfold build_pid. cbn [identifiers name_family name_given middle_name dob sex].
    rewrite Hauth. cbn [opt_string_eqb]. rewrite String.eqb_refl.
    cbn [negb rbind format_opt]. rewrite !append_assoc. reflexivity.
  - intros payload w <-.
    assert (Hraise : authority_mismatch (patient payload) ->
                     run (json_to_hl7_full payload) w = Raise pid_authority_error).
    { intros Hm.
      apply json_to_hl7_full_raise, hl7_segments_pid_raise, build_pid_raises, Hm. }
    assert (Hall : forall e,
              run (json_to_hl7_full payload) w = Raise e ->
              (e = pid_authority_error /\ authority_mismatch (patient payload))
              \/ (e = AttributeError /\ ~ authority_mismatch (patient payload)
                  /\ records_escapable payload = false)).
    { intros e He.
      destruct (authority_mismatch_dec (patient payload)) as [Hm|Hm].
      - left. rewrite (Hraise Hm) in He. injection He as <-. auto.
      - right. pose proof (hl7_segments_outcome payload w Hm) as Ho.
        apply json_to_hl7_full_raise in He.
        destruct (records_escapable payload).
        + destruct Ho as (segs & w1 & Ho). rewrite Ho in He. discriminate He.
        + rewrite Ho in He. injection He as <-. auto. }
    split; [split | split; [exact Hraise | split; [split |]]].
    + intros (c & d & H).
      destruct (Hall _ H) as [(_ & Hm) | (He & _)]; [exact Hm | discriminate He].
    + intros Hm. exists 400%Z. eexists. exact (Hraise Hm).
    + intros (e & He). destruct (Hall _ He) as [(_ & Hm) | (_ & _ & Hr)]; auto.
    + intros [Hm | Hr]; [eexists; exact (Hraise Hm) |].
      destruct (authority_mismatch_dec (patient payload)) as [Hm|Hm];
        [eexists; exact (Hraise Hm) |].
      pose proof (hl7_segments_outcome payload w Hm) as Ho. rewrite Hr in Ho.
      exists AttributeError. now apply json_to_hl7_full_raise.
    + exact Hall.
Qed.

Lemma build_pid_checks_first_identifier_witness :
  build_pid (example_patient "1.2.3") = Raise pid_authority_error
  /\ exists tail,
       build_pid (example_patient ASSIGNING_AUTHORITY_HEALTH_ID)
       = Ok ("PID|1||NHIC123456^^^" ++ ASSIGNING_AUTHORITY_HEALTH_ID ++ "^ISO||" ++ tail).
Proof.
  split.
  - destruct (build_pid_checks_first_identifier (example_patient "1.2.3"))
      as (_ & H & _).
    apply H. exists (example_identifier "1.2.3"), [].
    split; [reflexivity | discriminate].
  - destruct (build_pid_checks_first_identifier
                (example_patient ASSIGNING_AUTHORITY_HEALTH_ID))
      as (_ & _ & H & _).
    destruct (H (example_identifier ASSIGNING_AUTHORITY_HEALTH_ID) [] eq_refl eq_refl)
      as (tail & Htail).
    exists tail. exact (Htail []).
Defined.

(** C4 as the specification words it fails: the first identifier of the
    [/example] patient has the health-ID authority, and yet the encoder
    fails, on an allergy whose allergen is the number 5. *)
Lemma encoding_fails_without_mismatch_counterexample :
  ~ (forall (payload : HL7FullInput) (w : world),
       (exists e, run (json_to_hl7_full payload) w = Raise e)
       <-> authority_mismatch (patient payload)).
Proof.
  intros H. destruct (H example_numeric_allergen example_world) as [H1 _].
  destruct H1 as (first & rest & Hids & Hne).
  - exists AttributeError. vm_compute. reflexivity.
  - injection Hids as <- _. apply Hne. reflexivity.
Qed.

(** X5.  What [json_to_hl7_full] does with every input: with a first
    identifier under another authority it raises the 400 error; otherwise,
    when one of the values it escapes in an [al1], [dg1] or [pr1] record is
    neither [None] nor a [str], it raises [AttributeError]; in every other
    case it returns the message. *)
Theorem json_to_hl7_full_outcome :
  forall (payload : HL7FullInput) (w : world),
    (authority_mismatch (patient payload) /\
     run (json_to_hl7_full payload) w = Raise pid_authority_error)
    \/ (~ authority_mismatch (patient payload) /\ records_escapable payload = false /\
        run (json_to_hl7_full payload) w = Raise AttributeError)
    \/ (~ authority_mismatch (patient payload) /\ records_escapable payload = true /\
        exists segs,
          run (hl7_segments payload) w = Ok segs
          /\ run (json_to_hl7_full payload) w = Ok (PyStr.join CRs segs)).
Proof.
  intros payload w.
  destruct (authority_mismatch_dec (patient payload)) as [Hm|Hm].
  - left. split; [exact Hm |].
    apply json_to_hl7_full_raise, hl7_segments_pid_raise, build_pid_raises, Hm.
  - right. pose proof (hl7_segments_outcome payload w Hm) as H.
    destruct (records_escapable payload).
    + right. destruct H as (segs & w1 & H). repeat split; auto.
      exists segs. split; [now apply run_ok with w1 |].
      apply run_ok with w1. unfold json_to_hl7_full.
      rewrite (bind_ok _ _ _ _ _ H). reflexivity.
    + left. repeat split; auto. now apply json_to_hl7_full_raise.
Qed.

Lemma segment_name_of (name x : string) :
  PyStr.mem "|" name = false -> segment_name (name ++ String "|" x) = name.
Proof.
  intros H. unfold segment_name. now rewrite split_append_sep, (split_absent "|" name H).
Qed.

Lemma each_names {A : Type} (f : A -> result string) (n : string) (l : list A)
    (ss : list string) :
  (forall x s, f x = Ok s -> segment_name s = n) ->
  each f l = Ok ss -> map segment_name ss = repeat n (List.length l).
Proof.
  intros Hf. revert ss. induction l as [|x l IH]; intros ss; cbn [each].
  - now intros [= <-].
  - destruct (f x) as [s|e] eqn:E; cbn [rbind]; [| discriminate].
    destruct (each f l) as [rest|e]; cbn [rbind]; [| discriminate].
    intros [= <-]. cbn. now rewrite (Hf x s E), (IH rest).
Qed.

Lemma map_names {A : Type} (f : A -> string) (n : string) (l : list A) :
  (forall x, segment_name (f x) = n) ->
  map segment_name (map f l) = repeat n (List.length l).
Proof. intros Hf. induction l as [|x l IH]; cbn; [reflexivity |]. now rewrite Hf, IH. Qed.

Lemma build_al1_name (a : pydict) (s : string) :
  build_al1 a = Ok s -> segment_name s = "AL1".
Proof.
  unfold build_al1.
  destruct (escape_hl7_field (dict_get a "allergen" _)); cbn [rbind]; [| discriminate].
  destruct (escape_hl7_field (dict_get a "reaction" _)); cbn [rbind]; [| discriminate].
  destruct (escape_hl7_field (dict_get a "severity" _)); cbn [rbind]; [| discriminate].
  intros [= <-]. now apply (segment_name_of "AL1").
Qed.

Lemma build_dg1_name (a : pydict) (s : string) :
  build_dg1 a = Ok s -> segment_name s = "DG1".
Proof.
  unfold build_dg1.
  destruct (escape_hl7_field (dict_get a "diagnosis_desc" _)); cbn [rbind]; [| discriminate].
  intros [= <-]. now apply (segment_name_of "DG1").
Qed.

Lemma build_pr1_name (a : pydict) (s : string) :
  build_pr1 a = Ok s -> segment_name s = "PR1".
Proof.
  unfold build_pr1.
  destruct (escape_hl7_field (dict_get a "procedure_desc" _)); cbn [rbind]; [| discriminate].
  intros [= <-]. now apply (segment_name_of "PR1").
Qed.

Lemma build_pid_name (p : PatientModel) (s : string) :
  build_pid p = Ok s -> segment_name s = "PID".
Proof.
  unfold build_pid.
  destruct (match identifiers p with [] => _ | _ => _ end); cbn [rbind]; [| discriminate].
  intros [= <-]. now apply (segment_name_of "PID").
Qed.

Lemma ts_if_pure (x : option string) (w w1 : world) (s : string) :
  ts_if x w = Ok (s, w1) ->
  w1 = w /\ Iso.all_digits s = true /\ forall w', ts_if x w' = Ok (s, w').
Proof.
  unfold ts_if, truthy. destruct x as [s0|]; [| intros [= <- <-]; auto].
  destruct (PyStr.is_empty s0) eqn:E; cbn [negb]; [intros [= <- <-]; auto |].
  unfold ts_to_hl7. rewrite E.
  pose proof (all_digits_take 14 _ (all_digits_filter s0)) as Ht.
  set (t := PyStr.take 14 (PyStr.filter PyStr.is_digit s0)) in *. clearbody t.
  destruct (Iso.fromisoformat _) as [dt|]; unfold ret; intros [= <- <-];
    (split; [reflexivity | split; [| reflexivity]]).
  - apply strftime_digits.
  - exact Ht.
Qed.

Lemma build_visit_inv (v : VisitModel) (w w1 : world) (l : list string) :
  build_visit v w = Ok (l, w1) ->
  exists a1 d1 a2 d2,
    l = [ "PV1|1|" ++ or_else (patient_class v) "" ++ "|" ++ or_else (location v) ""
          ++ "||||"
          ++ (or_else (attending_doctor_id v) "" ++ "^"
              ++ or_else (attending_doctor_family v) "" ++ "^"
              ++ or_else (attending_doctor_given v) "")
          ++ "|||||||||||||||" ++ or_else (visit_number v) ""
          ++ "|" ++ a1 ++ "|" ++ d1;
          "PV2|||" ++ a2 ++ "|" ++ d2 ]
    /\ ts_if (admit_datetime v) w = Ok (a1, w)
    /\ ts_if (discharge_datetime v) w = Ok (d1, w)
    /\ a2 = a1 /\ d2 = d1
    /\ Iso.all_digits a1 = true /\ Iso.all_digits d1 = true.
Proof.
  unfold build_visit.
  destruct (ts_if_total (admit_datetime v) w) as (a1 & w2 & H1).
  destruct (ts_if_pure _ _ _ _ H1) as (-> & Da & Pa).
  rewrite (bind_ok _ _ _ _ _ H1).
  destruct (ts_if_total (discharge_datetime v) w) as (d1 & w3 & H2).
  destruct (ts_if_pure _ _ _ _ H2) as (-> & Dd & Pd).
  rewrite (bind_ok _ _ _ _ _ H2).
  rewrite (bind_ok _ _ _ _ _ H1), (bind_ok _ _ _ _ _ H2).
  unfold ret. intros [= <- <-].
  exists a1, d1, a1, d1. repeat split; auto.
Qed.

Lemma hl7_segments_names (payload : HL7FullInput) (w w1 : world) (segs : list string) :
  hl7_segments payload w = Ok (segs, w1) ->
  map segment_name segs = segment_names payload.
Proof.
  intros H.
  destruct (hl7_segments_parts _ _ _ _ H)
    as (msh & t & pid & sv & sa & sd & sp & w2 & w3
        & Hmsh & Ht & Hpid & Hv & Ha & Hd & Hp & ->).
  destruct (build_msh_shape (header payload) w) as (x & w2' & Hx).
  assert (msh = "MSH" ++ String "|" x) by congruence. subst msh.
  unfold segment_names, optional_names. cbn [map app]. rewrite !map_app.
  rewrite (segment_name_of "MSH") by reflexivity.
  match goal with
  | |- context [segment_name ("EVN|" ++ ?y)] =>
      replace (segment_name ("EVN|" ++ y)) with "EVN"
        by (symmetry; now apply (segment_name_of "EVN"))
  end.
  rewrite (build_pid_name _ _ Hpid).
  rewrite (each_names _ _ _ _ build_al1_name Ha), (each_names _ _ _ _ build_dg1_name Hd),
    (each_names _ _ _ _ build_pr1_name Hp).
  rewrite (map_names build_nk1 "NK1") by reflexivity.
  rewrite (map_names build_gt1 "GT1") by reflexivity.
  rewrite (map_names build_in1 "IN1") by reflexivity.
  do 3 f_equal. f_equal.
  { unfold pd1_part. destruct (pd1 payload); [| reflexivity].
    reflexivity. }
  f_equal.
  { destruct (visit payload) as [v|].
    - destruct (build_visit_inv _ _ _ _ Hv) as (a1 & d1 & a2 & d2 & -> & _).
      reflexivity.
    - unfold ret in Hv. now injection Hv as <- _. }
  f_equal.
  unfold mrg_part. destruct (mrg payload) as [[|e m]|]; reflexivity.
Qed.

Lemma segments_of_join (payload : HL7FullInput) (w w1 : world) (segs : list string) :
  hl7_segments payload w = Ok (segs, w1) ->
  one_line_each segs ->
  segments_of (PyStr.join CRs segs) = segs.
Proof.
  intros H Hcr.
  destruct (hl7_segments_shape _ _ _ _ H)
    as (x & y & pid & s1 & sv & s2 & -> & Hpid & Hs1 & Hsv & Hs2).
  unfold segments_of, CRs.
  rewrite split_join; [| discriminate | exact Hcr].
  apply filter_all.
  assert (Hp : PyStr.strip_nonempty pid = true).
  { unfold build_pid in Hpid.
    destruct (match identifiers (patient payload) with [] => _ | _ => _ end);
      cbn [rbind] in Hpid; [| discriminate].
    injection Hpid as <-. reflexivity. }
  repeat constructor; try (apply nonblank_named; reflexivity); [exact Hp |].
  repeat (apply Forall_app; split).
  - eapply Forall_impl; [| exact Hs1]. apply neutral_nonblank.
  - destruct Hsv as [-> | (a & b & ->)]; repeat constructor;
      apply nonblank_named; reflexivity.
  - eapply Forall_impl; [| exact Hs2]. apply neutral_nonblank.
Qed.

(** X6.  The segments of a built message come in a fixed order, and which
    ones there are is read off the input alone: MSH, EVN, PID, then PD1 when
    [pd1] is given, PV1 and PV2 together when [visit] is given, MRG when
    [mrg] is a non-empty dict, and one AL1, DG1, PR1, NK1, GT1, IN1 segment
    per record of the list of that name.  When no segment holds a carriage
    return, these are also the segments the parser finds in the message. *)
Theorem segments_follow_the_input :
  forall (payload : HL7FullInput) (w : world) (segs : list string),
    run (hl7_segments payload) w = Ok segs ->
    map segment_name segs = segment_names payload
    /\ run (json_to_hl7_full payload) w = Ok (PyStr.join CRs segs)
    /\ (one_line_each segs -> segments_of (PyStr.join CRs segs) = segs).
Proof.
  intros payload w segs Hrun. destruct (run_inv _ _ _ Hrun) as (w1 & H).
  split; [exact (hl7_segments_names _ _ _ _ H) | split].
  - apply run_ok with w1. unfold json_to_hl7_full.
    rewrite (bind_ok _ _ _ _ _ H). reflexivity.
  - exact (segments_of_join _ _ _ _ H).
Qed.

Lemma segments_follow_the_input_witness :
  map segment_name
    [ "MSH|^~\&|2.16.840.1.113883.3.3731.example.ehr|HospitalA|||20251021123000||ADT^A01|MSG0001|P|2.5.1";
      "EVN|A01|20251021123000";
      "PID|1||NHIC123456^^^2.16.840.1.113883.3.3731.1.1.100.1^ISO||Doe^John^||19800101|M" ]
  = ["MSH"; "EVN"; "PID"].
Proof.
  exact (proj1 (segments_follow_the_input
                  (example_hl7_input ASSIGNING_AUTHORITY_HEALTH_ID) example_world
                  _ eq_refl)).
Defined.

Lemma decode_built_segments (payload : HL7FullInput) (w w1 : world) (segs : list string) :
  hl7_segments payload w = Ok (segs, w1) ->
  exists r, decode_segments segs initial_result = Ok r /\ wf r.
Proof.
  intros H.
  destruct (hl7_segments_shape _ _ _ _ H)
    as (x & y & pid & s1 & sv & s2 & -> & Hpid & Hs1 & Hsv & Hs2).
  cbn [decode_segments].
  destruct (decode_segment_step ("MSH" ++ String "|" x) initial_result wf_initial)
    as [(r1 & H1 & Hwf1 & _)|(_ & Hname & _)];
    [| rewrite (segment_name_of "MSH") in Hname by reflexivity; discriminate].
  rewrite H1. cbn [rbind].
  destruct (decode_segment_step ("EVN" ++ String "|" y) r1 Hwf1)
    as [(r2 & H2 & Hwf2 & _)|(_ & Hname & _)];
    [| rewrite (segment_name_of "EVN") in Hname by reflexivity; discriminate].
  rewrite H2. cbn [rbind].
  destruct (decode_segment_step pid r2 Hwf2)
    as [(r3 & H3 & Hwf3 & _)|(_ & Hname & _)];
    [| rewrite (build_pid_name _ _ Hpid) in Hname; discriminate].
  rewrite H3. cbn [rbind]. rewrite decode_segments_app.
  destruct (neutral_steps s1 r3 Hwf3 Hs1) as (r4 & H4 & Hwf4 & _).
  rewrite H4. cbn [rbind]. rewrite decode_segments_app.
  destruct (visit_steps sv r4 Hwf4 Hsv) as (r5 & H5 & Hwf5 & _).
  rewrite H5. cbn [rbind].
  destruct (neutral_steps s2 r5 Hwf5 Hs2) as (r6 & H6 & Hwf6 & _).
  exists r6. auto.
Qed.

(** X7.  The parser accepts what the builder writes: when no segment of a
    built message holds a carriage return, [hl7_full_to_json] returns on
    the message, the PV2 segment always coming behind its PV1. *)
Theorem built_message_is_parsed :
  forall (payload : HL7FullInput) (w : world) (segs : list string),
    run (hl7_segments payload) w = Ok segs ->
    one_line_each segs ->
    run (json_to_hl7_full payload) w = Ok (PyStr.join CRs segs)
    /\ early_pv2 segs = false
    /\ exists r, hl7_full_to_json (PyStr.join CRs segs) = Ok r.
Proof.
  intros payload w segs Hrun Hcr. destruct (run_inv _ _ _ Hrun) as (w1 & H).
  destruct (decode_built_segments _ _ _ _ H) as (r & Hr & _).
  split; [| split].
  - apply run_ok with w1. unfold json_to_hl7_full.
    rewrite (bind_ok _ _ _ _ _ H). reflexivity.
  - pose proof (decode_segments_early segs initial_result wf_initial eq_refl) as He.
    destruct (early_pv2 segs); [congruence | reflexivity].
  - exists r. unfold hl7_full_to_json. fold (segments_of (PyStr.join CRs segs)).
    now rewrite (segments_of_join _ _ _ _ H Hcr).
Qed.

Lemma built_message_is_parsed_witness :
  exists r,
    hl7_full_to_json
      (PyStr.join CRs
         [ "MSH|^~\&|2.16.840.1.113883.3.3731.example.ehr|HospitalA|||20251021123000||ADT^A01|MSG0001|P|2.5.1";
           "EVN|A01|20251021123000";
           "PID|1||NHIC123456^^^2.16.840.1.113883.3.3731.1.1.100.1^ISO||Doe^John^||19800101|M" ])
    = Ok r.
Proof.
  refine (proj2 (proj2 (built_message_is_parsed
                   (example_hl7_input ASSIGNING_AUTHORITY_HEALTH_ID) example_world
                   _ eq_refl _))).
  repeat constructor.
Defined.

(** ** What the parser reads back from a built message *)

Lemma all_digits_plain (s : string) : Iso.all_digits s = true -> plain s.
Proof.
  unfold plain. induction s as [|a s IH]; cbn [Iso.all_digits PyStr.mem]; [reflexivity |].
  intros H. apply andb_prop in H as [Ha Hs].
  destruct (Ascii.eqb_spec a "|") as [->|_]; [discriminate Ha | auto].
Qed.

Lemma ts_to_hl7_digits (ts : option string) (w w1 : world) (s : string) :
  ts_to_hl7 ts w = Ok (s, w1) -> Iso.all_digits s = true.
Proof.
  unfold ts_to_hl7.
  assert (N : forall s1 w2, bind utcnow (fun now => ret (strftime now)) w = Ok (s1, w2) ->
              Iso.all_digits s1 = true).
  { unfold bind, utcnow, ret. intros s1 w2 [= <- _]. apply strftime_digits. }
  destruct ts as [s0|]; [| apply N].
  destruct (PyStr.is_empty s0); [apply N |].
  pose proof (all_digits_take 14 _ (all_digits_filter s0)) as Ht.
  set (t := PyStr.take 14 (PyStr.filter PyStr.is_digit s0)) in *. clearbody t.
  destruct (Iso.fromisoformat _) as [dt|]; unfold ret; intros [= <- _];
    [apply strftime_digits | exact Ht].
Qed.

Lemma plain_take (n : nat) (s : string) : plain s -> plain (PyStr.take n s).
Proof.
  unfold plain. revert s. induction n as [|n IH]; intros [|a s]; cbn; auto.
  destruct (Ascii.eqb a "|"); [discriminate | apply IH].
Qed.

Lemma plain_drop (n : nat) (s : string) : plain s -> plain (PyStr.drop n s).
Proof.
  unfold plain. revert s. induction n as [|n IH]; intros [|a s]; cbn; auto.
  destruct (Ascii.eqb a "|"); [discriminate | apply IH].
Qed.

Lemma plain_append (x y : string) : plain x -> plain y -> plain (x ++ y).
Proof. unfold plain. intros Hx Hy. now rewrite mem_append, Hx, Hy. Qed.

Lemma hex_char_plain (x : N) : Ascii.eqb (hex_char (N.land x 15)) "|" = false.
Proof.
  assert (H : (N.land x 15 < 16)%N).
  { change 15%N with (N.ones 4). rewrite N.land_ones. now apply N.mod_lt. }
  rewrite <- (N2Nat.id (N.land x 15)) in *.
  assert (Hn : N.to_nat (N.land x 15) < 16) by lia.
  clear H. revert Hn. generalize (N.to_nat (N.land x 15)). intros n Hn.
  do 16 (destruct n as [|n]; [reflexivity |]). lia.
Qed.

Lemma hex_digits_plain (k : nat) (v : N) : plain (hex_digits k v).
Proof.
  unfold plain. induction k as [|k IH]; [reflexivity |].
  cbn [hex_digits PyStr.mem]. now rewrite hex_char_plain.
Qed.

Lemma uuid_str_plain (v : N) : plain (uuid_str v).
Proof.
  unfold uuid_str.
  repeat (apply plain_append;
          [first [reflexivity | apply plain_take; try apply plain_drop; apply hex_digits_plain] |]).
  apply plain_drop, hex_digits_plain.
Qed.

Lemma split_fields (l : list string) :
  l <> [] -> Forall plain l -> PyStr.split "|" (PyStr.join "|" l) = l.
Proof. exact (split_join "|" l). Qed.

Lemma build_msh_inv (hdr : MessageModel) (w w1 : world) (msh : string) :
  build_msh hdr w = Ok (msh, w1) ->
  exists dt ctrl,
    msh = PyStr.join "|"
            [ "MSH"; "^~\&"; or_else (sending_app_oid hdr) "";
              or_else (sending_facility hdr) ""; or_else (receiving_app hdr) "";
              or_else (receiving_facility hdr) ""; dt; ""; event hdr; ctrl; "P";
              or_else (version hdr) HL7_VERSION ]
    /\ Iso.all_digits dt = true
    /\ (exists w', ts_to_hl7 (message_datetime hdr) w = Ok (dt, w'))
    /\ (if truthy (message_control_id hdr)
        then ctrl = or_else (message_control_id hdr) ""
        else exists v, ctrl = uuid_str v).
Proof.
  unfold build_msh.
  destruct (ts_to_hl7_total (message_datetime hdr) w) as (dt & w2 & Hdt).
  rewrite (bind_ok _ _ _ _ _ Hdt).
  pose proof (ts_to_hl7_digits _ _ _ _ Hdt) as Dd.
  destruct (truthy (message_control_id hdr)).
  - unfold bind, ret. intros [= <- <-]. exists dt. eexists.
    split; [reflexivity | split; [exact Dd | split; [eauto | reflexivity]]].
  - assert (Hu : exists v w3, uuid4 w2 = Ok (uuid_str v, w3))
      by (do 2 eexists; reflexivity).
    destruct Hu as (v & w3 & Hu). rewrite (bind_ok _ _ _ _ _ Hu).
    remember (uuid_str v) as u eqn:Eu. unfold ret. intros [= <- <-].
    exists dt, u.
    split; [reflexivity | split; [exact Dd | split; [eauto |]]]. now exists v.
Qed.

Lemma split_elements_plain (c : ascii) (s : string) :
  plain s -> Forall plain (PyStr.split c s).
Proof.
  unfold plain. induction s as [|a s IH]; cbn [PyStr.split PyStr.mem].
  - repeat constructor.
  - destruct (Ascii.eqb a "|") eqn:E; [discriminate |]. intros H. specialize (IH H).
    destruct (Ascii.eqb a c).
    + constructor; [reflexivity | exact IH].
    + destruct (PyStr.split c s) as [|h t]; [repeat constructor; cbn; now rewrite E |].
      inversion IH; subst. constructor; [cbn; now rewrite E | assumption].
Qed.

Lemma last_plain (l : list string) : Forall plain l -> plain (List.last l "").
Proof.
  induction 1 as [|x l Hx Hl IH]; [reflexivity |].
  destruct l; [exact Hx | exact IH].
Qed.

Lemma evn_code_plain (event : string) : plain event -> plain (evn_code_of event).
Proof.
  intros H. unfold evn_code_of. destruct (PyStr.mem "^" event); [| exact H].
  apply last_plain, split_elements_plain, H.
Qed.

Lemma decode_segments_frame (k : string) (segs : list string) (r r' : jdict) :
  wf r -> decode_segments segs r = Ok r' ->
  Forall (fun seg => key_of (segment_name seg) <> Some k) segs ->
  jget k r' = jget k r.
Proof.
  intros Hwf H Hall. revert r Hwf H.
  induction Hall as [|s segs Hs Hall IH]; intros r Hwf; cbn [decode_segments].
  - now intros [= <-].
  - destruct (decode_segment s r) as [r1|e] eqn:E; cbn [rbind]; [| discriminate].
    intros H. rewrite (IH r1 (decode_segment_wf _ _ _ Hwf E) H).
    exact (decode_segment_frame _ _ _ _ Hwf E Hs).
Qed.

Lemma optional_names_forall (P : string -> Prop) (payload : HL7FullInput) :
  Forall P ["PD1"; "PV1"; "PV2"; "MRG"; "AL1"; "DG1"; "PR1"; "NK1"; "GT1"; "IN1"] ->
  Forall P (optional_names payload).
Proof.
  intros H. rewrite Forall_forall in H. unfold optional_names.
  assert (R : forall n k, P n -> Forall P (repeat n k)).
  { intros n k Hn. induction k; cbn; constructor; auto. }
  repeat (apply Forall_app; split).
  - destruct (pd1 payload); repeat constructor. apply H. cbn. tauto.
  - destruct (visit payload); repeat constructor; apply H; cbn; tauto.
  - destruct (mrg payload) as [[|e m]|]; repeat constructor. apply H. cbn. tauto.
  - apply R, H. cbn. tauto.
  - apply R, H. cbn. tauto.
  - apply R, H. cbn. tauto.
  - apply R, H. cbn. tauto.
  - apply R, H. cbn. tauto.
  - apply R, H. cbn. tauto.
Qed.

Lemma forall_names (P : string -> Prop) (segs : list string) (names : list string) :
  map segment_name segs = names -> Forall P names ->
  Forall (fun seg => P (segment_name seg)) segs.
Proof.
  intros <- H. induction segs as [|s segs IH]; [constructor |].
  inversion H; subst. constructor; auto.
Qed.

(** X8.  The header survives the round trip.  When the texts that
    [build_msh] writes unescaped hold no field separator and no segment holds
    a carriage return, the parser returns for the built message a header
    with the eight MSH values as they were written (the sender and receiver
    texts, the time stamp, the event, the control id, the version), the EVN
    code, which is the event code behind its last [^], and the EVN time
    stamp; a given control id comes back unchanged. *)
Theorem header_survives_the_round_trip :
  forall (payload : HL7FullInput) (w : world) (segs : list string),
    run (hl7_segments payload) w = Ok segs ->
    one_line_each segs ->
    header_plain (header payload) ->
    exists r dt ctrl evn_time,
      hl7_full_to_json (PyStr.join CRs segs) = Ok r
      /\ jget "header" r = Some (decoded_header (header payload) dt ctrl evn_time)
      /\ run (ts_to_hl7 (message_datetime (header payload))) w = Ok dt
      /\ Iso.all_digits evn_time = true
      /\ (truthy (message_control_id (header payload)) = true ->
          ctrl = or_else (message_control_id (header payload)) "").
Proof.
  intros payload w segs Hrun Hcr Hplain. destruct (run_inv _ _ _ Hrun) as (w1 & H).
  pose proof (hl7_segments_names _ _ _ _ H) as Hnames.
  destruct (decode_built_segments _ _ _ _ H) as (r & Hr & _).
  pose proof (segments_of_join _ _ _ _ H Hcr) as Hsegs.
  destruct (hl7_segments_parts _ _ _ _ H)
    as (msh & t & pid & sv & sa & sd & sp & w2 & w3
        & Hmsh & Ht & Hpid & Hv & Ha & Hd & Hp & E).
  destruct (build_msh_inv _ _ _ _ Hmsh) as (dt & ctrl & Emsh & Ddt & (w' & Hdt) & Hctrl).
  pose proof (ts_to_hl7_digits _ _ _ _ Ht) as Dt.
  unfold header_plain in Hplain.
  repeat match goal with
         | Hf : Forall plain (_ :: _) |- _ =>
             apply Forall_cons_iff in Hf; destruct Hf as [? ?]
         end.
  match goal with
  | Hn : Forall plain [] |- _ => clear Hn
  end.
  assert (Pc : plain ctrl).
  { destruct (truthy (message_control_id (header payload)));
      [now subst ctrl | destruct Hctrl as (v & ->); apply uuid_str_plain]. }
  assert (Sm : PyStr.split "|" msh
               = [ "MSH"; "^~\&"; or_else (sending_app_oid (header payload)) "";
                   or_else (sending_facility (header payload)) "";
                   or_else (receiving_app (header payload)) "";
                   or_else (receiving_facility (header payload)) ""; dt; "";
                   event (header payload); ctrl; "P";
                   or_else (version (header payload)) HL7_VERSION ]).
  { rewrite Emsh. apply split_fields; [discriminate |].
    repeat constructor; auto using all_digits_plain. }
  set (evn := ("EVN|" ++ evn_code_of (event (header payload)) ++ "|" ++ t)%string) in *.
  assert (Se : PyStr.split "|" evn = ["EVN"; evn_code_of (event (header payload)); t]).
  { change evn with (PyStr.join "|" ["EVN"; evn_code_of (event (header payload)); t]).
    apply split_fields; [discriminate |].
    repeat constructor; auto using all_digits_plain, evn_code_plain. }
  exists r, dt, ctrl, t.
  split; [| split; [| split; [| split]]].
  - unfold hl7_full_to_json. fold (segments_of (PyStr.join CRs segs)). now rewrite Hsegs.
  - rewrite E in Hr, Hnames.
    unfold segment_names in Hnames. cbn [map] in Hnames.
    injection Hnames as _ _ Hrest.
    match type of Hr with
    | decode_segments (msh :: evn :: ?tail) _ = _ =>
        set (rest := tail) in *;
        change (decode_segments ([msh; evn] ++ rest) initial_result = Ok r) in Hr
    end.
    rewrite decode_segments_app in Hr. cbn [decode_segments] in Hr.
    unfold decode_segment in Hr. rewrite Sm, Se in Hr.
    match type of Hr with
    | rbind (rbind (decode_fields ?f initial_result) _) _ = _ =>
        change (decode_fields f initial_result)
          with (Ok (jset "header"
                      (JDict [ ("sending_app_oid", JStr (or_else (sending_app_oid (header payload)) ""));
                               ("sending_facility", JStr (or_else (sending_facility (header payload)) ""));
                               ("receiving_app", JStr (or_else (receiving_app (header payload)) ""));
                               ("receiving_facility", JStr (or_else (receiving_facility (header payload)) ""));
                               ("message_datetime", JStr dt);
                               ("event", JStr (event (header payload)));
                               ("message_control_id", JStr ctrl);
                               ("version", JStr (or_else (version (header payload)) HL7_VERSION)) ])
                      initial_result)) in Hr
    end.
    cbn [rbind] in Hr.
    match type of Hr with
    | rbind (rbind (decode_fields ?f ?r0) _) _ = _ =>
        change (decode_fields f r0)
          with (Ok (jset "header" (decoded_header (header payload) dt ctrl t)
                      initial_result)) in Hr
    end.
    cbn [rbind] in Hr.
    match type of Hr with
    | decode_segments _ ?r0 = _ =>
        assert (Hwf : wf r0)
          by (constructor; unfold is_list_or_absent, is_list_at, decoded_header;
              jget_compute; cbn; eauto)
    end.
    rewrite (decode_segments_frame "header" _ _ _ Hwf Hr); [reflexivity |].
    constructor; [rewrite (build_pid_name _ _ Hpid); discriminate |].
    apply (forall_names (fun n => key_of n <> Some "header") _ _ Hrest).
    apply optional_names_forall. repeat constructor; discriminate.
  - now apply run_ok with w'.
  - exact Dt.
  - intros Ht'. now rewrite Ht' in Hctrl.
Qed.

Lemma header_survives_the_round_trip_witness :
  exists r dt ctrl evn_time,
    hl7_full_to_json (PyStr.join CRs example_segments) = Ok r
    /\ jget "header" r
       = Some (decoded_header (header (example_hl7_input ASSIGNING_AUTHORITY_HEALTH_ID))
                 dt ctrl evn_time)
    /\ run (ts_to_hl7 (Some "2025-10-21T12:30:00Z")) example_world = Ok dt
    /\ Iso.all_digits evn_time = true
    /\ (true = true -> ctrl = "MSG0001").
Proof.
  refine (header_survives_the_round_trip
            (example_hl7_input ASSIGNING_AUTHORITY_HEALTH_ID) example_world
            example_segments eq_refl _ _); repeat constructor.
Defined.

Lemma decode_segments_app_inv (l1 l2 : list string) (r r' : jdict) :
  decode_segments (l1 ++ l2) r = Ok r' ->
  exists r1, decode_segments l1 r = Ok r1 /\ decode_segments l2 r1 = Ok r'.
Proof.
  rewrite decode_segments_app. destruct (decode_segments l1 r) as [r1|e]; cbn [rbind];
    [eauto | discriminate].
Qed.

Lemma each_forall_name {A : Type} (f : A -> result string) (n : string) (l : list A)
    (ss : list string) :
  (forall x s, f x = Ok s -> segment_name s = n) ->
  each f l = Ok ss -> Forall (fun s => segment_name s = n) ss.
Proof.
  intros Hf. revert ss. induction l as [|x l IH]; intros ss; cbn [each].
  - intros [= <-]. constructor.
  - destruct (f x) as [s|e] eqn:E; cbn [rbind]; [| discriminate].
    destruct (each f l) as [rest|e]; cbn [rbind]; [| discriminate].
    intros [= <-]. constructor; [exact (Hf x s E) | now apply IH].
Qed.

Lemma map_forall_name {A : Type} (f : A -> string) (n : string) (l : list A) :
  (forall x, segment_name (f x) = n) ->
  Forall (fun s => segment_name s = n) (map f l).
Proof. intros Hf. induction l; cbn; constructor; auto. Qed.

(** the key facts about the list of segments of a built message *)
Lemma hl7_segments_built (payload : HL7FullInput) (w w1 : world) (segs : list string) :
  hl7_segments payload w = Ok (segs, w1) ->
  exists msh t pid sv sa sd sp,
    segs = (msh :: ("EVN|" ++ evn_code_of (event (header payload)) ++ "|" ++ t)%string
            :: pid
            :: pd1_part payload ++ sv ++ mrg_part payload ++ sa ++ sd ++ sp
               ++ map build_nk1 (nonempty (nk1 payload))
               ++ map build_gt1 (nonempty (gt1 payload))
               ++ map build_in1 (nonempty (in1 payload)))%list
    /\ segment_name msh = "MSH"
    /\ build_pid (patient payload) = Ok pid
    /\ match visit payload with
       | Some v => exists w2 w3, build_visit v w2 = Ok (sv, w3)
       | None => sv = []
       end
    /\ each build_al1 (nonempty (al1 payload)) = Ok sa
    /\ each build_dg1 (nonempty (dg1 payload)) = Ok sd
    /\ each build_pr1 (nonempty (pr1 payload)) = Ok sp
    /\ Forall (fun s => segment_name s = "PD1") (pd1_part payload)
    /\ Forall (fun s => In (segment_name s) ["PV1"; "PV2"]) sv
    /\ Forall (fun s => segment_name s = "MRG") (mrg_part payload)
    /\ Forall (fun s => segment_name s = "AL1") sa
    /\ Forall (fun s => segment_name s = "DG1") sd
    /\ Forall (fun s => segment_name s = "PR1") sp
    /\ Forall (fun s => segment_name s = "NK1") (map build_nk1 (nonempty (nk1 payload)))
    /\ Forall (fun s => segment_name s = "GT1") (map build_gt1 (nonempty (gt1 payload)))
    /\ Forall (fun s => segment_name s = "IN1") (map build_in1 (nonempty (in1 payload))).
Proof.
  intros H.
  destruct (hl7_segments_parts _ _ _ _ H)
    as (msh & t & pid & sv & sa & sd & sp & w2 & w3
        & Hmsh & Ht & Hpid & Hv & Ha & Hd & Hp & E).
  exists msh, t, pid, sv, sa, sd, sp.
  split; [exact E |]. split.
  { destruct (build_msh_shape (header payload) w) as (x & w2' & Hx).
    assert (msh = "MSH" ++ String "|" x) by congruence. subst msh.
    now apply segment_name_of. }
  split; [exact Hpid |]. split.
  { destruct (visit payload) as [v|]; [eauto |]. unfold ret in Hv. congruence. }
  split; [exact Ha |]. split; [exact Hd |]. split; [exact Hp |]. split.
  { unfold pd1_part. destruct (pd1 payload); repeat constructor. }
  split.
  { destruct (visit payload) as [v|].
    - destruct (build_visit_inv _ _ _ _ Hv) as (a1 & d1 & a2 & d2 & -> & _).
      repeat constructor; cbn; tauto.
    - unfold ret in Hv. injection Hv as <- _. constructor. }
  split.
  { unfold mrg_part. destruct (mrg payload) as [[|e m]|]; repeat constructor. }
  split; [exact (each_forall_name _ _ _ _ build_al1_name Ha) |].
  split; [exact (each_forall_name _ _ _ _ build_dg1_name Hd) |].
  split; [exact (each_forall_name _ _ _ _ build_pr1_name Hp) |].
  repeat split; apply map_forall_name; reflexivity.
Qed.

Ltac other_key :=
  eapply Forall_impl; [| eassumption]; cbv beta;
  let s := fresh "s" in
  let Hn := fresh "Hn" in
  intros s Hn;
  first [ rewrite Hn; discriminate
        | destruct Hn as [Hn|[Hn|[]]]; rewrite <- Hn; discriminate ].

Lemma pv2_on_dict (rest : list string) (r : jdict) (d : jdict) :
  jget "visit" r = Some (JDict d) ->
  exists r',
    decode_fields ("PV2" :: rest) r = Ok r'
    /\ jget "visit" r'
       = Some (JDict (jset "discharge" (JStr (nth 3 rest ""))
                        (jset "admit" (JStr (nth 2 rest "")) d))).
Proof.
  intros Hv. unfold decode_fields. cbn [py_index nth_error rbind].
  rewrite !field_default. cbn [rbind String.eqb Ascii.eqb Bool.eqb nth].
  unfold at_default, setdefault. rewrite Hv. cbn [setitem rbind].
  jget_compute. cbn [setitem rbind]. eexists. split; [reflexivity |].
  jget_compute. reflexivity.
Qed.

(** X9.  What survives of a visit.  When the texts written unescaped into
    PV1 hold no field separator and no segment holds a carriage return, the
    parser returns the patient class and the location as they were given,
    and the admission and discharge time stamps as [ts_to_hl7] formats them
    (empty when not given); but [attending_doctor] and [visit_number] come
    back empty whatever was given, for the builder writes them to fields 7
    and 22 of PV1 and the parser reads fields 8 and 19. *)
Theorem visit_round_trip_loses_doctor_and_number :
  forall (payload : HL7FullInput) (w : world) (segs : list string) (v : VisitModel),
    run (hl7_segments payload) w = Ok segs ->
    one_line_each segs ->
    visit payload = Some v ->
    visit_plain v ->
    exists r admission discharge,
      hl7_full_to_json (PyStr.join CRs segs) = Ok r
      /\ jget "visit" r = Some (decoded_visit v admission discharge)
      /\ run (ts_if (admit_datetime v)) w = Ok admission
      /\ run (ts_if (discharge_datetime v)) w = Ok discharge.
Proof.
  intros payload w segs v Hrun Hcr Hvisit Hplain.
  destruct (run_inv _ _ _ Hrun) as (w1 & H).
  destruct (decode_built_segments _ _ _ _ H) as (r & Hr & _).
  pose proof (segments_of_join _ _ _ _ H Hcr) as Hsegs.
  destruct (hl7_segments_built _ _ _ _ H)
    as (msh & t & pid & sv & sa & sd & sp & E & Nmsh & Hpid & Hv & Ha & Hdg & Hpr
        & Npd1 & Nsv & Nmrg & Nal1 & Ndg1 & Npr1 & Nnk1 & Ngt1 & Nin1).
  rewrite Hvisit in Hv. destruct Hv as (w2 & w3 & Hv).
  destruct (build_visit_inv _ _ _ _ Hv)
    as (a1 & d1 & a2 & d2 & Esv & Ta & Td & -> & -> & Da & Dd).
  unfold visit_plain in Hplain.
  repeat match goal with
         | Hf : Forall plain (_ :: _) |- _ =>
             apply Forall_cons_iff in Hf; destruct Hf as [? ?]
         end.
  exists r, a1, d1. split; [| split; [| split]].
  - unfold hl7_full_to_json. fold (segments_of (PyStr.join CRs segs)). now rewrite Hsegs.
  - rewrite E in Hr.
    match type of Hr with
    | decode_segments (msh :: ?evn :: pid :: ?p1 ++ sv ++ ?post) _ = _ =>
        change (decode_segments ((msh :: evn :: pid :: p1) ++ sv ++ post) initial_result
                = Ok r) in Hr;
        assert (Npre : Forall (fun s => key_of (segment_name s) <> Some "visit")
                         (msh :: evn :: pid :: p1));
        [| assert (Npost : Forall (fun s => key_of (segment_name s) <> Some "visit") post) ]
    end.
    { constructor; [rewrite Nmsh; discriminate |].
      constructor; [discriminate |].
      constructor; [rewrite (build_pid_name _ _ Hpid); discriminate |].
      other_key. }
    { repeat (apply Forall_app; split); other_key. }
    apply decode_segments_app_inv in Hr as (r1 & Hr1 & Hr).
    apply decode_segments_app_inv in Hr as (r2 & Hr2 & Hr3).
    pose proof (decode_segments_wf _ _ _ wf_initial Hr1) as Hwf1.
    pose proof (decode_segments_wf _ _ _ Hwf1 Hr2) as Hwf2.
    rewrite (decode_segments_frame "visit" _ _ _ Hwf2 Hr3 Npost).
    pose proof (decode_segments_frame "visit" _ _ _ wf_initial Hr1 Npre) as Hv1.
    rewrite Esv in Hr2. cbn [decode_segments] in Hr2. unfold decode_segment in Hr2.
    match type of Hr2 with
    | context [PyStr.split "|" ("PV1|1|" ++ ?x)] =>
        replace (PyStr.split "|" ("PV1|1|" ++ x))
          with ([ "PV1"; "1"; or_else (patient_class v) ""; or_else (location v) "";
                  ""; ""; "";
                  or_else (attending_doctor_id v) "" ++ "^"
                  ++ or_else (attending_doctor_family v) "" ++ "^"
                  ++ or_else (attending_doctor_given v) "";
                  ""; ""; ""; ""; ""; ""; ""; ""; ""; ""; ""; ""; ""; "";
                  or_else (visit_number v) ""; a1; d1 ]) in Hr2
    end.
    2:{ symmetry.
        match goal with
        | |- PyStr.split "|" ?s = ?l => change s with (PyStr.join "|" l)
        end.
        apply split_fields; [discriminate |].
        repeat constructor; auto using all_digits_plain.
        repeat (apply plain_append; [assumption || reflexivity |]). assumption. }
    replace (PyStr.split "|" ("PV2|||" ++ a1 ++ "|" ++ d1))
      with ["PV2"; ""; ""; a1; d1] in Hr2.
    2:{ symmetry. change ("PV2|||" ++ a1 ++ "|" ++ d1)
          with (PyStr.join "|" ["PV2"; ""; ""; a1; d1]).
        apply split_fields; [discriminate |].
        repeat constructor; auto using all_digits_plain. }
    match type of Hr2 with
    | rbind (decode_fields ?f r1) _ = _ =>
        change (decode_fields f r1)
          with (Ok (jset "visit"
                      (JDict [ ("patient_class", JStr (or_else (patient_class v) ""));
                               ("location", JStr (or_else (location v) ""));
                               ("attending_doctor", JStr "");
                               ("visit_number", JStr "") ]) r1)) in Hr2
    end.
    cbn [rbind] in Hr2.
    match type of Hr2 with
    | rbind (decode_fields _ ?r0) _ = _ =>
        destruct (pv2_on_dict ["";  ""; a1; d1] r0
                    [ ("patient_class", JStr (or_else (patient_class v) ""));
                      ("location", JStr (or_else (location v) ""));
                      ("attending_doctor", JStr "");
                      ("visit_number", JStr "") ])
          as (r2' & Hpv2 & Hvis); [now rewrite jget_jset |]
    end.
    rewrite Hpv2 in Hr2. cbn [rbind] in Hr2. injection Hr2 as <-.
    rewrite Hvis. reflexivity.
  - destruct (ts_if_pure _ _ _ _ Ta) as (_ & _ & P). apply run_ok with w, P.
  - destruct (ts_if_pure _ _ _ _ Td) as (_ & _ & P). apply run_ok with w, P.
Qed.

Lemma visit_round_trip_loses_doctor_and_number_witness :
  exists r admission discharge,
    hl7_full_to_json (PyStr.join CRs example_full_segments) = Ok r
    /\ jget "visit" r = Some (decoded_visit example_visit admission discharge)
    /\ run (ts_if (Some "2025-10-20T08:00:00Z")) example_world = Ok admission
    /\ run (ts_if None) example_world = Ok discharge.
Proof.
  refine (visit_round_trip_loses_doctor_and_number
            example_full_input example_world example_full_segments example_visit
            eq_refl _ eq_refl _); repeat constructor.
Defined.

Lemma segments_named_app (name : string) (a b : list string) :
  segments_named name (a ++ b) = (segments_named name a ++ segments_named name b)%list.
Proof. apply filter_app. Qed.

Lemma segments_named_other (name : string) (l : list string) :
  Forall (fun s => segment_name s <> name) l -> segments_named name l = [].
Proof.
  induction 1 as [|s l Hs Hl IH]; [reflexivity |].
  cbn [segments_named List.filter]. apply String.eqb_neq in Hs. now rewrite Hs.
Qed.

Lemma segments_named_same (name : string) (l : list string) :
  Forall (fun s => segment_name s = name) l -> segments_named name l = l.
Proof.
  induction 1 as [|s l Hs Hl IH]; [reflexivity |].
  cbn [segments_named List.filter]. rewrite Hs, String.eqb_refl. f_equal. exact IH.
Qed.

Ltac drop_others name Hk :=
  repeat match type of Hk with
         | context [segments_named name ?p] =>
             rewrite (segments_named_other name p) in Hk
               by (eapply Forall_impl; [| eassumption]; cbv beta;
                   let s := fresh "s" in
                   let Hn := fresh "Hn" in
                   intros s Hn;
                   first [ rewrite Hn; discriminate
                         | destruct Hn as [Hn|[Hn|[]]]; rewrite <- Hn; discriminate ])
         end.

Lemma escape_hl7_field_plain (v : pyval) (s : string) :
  escape_hl7_field v = Ok s -> plain s /\ s = escaped v.
Proof.
  unfold escaped. intros H. rewrite H. split; [| reflexivity].
  destruct v; cbn in H; [injection H as <- | injection H as <- | discriminate];
    [reflexivity | apply escape_str_no_pipe].
Qed.

Lemma Ok_inj {A : Type} (a b : A) : Ok a = Ok b -> a = b.
Proof. congruence. Qed.

Lemma build_al1_taken (a : pydict) (s : string) :
  build_al1 a = Ok s ->
  taken [ ("allergen", 3); ("reaction", 4) ] s = decoded_al1 a.
Proof.
  unfold build_al1, decoded_al1, taken.
  destruct (escape_hl7_field (dict_get a "allergen" _)) as [x|] eqn:Ex; cbn [rbind];
    [| discriminate].
  destruct (escape_hl7_field (dict_get a "reaction" _)) as [y|] eqn:Ey; cbn [rbind];
    [| discriminate].
  destruct (escape_hl7_field (dict_get a "severity" _)) as [z|] eqn:Ez; cbn [rbind];
    [| discriminate].
  destruct (escape_hl7_field_plain _ _ Ex) as (Px & <-).
  destruct (escape_hl7_field_plain _ _ Ey) as (Py & <-).
  destruct (escape_hl7_field_plain _ _ Ez) as (Pz & _).
  intros Hs. apply Ok_inj in Hs. subst s.
  change ("AL1|||" ++ x ++ "|" ++ y ++ "|" ++ z)
    with (PyStr.join "|" ["AL1"; ""; ""; x; y; z]).
  rewrite split_fields; [reflexivity | discriminate | repeat constructor; assumption].
Qed.

Lemma each_taken (keys : list (string * nat)) (f : pydict -> result string)
    (g : pydict -> json) (l : list pydict) (ss : list string) :
  (forall x s, f x = Ok s -> taken keys s = g x) ->
  each f l = Ok ss -> map (taken keys) ss = map g l.
Proof.
  intros Hf. revert ss. induction l as [|x l IH]; intros ss; cbn [each].
  - now intros [= <-].
  - destruct (f x) as [s|e] eqn:E; cbn [rbind]; [| discriminate].
    destruct (each f l) as [rest|e]; cbn [rbind]; [| discriminate].
    intros [= <-]. cbn [map]. now rewrite (Hf x s E), (IH rest).
Qed.

Lemma build_nk1_taken (nk : NK1Model) :
  taken [ ("name", 2); ("relationship", 3); ("phone_number", 4) ] (build_nk1 nk)
  = decoded_nk1 nk.
Proof.
  unfold build_nk1, decoded_nk1, taken.
  match goal with
  | |- context [PyStr.split "|" ("NK1||" ++ ?a ++ "|" ++ ?b ++ "|" ++ ?c)] =>
      change ("NK1||" ++ a ++ "|" ++ b ++ "|" ++ c)
        with (PyStr.join "|" ["NK1"; ""; a; b; c])
  end.
  rewrite split_fields; [reflexivity | discriminate |].
  repeat constructor; apply escape_str_no_pipe.
Qed.

Lemma build_gt1_taken (gt : GT1Model) :
  taken [ ("guarantor_number", 1); ("guarantor_name", 2);
          ("guarantor_address", 3); ("guarantor_phone", 4) ] (build_gt1 gt)
  = decoded_gt1 gt.
Proof.
  unfold build_gt1, decoded_gt1, taken.
  match goal with
  | |- context [PyStr.split "|" ("GT1|" ++ ?a ++ "|" ++ ?b ++ "|" ++ ?c ++ "|" ++ ?d)] =>
      change ("GT1|" ++ a ++ "|" ++ b ++ "|" ++ c ++ "|" ++ d)
        with (PyStr.join "|" ["GT1"; a; b; c; d])
  end.
  rewrite split_fields; [reflexivity | discriminate |].
  repeat constructor; apply escape_str_no_pipe.
Qed.

Lemma build_in1_taken (ins : IN1Model) :
  taken [ ("insurance_plan_id", 1); ("insurance_company_id", 2);
          ("insurance_company_name", 3); ("insured_id", 4); ("insured_name", 5) ]
    (build_in1 ins)
  = decoded_in1 ins.
Proof.
  unfold build_in1, decoded_in1, taken.
  match goal with
  | |- context [PyStr.split "|"
                  ("IN1|" ++ ?a ++ "|" ++ ?b ++ "|" ++ ?c ++ "|" ++ ?d ++ "|" ++ ?e)] =>
      change ("IN1|" ++ a ++ "|" ++ b ++ "|" ++ c ++ "|" ++ d ++ "|" ++ e)
        with (PyStr.join "|" ["IN1"; a; b; c; d; e])
  end.
  rewrite split_fields; [reflexivity | discriminate |].
  repeat constructor; apply escape_str_no_pipe.
Qed.

Lemma list_if_any_map {A : Type} (g : A -> json) (f : A -> string)
    (keys : list (string * nat)) (l : list A) (v : option json) :
  (forall x, taken keys (f x) = g x) ->
  match map f l with
  | [] => v = None
  | ss => v = Some (JList (map (taken keys) ss))
  end ->
  v = list_if_any (map g l).
Proof.
  intros Hg. destruct l as [|x l]; cbn [map list_if_any]; [auto |].
  intros ->. rewrite Hg. do 3 f_equal. rewrite map_map. now apply map_ext.
Qed.

(** X10.  The records of a built message come back escaped.  When no
    segment holds a carriage return, the parser returns one entry per
    [al1], [nk1], [gt1] and [in1] record, in order, and each text of an
    entry is the escaped text that was written, with [\F\], [\S\], [\T\],
    [\R\] left in place of the separators: the parser does not undo the
    escaping.  The severity of an allergy is written but not read back, and
    the key of an empty [nk1], [gt1] or [in1] list is absent. *)
Theorem records_come_back_escaped :
  forall (payload : HL7FullInput) (w : world) (segs : list string),
    run (hl7_segments payload) w = Ok segs ->
    one_line_each segs ->
    exists r,
      hl7_full_to_json (PyStr.join CRs segs) = Ok r
      /\ jget "al1" r = Some (JList (map decoded_al1 (nonempty (al1 payload))))
      /\ jget "nk1" r = list_if_any (map decoded_nk1 (nonempty (nk1 payload)))
      /\ jget "gt1" r = list_if_any (map decoded_gt1 (nonempty (gt1 payload)))
      /\ jget "in1" r = list_if_any (map decoded_in1 (nonempty (in1 payload))).
Proof.
  intros payload w segs Hrun Hcr.
  destruct (run_inv _ _ _ Hrun) as (w1 & H).
  destruct (decode_built_segments _ _ _ _ H) as (r & Hr & _).
  pose proof (segments_of_join _ _ _ _ H Hcr) as Hsegs.
  destruct (hl7_segments_built _ _ _ _ H)
    as (msh & t & pid & sv & sa & sd & sp & E & Nmsh & Hpid & Hv & Ha & Hdg & Hpr
        & Npd1 & Nsv & Nmrg & Nal1 & Ndg1 & Npr1 & Nnk1 & Ngt1 & Nin1).
  assert (Nhead : Forall (fun s => In (segment_name s) ["MSH"; "EVN"; "PID"])
                    [msh; ("EVN|" ++ evn_code_of (event (header payload)) ++ "|" ++ t)%string;
                     pid]).
  { constructor; [rewrite Nmsh; cbn; tauto |].
    constructor; [right; left; reflexivity |].
    constructor; [rewrite (build_pid_name _ _ Hpid); cbn; tauto | constructor]. }
  assert (Hhead : forall name, ~ In name ["MSH"; "EVN"; "PID"] ->
            segments_named name
              [msh; ("EVN|" ++ evn_code_of (event (header payload)) ++ "|" ++ t)%string; pid]
            = []).
  { intros name Hn. apply segments_named_other.
    eapply Forall_impl; [| exact Nhead]. cbv beta. intros s Hs Heq. rewrite Heq in Hs.
    contradiction. }
  assert (Hnamed : forall name,
            ~ In name ["MSH"; "EVN"; "PID"] ->
            segments_named name segs
            = (segments_named name (pd1_part payload) ++ segments_named name sv
               ++ segments_named name (mrg_part payload) ++ segments_named name sa
               ++ segments_named name sd ++ segments_named name sp
               ++ segments_named name (map build_nk1 (nonempty (nk1 payload)))
               ++ segments_named name (map build_gt1 (nonempty (gt1 payload)))
               ++ segments_named name (map build_in1 (nonempty (in1 payload))))%list).
  { intros name Hn. rewrite E.
    match goal with
    | |- segments_named name (msh :: ?evn :: pid :: ?rest) = _ =>
        change (segments_named name ([msh; evn; pid] ++ rest) = 
                (segments_named name (pd1_part payload) ++ segments_named name sv
               ++ segments_named name (mrg_part payload) ++ segments_named name sa
               ++ segments_named name sd ++ segments_named name sp
               ++ segments_named name (map build_nk1 (nonempty (nk1 payload)))
               ++ segments_named name (map build_gt1 (nonempty (gt1 payload)))
               ++ segments_named name (map build_in1 (nonempty (in1 payload))))%list)
    end.
    rewrite !segments_named_app, (Hhead name Hn). reflexivity. }
  exists r. split.
  { unfold hl7_full_to_json. fold (segments_of (PyStr.join CRs segs)). now rewrite Hsegs. }
  assert (Hrep : forall name k keys,
            In (name, (k, keys)) repeating ->
            match segments_named name segs with
            | [] => jget k r = jget k initial_result
            | l => jget k r = Some (JList (map (taken keys) l))
            end).
  { intros name k keys Hin.
    pose proof (decode_segments_repeating name k keys Hin _ _ _ wf_initial Hr) as Hk.
    assert (L : list_at k initial_result = []).
    { unfold repeating in Hin. cbn [In] in Hin.
      repeat (destruct Hin as [[= <- <- <-]|Hin]; [reflexivity |]). contradiction. }
    now rewrite L in Hk. }
  split; [| split; [| split]].
  - pose proof (Hrep "AL1" "al1" _ (or_introl eq_refl)) as Hk.
    rewrite Hnamed in Hk by (cbn; intuition discriminate).
    rewrite (segments_named_same "AL1" sa Nal1) in Hk.
    drop_others "AL1" Hk. cbn [app] in Hk. rewrite app_nil_r in Hk.
    rewrite <- (each_taken _ _ _ _ _ build_al1_taken Ha).
    destruct sa; exact Hk.
  - pose proof (Hrep "NK1" "nk1" _ (or_intror (or_intror (or_intror (or_introl eq_refl)))))
      as Hk.
    rewrite Hnamed in Hk by (cbn; intuition discriminate).
    rewrite (segments_named_same "NK1" _ Nnk1) in Hk.
    drop_others "NK1" Hk. cbn [app] in Hk. rewrite app_nil_r in Hk.
    apply (list_if_any_map decoded_nk1 build_nk1 _ _ _ build_nk1_taken).
    destruct (map build_nk1 _); exact Hk.
  - pose proof (Hrep "GT1" "gt1" _
                  (or_intror (or_intror (or_intror (or_intror (or_introl eq_refl))))))
      as Hk.
    rewrite Hnamed in Hk by (cbn; intuition discriminate).
    rewrite (segments_named_same "GT1" _ Ngt1) in Hk.
    drop_others "GT1" Hk. cbn [app] in Hk. rewrite app_nil_r in Hk.
    apply (list_if_any_map decoded_gt1 build_gt1 _ _ _ build_gt1_taken).
    destruct (map build_gt1 _); exact Hk.
  - pose proof (Hrep "IN1" "in1" _
                  (or_intror (or_intror (or_intror (or_intror (or_intror
                     (or_introl eq_refl)))))))
      as Hk.
    rewrite Hnamed in Hk by (cbn; intuition discriminate).
    rewrite (segments_named_same "IN1" _ Nin1) in Hk.
    drop_others "IN1" Hk. cbn [app] in Hk.
    apply (list_if_any_map decoded_in1 build_in1 _ _ _ build_in1_taken).
    destruct (map build_in1 _); exact Hk.
Qed.

Lemma records_come_back_escaped_witness :
  exists r,
    hl7_full_to_json (PyStr.join CRs example_full_segments) = Ok r
    /\ jget "al1" r
       = Some (JList [ JDict [ ("allergen", JStr "Pea\F\nut"); ("reaction", JStr "Rash") ] ])
    /\ jget "nk1" r
       = Some (JList [ JDict [ ("name", JStr "Jane Doe"); ("relationship", JStr "Spouse");
                               ("phone_number", JStr "") ] ])
    /\ jget "gt1" r = None
    /\ jget "in1" r = None.
Proof.
  refine (records_come_back_escaped example_full_input example_world
            example_full_segments eq_refl _); repeat constructor.
Defined.

Lemma build_pid_inv (p : PatientModel) (pid : string) :
  build_pid p = Ok pid ->
  patient_plain p ->
  pid_entry pid = decoded_patient p.
Proof.
  unfold build_pid, patient_plain, pid_entry, decoded_patient. intros H Hplain.
  repeat match goal with
         | Hf : Forall plain (_ :: _) |- _ =>
             apply Forall_cons_iff in Hf; destruct Hf as [? ?]
         end.
  set (nm := if truthy (name_family p) || truthy (name_given p) || truthy (middle_name p)
             then escape_str (or_else (name_family p) "") ++ "^"
                  ++ escape_str (or_else (name_given p) "") ++ "^"
                  ++ escape_str (or_else (middle_name p) "")
             else "") in *.
  assert (Pn : plain nm).
  { unfold nm. destruct (_ || _); [| reflexivity].
    repeat (apply plain_append; [first [apply escape_str_no_pipe | reflexivity] |]).
    apply escape_str_no_pipe. }
  set (p3 := match identifiers p with
             | first :: _ => pid3_of first
             | [] => ""
             end).
  assert (Hp3 : plain p3 /\ pid = PyStr.join "|"
                 ["PID"; "1"; ""; p3; ""; nm; ""; or_else (dob p) ""; or_else (sex p) ""]).
  { unfold p3. destruct (identifiers p) as [|first rest].
    - cbn [rbind] in H. apply Ok_inj in H. subst pid. split; reflexivity.
    - destruct (opt_string_eqb (assigning_authority first) ASSIGNING_AUTHORITY_HEALTH_ID)
        eqn:Eq; cbn [negb rbind] in H; [| discriminate].
      apply opt_string_eqb_spec in Eq. rewrite Eq in H. cbn [format_opt] in H.
      apply Ok_inj in H. subst pid. split; [now apply pid3_plain | reflexivity]. }
  destruct Hp3 as (P3 & ->).
  rewrite split_fields; [reflexivity | discriminate |].
  repeat constructor; assumption.
Qed.

(** X11.  What survives of the patient.  When the texts that [build_pid]
    writes unescaped (the id of the first identifier, the date of birth and
    the sex) hold no field separator and no segment holds a carriage return,
    the parser returns one identifier, the whole field 3 of the first one
    given (the empty text when none is given), the name as the three escaped
    parts joined by [^], and the date of birth and sex as given.  The
    [type] of the identifier and every further identifier are not
    written, so they do not come back. *)
Theorem patient_survives_the_round_trip :
  forall (payload : HL7FullInput) (w : world) (segs : list string),
    run (hl7_segments payload) w = Ok segs ->
    one_line_each segs ->
    patient_plain (patient payload) ->
    exists r,
      hl7_full_to_json (PyStr.join CRs segs) = Ok r
      /\ jget "patient" r = Some (decoded_patient (patient payload)).
Proof.
  intros payload w segs Hrun Hcr Hplain.
  destruct (run_inv _ _ _ Hrun) as (w1 & H).
  destruct (decode_built_segments _ _ _ _ H) as (r & Hr & _).
  pose proof (segments_of_join _ _ _ _ H Hcr) as Hsegs.
  destruct (hl7_segments_built _ _ _ _ H)
    as (msh & t & pid & sv & sa & sd & sp & E & Nmsh & Hpid & Hv & Ha & Hdg & Hpr
        & Npd1 & Nsv & Nmrg & Nal1 & Ndg1 & Npr1 & Nnk1 & Ngt1 & Nin1).
  exists r. split.
  { unfold hl7_full_to_json. fold (segments_of (PyStr.join CRs segs)). now rewrite Hsegs. }
  rewrite E in Hr.
  match type of Hr with
  | decode_segments (msh :: ?evn :: pid :: ?post) _ = _ =>
      change (decode_segments ([msh; evn] ++ [pid] ++ post) initial_result = Ok r) in Hr;
      assert (Npost : Forall (fun s => key_of (segment_name s) <> Some "patient") post)
  end.
  { repeat (apply Forall_app; split); other_key. }
  apply decode_segments_app_inv in Hr as (r1 & Hr1 & Hr).
  apply decode_segments_app_inv in Hr as (r2 & Hr2 & Hr3).
  pose proof (decode_segments_wf _ _ _ wf_initial Hr1) as Hwf1.
  pose proof (decode_segments_wf _ _ _ Hwf1 Hr2) as Hwf2.
  rewrite (decode_segments_frame "patient" _ _ _ Hwf2 Hr3 Npost).
  destruct (decode_segment_replacing "PID" "patient" pid_entry pid r1
              (or_introl eq_refl) (build_pid_name _ _ Hpid)) as (r2' & H2' & Hk).
  cbn [decode_segments] in Hr2. rewrite H2' in Hr2. cbn [rbind] in Hr2.
  injection Hr2 as <-. rewrite Hk. f_equal. now apply build_pid_inv.
Qed.

Lemma patient_survives_the_round_trip_witness :
  exists r,
    hl7_full_to_json (PyStr.join CRs example_segments) = Ok r
    /\ jget "patient" r
       = Some (JDict [ ("identifiers",
                        JList [JStr "NHIC123456^^^2.16.840.1.113883.3.3731.1.1.100.1^ISO"]);
                       ("name", JStr "Doe^John^"); ("dob", JStr "19800101");
                       ("sex", JStr "M") ]).
Proof.
  refine (patient_survives_the_round_trip
            (example_hl7_input ASSIGNING_AUTHORITY_HEALTH_ID) example_world
            example_segments eq_refl _ _); repeat constructor.
Defined.

(** ** The event code of the EVN segment *)

Lemma last_split (c : ascii) (s : string) :
  exists pre,
    s = pre ++ List.last (PyStr.split c s) ""
    /\ PyStr.mem c (List.last (PyStr.split c s) "") = false
    /\ (PyStr.mem c s = false -> pre = "")
    /\ (PyStr.mem c s = true -> exists p, pre = p ++ String c "").
Proof.
  induction s as [|a r (pre & Hr & Hlast & Hnone & Hsome)].
  - exists "". repeat split; auto. discriminate.
  - cbn [PyStr.split PyStr.mem].
    pose proof (split_not_nil c r) as Hne.
    destruct (Ascii.eqb_spec a c) as [->|Hac].
    + exists (String c pre).
      assert (L : List.last ("" :: PyStr.split c r) "" = List.last (PyStr.split c r) "")
        by (destruct (PyStr.split c r); [contradiction | reflexivity]).
      rewrite L. split; [cbn [String.append]; f_equal; exact Hr |]. split; [exact Hlast |].
      split; [discriminate |]. intros _.
      destruct (PyStr.mem c r) eqn:Em.
      * destruct (Hsome eq_refl) as (p & ->). now exists (String c p).
      * rewrite (Hnone eq_refl). now exists "".
    + destruct (PyStr.split c r) as [|h t] eqn:Es; [contradiction |].
      destruct t as [|x t].
      * assert (Em : PyStr.mem c r = false).
        { apply count_zero_mem. pose proof (split_length c r) as Hl.
          rewrite Es in Hl. cbn in Hl. lia. }
        rewrite (Hnone Em) in Hr. cbn in Hr, Hlast. subst h.
        exists "". cbn [List.last PyStr.mem String.append].
        apply Ascii.eqb_neq in Hac. rewrite Hac.
        repeat split; auto. rewrite Em. discriminate.
      * exists (String a pre).
        change (List.last (String a h :: x :: t) "") with (List.last (h :: x :: t) "").
        split; [cbn [String.append]; f_equal; exact Hr |]. split; [exact Hlast |]. split.
        -- intros Em. rewrite (split_absent c r Em) in Es. discriminate.
        -- intros Em. destruct (Hsome Em) as (p & ->). now exists (String a p).
Qed.

(** X12.  The code written into the EVN segment is the part of the event
    that follows its last [^], and the whole event when it holds none: the
    event is some text, empty or ending in [^], followed by the code, and
    the code holds no [^]. *)
Theorem evn_code_follows_the_last_caret :
  forall event : string,
    PyStr.mem "^" (evn_code_of event) = false
    /\ exists pre,
         event = pre ++ evn_code_of event
         /\ (PyStr.mem "^" event = false -> pre = "")
         /\ (PyStr.mem "^" event = true -> exists p, pre = p ++ "^").
Proof.
  intros event. unfold evn_code_of.
  destruct (last_split "^" event) as (pre & He & Hlast & Hnone & Hsome).
  destruct (PyStr.mem "^" event) eqn:Em.
  - split; [exact Hlast |]. exists pre. repeat split; auto.
  - split; [exact Em |]. exists "". repeat split; auto. discriminate.
Qed.

(** ** The ITI-41 builder and its endpoint *)

Lemma serialize_outcome :
  forall (e : element) (decls : string),
    if ET.texts_ok e then exists s, ET.serialize decls e = Ok s
    else ET.serialize decls e = Raise TypeError.
Proof.
  fix IH 1. intros [t a x c] decls.
  cbn [ET.texts_ok ET.serialize].
  match goal with
  | |- context [rbind (?loop c) _] =>
      assert (Hin : if forallb ET.texts_ok c then exists s, loop c = Ok s
                    else loop c = Raise TypeError);
      [ clear - IH; induction c as [|y c IHc]; cbn [forallb];
        [ eexists; reflexivity
        | specialize (IH y ""); destruct (ET.texts_ok y); cbn [andb];
          [ destruct IH as (s & ->); cbn [rbind];
            destruct (forallb ET.texts_ok c);
            [ destruct IHc as (s' & ->) | rewrite IHc ]; cbn [rbind]; eauto
          | rewrite IH; reflexivity ] ]
      | ]
  end.
  destruct c as [|y c].
  - cbn [forallb List.length Nat.eqb negb orb] in *. rewrite andb_true_r, orb_false_r.
    destruct x as [|s|r b]; cbn [ET.has_text ET.write_text negb]; eauto.
    + destruct (negb (PyStr.is_empty s)); cbn [ET.write_text rbind]; eauto.
    + destruct b; cbn [negb ET.write_text rbind]; eauto.
  - cbn [List.length Nat.eqb negb]. rewrite orb_true_r.
    destruct x as [|s|r b]; cbn [ET.has_text ET.write_text negb andb rbind].
    + destruct (forallb ET.texts_ok (y :: c));
        [destruct Hin as (s' & ->) | rewrite Hin]; cbn [rbind]; eauto.
    + destruct (negb (PyStr.is_empty s)); cbn [ET.write_text rbind];
        (destruct (forallb ET.texts_ok (y :: c));
         [destruct Hin as (s' & ->) | rewrite Hin]; cbn [rbind]; eauto).
    + destruct b; cbn [negb andb ET.write_text rbind]; [reflexivity |].
      destruct (forallb ET.texts_ok (y :: c));
        [destruct Hin as (s' & ->) | rewrite Hin]; cbn [rbind]; eauto.
Qed.

Lemma tostring_outcome (root : element) :
  if ET.texts_ok root then exists xml, ET.tostring root = Ok xml
  else ET.tostring root = Raise TypeError.
Proof.
  unfold ET.tostring.
  pose proof (serialize_outcome root (ET.declarations root)) as H.
  destruct (ET.texts_ok root); [destruct H as (s & ->) | rewrite H]; cbn [rbind]; eauto.
Qed.

Lemma writable_default (d : pydict) (k s : string) :
  writable (dict_get d k (PyStr s)) = writable (dict_get d k PyNone).
Proof.
  induction d as [|[k' v] d IH]; cbn; [reflexivity |].
  destruct (String.eqb k' k); auto.
Qed.

Lemma texts_ok_header_eq (obj : SOAPInput) (d : drawn) :
  ET.texts_ok (header_of obj d) = soap_writable obj.
Proof.
  unfold soap_writable, header_of. cbn [ET.texts_ok forallb].
  change (writable (dict_get (soap obj) "action"
                      (PyStr "urn:ihe:iti:2007:ProvideAndRegisterDocumentSet-b"))
          && true
          && (writable (dict_get (soap obj) "message_id" (PyStr (fresh_message_id d)))
              && true
              && (writable (dict_get (soap obj) "to"
                              (PyStr (or_else (repository_address obj) "")))
                  && true && true))
          = writable (dict_get (soap obj) "action" PyNone)
            && writable (dict_get (soap obj) "message_id" PyNone)
            && writable (dict_get (soap obj) "to" PyNone)).
  rewrite !writable_default, !andb_true_r. apply andb_assoc.
Qed.

Lemma texts_ok_tree_eq (obj : SOAPInput) (d : drawn) :
  ET.texts_ok (iti41_tree obj d) = soap_writable obj.
Proof.
  unfold iti41_tree. cbn [ET.texts_ok forallb andb].
  rewrite texts_ok_header_eq, texts_ok_regpkg, texts_ok_ex.
  unfold doc_el_of. destruct (doc_bytes_of obj), (soap_writable obj); reflexivity.
Qed.

Lemma build_iti41_ebxml_rejects (obj : SOAPInput) (w : world) :
  source_id_ok obj = false -> build_iti41_ebxml obj w = Raise source_id_error.
Proof.
  intros H. unfold build_iti41_ebxml, build_iti41_tree. now rewrite H.
Qed.

Lemma build_iti41_ebxml_accepts (obj : SOAPInput) (w : world) :
  source_id_ok obj = true ->
  if soap_writable obj then exists xml w1, build_iti41_ebxml obj w = Ok (xml, w1)
  else build_iti41_ebxml obj w = Raise TypeError.
Proof.
  intros H. destruct (build_iti41_tree_returns obj w H) as (d & w1 & Ht).
  unfold build_iti41_ebxml. rewrite (bind_ok _ _ _ _ _ Ht).
  pose proof (tostring_outcome (iti41_tree obj d)) as Ho.
  rewrite texts_ok_tree_eq in Ho.
  destruct (soap_writable obj); [destruct Ho as (xml & ->) | rewrite Ho]; cbn [lift]; eauto.
Qed.

(** X13.  What [build_iti41_ebxml] does with every input: a non-empty
    [source_id] that does not start with the national root is refused with
    the 400 error; otherwise a value of the [soap] entries [action],
    [message_id] or [to] that is true and no [str] makes the writer raise
    [TypeError]; in every other case the XML text is returned.  An input
    that passed the validators of the model never meets the 400 error. *)
Theorem build_iti41_ebxml_outcome :
  forall (obj : SOAPInput) (w : world),
    ((source_id_ok obj = false /\
      run (build_iti41_ebxml obj) w = Raise source_id_error)
     \/ (source_id_ok obj = true /\ soap_writable obj = false /\
         run (build_iti41_ebxml obj) w = Raise TypeError)
     \/ (source_id_ok obj = true /\ soap_writable obj = true /\
         exists xml, run (build_iti41_ebxml obj) w = Ok xml))
    /\ (valid_SOAPInput obj -> source_id_ok obj = true).
Proof.
  intros obj w. split; [| apply valid_source_id].
  destruct (source_id_ok obj) eqn:Hs.
  - right. pose proof (build_iti41_ebxml_accepts obj w Hs) as H.
    destruct (soap_writable obj).
    + right. destruct H as (xml & w1 & H). repeat split. exists xml.
      now apply run_ok with w1.
    + left. repeat split. now apply run_raise.
  - left. split; [reflexivity |]. apply run_raise. now apply build_iti41_ebxml_rejects.
Qed.

Lemma parse_template_error (fuel : nat) (s : string) (e : exn) :
  Re.parse_template fuel s = Raise e -> e = ReError \/ e = IndexError.
Proof.
  revert s e. induction fuel as [|fuel IH]; intros s e; cbn [Re.parse_template];
    [discriminate |].
  repeat match goal with
         | |- Raise ReError = Raise _ -> _ => intros [= <-]; now left
         | |- Raise IndexError = Raise _ -> _ => intros [= <-]; now right
         | |- Ok _ = Raise _ -> _ => discriminate
         | |- rbind (Re.parse_template fuel ?x) _ = Raise _ -> _ =>
             let E := fresh "E" in
             destruct (Re.parse_template fuel x) eqn:E; cbn [rbind];
             [discriminate | intros [= <-]; exact (IH _ _ E)]
         | |- context [match ?x with _ => _ end] => destruct x
         | |- context [if ?x then _ else _] => destruct x
         end.
Qed.

Lemma json_to_iti41_outcome (payload : SOAPInput) (w : world) :
  source_id_ok payload = true ->
  (exists r w1, json_to_iti41 payload w = Ok (r, w1) /\ status r = 200%Z)
  \/ json_to_iti41 payload w = Raise TypeError
  \/ json_to_iti41 payload w = Raise ReError
  \/ json_to_iti41 payload w = Raise IndexError.
Proof.
  intros Hs. pose proof (build_iti41_ebxml_accepts payload w Hs) as H.
  unfold json_to_iti41.
  destruct (soap_writable payload);
    [destruct H as (xml & w1 & H) | right; left; now apply bind_raise].
  rewrite (bind_ok _ _ _ _ _ H).
  destruct (negb (truthy (document_base64 payload))); [left; do 2 eexists; split; reflexivity |].
  destruct (below_threshold _); [left; do 2 eexists; split; reflexivity |].
  destruct (build_iti41_mtom_envelope xml _ _) as [xop|e] eqn:Ex.
  - left. rewrite (bind_ok _ _ _ _ _ (lift_ok _ w1 _ eq_refl)).
    unfold create_mtom_multipart, bind, uuid4, ret. cbv beta iota.
    do 2 eexists. split; reflexivity.
  - right. right. unfold build_iti41_mtom_envelope, Re.sub in Ex.
    destruct (Re.parse_template _ _) as [t|e'] eqn:Et; cbn [rbind] in Ex; [discriminate |].
    injection Ex as <-.
    destruct (parse_template_error _ _ _ Et) as [-> | ->];
      [left | right]; apply bind_raise; reflexivity.
Qed.

Lemma build_soap_fault_total (code reason : string) (detail : option string) :
  exists xml, build_soap_fault code reason detail = Ok xml.
Proof.
  apply tostring_total. unfold build_soap_fault_tree.
  destruct (truthy detail); reflexivity.
Qed.

(** X14.  The endpoint [api_json_to_iti41] answers every request in one
    of three ways: it raises the 400 error of the builder, for a [source_id]
    outside the national root; it returns a response with status 200; or it
    returns a response with status 500 and media type
    [application/soap+xml] whose body is the SOAP fault built from the text
    of the exception.  No other exception leaves it: the fault itself is
    always built. *)
Theorem api_json_to_iti41_outcome :
  forall (describe : exn -> string) (payload : SOAPInput) (w : world),
    (source_id_ok payload = false /\
     api_json_to_iti41 describe payload w = Raise source_id_error)
    \/ (source_id_ok payload = true /\
        exists r,
          api_json_to_iti41 describe payload w = Ok r
          /\ ((status r = 200%Z /\ run (json_to_iti41 payload) w = Ok r)
              \/ exists e,
                   run (json_to_iti41 payload) w = Raise e
                   /\ is_fault_of describe e r)).
Proof.
  intros describe payload w. unfold api_json_to_iti41.
  destruct (source_id_ok payload) eqn:Hs.
  - right. split; [reflexivity |].
    assert (F : forall e,
              exists r,
                (try fault_xml <- build_soap_fault "Receiver" "Processing Failure"
                                    (Some (describe e));
                 Ok (mk_Response (Text fault_xml) "application/soap+xml" 500))%res = Ok r
                /\ is_fault_of describe e r).
    { intros e. destruct (build_soap_fault_total "Receiver" "Processing Failure"
                            (Some (describe e))) as (xml & Hx).
      rewrite Hx. cbn [rbind]. eexists. split; [reflexivity |].
      repeat split. exists xml. split; [exact Hx | reflexivity]. }
    destruct (json_to_iti41_outcome payload w Hs) as [(r & w1 & H & H200)|[H|[H|H]]].
    + rewrite (run_ok _ _ _ _ H). exists r. split; [reflexivity |]. left. auto.
    + rewrite (proj1 (run_raise _ _ _) H). destruct (F TypeError) as (r & Hr & Hf).
      exists r. split; [exact Hr |]. right. exists TypeError. auto.
    + rewrite (proj1 (run_raise _ _ _) H). destruct (F ReError) as (r & Hr & Hf).
      exists r. split; [exact Hr |]. right. exists ReError. auto.
    + rewrite (proj1 (run_raise _ _ _) H). destruct (F IndexError) as (r & Hr & Hf).
      exists r. split; [exact Hr |]. right. exists IndexError. auto.
  - left. split; [reflexivity |].
    assert (H : run (json_to_iti41 payload) w = Raise source_id_error).
    { apply run_raise. unfold json_to_iti41. apply bind_raise.
      now apply build_iti41_ebxml_rejects. }
    rewrite H. reflexivity.
Qed.

(** ** The MTOM envelope *)

(** the replacement template of [re.sub] at some texts: group 0 in the
    forms Python 3.11 reads, an unknown group name, a numbered group the
    pattern does not have *)
Example template_examples :
  map (fun repl => Re.sub "d1" repl ("<" ++ Re.opening "d1" ++ ">x" ++ Re.closing ++ ">"))
    [ "[\g<0>]"; "[\g<+0>]"; "[\g< 0_0 >]"; "a\nb\\"; "\g<abc>"; "\g<abc>\";
      "\1"; "\g<1>"; "\g<>"; "\q" ]
  = [ Ok ("<[" ++ Re.opening "d1" ++ ">x" ++ Re.closing ++ "]>");
      Ok ("<[" ++ Re.opening "d1" ++ ">x" ++ Re.closing ++ "]>");
      Ok ("<[" ++ Re.opening "d1" ++ ">x" ++ Re.closing ++ "]>");
      Ok ("<a" ++ String PyStr.LF "b\>");
      Raise IndexError; Raise ReError; Raise ReError; Raise ReError; Raise ReError;
      Raise ReError ].
Proof. vm_compute. reflexivity. Qed.

Lemma parse_template_cons (fuel : nat) (a : ascii) (r : string) :
  Ascii.eqb a "\" = false ->
  Re.parse_template (S fuel) (String a r)
  = (try rest <- Re.parse_template fuel r; Ok (Re.Lit a :: rest))%res.
Proof.
  destruct a as [[] [] [] [] [] [] [] []]; intros H;
    first [discriminate H | reflexivity].
Qed.

Lemma parse_template_plain (s : string) :
  no_backslash s ->
  forall fuel, String.length s < fuel ->
    exists t, Re.parse_template fuel s = Ok t /\ forall whole, Re.expand t whole = s.
Proof.
  unfold no_backslash. induction s as [|a r IH]; intros Hs fuel Hf.
  - destruct fuel; [cbn in Hf; lia |]. exists []. split; reflexivity.
  - destruct fuel as [|fuel]; [lia |]. cbn [PyStr.mem] in Hs.
    destruct (Ascii.eqb a "\") eqn:Ea; [discriminate |].
    destruct (IH Hs fuel) as (t & Ht & He); [cbn in Hf; lia |].
    exists (Re.Lit a :: t). rewrite (parse_template_cons _ _ _ Ea), Ht.
    split; [reflexivity |]. intros whole. cbn [Re.expand]. now rewrite He.
Qed.

Lemma prefix_append (p x : string) : String.prefix p (p ++ x) = true.
Proof.
  induction p as [|a p IH]; [now destruct x |].
  cbn. destruct (Ascii.ascii_dec a a); [exact IH | contradiction].
Qed.

Lemma drop_append (p x : string) : PyStr.drop (String.length p) (p ++ x) = x.
Proof. induction p as [|a p IH]; [now destruct x | exact IH]. Qed.

Lemma take_append (p x : string) : PyStr.take (String.length p) (p ++ x) = p.
Proof.
  induction p as [|a p IH]; [now destruct x |]. cbn. now rewrite IH.
Qed.

Lemma find_char_append (c : ascii) (x y : string) :
  PyStr.mem c x = false ->
  Re.find_char c (x ++ String c y) = Some (String.length x).
Proof.
  induction x as [|a x IH]; cbn [PyStr.mem Re.find_char String.append String.length].
  - now rewrite Ascii.eqb_refl.
  - destruct (Ascii.eqb a c); [discriminate |]. intros H. now rewrite (IH H).
Qed.

Lemma find_equation (p : string) (a : ascii) (r : string) :
  Re.find p (String a r)
  = if String.prefix p (String a r) then Some 0 else option_map S (Re.find p r).
Proof. reflexivity. Qed.

Lemma find_closing (content post : string) :
  PyStr.mem "<" content = false ->
  Re.find Re.closing (content ++ Re.closing ++ post) = Some (String.length content).
Proof.
  induction content as [|a x IH]; intros H.
  - cbn [String.append String.length].
    assert (E : Re.closing ++ post = String "<" ("/Document>" ++ post)) by reflexivity.
    rewrite E, find_equation, <- E, prefix_append. reflexivity.
  - cbn [PyStr.mem] in H. destruct (Ascii.eqb a "<") eqn:Ea; [discriminate |].
    cbn [String.append String.length]. rewrite find_equation.
    assert (P : String.prefix Re.closing (String a (x ++ Re.closing ++ post)) = false).
    { unfold Re.closing. cbn [String.prefix].
      destruct (Ascii.ascii_dec "<" a) as [<-|]; [discriminate Ea | reflexivity]. }
    rewrite P, (IH H). reflexivity.
Qed.

Lemma scan_skip (doc_id : string) (t : list Re.piece) (x y : string) :
  Re.scan doc_id t (String.length x) (x ++ y) = Re.scan doc_id t 0 y.
Proof.
  induction x as [|a x IH]; [reflexivity |].
  cbn [String.length String.append Re.scan]. exact IH.
Qed.

Lemma scan_no_match (doc_id : string) (t : list Re.piece) (s : string) :
  Re.find (Re.opening doc_id) s = None -> Re.scan doc_id t 0 s = s.
Proof.
  induction s as [|a r IH]; [reflexivity |].
  rewrite find_equation.
  destruct (String.prefix (Re.opening doc_id) (String a r)) eqn:P; [discriminate |].
  destruct (Re.find (Re.opening doc_id) r); [discriminate |]. intros _.
  cbn [Re.scan]. unfold Re.match_here. rewrite P, IH; reflexivity.
Qed.

Lemma scan_before_match (doc_id : string) (t : list Re.piece) (pre rest : string) :
  Re.find (Re.opening doc_id) (pre ++ rest) = Some (String.length pre) ->
  Re.scan doc_id t 0 (pre ++ rest) = pre ++ Re.scan doc_id t 0 rest.
Proof.
  induction pre as [|a pre IH]; [reflexivity |].
  cbn [String.append String.length]. rewrite find_equation.
  destruct (String.prefix (Re.opening doc_id) (String a (pre ++ rest))) eqn:P;
    [discriminate |].
  destruct (Re.find (Re.opening doc_id) (pre ++ rest)) as [n|] eqn:F; [| discriminate].
  cbn [option_map]. intros [= ->].
  cbn [Re.scan]. unfold Re.match_here. rewrite P, (IH eq_refl). reflexivity.
Qed.

Lemma template_plain (doc_id mime_type : string) :
  no_backslash doc_id -> no_backslash mime_type ->
  no_backslash (xop_document doc_id mime_type).
Proof.
  unfold no_backslash, xop_document, Re.opening, xop_ref, Re.closing.
  intros Hd Hm. rewrite !mem_append, Hd, Hm. reflexivity.
Qed.

Lemma mtom_envelope_scan (xml doc_id mime_type : string) :
  no_backslash doc_id -> no_backslash mime_type ->
  exists t,
    build_iti41_mtom_envelope xml doc_id mime_type = Ok (Re.scan doc_id t 0 xml)
    /\ forall whole, Re.expand t whole = xop_document doc_id mime_type.
Proof.
  intros Hd Hm. unfold build_iti41_mtom_envelope, Re.sub.
  match goal with
  | |- context [Re.parse_template (S (String.length ?r)) ?r] =>
      replace r with (xop_document doc_id mime_type)
        by (unfold xop_document, Re.opening, Re.closing; now rewrite !append_assoc)
  end.
  destruct (parse_template_plain _ (template_plain _ _ Hd Hm)
              (S (String.length (xop_document doc_id mime_type)))) as (t & Ht & He);
    [lia |].
  exists t. split; [| exact He]. now rewrite Ht.
Qed.

(** X15.  [build_iti41_mtom_envelope] leaves alone an XML text in which
    the opening [<Document id="ID"] does not occur for the given id: when
    neither the id nor the media type holds a backslash, it returns the
    text as it was given. *)
Theorem mtom_envelope_without_document_is_unchanged :
  forall xml_text doc_id mime_type : string,
    no_backslash doc_id -> no_backslash mime_type ->
    Re.find (Re.opening doc_id) xml_text = None ->
    build_iti41_mtom_envelope xml_text doc_id mime_type = Ok xml_text.
Proof.
  intros xml doc_id mime Hd Hm Hf.
  destruct (mtom_envelope_scan xml doc_id mime Hd Hm) as (t & -> & _).
  now rewrite scan_no_match.
Qed.

Lemma mtom_envelope_without_document_is_unchanged_witness :
  build_iti41_mtom_envelope "<a><Document id='x'>QUJD</Document></a>" "x" "text/xml"
  = Ok "<a><Document id='x'>QUJD</Document></a>".
Proof.
  apply mtom_envelope_without_document_is_unchanged; reflexivity.
Defined.

(** the one match of the pattern in a text of the shape that the writer
    gives a [Document] element *)
Lemma mtom_envelope_match :
  forall pre attrs content post doc_id mime_type : string,
    no_backslash doc_id -> no_backslash mime_type ->
    Re.find (Re.opening doc_id)
      (pre ++ Re.opening doc_id ++ attrs ++ ">" ++ content ++ Re.closing ++ post)
    = Some (String.length pre) ->
    PyStr.mem ">" attrs = false ->
    PyStr.mem "<" content = false ->
    Re.find (Re.opening doc_id) post = None ->
    build_iti41_mtom_envelope
      (pre ++ Re.opening doc_id ++ attrs ++ ">" ++ content ++ Re.closing ++ post)
      doc_id mime_type
    = Ok (pre ++ xop_document doc_id mime_type ++ post).
Proof.
  intros pre attrs content post doc_id mime Hd Hm Hfirst Hattrs Hcontent Hpost.
  destruct (mtom_envelope_scan
              (pre ++ Re.opening doc_id ++ attrs ++ ">" ++ content ++ Re.closing ++ post)
              doc_id mime Hd Hm) as (t & -> & He).
  f_equal. rewrite (scan_before_match _ _ _ _ Hfirst). f_equal.
  set (m := Re.opening doc_id ++ attrs ++ ">" ++ content ++ Re.closing).
  assert (Em : Re.opening doc_id ++ attrs ++ ">" ++ content ++ Re.closing ++ post = m ++ post).
  { unfold m. now rewrite !append_assoc. }
  assert (Hm' : Re.match_here doc_id (m ++ post) = Some (String.length m)).
  { rewrite <- Em. unfold Re.match_here.
    rewrite prefix_append, drop_append.
    change (attrs ++ ">" ++ content ++ Re.closing ++ post)
      with (attrs ++ String ">" (content ++ Re.closing ++ post)).
    rewrite (find_char_append ">" attrs _ Hattrs).
    replace (S (String.length attrs)) with (String.length (attrs ++ ">"))
      by (rewrite length_append; cbn; lia).
    replace (attrs ++ String ">" (content ++ Re.closing ++ post))
      with ((attrs ++ ">") ++ content ++ Re.closing ++ post)
      by (now rewrite append_assoc).
    rewrite drop_append, (find_closing content post Hcontent).
    f_equal. unfold m. rewrite !length_append. cbn [String.length]. lia. }
  rewrite Em.
  assert (Hs : exists a r, m = String a r) by (unfold m, Re.opening; cbn; eauto).
  destruct Hs as (a & r & Hs).
  assert (Hscan : Re.scan doc_id t 0 (m ++ post)
                  = Re.expand t (PyStr.take (String.length m) (m ++ post))
                    ++ Re.scan doc_id t (String.length m - 1) (r ++ post)).
  { rewrite Hs in *. cbn [String.append Re.scan]. cbn [String.append] in Hm'.
    now rewrite Hm'. }
  rewrite Hscan, He. f_equal.
  rewrite Hs.
  replace (String.length (String a r) - 1) with (String.length r)
    by (cbn [String.length]; lia).
  rewrite scan_skip. now apply scan_no_match.
Qed.

(** X16.  [build_iti41_mtom_envelope] rewrites the first [Document]
    element of the given id.  When the text is some prefix, the opening
    [<Document id="ID"] at its first occurrence, attributes free of [>],
    [>], a content free of [<], the closing tag, and a rest in which the
    opening does not occur again, the result is the prefix, a [Document]
    element with the id, the media type and the [xop:Include] reference to
    [cid:ID@example.com] in place of the content, and the rest. *)
Theorem mtom_envelope_replaces_the_document :
  forall pre attrs content post doc_id mime_type : string,
    no_backslash doc_id -> no_backslash mime_type ->
    Re.find (Re.opening doc_id)
      (pre ++ Re.opening doc_id ++ attrs ++ ">" ++ content ++ Re.closing ++ post)
    = Some (String.length pre) ->
    PyStr.mem ">" attrs = false ->
    PyStr.mem "<" content = false ->
    Re.find (Re.opening doc_id) post = None ->
    build_iti41_mtom_envelope
      (pre ++ Re.opening doc_id ++ attrs ++ ">" ++ content ++ Re.closing ++ post)
      doc_id mime_type
    = Ok (pre ++ xop_document doc_id mime_type ++ post).
Proof. exact mtom_envelope_match. Qed.

Lemma mtom_envelope_replaces_the_document_witness :
  build_iti41_mtom_envelope
    ("<a>" ++ Re.opening "d1" ++ " m='x'" ++ ">" ++ "QUJD" ++ Re.closing ++ "</a>")
    "d1" "text/xml"
  = Ok ("<a>" ++ xop_document "d1" "text/xml" ++ "</a>").
Proof.
  apply (mtom_envelope_replaces_the_document "<a>" " m='x'" "QUJD" "</a>" "d1" "text/xml");
    reflexivity.
Defined.

(** ** The validators of the ITI-41 input *)

Lemma span_until_spec (c : ascii) (s : string) :
  s = fst (span_until c s) ++ snd (span_until c s)
  /\ PyStr.mem c (fst (span_until c s)) = false.
Proof.
  induction s as [|a r (IH1 & IH2)]; [split; reflexivity |].
  cbn [span_until PyStr.mem]. destruct (Ascii.eqb a c) eqn:E; [split; reflexivity |].
  destruct (span_until c r) as [x y]. cbn [fst snd] in *.
  cbn [PyStr.mem String.append]. rewrite E. split; [now f_equal | exact IH2].
Qed.

Lemma span_until_append (c : ascii) (x y : string) :
  PyStr.mem c x = false -> span_until c (x ++ String c y) = (x, String c y).
Proof.
  induction x as [|a x IH]; cbn [PyStr.mem String.append span_until].
  - now rewrite Ascii.eqb_refl.
  - destruct (Ascii.eqb a c); [discriminate |]. intros H. now rewrite (IH H).
Qed.

(** X17.  The validator of [patient_id] accepts exactly the texts that,
    once stripped of surrounding white space, are a non-empty local id free
    of [^] followed by [^^^&2.16.840.1.113883.3.3731.1.1.100.1&ISO], and it
    returns the stripped text; the empty text and every other text are
    refused. *)
Theorem patient_id_is_accepted_iff :
  forall v v' : string,
    patient_id_must_be_xds_format v = Some v'
    <-> v <> ""
        /\ v' = strip v
        /\ exists local,
             local <> ""
             /\ PyStr.mem "^" local = false
             /\ v' = local ++ "^^^&" ++ ASSIGNING_AUTHORITY_HEALTH_ID ++ "&ISO".
Proof.
  intros v v'. unfold patient_id_must_be_xds_format. split.
  - destruct v as [|a r]; [discriminate |]. cbn [PyStr.is_empty].
    pose proof (span_until_spec "^" (strip (String a r))) as (Hs & Hm).
    destruct (span_until "^" (strip (String a r))) as [local rest]. cbn [fst snd] in *.
    destruct local as [|b l]; [discriminate |]. cbn [PyStr.is_empty negb andb].
    destruct (String.eqb_spec rest ("^^^&" ++ ASSIGNING_AUTHORITY_HEALTH_ID ++ "&ISO"))
      as [->|]; [| discriminate].
    intros [= <-]. split; [discriminate |]. split; [reflexivity |].
    exists (String b l). split; [discriminate |]. split; [exact Hm | exact Hs].
  - intros (Hne & -> & local & Hl & Hm & Hv).
    destruct v as [|a r]; [contradiction |]. cbn [PyStr.is_empty].
    rewrite Hv.
    change (local ++ "^^^&" ++ ASSIGNING_AUTHORITY_HEALTH_ID ++ "&ISO")
      with (local ++ String "^" ("^^&" ++ ASSIGNING_AUTHORITY_HEALTH_ID ++ "&ISO")).
    rewrite (span_until_append "^" local _ Hm).
    destruct local as [|b l]; [contradiction |]. cbn [PyStr.is_empty negb andb].
    now rewrite String.eqb_refl.
Qed.

(** ** Identifiers and time stamps of a submission *)

Lemma uuid4_keeps_clock (w w1 : world) (u : string) :
  uuid4 w = Ok (u, w1) -> utc_clock w1 = utc_clock w /\ clock_reads w1 = clock_reads w.
Proof.
  unfold uuid4. remember (uuid_str _) as x. intros H. apply Ok_inj in H.
  apply (f_equal snd) in H. cbn [snd] in H. subst w1. split; reflexivity.
Qed.

Lemma urn_uuid_keeps_clock (w w1 : world) (u : string) :
  urn_uuid w = Ok (u, w1) -> utc_clock w1 = utc_clock w /\ clock_reads w1 = clock_reads w.
Proof.
  unfold urn_uuid. intros H. apply bind_inversion in H as (x & w' & Hu & H).
  unfold ret in H. apply Ok_inj in H. apply (f_equal snd) in H. cbn [snd] in H. subst w'.
  exact (uuid4_keeps_clock _ _ _ Hu).
Qed.

Lemma or_urn_spec (x : option string) (w w1 : world) (u : string) :
  or_urn x w = Ok (u, w1) ->
  utc_clock w1 = utc_clock w /\ clock_reads w1 = clock_reads w
  /\ (truthy x = true -> u = or_else x "").
Proof.
  unfold or_urn. destruct (truthy x).
  - unfold ret. intros H. apply Ok_inj in H.
    pose proof (f_equal fst H) as H1. pose proof (f_equal snd H) as H2.
    cbn [fst snd] in *. subst. auto.
  - intros H. destruct (urn_uuid_keeps_clock _ _ _ H). repeat split; auto. discriminate.
Qed.

Lemma urn_when_keeps_clock (x : option string) (w w1 : world) (u : string) :
  urn_when x w = Ok (u, w1) -> utc_clock w1 = utc_clock w /\ clock_reads w1 = clock_reads w.
Proof.
  unfold urn_when. destruct (truthy x); [apply urn_uuid_keeps_clock |].
  unfold ret. intros H. apply Ok_inj in H. apply (f_equal snd) in H. cbn [snd] in H.
  subst. auto.
Qed.

Lemma or_now_spec (x : option string) (w w1 : world) (s : string) :
  or_now x w = Ok (s, w1) ->
  utc_clock w1 = utc_clock w
  /\ (truthy x = true -> s = or_else x "" /\ clock_reads w1 = clock_reads w)
  /\ (truthy x = false ->
      s = strftime (utc_clock w (clock_reads w)) /\ clock_reads w1 = S (clock_reads w)).
Proof.
  unfold or_now. destruct (truthy x).
  - unfold ret. intros H. apply Ok_inj in H.
    pose proof (f_equal fst H) as H1. pose proof (f_equal snd H) as H2.
    cbn [fst snd] in *. subst. repeat split; auto; discriminate.
  - unfold bind, utcnow, ret. remember (strftime _) as t. intros H. apply Ok_inj in H.
    pose proof (f_equal fst H) as H1. pose proof (f_equal snd H) as H2.
    cbn [fst snd] in *. subst. repeat split; auto; discriminate.
Qed.

Lemma draw_spec (obj : SOAPInput) (w w' : world) (d : drawn) :
  draw obj w = Ok (d, w') ->
  (truthy (unique_id obj) = true ->
   submission_id d = or_else (unique_id obj) "" /\ doc_id d = or_else (unique_id obj) "")
  /\ (truthy (creation_time obj) = true ->
      submission_time d = or_else (creation_time obj) ""
      /\ creation d = or_else (creation_time obj) "")
  /\ (truthy (creation_time obj) = false ->
      submission_time d = strftime (utc_clock w (clock_reads w))
      /\ creation d = strftime (utc_clock w (S (clock_reads w)))).
Proof.
  unfold draw. intros H.
  apply bind_inversion in H as (d1 & w1 & H1 & H).
  apply bind_inversion in H as (d2 & w2 & H2 & H).
  apply bind_inversion in H as (d3 & w3 & H3 & H).
  apply bind_inversion in H as (d4 & w4 & H4 & H).
  apply bind_inversion in H as (d5 & w5 & H5 & H).
  apply bind_inversion in H as (d6 & w6 & H6 & H).
  apply bind_inversion in H as (d7 & w7 & H7 & H).
  apply bind_inversion in H as (d8 & w8 & H8 & H).
  apply bind_inversion in H as (d9 & w9 & H9 & H).
  apply bind_inversion in H as (d10 & w10 & H10 & H).
  apply bind_inversion in H as (d11 & w11 & H11 & H).
  apply bind_inversion in H as (d12 & w12 & H12 & H).
  unfold ret in H. apply Ok_inj in H. apply (f_equal fst) in H. cbn [fst] in H. subst d.
  cbn [submission_id doc_id submission_time creation].
  destruct (uuid4_keeps_clock _ _ _ H1) as (C1 & R1).
  destruct (or_urn_spec _ _ _ _ H2) as (C2 & R2 & U2).
  destruct (urn_uuid_keeps_clock _ _ _ H3) as (C3 & R3).
  destruct (or_now_spec _ _ _ _ H4) as (C4 & T4 & N4).
  destruct (or_urn_spec _ _ _ _ H5) as (C5 & R5 & U5).
  destruct (urn_when_keeps_clock _ _ _ _ H6) as (C6 & R6).
  destruct (urn_when_keeps_clock _ _ _ _ H7) as (C7 & R7).
  destruct (urn_uuid_keeps_clock _ _ _ H8) as (C8 & R8).
  destruct (urn_uuid_keeps_clock _ _ _ H9) as (C9 & R9).
  destruct (urn_when_keeps_clock _ _ _ _ H10) as (C10 & R10).
  destruct (or_now_spec _ _ _ _ H11) as (C11 & T11 & N11).
  split; [auto |]. split.
  - intros Ht. split; [apply T4, Ht | apply T11, Ht].
  - intros Ht. destruct (N4 Ht) as (E4 & S4). destruct (N11 Ht) as (E11 & S11).
    split.
    + rewrite E4. congruence.
    + rewrite E11. congruence.
Qed.

Lemma slot_values_times (obj : SOAPInput) (d : drawn) :
  slot_values (regpkg_of obj d) "submissionTime" = [[submission_time d]]
  /\ slot_values (ex_of obj d) "creationTime" = [[creation d]].
Proof.
  unfold regpkg_of, ex_of, when_slot, doc_slots_of.
  destruct (doc_bytes_of obj) as [b|]; [destruct (sha1_and_size b) as [h size] |];
    destruct (truthy (class_code obj)), (truthy (type_code obj)),
      (truthy (source_id obj)), (truthy (practice_setting_code obj)),
      (truthy (repository_unique_id obj));
    split; reflexivity.
Qed.

(** X18.  What the builder writes for the identifiers and the times of
    a submission.  A given [creation_time] is copied as it is, not
    reformatted, into the [submissionTime] slot of the package and the
    [creationTime] slot of the document entry; without one, the two slots
    hold two successive readings of the clock.  A given [unique_id] is the
    id of the document entry, and the package is named [rs.] followed by the
    same id. *)
Theorem submission_times_and_ids :
  forall (obj : SOAPInput) (w : world),
    source_id_ok obj = true ->
    exists d,
      run (build_iti41_tree obj) w = Ok (iti41_tree obj d)
      /\ slot_values (regpkg_of obj d) "submissionTime" = [[submission_time d]]
      /\ slot_values (ex_of obj d) "creationTime" = [[creation d]]
      /\ (truthy (creation_time obj) = true ->
          submission_time d = or_else (creation_time obj) ""
          /\ creation d = or_else (creation_time obj) "")
      /\ (truthy (creation_time obj) = false ->
          submission_time d = strftime (utc_clock w (clock_reads w))
          /\ creation d = strftime (utc_clock w (S (clock_reads w))))
      /\ (truthy (unique_id obj) = true ->
          get (ex_of obj d) "id" = Some (or_else (unique_id obj) "")
          /\ get (regpkg_of obj d) "id" = Some ("rs." ++ or_else (unique_id obj) "")).
Proof.
  intros obj w Hs. unfold build_iti41_tree. rewrite Hs. cbn [negb].
  destruct (draw_total obj w) as (d & w1 & Hd).
  exists d. split.
  { apply run_ok with w1. unfold bind at 1. cbn [ret].
    now rewrite (bind_ok _ _ _ _ _ Hd). }
  destruct (slot_values_times obj d) as (S1 & S2).
  destruct (draw_spec _ _ _ _ Hd) as (U & T & N).
  repeat split; auto; try (now apply T); try (now apply N).
  - destruct (U H) as (_ & E). unfold get, ex_of. cbn. now rewrite E.
  - destruct (U H) as (E & _). unfold get, regpkg_of. cbn. now rewrite E.
Qed.

Lemma submission_times_and_ids_witness :
  exists d,
    run (build_iti41_tree example_iti41_input) example_world
    = Ok (iti41_tree example_iti41_input d)
    /\ submission_time d = "20251021T123000Z"
    /\ creation d = "20251021T123000Z".
Proof.
  destruct (submission_times_and_ids example_iti41_input example_world eq_refl)
    as (d & Hrun & _ & _ & Ht & _).
  exists d. split; [exact Hrun |]. exact (Ht eq_refl).
Defined.

(** ** The HL7 endpoints *)

(** X19.  The endpoint [api_hl7_to_json] answers every request in one of
    three ways: without an [hl7] entry, or with an empty one, it raises the
    400 error; on a message whose first PV1 or PV2 segment is a PV2 it
    raises a 500 error whose detail is the text of the [TypeError]; on every
    other message it returns the parsed result under [json]. *)
Theorem api_hl7_to_json_outcome :
  forall (describe : exn -> string) (body : list (string * string)),
    (truthy (body_get body "hl7") = false /\
     api_hl7_to_json describe body = Raise (HTTPException 400 "Provide 'hl7' field"))
    \/ exists hl7_msg,
         body_get body "hl7" = Some hl7_msg /\ hl7_msg <> ""
         /\ ((early_pv2 (segments_of hl7_msg) = true /\
              api_hl7_to_json describe body
              = Raise (HTTPException 500 (describe TypeError)))
             \/ (early_pv2 (segments_of hl7_msg) = false /\
                 exists parsed,
                   hl7_full_to_json hl7_msg = Ok parsed
                   /\ api_hl7_to_json describe body = Ok [("json", JDict parsed)])).
Proof.
  intros describe body. unfold api_hl7_to_json.
  destruct (body_get body "hl7") as [[|a r]|] eqn:Hb; cbn [truthy PyStr.is_empty negb];
    [left; auto | | left; auto].
  right. exists (String a r). split; [reflexivity |]. split; [discriminate |].
  cbn [or_else PyStr.is_empty].
  unfold hl7_full_to_json. fold (segments_of (String a r)).
  pose proof (decode_segments_early (segments_of (String a r)) initial_result
                wf_initial eq_refl) as H.
  destruct (early_pv2 (segments_of (String a r))).
  - left. rewrite H. auto.
  - right. destruct H as (parsed & ->). split; [reflexivity |]. eauto.
Qed.

(** X20.  The endpoint [api_json_to_hl7] answers every request in one of
    three ways: for a first identifier under another authority it raises the
    400 error of [build_pid]; for an [al1], [dg1] or [pr1] record with an
    escaped value that is neither [None] nor a [str] it raises a 500 error
    whose detail is the text of the [AttributeError]; otherwise it returns
    the message under [hl7]. *)
Theorem api_json_to_hl7_outcome :
  forall (describe : exn -> string) (payload : HL7FullInput) (w : world),
    (authority_mismatch (patient payload) /\
     api_json_to_hl7 describe payload w = Raise pid_authority_error)
    \/ (~ authority_mismatch (patient payload) /\ records_escapable payload = false /\
        api_json_to_hl7 describe payload w
        = Raise (HTTPException 500 (describe AttributeError)))
    \/ (~ authority_mismatch (patient payload) /\ records_escapable payload = true /\
        exists segs,
          run (hl7_segments payload) w = Ok segs
          /\ api_json_to_hl7 describe payload w = Ok [("hl7", JStr (PyStr.join CRs segs))]).
Proof.
  intros describe payload w. unfold api_json_to_hl7.
  destruct (authority_mismatch_dec (patient payload)) as [Hm|Hm].
  - left. split; [exact Hm |].
    assert (H : run (json_to_hl7_full payload) w = Raise pid_authority_error)
      by apply json_to_hl7_full_raise, hl7_segments_pid_raise, build_pid_raises, Hm.
    rewrite H. reflexivity.
  - right. pose proof (hl7_segments_outcome payload w Hm) as H.
    destruct (records_escapable payload).
    + right. destruct H as (segs & w1 & H). repeat split; auto.
      exists segs. split; [now apply run_ok with w1 |].
      assert (R : run (json_to_hl7_full payload) w = Ok (PyStr.join CRs segs)).
      { apply run_ok with w1. unfold json_to_hl7_full.
        rewrite (bind_ok _ _ _ _ _ H). reflexivity. }
      rewrite R. reflexivity.
    + left. repeat split; auto.
      assert (R : run (json_to_hl7_full payload) w = Raise AttributeError)
        by now apply json_to_hl7_full_raise.
      rewrite R. reflexivity.
Qed.

(** ** ITI-41 parser *)

Lemma hexdigest_nonempty (b : list byte) : exists a r, SHA1.hexdigest b = String a r.
Proof. unfold SHA1.hexdigest. do 2 eexists. cbn [hex_digits String.append]. reflexivity. Qed.

Lemma decimal_fuel_nonempty (fuel : nat) (n : N) (a : ascii) (r : string) :
  exists a' r', decimal_fuel fuel n (String a r) = String a' r'.
Proof.
  revert n a r. induction fuel as [|fuel IH]; intros n a r; cbn [decimal_fuel]; [eauto |].
  destruct (N.ltb n 10); [eauto | apply IH].
Qed.

Lemma decimal_nonempty (n : N) : exists a r, decimal n = String a r.
Proof.
  unfold decimal. cbn [decimal_fuel].
  destruct (N.ltb n 10); [eauto | apply decimal_fuel_nonempty].
Qed.

Lemma truthy_or_else (x : option string) :
  truthy x = true -> exists a r, or_else x "" = String a r.
Proof. destruct x as [[|a r]|]; cbn; try discriminate. eauto. Qed.

Ltac optional x :=
  let E := fresh "E" in
  destruct (truthy x) eqn:E;
  [ let a := fresh "a" in
    let r := fresh "r" in
    let H := fresh "H" in
    destruct (truthy_or_else x E) as (a & r & H); rewrite ?H; clear H
  | ].

Lemma extract_written_tree (obj : SOAPInput) (d : drawn) :
  doc_id d <> "" -> creation d <> "" -> submission_time d <> "" -> patient_id obj <> "" ->
  extract (strip_namespaces (read_back (iti41_tree obj d))) = read_submission obj d.
Proof.
  intros Hd Hc Hs Hp.
  unfold iti41_tree, header_of, regpkg_of, ex_of, assoc_of, doc_el_of, doc_slots_of,
    read_submission, when_slot, sha1_and_size.
  destruct (doc_id d) as [|i1 i2]; [contradiction |].
  destruct (creation d) as [|c1 c2]; [contradiction |].
  destruct (submission_time d) as [|s1 s2]; [contradiction |].
  destruct (patient_id obj) as [|p1 p2]; [contradiction |].
  generalize (submission_id d) (ext_sub_id d) (cls_id d) (tcls_id d) (ei_unique_id d)
    (ei_patient_id d) (ei_src_id d) (assoc_id d) (fresh_message_id d).
  intros g1 g2 g3 g4 g5 g6 g7 g8 g9.
  generalize (dict_get (soap obj) "action"
                (PyStr "urn:ihe:iti:2007:ProvideAndRegisterDocumentSet-b"))
    (dict_get (soap obj) "message_id" (PyStr g9))
    (dict_get (soap obj) "to" (PyStr (or_else (repository_address obj) ""))).
  intros t1 t2 t3.
  generalize (mime_of obj) (or_else (object_type obj) OBJECTTYPE_ONDEMAND)
    (or_else (class_code obj) "") (or_else (type_code obj) "").
  intros m ot cc tc.
  destruct (doc_bytes_of obj) as [b|].
  - destruct (hexdigest_nonempty b) as (h1 & h2 & ->).
    destruct (decimal_nonempty (N.of_nat (List.length b))) as (z1 & z2 & ->).
    generalize (Base64.b64encode b). intros enc.
    destruct (PyStr.contains "pdf" (PyStr.lower (or_else (mime_type obj) "")));
      destruct (truthy (class_code obj)), (truthy (type_code obj));
      optional (source_id obj); optional (practice_setting_code obj);
      optional (repository_unique_id obj); reflexivity.
  - destruct (truthy (class_code obj)), (truthy (type_code obj));
      optional (source_id obj); optional (practice_setting_code obj);
      optional (repository_unique_id obj); reflexivity.
Qed.

Lemma or_urn_nonempty (x : option string) (w w1 : world) (u : string) :
  or_urn x w = Ok (u, w1) -> u <> "".
Proof.
  unfold or_urn. destruct (truthy x) eqn:E.
  - destruct (truthy_or_else x E) as (a & r & ->). unfold ret. intros H.
    apply Ok_inj in H. apply (f_equal fst) in H. cbn [fst] in H. subst u. discriminate.
  - unfold urn_uuid. intros H. apply bind_inversion in H as (v & w' & _ & H).
    unfold ret in H. apply Ok_inj in H. apply (f_equal fst) in H. cbn [fst] in H.
    subst u. discriminate.
Qed.

Lemma strftime_nonempty (dt : datetime) : strftime dt <> "".
Proof.
  intros H. pose proof (strftime_length dt) as L. rewrite H in L. cbn in L. lia.
Qed.

Lemma or_now_nonempty (x : option string) (w w1 : world) (s : string) :
  or_now x w = Ok (s, w1) -> s <> "".
Proof.
  intros H. destruct (or_now_spec _ _ _ _ H) as (_ & T & N).
  destruct (truthy x) eqn:E.
  - destruct (T eq_refl) as (-> & _). destruct (truthy_or_else x E) as (a & r & ->).
    discriminate.
  - destruct (N eq_refl) as (-> & _). apply strftime_nonempty.
Qed.

Lemma draw_nonempty (obj : SOAPInput) (w w' : world) (d : drawn) :
  draw obj w = Ok (d, w') ->
  doc_id d <> "" /\ creation d <> "" /\ submission_time d <> "".
Proof.
  unfold draw. intros H.
  apply bind_inversion in H as (d1 & w1 & H1 & H).
  apply bind_inversion in H as (d2 & w2 & H2 & H).
  apply bind_inversion in H as (d3 & w3 & H3 & H).
  apply bind_inversion in H as (d4 & w4 & H4 & H).
  apply bind_inversion in H as (d5 & w5 & H5 & H).
  apply bind_inversion in H as (d6 & w6 & H6 & H).
  apply bind_inversion in H as (d7 & w7 & H7 & H).
  apply bind_inversion in H as (d8 & w8 & H8 & H).
  apply bind_inversion in H as (d9 & w9 & H9 & H).
  apply bind_inversion in H as (d10 & w10 & H10 & H).
  apply bind_inversion in H as (d11 & w11 & H11 & H).
  apply bind_inversion in H as (d12 & w12 & H12 & H).
  unfold ret in H. apply Ok_inj in H. apply (f_equal fst) in H. cbn [fst] in H. subst d.
  cbn [doc_id creation submission_time].
  split; [exact (or_urn_nonempty _ _ _ _ H5) |].
  split; [exact (or_now_nonempty _ _ _ _ H11) | exact (or_now_nonempty _ _ _ _ H4)].
Qed.

Lemma tostring_nonempty (root : element) (xml_text : string) :
  ET.tostring root = Ok xml_text -> truthy (Some xml_text) = true.
Proof.
  unfold ET.tostring. destruct (ET.serialize _ root) as [body|e]; cbn [rbind];
    [| discriminate].
  intros H. apply Ok_inj in H. subst xml_text. reflexivity.
Qed.

(** X21.  What comes back of a submission.  When the parser reads the
    text that [build_iti41_ebxml] wrote as the tree that was written, with
    the tags in Clark notation, [iti41_xml_to_json] returns the id, the
    media type and the object type of the document entry, the values of its
    external identifiers (the document id, the patient id and the source id
    when there is one), its slots ([creationTime], then [hash], [size],
    [formatCode] for a document, [practiceSettingCode],
    [repositoryUniqueID]) and the [submissionTime] of the package; the class
    and type codes and the [sourceId] slot of the package are not read.  The
    endpoint returns the same under [json]. *)
Theorem written_submission_is_read_back :
  forall (iterparse : string -> result xml) (describe : exn -> string)
         (obj : SOAPInput) (w : world) (d : drawn) (xml_text : string),
    source_id_ok obj = true ->
    patient_id obj <> "" ->
    run (draw obj) w = Ok d ->
    ET.tostring (iti41_tree obj d) = Ok xml_text ->
    iterparse xml_text = Ok (read_back (iti41_tree obj d)) ->
    run (build_iti41_ebxml obj) w = Ok xml_text
    /\ iti41_xml_to_json iterparse describe xml_text = Ok (read_submission obj d)
    /\ api_iti41_to_json iterparse describe [("xml", xml_text)]
       = Ok [("json", JDict (read_submission obj d))].
Proof.
  intros iterparse describe obj w d xml_text Hs Hp Hd Hx Hparse.
  destruct (run_inv _ _ _ Hd) as (w1 & Hdraw).
  destruct (draw_nonempty _ _ _ _ Hdraw) as (N1 & N2 & N3).
  assert (Hj : iti41_xml_to_json iterparse describe xml_text = Ok (read_submission obj d)).
  { unfold iti41_xml_to_json. rewrite Hparse. f_equal.
    now apply extract_written_tree. }
  split; [| split; [exact Hj |]].
  - apply run_ok with w1. unfold build_iti41_ebxml, build_iti41_tree.
    unfold bind, ret, lift. rewrite Hs. cbn [negb]. cbv beta iota.
    rewrite Hdraw. cbv beta iota. now rewrite Hx.
  - unfold api_iti41_to_json. cbn [body_get String.eqb Ascii.eqb Bool.eqb].
    rewrite (tostring_nonempty _ _ Hx). cbn [negb].
    assert (E : or_else (Some xml_text) "" = xml_text).
    { pose proof (tostring_nonempty _ _ Hx) as T.
      destruct xml_text; [discriminate T | reflexivity]. }
    rewrite E, Hj. reflexivity.
Qed.

Lemma written_submission_is_read_back_witness :
  iti41_xml_to_json
    (fun _ => Ok (read_back (iti41_tree example_iti41_input example_drawn)))
    (fun _ => "") example_iti41_xml
  = Ok (read_submission example_iti41_input example_drawn).
Proof.
  refine (proj1 (proj2 (written_submission_is_read_back
                   (fun _ => Ok (read_back (iti41_tree example_iti41_input example_drawn)))
                   (fun _ => "") example_iti41_input example_world example_drawn
                   example_iti41_xml eq_refl _ eq_refl eq_refl eq_refl))).
  discriminate.
Defined.

(** ** The text of a written tree *)

Lemma serialize_node (decls : string) (t : qname) (a : list (string * string))
    (c : list element) :
  c <> [] ->
  ET.serialize decls (Element t a PyNone c)
  = (try inner <- serialize_all c;
     Ok (("<" ++ ET.qname_text t ++ decls ++ ET.attributes a) ++ ">" ++ ""
         ++ inner ++ "</" ++ ET.qname_text t ++ ">"))%res.
Proof.
  intros Hc. cbn [ET.serialize ET.has_text orb].
  match goal with
  | |- context [rbind (?loop c) _] =>
      assert (E : forall l, loop l = serialize_all l);
      [ induction l as [|z l IHl]; [reflexivity |];
        cbn [serialize_all]; rewrite <- IHl; reflexivity
      | rewrite E ]
  end.
  destruct c; [contradiction | reflexivity].
Qed.

Lemma mem_replace_same (c : ascii) (new s : string) :
  PyStr.mem c new = false -> PyStr.mem c (PyStr.replace c new s) = false.
Proof.
  intros Hn. induction s as [|a s IH]; [reflexivity |].
  cbn [PyStr.replace]. destruct (Ascii.eqb a c) eqn:E.
  - now rewrite mem_append, Hn, IH.
  - cbn [PyStr.mem]. now rewrite E.
Qed.

Lemma mem_replace_other (c c' : ascii) (new s : string) :
  PyStr.mem c new = false -> PyStr.mem c s = false ->
  PyStr.mem c (PyStr.replace c' new s) = false.
Proof.
  intros Hn. induction s as [|a s IH]; [reflexivity |].
  cbn [PyStr.replace PyStr.mem]. destruct (Ascii.eqb a c) eqn:E; [discriminate |].
  intros Hs. destruct (Ascii.eqb a c').
  - now rewrite mem_append, Hn, IH.
  - cbn [PyStr.mem]. now rewrite E, IH.
Qed.

Lemma escape_cdata_no_lt (s : string) : PyStr.mem "<" (ET.escape_cdata s) = false.
Proof.
  unfold ET.escape_cdata. apply mem_replace_other; [reflexivity |].
  now apply mem_replace_same.
Qed.

Lemma escape_attrib_no_lt (s : string) : PyStr.mem "<" (ET.escape_attrib s) = false.
Proof.
  unfold ET.escape_attrib.
  do 5 (apply mem_replace_other; [reflexivity |]).
  now apply mem_replace_same.
Qed.

Lemma escape_attrib_no_gt (s : string) : PyStr.mem ">" (ET.escape_attrib s) = false.
Proof.
  unfold ET.escape_attrib.
  do 4 (apply mem_replace_other; [reflexivity |]).
  now apply mem_replace_same.
Qed.

Lemma no_open_D_plain (s : string) : PyStr.mem "<" s = false -> no_open_D s = true.
Proof.
  induction s as [|a s IH]; [reflexivity |].
  cbn [PyStr.mem no_open_D]. destruct (Ascii.eqb a "<"); [discriminate |].
  intros H. now rewrite IH.
Qed.

Lemma no_open_D_append (x y : string) :
  no_open_D x = true -> no_open_D y = true -> no_open_D (x ++ y) = true.
Proof.
  induction x as [|a x IH]; [auto |].
  cbn [no_open_D String.append]. intros H Hy. apply andb_prop in H as [Ha Hx].
  rewrite (IH Hx Hy), andb_true_r.
  destruct (Ascii.eqb a "<"); [| reflexivity].
  destruct x as [|b x]; [discriminate Ha | exact Ha].
Qed.

Lemma find_after_no_open_D (p pre rest : string) :
  no_open_D pre = true ->
  Re.find (String "<" (String "D" p)) (pre ++ String "<" (String "D" p) ++ rest)
  = Some (String.length pre).
Proof.
  remember (String "<" (String "D" p)) as o eqn:Eo.
  induction pre as [|a pre IH]; intros H.
  - cbn [String.append String.length].
    assert (E : o ++ rest = String "<" (String "D" (p ++ rest))) by now subst o.
    rewrite E, find_equation, <- E, prefix_append. reflexivity.
  - cbn [no_open_D] in H. apply andb_prop in H as [Ha Hp].
    cbn [String.append String.length]. rewrite find_equation, (IH Hp).
    assert (P : String.prefix o (String a (pre ++ o ++ rest)) = false).
    { rewrite Eo at 1. cbn [String.prefix].
      destruct (Ascii.ascii_dec "<" a) as [<-|]; [| reflexivity].
      cbn [Ascii.eqb Bool.eqb] in Ha.
      destruct pre as [|b pre]; [discriminate Ha |].
      cbn [String.append String.prefix].
      destruct (Ascii.ascii_dec "D" b) as [<-|]; [discriminate Ha | reflexivity]. }
    now rewrite P.
Qed.

Lemma find_in_no_open_D (p s : string) :
  no_open_D s = true -> Re.find (String "<" (String "D" p)) s = None.
Proof.
  induction s as [|a s IH]; intros H; [reflexivity |].
  cbn [no_open_D] in H. apply andb_prop in H as [Ha Hs].
  rewrite find_equation, (IH Hs).
  assert (P : String.prefix (String "<" (String "D" p)) (String a s) = false).
  { cbn [String.prefix]. destruct (Ascii.ascii_dec "<" a) as [<-|]; [| reflexivity].
    cbn [Ascii.eqb Bool.eqb] in Ha.
    destruct s as [|b s]; [reflexivity |]. cbn [String.prefix].
    destruct (Ascii.ascii_dec "D" b) as [<-|]; [discriminate Ha | reflexivity]. }
  now rewrite P.
Qed.

Lemma concat_no_lt (l : list string) :
  Forall (fun x => PyStr.mem "<" x = false) l ->
  PyStr.mem "<" (String.concat "" l) = false.
Proof.
  induction 1 as [|x l Hx Hl IH]; [reflexivity |].
  destruct l as [|y l]; [exact Hx |].
  change (String.concat "" (x :: y :: l)) with (x ++ "" ++ String.concat "" (y :: l)).
  now rewrite !mem_append, Hx, IH.
Qed.

Lemma declarations_no_lt (root : element) : PyStr.mem "<" (ET.declarations root) = false.
Proof.
  unfold ET.declarations. apply concat_no_lt.
  apply Forall_map. apply Forall_forall. intros n _. now destruct n.
Qed.

Lemma attributes_no_lt (a : list (string * string)) :
  forallb (fun kv => negb (PyStr.mem "<" (fst kv))) a = true ->
  PyStr.mem "<" (ET.attributes a) = false.
Proof.
  intros H. unfold ET.attributes. apply concat_no_lt. apply Forall_map.
  rewrite forallb_forall in H. apply Forall_forall. intros kv Hin.
  specialize (H kv Hin). apply negb_true_iff in H.
  rewrite !mem_append, H, escape_attrib_no_lt. reflexivity.
Qed.

Lemma open_tag_no_open_D (n : namespace) (local rest : string) :
  PyStr.mem "<" local = false -> PyStr.mem "<" rest = false ->
  no_open_D (("<" ++ prefix_of n ++ ":" ++ local) ++ rest) = true.
Proof.
  intros Hl Hr.
  assert (P : PyStr.mem "<" ((":" ++ local) ++ rest) = false)
    by (rewrite !mem_append, Hl, Hr; reflexivity).
  destruct n; cbn [prefix_of String.append no_open_D Ascii.eqb Bool.eqb negb andb];
    apply no_open_D_plain; exact P.
Qed.

Lemma close_tag_no_open_D (n : namespace) (local : string) :
  PyStr.mem "<" local = false ->
  no_open_D ("</" ++ (prefix_of n ++ ":" ++ local) ++ ">") = true.
Proof.
  intros Hl.
  destruct n; cbn [prefix_of String.append no_open_D Ascii.eqb Bool.eqb negb andb];
    apply no_open_D_plain; rewrite mem_append, Hl; reflexivity.
Qed.

Lemma serialize_no_open_D :
  forall (e : element) (decls s : string),
    qualified e = true -> PyStr.mem "<" decls = false ->
    ET.serialize decls e = Ok s -> no_open_D s = true.
Proof.
  fix IH 1. intros [[ns local] a x c] decls s Hq Hd.
  cbn [qualified q_ns q_local] in Hq.
  destruct ns as [n|]; [| discriminate Hq].
  apply andb_prop in Hq as [Hq Hc]. apply andb_prop in Hq as [Hl Ha].
  apply negb_true_iff in Hl. pose proof (attributes_no_lt a Ha) as Hattr.
  cbn [ET.serialize]. unfold ET.qname_text. cbn [q_ns q_local].
  match goal with
  | |- context [rbind (?loop c) _] =>
      assert (Hin : forall inner, loop c = Ok inner -> no_open_D inner = true);
      [ clear - IH Hc; induction c as [|y c IHc]; cbn [forallb] in Hc |-*;
        [ intros inner [= <-]; reflexivity
        | apply andb_prop in Hc as [Hy Hc]; intros inner;
          destruct (ET.serialize "" y) as [sy|] eqn:Ey; cbn [rbind]; [| discriminate];
          match goal with
          | |- context [rbind ?l _] => destruct l as [rest|] eqn:Er
          end; cbn [rbind]; [| discriminate];
          intros [= <-]; apply no_open_D_append;
          [ exact (IH y "" sy Hy eq_refl Ey) | exact (IHc Hc rest eq_refl) ] ]
      | destruct (loop c) as [inner|] eqn:Ei ]
  end.
  - specialize (Hin inner eq_refl).
    assert (Hhead : no_open_D (("<" ++ prefix_of n ++ ":" ++ local) ++ decls ++ ET.attributes a)
                    = true).
    { apply open_tag_no_open_D; [exact Hl |]. now rewrite mem_append, Hd, Hattr. }
    assert (E : "<" ++ (prefix_of n ++ ":" ++ local) ++ decls ++ ET.attributes a
                = ("<" ++ prefix_of n ++ ":" ++ local) ++ decls ++ ET.attributes a)
      by (cbn [String.append]; now rewrite !append_assoc).
    rewrite E.
    destruct (ET.has_text x || negb (Nat.eqb (List.length c) 0)).
    + destruct (ET.write_text _) as [body|] eqn:Eb; cbn [rbind]; [| discriminate].
      intros Hs. apply Ok_inj in Hs. subst s.
      assert (Hb : PyStr.mem "<" body = false).
      { destruct (ET.has_text x); [| cbn in Eb; now injection Eb as <-].
        destruct x as [|t|r b]; cbn in Eb; try discriminate;
          injection Eb as <-; [reflexivity | apply escape_cdata_no_lt]. }
      apply no_open_D_append; [exact Hhead |].
      repeat (apply no_open_D_append); try reflexivity; auto using no_open_D_plain.
      now destruct n.
    + intros Hs. apply Ok_inj in Hs. subst s.
      apply no_open_D_append; [exact Hhead | reflexivity].
  - destruct (ET.has_text x || negb (Nat.eqb (List.length c) 0)).
    + destruct (ET.write_text _); cbn [rbind]; discriminate.
    + intros Hs. apply Ok_inj in Hs. subst s.
      assert (E : "<" ++ (prefix_of n ++ ":" ++ local) ++ decls ++ ET.attributes a
                  = ("<" ++ prefix_of n ++ ":" ++ local) ++ decls ++ ET.attributes a)
        by (cbn [String.append]; now rewrite !append_assoc).
      rewrite E. apply no_open_D_append; [| reflexivity].
      apply open_tag_no_open_D; [exact Hl |]. now rewrite mem_append, Hd, Hattr.
Qed.

Lemma b64encode_nonempty (b : list byte) : b <> [] -> ET.has_text (PyStr (Base64.b64encode b)) = true.
Proof.
  destruct b as [|x [|y [|z r]]]; [contradiction | reflexivity ..].
Qed.

Lemma tostring_with_document (obj : SOAPInput) (d : drawn) (b : list byte) :
  doc_bytes_of obj = Some b -> b <> [] ->
  ET.tostring (iti41_tree obj d)
  = (try pre <- before_document obj d;
     Ok (pre ++ Re.opening (ET.escape_attrib (doc_id d))
         ++ document_attributes (mime_of obj) ++ ">"
         ++ ET.escape_cdata (Base64.b64encode b) ++ Re.closing ++ after_document))%res.
Proof.
  intros Hb Hne. unfold ET.tostring, before_document.
  set (decls := ET.declarations (iti41_tree obj d)). unfold iti41_tree.
  unfold doc_el_of. rewrite Hb.
  rewrite serialize_node by discriminate. cbn [serialize_all].
  destruct (ET.serialize "" (header_of obj d)) as [hx|e]; cbn [rbind]; [| reflexivity].
  rewrite serialize_node by discriminate. cbn [serialize_all].
  rewrite serialize_node by discriminate. cbn [serialize_all].
  match goal with
  | |- context [ET.serialize "" (Element (in_ns NS_lcm "SubmitObjectsRequest") ?a ?x ?c)] =>
      destruct (ET.serialize "" (Element (in_ns NS_lcm "SubmitObjectsRequest") a x c))
        as [rx|e]
  end; cbn [rbind]; [| reflexivity].
  cbn [ET.serialize]. rewrite (b64encode_nonempty b Hne).
  cbn [orb ET.write_text rbind ET.attributes map fst snd String.concat].
  f_equal. unfold Re.opening, Re.closing, document_attributes, after_document.
  cbn [ET.qname_text q_ns q_local in_ns bare prefix_of].
  rewrite ?append_assoc. cbn [String.append]. rewrite ?append_assoc. reflexivity.
Qed.

Lemma qualified_header (obj : SOAPInput) (d : drawn) : qualified (header_of obj d) = true.
Proof. reflexivity. Qed.

Lemma qualified_when_slot (name : string) (x : option string) :
  forallb qualified (when_slot name x) = true.
Proof. unfold when_slot. destruct (truthy x); reflexivity. Qed.

Lemma qualified_regpkg (obj : SOAPInput) (d : drawn) : qualified (regpkg_of obj d) = true.
Proof.
  unfold regpkg_of. cbn [qualified q_ns q_local in_ns]. cbn [forallb fst].
  rewrite !forallb_app, !qualified_when_slot. reflexivity.
Qed.

Lemma qualified_doc_slots (obj : SOAPInput) : forallb qualified (doc_slots_of obj) = true.
Proof.
  unfold doc_slots_of. destruct (doc_bytes_of obj) as [b|]; [| reflexivity].
  destruct (sha1_and_size b) as [h size]. reflexivity.
Qed.

Lemma qualified_ex (obj : SOAPInput) (d : drawn) : qualified (ex_of obj d) = true.
Proof.
  unfold ex_of. cbn [qualified q_ns q_local in_ns]. cbn [forallb fst].
  rewrite !forallb_app, !qualified_when_slot, qualified_doc_slots.
  destruct (truthy (class_code obj)), (truthy (type_code obj)), (truthy (source_id obj));
    reflexivity.
Qed.

Lemma qualified_request (obj : SOAPInput) (d : drawn) :
  qualified (Element (in_ns NS_lcm "SubmitObjectsRequest") [] PyNone
               [ Element (in_ns NS_rim "RegistryObjectList") [] PyNone
                   [regpkg_of obj d; ex_of obj d; assoc_of d] ]) = true.
Proof.
  cbn [qualified q_ns q_local in_ns forallb].
  rewrite qualified_regpkg, qualified_ex. reflexivity.
Qed.

Lemma before_document_no_open_D (obj : SOAPInput) (d : drawn) (pre : string) :
  before_document obj d = Ok pre -> no_open_D pre = true.
Proof.
  unfold before_document.
  destruct (ET.serialize "" (header_of obj d)) as [hx|] eqn:Eh; cbn [rbind]; [| discriminate].
  match goal with
  | |- context [rbind ?r _] => destruct r as [rx|] eqn:Er
  end; cbn [rbind]; [| discriminate].
  intros H. apply Ok_inj in H. subst pre.
  pose proof (serialize_no_open_D _ "" hx (qualified_header obj d) eq_refl Eh) as Hh.
  pose proof (serialize_no_open_D _ "" rx (qualified_request obj d) eq_refl Er) as Hr.
  pose proof (no_open_D_plain _ (declarations_no_lt (iti41_tree obj d))) as Hd.
  repeat (apply no_open_D_append; [first [reflexivity | assumption] |]).
  exact Hr.
Qed.

Lemma large_is_nonempty (b : list byte) : below_threshold b = false -> b <> [].
Proof. intros H ->. discriminate H. Qed.

(** X22.  A large document with a supplied id is sent by reference.  For
    a request whose [source_id] is accepted, whose [soap] entries can be
    written, whose [unique_id] is a non-empty text that the XML writer
    leaves as it is and that holds no backslash (as its media type), and
    whose document has 256 KiB or more, [build_iti41_ebxml] writes the
    [Document] element with that id, the media type and the base64 text
    between [before_document] and the three closing tags, and
    [api_json_to_iti41] answers with status 200 and a [multipart/related]
    body: its parts are named [rootpart] and [ID@example.com], and the root
    part is the same XML with the [xop:Include] reference in place of the
    base64 text. *)
Theorem large_document_is_sent_by_reference :
  forall (describe : exn -> string) (payload : SOAPInput) (w : world) (uid : string),
    unique_id payload = Some uid ->
    PyStr.is_empty uid = false ->
    ET.escape_attrib uid = uid ->
    no_backslash uid ->
    no_backslash (mime_of payload) ->
    source_id_ok payload = true ->
    soap_writable payload = true ->
    truthy (document_base64 payload) = true ->
    below_threshold (document_bytes (or_else (document_base64 payload) "")) = false ->
    exists (d : drawn) (w1 : world) (pre : string) (r : Response),
      draw payload w = Ok (d, w1)
      /\ before_document payload d = Ok pre
      /\ run (build_iti41_ebxml payload) w
         = Ok (pre ++ Re.opening uid ++ document_attributes (mime_of payload) ++ ">"
               ++ ET.escape_cdata
                    (Base64.b64encode
                       (document_bytes (or_else (document_base64 payload) "")))
               ++ Re.closing ++ after_document)
      /\ api_json_to_iti41 describe payload w = Ok r
      /\ status r = 200%Z
      /\ PyStr.startswith "multipart/related" (media_type r) = true
      /\ part_names r = ["rootpart"; uid ++ "@example.com"]
      /\ root_part r
         = utf8_encode (pre ++ xop_document uid (mime_of payload) ++ after_document).
Proof.
  intros describe payload w uid Hu Hne Hesc Hbs Hbm Hsrc Hsoap Hdoc Hbig.
  set (b := document_bytes (or_else (document_base64 payload) "")) in *.
  assert (Hb : doc_bytes_of payload = Some b) by (unfold doc_bytes_of; now rewrite Hdoc).
  assert (Htu : truthy (unique_id payload) = true) by (rewrite Hu; cbn; now rewrite Hne).
  assert (Hou : forall dflt, or_else (unique_id payload) dflt = uid)
    by (intros dflt; rewrite Hu; cbn; now rewrite Hne).
  destruct (draw_total payload w) as (d & w1 & Hd).
  destruct (draw_spec payload w w1 d Hd) as (Hid & _). destruct (Hid Htu) as (_ & Hdid).
  rewrite Hou in Hdid.
  pose proof (tostring_outcome (iti41_tree payload d)) as Ho.
  rewrite texts_ok_tree_eq, Hsoap in Ho. destruct Ho as (xml & Hxml).
  pose proof (tostring_with_document payload d b Hb (large_is_nonempty b Hbig)) as Ht.
  rewrite Hxml, Hdid, Hesc in Ht.
  destruct (before_document payload d) as [pre|e] eqn:Epre; cbn [rbind] in Ht;
    [| discriminate Ht].
  apply Ok_inj in Ht.
  assert (Hx : build_iti41_ebxml payload w = Ok (xml, w1)).
  { unfold build_iti41_ebxml, build_iti41_tree. rewrite Hsrc. cbn [negb].
    unfold bind at 1 2. cbn [ret]. rewrite (bind_ok _ _ _ _ _ Hd).
    cbn [ret]. now rewrite (lift_ok _ w1 _ Hxml). }
  pose proof (before_document_no_open_D payload d pre Epre) as Hpre.
  assert (Hxop : build_iti41_mtom_envelope xml (or_else (unique_id payload) "urn:uuid:doc-1")
                   (or_else (mime_type payload) "text/xml")
                 = Ok (pre ++ xop_document uid (mime_of payload) ++ after_document)).
  { rewrite Hou, Ht. fold (mime_of payload).
    apply mtom_envelope_match; [exact Hbs | exact Hbm | | | | ].
    - apply (find_after_no_open_D _ pre _ Hpre).
    - unfold document_attributes. rewrite !mem_append, escape_attrib_no_gt. reflexivity.
    - apply escape_cdata_no_lt.
    - now apply find_in_no_open_D. }
  destruct (json_to_iti41_multipart payload w w1 xml _ Hx Hdoc Hbig Hxop)
    as (r & Hr & Hst & Hmt & Hpn & Hrp).
  exists d, w1, pre, r.
  split; [exact Hd |]. split; [exact Epre |].
  split; [rewrite (run_ok _ _ _ _ Hx), Ht; reflexivity |].
  split; [unfold api_json_to_iti41; now rewrite Hr |].
  split; [exact Hst |]. split; [exact Hmt |].
  split; [rewrite Hpn, Hou; reflexivity | exact Hrp].
Qed.

Lemma large_document_is_sent_by_reference_witness :
  exists (d : drawn) (w1 : world) (pre : string) (r : Response),
    draw (large_document_input (Some "doc-42")) example_world = Ok (d, w1)
    /\ before_document (large_document_input (Some "doc-42")) d = Ok pre
    /\ run (build_iti41_ebxml (large_document_input (Some "doc-42"))) example_world
       = Ok (pre ++ Re.opening "doc-42"
             ++ document_attributes (mime_of (large_document_input (Some "doc-42"))) ++ ">"
             ++ ET.escape_cdata
                  (Base64.b64encode
                     (document_bytes
                        (or_else (document_base64 (large_document_input (Some "doc-42")))
                           "")))
             ++ Re.closing ++ after_document)
    /\ api_json_to_iti41 (fun _ => "") (large_document_input (Some "doc-42")) example_world
       = Ok r
    /\ status r = 200%Z
    /\ PyStr.startswith "multipart/related" (media_type r) = true
    /\ part_names r = ["rootpart"; "doc-42" ++ "@example.com"]
    /\ root_part r
       = utf8_encode
           (pre ++ xop_document "doc-42" (mime_of (large_document_input (Some "doc-42")))
            ++ after_document).
Proof.
  apply (large_document_is_sent_by_reference (fun _ => "")
           (large_document_input (Some "doc-42")) example_world "doc-42");
    vm_compute; reflexivity.
Defined.

(** ** The coded records and the single segments *)

Lemma each_taken_where (P : pydict -> Prop) (keys : list (string * nat))
    (f : pydict -> result string) (g : pydict -> json) (l : list pydict)
    (ss : list string) :
  (forall x s, P x -> f x = Ok s -> taken keys s = g x) ->
  Forall P l -> each f l = Ok ss -> map (taken keys) ss = map g l.
Proof.
  intros Hf HP. revert ss. induction HP as [|x l Hx Hl IH]; intros ss; cbn [each].
  - intros H. apply Ok_inj in H. now subst ss.
  - destruct (f x) as [s|e] eqn:E; cbn [rbind]; [| discriminate].
    destruct (each f l) as [rest|e]; cbn [rbind]; [| discriminate].
    intros H. apply Ok_inj in H. subst ss. cbn [map].
    now rewrite (Hf x s Hx E), (IH rest).
Qed.

Lemma build_dg1_taken (d : pydict) (s : string) :
  dg1_plain d -> build_dg1 d = Ok s ->
  taken [ ("code", 3); ("desc", 4) ] s = decoded_dg1 d.
Proof.
  unfold dg1_plain, build_dg1, decoded_dg1, taken. intros Hp.
  destruct (escape_hl7_field (dict_get d "diagnosis_desc" _)) as [x|] eqn:Ex; cbn [rbind];
    [| discriminate].
  destruct (escape_hl7_field_plain _ _ Ex) as (Px & <-).
  set (a := format_pyval (dict_get d "set_id" (PyStr "1"))) in *.
  set (b := format_pyval (dict_get d "diagnosis_type" (PyStr ""))) in *.
  set (c := format_pyval (dict_get d "diagnosis_code" (PyStr ""))) in *.
  clearbody a b c.
  intros Hs. apply Ok_inj in Hs. subst s.
  change ("DG1|" ++ a ++ "|" ++ b ++ "|" ++ c ++ "|" ++ x)
    with (PyStr.join "|" ["DG1"; a; b; c; x]).
  rewrite split_fields; [reflexivity | discriminate |].
  constructor; [reflexivity |].
  apply Forall_app with (l1 := [a; b; c]) (l2 := [x]). split; [exact Hp |].
  now constructor.
Qed.

Lemma build_pr1_taken (p : pydict) (s : string) :
  pr1_plain p -> build_pr1 p = Ok s ->
  taken [ ("code", 2); ("desc", 3) ] s = decoded_pr1 p.
Proof.
  unfold pr1_plain, build_pr1, decoded_pr1, taken. intros Hp.
  destruct (escape_hl7_field (dict_get p "procedure_desc" _)) as [x|] eqn:Ex; cbn [rbind];
    [| discriminate].
  destruct (escape_hl7_field_plain _ _ Ex) as (Px & <-).
  set (a := format_pyval (dict_get p "set_id" (PyStr "1"))) in *.
  set (c := format_pyval (dict_get p "procedure_code" (PyStr ""))) in *.
  clearbody a c.
  intros Hs. apply Ok_inj in Hs. subst s.
  change ("PR1|" ++ a ++ "|" ++ c ++ "|" ++ x) with (PyStr.join "|" ["PR1"; a; c; x]).
  rewrite split_fields; [reflexivity | discriminate |].
  constructor; [reflexivity |].
  apply Forall_app with (l1 := [a; c]) (l2 := [x]). split; [exact Hp |].
  now constructor.
Qed.

Lemma build_pd1_taken (p : PD1Model) :
  pd1_plain (Some p) ->
  taken [ ("vip", 1); ("prior_ids", 2) ] (build_pd1 p) = decoded_pd1 (Some p).
Proof.
  unfold pd1_plain, build_pd1, decoded_pd1, taken. fold (prior_ids_of p). cbv zeta.
  set (a := or_else (vip_indicator p) ""). set (b := prior_ids_of p). clearbody a b.
  intros Hp.
  change ("PD1|" ++ a ++ "|" ++ b) with (PyStr.join "|" ["PD1"; a; b]).
  rewrite split_fields; [reflexivity | discriminate |].
  constructor; [reflexivity | exact Hp].
Qed.

Lemma build_mrg_taken (m : pydict) :
  mrg_plain (Some m) ->
  taken [ ("prior_patient_id", 1); ("prior_visit", 4) ] (build_mrg m)
  = JDict [ ("prior_patient_id",
             JStr (format_pyval (dict_get m "prior_patient_id" (PyStr ""))));
            ("prior_visit",
             JStr (format_pyval (dict_get m "prior_visit_number" (PyStr "")))) ].
Proof.
  unfold mrg_plain, build_mrg, taken. cbv zeta.
  set (a := format_pyval (dict_get m "prior_patient_id" (PyStr ""))).
  set (b := format_pyval (dict_get m "prior_visit_number" (PyStr ""))). clearbody a b.
  intros Hp. apply Forall_cons_iff in Hp as [Ha Hb]. apply Forall_cons_iff in Hb as [Hb _].
  change ("MRG|" ++ a ++ "|||" ++ b) with (PyStr.join "|" ["MRG"; a; ""; ""; b]).
  rewrite split_fields; [reflexivity | discriminate |].
  repeat constructor; assumption.
Qed.

(** where the PD1, MRG, DG1 and PR1 segments of a built message are *)
Lemma built_segments_named (payload : HL7FullInput) (w w1 : world) (segs : list string) :
  hl7_segments payload w = Ok (segs, w1) ->
  exists sd sp,
    each build_dg1 (nonempty (dg1 payload)) = Ok sd
    /\ each build_pr1 (nonempty (pr1 payload)) = Ok sp
    /\ segments_named "PD1" segs = pd1_part payload
    /\ segments_named "MRG" segs = mrg_part payload
    /\ segments_named "DG1" segs = sd
    /\ segments_named "PR1" segs = sp.
Proof.
  intros H.
  destruct (hl7_segments_built _ _ _ _ H)
    as (msh & t & pid & sv & sa & sd & sp & E & Nmsh & Hpid & Hv & Ha & Hdg & Hpr
        & Npd1 & Nsv & Nmrg & Nal1 & Ndg1 & Npr1 & Nnk1 & Ngt1 & Nin1).
  assert (Nhead : Forall (fun s => In (segment_name s) ["MSH"; "EVN"; "PID"])
                    [msh; ("EVN|" ++ evn_code_of (event (header payload)) ++ "|" ++ t)%string;
                     pid]).
  { constructor; [rewrite Nmsh; cbn; tauto |].
    constructor; [right; left; reflexivity |].
    constructor; [rewrite (build_pid_name _ _ Hpid); cbn; tauto | constructor]. }
  assert (Hnamed : forall name,
            ~ In name ["MSH"; "EVN"; "PID"] ->
            segments_named name segs
            = (segments_named name (pd1_part payload) ++ segments_named name sv
               ++ segments_named name (mrg_part payload) ++ segments_named name sa
               ++ segments_named name sd ++ segments_named name sp
               ++ segments_named name (map build_nk1 (nonempty (nk1 payload)))
               ++ segments_named name (map build_gt1 (nonempty (gt1 payload)))
               ++ segments_named name (map build_in1 (nonempty (in1 payload))))%list).
  { intros name Hn.
    assert (Hhead : segments_named name
              [msh; ("EVN|" ++ evn_code_of (event (header payload)) ++ "|" ++ t)%string; pid]
            = []).
    { apply segments_named_other.
      eapply Forall_impl; [| exact Nhead]. cbv beta. intros s Hs Heq. rewrite Heq in Hs.
      contradiction. }
    rewrite E.
    match goal with
    | |- segments_named name (msh :: ?evn :: pid :: ?rest) = ?rhs =>
        change (segments_named name ([msh; evn; pid] ++ rest) = rhs)
    end.
    rewrite !segments_named_app, Hhead. reflexivity. }
  exists sd, sp. split; [exact Hdg |]. split; [exact Hpr |].
  split; [| split; [| split]].
  - pose proof (Hnamed "PD1") as Hk.
    rewrite (segments_named_same "PD1" _ Npd1) in Hk.
    drop_others "PD1" Hk. rewrite app_nil_r in Hk.
    apply Hk. cbn. intuition discriminate.
  - pose proof (Hnamed "MRG") as Hk.
    rewrite (segments_named_same "MRG" _ Nmrg) in Hk.
    drop_others "MRG" Hk. cbn [app] in Hk. rewrite app_nil_r in Hk.
    apply Hk. cbn. intuition discriminate.
  - pose proof (Hnamed "DG1") as Hk.
    rewrite (segments_named_same "DG1" _ Ndg1) in Hk.
    drop_others "DG1" Hk. cbn [app] in Hk. rewrite app_nil_r in Hk.
    apply Hk. cbn. intuition discriminate.
  - pose proof (Hnamed "PR1") as Hk.
    rewrite (segments_named_same "PR1" _ Npr1) in Hk.
    drop_others "PR1" Hk. cbn [app] in Hk. rewrite app_nil_r in Hk.
    apply Hk. cbn. intuition discriminate.
Qed.

(** X23.  Diagnoses and procedures of a built message.  When the texts
    that the builder writes unescaped into DG1 and PR1 (the set id, the
    diagnosis type and the codes, as an f-string formats them) hold no
    field separator and no segment holds a carriage return, the parser
    returns one entry per [dg1] and [pr1] record, in order, under the keys
    [code] and [desc]: the code is the formatted [diagnosis_code] or
    [procedure_code] ([None] reads [None], a number its digits), the
    description is the escaped [diagnosis_desc] or [procedure_desc].  The
    set id and the diagnosis type are written but not read back. *)
Theorem codes_and_descriptions_come_back :
  forall (payload : HL7FullInput) (w : world) (segs : list string),
    run (hl7_segments payload) w = Ok segs ->
    one_line_each segs ->
    Forall dg1_plain (nonempty (dg1 payload)) ->
    Forall pr1_plain (nonempty (pr1 payload)) ->
    exists r,
      hl7_full_to_json (PyStr.join CRs segs) = Ok r
      /\ jget "dg1" r = Some (JList (map decoded_dg1 (nonempty (dg1 payload))))
      /\ jget "pr1" r = Some (JList (map decoded_pr1 (nonempty (pr1 payload)))).
Proof.
  intros payload w segs Hrun Hcr Hdp Hpp.
  destruct (run_inv _ _ _ Hrun) as (w1 & H).
  destruct (decode_built_segments _ _ _ _ H) as (r & Hr & _).
  pose proof (segments_of_join _ _ _ _ H Hcr) as Hsegs.
  destruct (built_segments_named _ _ _ _ H) as (sd & sp & Hd & Hp & _ & _ & Ed & Ep).
  exists r. split.
  { unfold hl7_full_to_json. fold (segments_of (PyStr.join CRs segs)). now rewrite Hsegs. }
  split.
  - pose proof (decode_segments_repeating "DG1" "dg1" _
                  (or_intror (or_introl eq_refl)) _ _ _ wf_initial Hr) as Hk.
    rewrite Ed in Hk.
    rewrite <- (each_taken_where dg1_plain _ _ _ _ _ build_dg1_taken Hdp Hd).
    destruct sd; exact Hk.
  - pose proof (decode_segments_repeating "PR1" "pr1" _
                  (or_intror (or_intror (or_introl eq_refl))) _ _ _ wf_initial Hr) as Hk.
    rewrite Ep in Hk.
    rewrite <- (each_taken_where pr1_plain _ _ _ _ _ build_pr1_taken Hpp Hp).
    destruct sp; exact Hk.
Qed.

Lemma codes_and_descriptions_come_back_witness :
  exists r,
    hl7_full_to_json (PyStr.join CRs example_coded_segments) = Ok r
    /\ jget "dg1" r
       = Some (JList [ JDict [ ("code", JStr "E11"); ("desc", JStr "Diabetes\S\type 2") ] ])
    /\ jget "pr1" r
       = Some (JList [ JDict [ ("code", JStr "47562"); ("desc", JStr "") ] ]).
Proof.
  refine (codes_and_descriptions_come_back example_coded_input example_world
            example_coded_segments eq_refl _ _ _); repeat constructor.
Defined.

(** X24.  The PD1 and MRG segments of a built message.  When the texts
    written into them (none is escaped) hold no field separator and no
    segment holds a carriage return, the parser returns under [pd1] the VIP
    indicator and, as one text, the prior identifiers as they were joined
    by [~] (each [ID^^^AUTHORITY^ISO], a missing authority reading [None]),
    and under [mrg] the prior patient id and, under the key [prior_visit],
    the [prior_visit_number].  Without [pd1], and without [mrg] or with an
    empty one, the key holds [None]. *)
Theorem pd1_and_mrg_come_back :
  forall (payload : HL7FullInput) (w : world) (segs : list string),
    run (hl7_segments payload) w = Ok segs ->
    one_line_each segs ->
    pd1_plain (pd1 payload) ->
    mrg_plain (mrg payload) ->
    exists r,
      hl7_full_to_json (PyStr.join CRs segs) = Ok r
      /\ jget "pd1" r = Some (decoded_pd1 (pd1 payload))
      /\ jget "mrg" r = Some (decoded_mrg (mrg payload)).
Proof.
  intros payload w segs Hrun Hcr Hpd Hmg.
  destruct (run_inv _ _ _ Hrun) as (w1 & H).
  destruct (decode_built_segments _ _ _ _ H) as (r & Hr & _).
  pose proof (segments_of_join _ _ _ _ H Hcr) as Hsegs.
  destruct (built_segments_named _ _ _ _ H) as (sd & sp & _ & _ & Epd & Emg & _ & _).
  exists r. split.
  { unfold hl7_full_to_json. fold (segments_of (PyStr.join CRs segs)). now rewrite Hsegs. }
  split.
  - rewrite (decode_segments_replacing "PD1" "pd1" _ (or_intror (or_introl eq_refl))
               _ _ _ wf_initial Hr), Epd.
    unfold pd1_part. destruct (pd1 payload) as [p|]; cbn [rev app]; [| reflexivity].
    f_equal. now apply build_pd1_taken.
  - rewrite (decode_segments_replacing "MRG" "mrg" _
               (or_intror (or_intror (or_introl eq_refl))) _ _ _ wf_initial Hr), Emg.
    unfold mrg_part. destruct (mrg payload) as [[|e m]|]; cbn [rev app]; try reflexivity.
    f_equal. now apply build_mrg_taken.
Qed.

Lemma pd1_and_mrg_come_back_witness :
  exists r,
    hl7_full_to_json (PyStr.join CRs example_coded_segments) = Ok r
    /\ jget "pd1" r
       = Some (JDict [ ("vip", JStr "Y");
                       ("prior_ids", JStr "OLD1^^^1.2.3^ISO~OLD2^^^None^ISO") ])
    /\ jget "mrg" r
       = Some (JDict [ ("prior_patient_id", JStr "OLD1"); ("prior_visit", JStr "V0001") ]).
Proof.
  refine (pd1_and_mrg_come_back example_coded_input example_world
            example_coded_segments eq_refl _ _ _); repeat constructor.
Defined.

(** ** The text of a SOAP fault *)

(** X25.  The text of a SOAP fault.  [build_soap_fault] returns for every
    code, reason and detail: the XML declaration, an [s:Envelope] that
    declares the SOAP 1.2 namespace, [s:Body] and [s:Fault], and below the
    fault the elements [Code], [Value], [Reason], [Text], [Detail] and
    [Error], which are in no namespace.  The code is written behind [s:],
    the texts with [&], [<] and [>] escaped; an empty reason gives an empty
    [Text] element, and [Detail] is there only for a non-empty detail. *)
Theorem build_soap_fault_text :
  forall (code reason : string) (detail : option string),
    build_soap_fault code reason detail = Ok (fault_text code reason detail).
Proof.
  intros code reason detail. unfold build_soap_fault, fault_text, ET.tostring.
  assert (D : ET.declarations (build_soap_fault_tree code reason detail)
              = " xmlns:s=" ++ String PyStr.DQUOTE "" ++ uri_of NS_s
                ++ String PyStr.DQUOTE "").
  { unfold build_soap_fault_tree. destruct (truthy detail); reflexivity. }
  rewrite D. unfold build_soap_fault_tree, leaf.
  assert (Ec : ET.escape_cdata (String "s" (String ":" code))
               = String "s" (String ":" (ET.escape_cdata code))) by reflexivity.
  destruct (truthy detail) eqn:Ed;
    [destruct (truthy_or_else detail Ed) as (a & r & ->) |];
    destruct reason as [|b reason];
    cbn [app String.append ET.serialize ET.has_text ET.write_text rbind orb negb
           PyStr.is_empty List.length Nat.eqb ET.attributes map String.concat
           ET.qname_text q_ns q_local in_ns bare prefix_of uri_of];
    rewrite Ec; f_equal;
    repeat (progress (rewrite ?append_assoc; cbn [String.append]));
    reflexivity.
Qed.

(** ** Which value the reader keeps *)

Lemma slots_into_get (k : string) (slots : list xml) (out : jdict) :
  jget k (slots_into slots out)
  = match last_stored k slots with
    | Some t => Some (JStr t)
    | None => jget k out
    end.
Proof.
  unfold slots_into. revert out.
  induction slots as [|slot rest IH]; intros out; [reflexivity |].
  cbn [fold_left last_stored]. rewrite IH.
  destruct (last_stored k rest); [reflexivity |].
  unfold slot_entry.
  destruct (attr_get "name" (xml_attrib slot)) as [name|]; [| reflexivity].
  destruct (value_text slot) as [t|]; [| reflexivity].
  destruct (PyStr.is_empty name); [reflexivity |].
  rewrite jget_jset. now destruct (String.eqb name k).
Qed.

Lemma submission_time_into_get (k : string) (slots : list xml) (out : jdict) :
  jget k (submission_time_into slots out)
  = if String.eqb k "submissionTime"
    then match last_stored "submissionTime" slots with
         | Some t => Some (JStr t)
         | None => jget k out
         end
    else jget k out.
Proof.
  unfold submission_time_into. revert out.
  induction slots as [|slot rest IH]; intros out.
  - cbn [fold_left last_stored]. now destruct (String.eqb k "submissionTime").
  - cbn [fold_left last_stored]. rewrite IH.
    destruct (String.eqb_spec k "submissionTime") as [->|Hk].
    + destruct (last_stored "submissionTime" rest); [reflexivity |].
      unfold slot_entry, opt_string_eqb.
      destruct (attr_get "name" (xml_attrib slot)) as [name|]; [| reflexivity].
      destruct (String.eqb_spec name "submissionTime") as [->|Hn].
      * destruct (value_text slot) as [t|]; [| reflexivity].
        cbn [PyStr.is_empty]. now rewrite jget_jset, String.eqb_refl.
      * destruct (value_text slot) as [t|]; [| reflexivity].
        apply String.eqb_neq in Hn.
        destruct (PyStr.is_empty name); [reflexivity | now rewrite Hn].
    + unfold opt_string_eqb.
      destruct (attr_get "name" (xml_attrib slot)) as [name|]; [| reflexivity].
      destruct (String.eqb name "submissionTime"); [| reflexivity].
      destruct (value_text slot) as [t|]; [| reflexivity].
      rewrite jget_jset. apply String.eqb_neq in Hk. rewrite String.eqb_sym in Hk.
      now rewrite Hk.
Qed.

(** X26.  Which value [iti41_xml_to_json] keeps under a key.  The entry
    of the result under a key is: for [submissionTime], the text of the
    last slot of that name in the first [RegistryPackage], when it has one
    with a text; otherwise the text of the last slot of the first
    [ExtrinsicObject] that is named like the key; otherwise the entry that
    the [ExtrinsicObject] gives itself ([document_id], [mimeType],
    [objectType], [externalIdentifiers]).  So a slot named [document_id] or
    [mimeType] replaces the attribute, and without an [ExtrinsicObject]
    only [submissionTime] can be there. *)
Theorem slots_take_precedence :
  forall (root : xml) (k : string),
    jget k (extract root)
    = if String.eqb k "submissionTime"
      then match package_time root with
           | Some t => Some (JStr t)
           | None => document_entry root k
           end
      else document_entry root k.
Proof.
  intros root k. unfold extract, package_time, document_entry.
  assert (Hdoc : jget k
                   match find "ExtrinsicObject" root with
                   | Some extrinsic =>
                       slots_into (findall "Slot" extrinsic)
                         (jset "externalIdentifiers"
                            (JList (flat_map (fun ei => match value_text ei with
                                                        | Some t => [JStr t]
                                                        | None => []
                                                        end)
                                      (findall "ExternalIdentifier" extrinsic)))
                            (jset "objectType" (get_json extrinsic "objectType")
                               (jset "mimeType" (get_json extrinsic "mimeType")
                                  (jset "document_id" (get_json extrinsic "id") []))))
                   | None => []
                   end
                 = match find "ExtrinsicObject" root with
                   | Some extrinsic =>
                       match last_stored k (findall "Slot" extrinsic) with
                       | Some t => Some (JStr t)
                       | None => jget k (own_entries extrinsic)
                       end
                   | None => None
                   end).
  { destruct (find "ExtrinsicObject" root) as [ex|]; [| reflexivity].
    now rewrite slots_into_get. }
  cbv zeta.
  destruct (find "RegistryPackage" root) as [regpkg|].
  - rewrite submission_time_into_get, Hdoc. reflexivity.
  - rewrite Hdoc. now destruct (String.eqb k "submissionTime").
Qed.
